(** * DWC2 USB 2.0 host controller driver (system/dev/usb/dwc2/dwc2-host.c)

    A shallow embedding of the request-queue facade, the free-request cache,
    the synthetic root hub and the endpoint scheduler of the driver, followed
    by the properties stated about them.

    Conventions.
    - C integers are [Z]; a value stored into a [w]-bit unsigned object is
      reduced with [wrap w].
    - A function that mutates the driver instance takes and returns a
      [dwc_usb_t]; one that can hit an [assert] returns [option].
    - Calls that leave the driver (request completion, [free], sleeping,
      register writes) are appended to the [effects] trace of the instance.
    - Mutexes and completion signals are not represented: every function is
      embedded as one atomic step. Logging and cache maintenance are left
      out.
    - Constants and register layouts that come from headers are the fields
      of the class [Platform]; the theorems hold for every instance. *)

From Stdlib Require Import ZArith List Bool Lia.
Import ListNotations.
Local Open Scope Z_scope.

(** ** Machine integers *)

Definition wrap (w x : Z) : Z := x mod 2 ^ w.
Definition u8 (x : Z) : Z := wrap 8 x.
Definition u16 (x : Z) : Z := wrap 16 x.
Definition u32 (x : Z) : Z := wrap 32 x.

(** The targets of the driver are little-endian, where these are the
    identity on 16-bit values. *)
Definition htole16 (x : Z) : Z := x.
Definition le16toh (x : Z) : Z := x.

(** In-memory bytes of a 16-bit object. *)
Definition bytes_of_u16 (x : Z) : list Z := [Z.land x 255; Z.shiftr x 8].

(** ** Constants of the driver *)

Definition MANUFACTURER_STRING : Z := 1.
Definition PRODUCT_STRING_2 : Z := 2.
Definition FREE_REQ_CACHE_THRESHOLD : Z := 1024.
Definition FRAME_OVERRUN_THRESHOLD : Z := 512.

Definition DIV_ROUND_UP (n d : Z) : Z := (n + d - 1) / d.

(** Build-time constants that dwc2-host.c takes from headers: the device id
    reserved for the root hub, the size of the device table, the page size
    and the widths of the bit-fields of the host channel registers. *)
Class Platform : Type := {
  ROOT_HUB_DEVICE_ID : Z;
  MAX_DEVICE_COUNT : Z;
  PAGE_SIZE : Z;
  max_packet_size_bits : Z;
  endpoint_number_bits : Z;
  packets_per_frame_bits : Z;
  device_address_bits : Z;
  transfer_size_bits : Z;
  packet_count_bits : Z;
  port_address_bits : Z;
  hub_address_bits : Z
}.

(** ** Constants of the USB standard (hw/usb.h, hw/usb-hub.h) *)

Definition USB_DT_DEVICE : Z := 1.
Definition USB_DT_CONFIG : Z := 2.
Definition USB_DT_STRING : Z := 3.
Definition USB_DT_INTERFACE : Z := 4.
Definition USB_DT_ENDPOINT : Z := 5.

Definition USB_CLASS_HUB : Z := 9.

Definition USB_ENDPOINT_IN : Z := 128.
Definition USB_ENDPOINT_OUT : Z := 0.
Definition USB_ENDPOINT_DIR_MASK : Z := 128.

Definition USB_ENDPOINT_CONTROL : Z := 0.
Definition USB_ENDPOINT_ISOCHRONOUS : Z := 1.
Definition USB_ENDPOINT_BULK : Z := 2.
Definition USB_ENDPOINT_INTERRUPT : Z := 3.
Definition USB_ENDPOINT_TYPE_MASK : Z := 3.

Definition USB_TYPE_STANDARD : Z := 0.
Definition USB_TYPE_CLASS : Z := 32.
Definition USB_TYPE_MASK : Z := 96.

Definition USB_REQ_GET_STATUS : Z := 0.
Definition USB_REQ_CLEAR_FEATURE : Z := 1.
Definition USB_REQ_SET_FEATURE : Z := 3.
Definition USB_REQ_SET_ADDRESS : Z := 5.
Definition USB_REQ_GET_DESCRIPTOR : Z := 6.
Definition USB_REQ_SET_CONFIGURATION : Z := 9.

Definition USB_HUB_DESC_TYPE : Z := 41.

Definition USB_FEATURE_PORT_RESET : Z := 4.
Definition USB_FEATURE_PORT_POWER : Z := 8.
Definition USB_FEATURE_C_PORT_CONNECTION : Z := 16.
Definition USB_FEATURE_C_PORT_ENABLE : Z := 17.
Definition USB_FEATURE_C_PORT_SUSPEND : Z := 18.
Definition USB_FEATURE_C_PORT_OVER_CURRENT : Z := 19.
Definition USB_FEATURE_C_PORT_RESET : Z := 20.

(** Modelled from the spec: the two words of the root port status mirror the
    hub-class encoding; hw/usb-hub.h, which names the bits, is not part of
    the sources at hand. Bit [k] of the change word reports a change of bit
    [k] of the status word. *)
Definition USB_PORT_CONNECTION : Z := Z.shiftl 1 0.
Definition USB_PORT_ENABLE : Z := Z.shiftl 1 1.
Definition USB_PORT_SUSPEND : Z := Z.shiftl 1 2.
Definition USB_PORT_OVER_CURRENT : Z := Z.shiftl 1 3.
Definition USB_PORT_RESET : Z := Z.shiftl 1 4.
Definition USB_PORT_POWER : Z := Z.shiftl 1 8.
Definition USB_PORT_LOW_SPEED : Z := Z.shiftl 1 9.
Definition USB_PORT_HIGH_SPEED : Z := Z.shiftl 1 10.

Definition USB_C_PORT_CONNECTION : Z := Z.shiftl 1 0.
Definition USB_C_PORT_ENABLE : Z := Z.shiftl 1 1.
Definition USB_C_PORT_SUSPEND : Z := Z.shiftl 1 2.
Definition USB_C_PORT_OVER_CURRENT : Z := Z.shiftl 1 3.
Definition USB_C_PORT_RESET : Z := Z.shiftl 1 4.

(** ** Data model *)

Inductive zx_status_t : Type :=
| ZX_OK
| ZX_ERR_IO
| ZX_ERR_NO_MEMORY
| ZX_ERR_INVALID_ARGS
| ZX_ERR_NOT_SUPPORTED.

Inductive usb_speed_t : Type :=
| USB_SPEED_FULL
| USB_SPEED_LOW
| USB_SPEED_HIGH.

Inductive dwc_ctrl_phase_t : Type :=
| CTRL_PHASE_SETUP
| CTRL_PHASE_DATA
| CTRL_PHASE_STATUS.

Inductive dwc_usb_data_toggle_t : Type :=
| DWC_TOGGLE_DATA0
| DWC_TOGGLE_DATA1
| DWC_TOGGLE_MDATA
| DWC_TOGGLE_SETUP.

Record usb_setup_t : Type := {
  bmRequestType : Z;
  bRequest : Z;
  wValue : Z;
  wIndex : Z;
  wLength : Z
}.

Record usb_header_t : Type := {
  h_device_id : Z;
  h_ep_address : Z;
  h_length : Z;
  h_send_zlp : bool
}.

(** An upstream request. [cookie] is what the completion callback receives
    and tells requests apart; [payload] is the DMA-addressable data area. *)
Record usb_request_t : Type := {
  header : usb_header_t;
  setup : usb_setup_t;
  cookie : Z;
  payload : list Z
}.

(** The transfer request envelope. *)
Record dwc_usb_transfer_request_t : Type := {
  ctrl_phase : dwc_ctrl_phase_t;
  usb_req : usb_request_t;
  bytes_transferred : Z;
  next_data_toggle : dwc_usb_data_toggle_t;
  complete_split : bool;
  packets_queued : Z;
  bytes_queued : Z;
  total_bytes_queued : Z;
  short_attempt : bool;
  setup_req : option usb_request_t;
  cspit_retries : Z;
  request_id : Z
}.

Record usb_endpoint_descriptor_t : Type := {
  ed_bLength : Z;
  ed_bDescriptorType : Z;
  bEndpointAddress : Z;
  ed_bmAttributes : Z;
  wMaxPacketSize : Z;
  bInterval : Z
}.

Record dwc_usb_endpoint_t : Type := {
  ep_address : Z;
  desc : usb_endpoint_descriptor_t;
  pending_requests : list dwc_usb_transfer_request_t
}.

Record dwc_usb_device_t : Type := {
  speed : usb_speed_t;
  hub_address : Z;
  port : Z;
  device_id : Z;
  endpoints : list dwc_usb_endpoint_t
}.

Record usb_port_status_t : Type := {
  wPortStatus : Z;
  wPortChange : Z
}.

(** The host port control and status register. *)
Record dwc_host_port_ctrlstatus : Type := {
  connected : bool;
  connected_changed : bool;
  enabled : bool;
  enabled_changed : bool;
  overcurrent : bool;
  overcurrent_changed : bool;
  suspended : bool;
  reset : bool;
  powered : bool;
  port_speed : Z
}.

(** What the driver does to the world outside of its own state. *)
Inductive effect : Type :=
| UsbRequestComplete (r : usb_request_t) (status : zx_status_t) (actual : Z)
| UsbRequestRelease (r : usb_request_t)
| Free (req : dwc_usb_transfer_request_t)
| Nanosleep (ns : Z)
| WritePortCtrlStatus (v : dwc_host_port_ctrlstatus).

Record dwc_usb_t : Type := {
  usb_devices : list dwc_usb_device_t;
  rh_req_head : list dwc_usb_transfer_request_t;
  rh_intr_req : option dwc_usb_transfer_request_t;
  root_port_status : usb_port_status_t;
  free_reqs : list dwc_usb_transfer_request_t;
  free_req_count : Z;
  DBG_reqid : Z;
  effects : list effect
}.

(** *** Field updates *)

Definition set_payload (r : usb_request_t) (p : list Z) : usb_request_t :=
  {| header := header r; setup := setup r; cookie := cookie r; payload := p |}.

Definition set_usb_req (req : dwc_usb_transfer_request_t) (r : usb_request_t)
  : dwc_usb_transfer_request_t :=
  {| ctrl_phase := ctrl_phase req; usb_req := r;
     bytes_transferred := bytes_transferred req;
     next_data_toggle := next_data_toggle req;
     complete_split := complete_split req;
     packets_queued := packets_queued req;
     bytes_queued := bytes_queued req;
     total_bytes_queued := total_bytes_queued req;
     short_attempt := short_attempt req;
     setup_req := setup_req req;
     cspit_retries := cspit_retries req;
     request_id := request_id req |}.

Definition set_ctrl_phase (req : dwc_usb_transfer_request_t) (p : dwc_ctrl_phase_t)
  : dwc_usb_transfer_request_t :=
  {| ctrl_phase := p; usb_req := usb_req req;
     bytes_transferred := bytes_transferred req;
     next_data_toggle := next_data_toggle req;
     complete_split := complete_split req;
     packets_queued := packets_queued req;
     bytes_queued := bytes_queued req;
     total_bytes_queued := total_bytes_queued req;
     short_attempt := short_attempt req;
     setup_req := setup_req req;
     cspit_retries := cspit_retries req;
     request_id := request_id req |}.

Definition emit (e : effect) (dwc : dwc_usb_t) : dwc_usb_t :=
  {| usb_devices := usb_devices dwc; rh_req_head := rh_req_head dwc;
     rh_intr_req := rh_intr_req dwc; root_port_status := root_port_status dwc;
     free_reqs := free_reqs dwc; free_req_count := free_req_count dwc;
     DBG_reqid := DBG_reqid dwc; effects := effects dwc ++ [e] |}.

Definition set_free_list (dwc : dwc_usb_t)
  (l : list dwc_usb_transfer_request_t) (n : Z) : dwc_usb_t :=
  {| usb_devices := usb_devices dwc; rh_req_head := rh_req_head dwc;
     rh_intr_req := rh_intr_req dwc; root_port_status := root_port_status dwc;
     free_reqs := l; free_req_count := n;
     DBG_reqid := DBG_reqid dwc; effects := effects dwc |}.

Definition set_rh_intr_req (dwc : dwc_usb_t)
  (r : option dwc_usb_transfer_request_t) : dwc_usb_t :=
  {| usb_devices := usb_devices dwc; rh_req_head := rh_req_head dwc;
     rh_intr_req := r; root_port_status := root_port_status dwc;
     free_reqs := free_reqs dwc; free_req_count := free_req_count dwc;
     DBG_reqid := DBG_reqid dwc; effects := effects dwc |}.

Definition set_rh_req_head (dwc : dwc_usb_t)
  (l : list dwc_usb_transfer_request_t) : dwc_usb_t :=
  {| usb_devices := usb_devices dwc; rh_req_head := l;
     rh_intr_req := rh_intr_req dwc; root_port_status := root_port_status dwc;
     free_reqs := free_reqs dwc; free_req_count := free_req_count dwc;
     DBG_reqid := DBG_reqid dwc; effects := effects dwc |}.

Definition set_root_port_status (dwc : dwc_usb_t) (s : usb_port_status_t)
  : dwc_usb_t :=
  {| usb_devices := usb_devices dwc; rh_req_head := rh_req_head dwc;
     rh_intr_req := rh_intr_req dwc; root_port_status := s;
     free_reqs := free_reqs dwc; free_req_count := free_req_count dwc;
     DBG_reqid := DBG_reqid dwc; effects := effects dwc |}.

Definition set_usb_devices (dwc : dwc_usb_t) (l : list dwc_usb_device_t)
  : dwc_usb_t :=
  {| usb_devices := l; rh_req_head := rh_req_head dwc;
     rh_intr_req := rh_intr_req dwc; root_port_status := root_port_status dwc;
     free_reqs := free_reqs dwc; free_req_count := free_req_count dwc;
     DBG_reqid := DBG_reqid dwc; effects := effects dwc |}.

Definition set_DBG_reqid (dwc : dwc_usb_t) (n : Z) : dwc_usb_t :=
  {| usb_devices := usb_devices dwc; rh_req_head := rh_req_head dwc;
     rh_intr_req := rh_intr_req dwc; root_port_status := root_port_status dwc;
     free_reqs := free_reqs dwc; free_req_count := free_req_count dwc;
     DBG_reqid := n; effects := effects dwc |}.

(** ** Root hub descriptors *)

Definition dwc_language_list : list Z := [4; USB_DT_STRING; 9; 4].

(** "Zircon" *)
Definition dwc_manufacturer_string : list Z :=
  [16; USB_DT_STRING; 90; 0; 105; 0; 114; 0; 99; 0; 111; 0; 110; 0; 0; 0].

(** "USB 2.0 Root Hub" *)
Definition dwc_product_string_2 : list Z :=
  [36; USB_DT_STRING; 85; 0; 83; 0; 66; 0; 32; 0; 50; 0; 46; 0; 48; 0; 32; 0;
   82; 0; 111; 0; 111; 0; 116; 0; 32; 0; 72; 0; 117; 0; 98; 0; 0; 0].

Definition dwc_rh_string_table : list (list Z) :=
  [dwc_language_list; dwc_manufacturer_string; dwc_product_string_2].

Record usb_device_descriptor_t : Type := {
  dd_bLength : Z;
  dd_bDescriptorType : Z;
  bcdUSB : Z;
  bDeviceClass : Z;
  bDeviceSubClass : Z;
  bDeviceProtocol : Z;
  bMaxPacketSize0 : Z;
  idVendor : Z;
  idProduct : Z;
  bcdDevice : Z;
  iManufacturer : Z;
  iProduct : Z;
  iSerialNumber : Z;
  bNumConfigurations : Z
}.

Record usb_configuration_descriptor_t : Type := {
  cd_bLength : Z;
  cd_bDescriptorType : Z;
  wTotalLength : Z;
  bNumInterfaces : Z;
  bConfigurationValue : Z;
  iConfiguration : Z;
  bmAttributes : Z;
  bMaxPower : Z
}.

Record usb_interface_descriptor_t : Type := {
  id_bLength : Z;
  id_bDescriptorType : Z;
  bInterfaceNumber : Z;
  bAlternateSetting : Z;
  bNumEndpoints : Z;
  bInterfaceClass : Z;
  bInterfaceSubClass : Z;
  bInterfaceProtocol : Z;
  iInterface : Z
}.

(** The descriptor structures are packed: their size is the sum of the
    sizes of their fields. *)
Definition sizeof_usb_device_descriptor_t : Z := 18.
Definition sizeof_usb_configuration_descriptor_t : Z := 9.
Definition sizeof_usb_interface_descriptor_t : Z := 9.
Definition sizeof_usb_endpoint_descriptor_t : Z := 7.
Definition sizeof_usb_setup_t : Z := 8.
Definition sizeof_usb_port_status_t : Z := 4.

(** In-memory images of the packed structures. *)
Definition bytes_of_device_descriptor (d : usb_device_descriptor_t) : list Z :=
  [dd_bLength d; dd_bDescriptorType d] ++ bytes_of_u16 (bcdUSB d) ++
  [bDeviceClass d; bDeviceSubClass d; bDeviceProtocol d; bMaxPacketSize0 d] ++
  bytes_of_u16 (idVendor d) ++ bytes_of_u16 (idProduct d) ++
  bytes_of_u16 (bcdDevice d) ++
  [iManufacturer d; iProduct d; iSerialNumber d; bNumConfigurations d].

Definition bytes_of_configuration_descriptor
  (d : usb_configuration_descriptor_t) : list Z :=
  [cd_bLength d; cd_bDescriptorType d] ++ bytes_of_u16 (wTotalLength d) ++
  [bNumInterfaces d; bConfigurationValue d; iConfiguration d;
   bmAttributes d; bMaxPower d].

Definition bytes_of_interface_descriptor
  (d : usb_interface_descriptor_t) : list Z :=
  [id_bLength d; id_bDescriptorType d; bInterfaceNumber d;
   bAlternateSetting d; bNumEndpoints d; bInterfaceClass d;
   bInterfaceSubClass d; bInterfaceProtocol d; iInterface d].

Definition bytes_of_endpoint_descriptor
  (d : usb_endpoint_descriptor_t) : list Z :=
  [ed_bLength d; ed_bDescriptorType d; bEndpointAddress d; ed_bmAttributes d] ++
  bytes_of_u16 (wMaxPacketSize d) ++ [bInterval d].

(** device descriptor for USB 2.0 root hub *)
Definition dwc_rh_descriptor : usb_device_descriptor_t :=
  {| dd_bLength := sizeof_usb_device_descriptor_t;
     dd_bDescriptorType := USB_DT_DEVICE;
     bcdUSB := htole16 512;
     bDeviceClass := USB_CLASS_HUB;
     bDeviceSubClass := 0;
     bDeviceProtocol := 1;
     bMaxPacketSize0 := 64;
     idVendor := htole16 6353;
     idProduct := htole16 40962;
     bcdDevice := htole16 256;
     iManufacturer := MANUFACTURER_STRING;
     iProduct := PRODUCT_STRING_2;
     iSerialNumber := 0;
     bNumConfigurations := 1 |}.

Record dwc_rh_config_descriptor_t : Type := {
  config : usb_configuration_descriptor_t;
  intf : usb_interface_descriptor_t;
  endp : usb_endpoint_descriptor_t
}.

Definition sizeof_dwc_rh_config_descriptor : Z :=
  sizeof_usb_configuration_descriptor_t + sizeof_usb_interface_descriptor_t +
  sizeof_usb_endpoint_descriptor_t.

Definition dwc_rh_config_descriptor : dwc_rh_config_descriptor_t :=
  {| config :=
       {| cd_bLength := sizeof_usb_configuration_descriptor_t;
          cd_bDescriptorType := USB_DT_CONFIG;
          wTotalLength := htole16 sizeof_dwc_rh_config_descriptor;
          bNumInterfaces := 1;
          bConfigurationValue := 1;
          iConfiguration := 0;
          bmAttributes := 224;
          bMaxPower := 0 |};
     intf :=
       {| id_bLength := sizeof_usb_interface_descriptor_t;
          id_bDescriptorType := USB_DT_INTERFACE;
          bInterfaceNumber := 0;
          bAlternateSetting := 0;
          bNumEndpoints := 1;
          bInterfaceClass := USB_CLASS_HUB;
          bInterfaceSubClass := 0;
          bInterfaceProtocol := 0;
          iInterface := 0 |};
     endp :=
       {| ed_bLength := sizeof_usb_endpoint_descriptor_t;
          ed_bDescriptorType := USB_DT_ENDPOINT;
          bEndpointAddress := Z.lor USB_ENDPOINT_IN 1;
          ed_bmAttributes := USB_ENDPOINT_INTERRUPT;
          wMaxPacketSize := htole16 4;
          bInterval := 12 |} |}.

Definition bytes_of_rh_config_descriptor (d : dwc_rh_config_descriptor_t)
  : list Z :=
  bytes_of_configuration_descriptor (config d) ++
  bytes_of_interface_descriptor (intf d) ++
  bytes_of_endpoint_descriptor (endp d).

(** ** Upstream request helpers *)

(** Modelled from the spec: [usb_request_copyto] is provided by the driver
    kit and not by dwc2-host.c. It copies the first [len] bytes of [src] to
    the start of the request's payload area, never past the end of that
    area; every call of the driver passes offset 0. *)
Definition usb_request_copyto (r : usb_request_t) (src : list Z) (len : Z)
  : usb_request_t :=
  let n := Z.to_nat (Z.min len (Z.of_nat (List.length (payload r)))) in
  set_payload r (firstn n src ++ skipn n (payload r)).

Definition is_control_request (req : dwc_usb_transfer_request_t) : bool :=
  h_ep_address (header (usb_req req)) =? 0.

Definition is_roothub_request `{Platform} (req : dwc_usb_transfer_request_t)
  : bool :=
  h_device_id (header (usb_req req)) =? ROOT_HUB_DEVICE_ID.

(** ** Free-request cache and completion *)

(** Completes the usb request associated with a request then cleans up the
    request. *)
Definition complete_request (req : dwc_usb_transfer_request_t)
  (status : zx_status_t) (len : Z) (dwc : dwc_usb_t) : dwc_usb_t :=
  let dwc1 :=
    match setup_req req with
    | Some s => emit (UsbRequestRelease s) dwc
    | None => dwc
    end in
  let dwc2 := emit (UsbRequestComplete (usb_req req) status len) dwc1 in
  if FREE_REQ_CACHE_THRESHOLD <=? free_req_count dwc2 then
    emit (Free req) dwc2
  else
    set_free_list dwc2 (free_reqs dwc2 ++ [req]) (free_req_count dwc2 + 1).

(** The envelope [get_free_request] hands out, zeroed by [calloc] or
    [memset], once [do_dwc_usb_request_queue] has stored the upstream request
    and the debug id in it. The zero of [ctrl_phase] is written as
    [CTRL_PHASE_SETUP]: the field is only read by the scheduler of a control
    endpoint, after [dwc_usb_request_queue_hw] has assigned it. *)
Definition new_request (r : usb_request_t) (id : Z)
  : dwc_usb_transfer_request_t :=
  {| ctrl_phase := CTRL_PHASE_SETUP; usb_req := r;
     bytes_transferred := 0;
     next_data_toggle := DWC_TOGGLE_DATA0;
     complete_split := false;
     packets_queued := 0;
     bytes_queued := 0;
     total_bytes_queued := 0;
     short_attempt := false;
     setup_req := None;
     cspit_retries := 0;
     request_id := id |}.

(** Tries to take a request from the list of free request objects. If none
    are available, a new one is allocated. [calloc_ok] tells whether the
    allocator succeeds; the boolean of the result tells whether the returned
    pointer is non-null; [None] is the failed assertion. *)
Definition get_free_request (dwc : dwc_usb_t) (calloc_ok : bool)
  : option (bool * dwc_usb_t) :=
  match free_reqs dwc with
  | [] =>
      if free_req_count dwc =? 0 then Some (calloc_ok, dwc) else None
  | _ :: rest =>
      Some (true, set_free_list dwc rest (free_req_count dwc - 1))
  end.

(** ** Root hub emulation *)

Definition dwc_complete_root_port_status_req (dwc : dwc_usb_t) : dwc_usb_t :=
  if negb (wPortChange (root_port_status dwc) =? 0) then
    match rh_intr_req dwc with
    | Some req =>
        let val := 2 in
        let sizeof_val := 2 in
        let r := usb_request_copyto (usb_req req) (bytes_of_u16 val) sizeof_val in
        let dwc1 := complete_request (set_usb_req req r) ZX_OK sizeof_val dwc in
        set_rh_intr_req dwc1 None
    | None => dwc
    end
  else dwc.

Definition set_port_reset (hw : dwc_host_port_ctrlstatus) (b : bool)
  : dwc_host_port_ctrlstatus :=
  {| connected := connected hw; connected_changed := connected_changed hw;
     enabled := enabled hw; enabled_changed := enabled_changed hw;
     overcurrent := overcurrent hw;
     overcurrent_changed := overcurrent_changed hw;
     suspended := suspended hw; reset := b; powered := powered hw;
     port_speed := port_speed hw |}.

Definition set_port_powered (hw : dwc_host_port_ctrlstatus) (b : bool)
  : dwc_host_port_ctrlstatus :=
  {| connected := connected hw; connected_changed := connected_changed hw;
     enabled := enabled hw; enabled_changed := enabled_changed hw;
     overcurrent := overcurrent hw;
     overcurrent_changed := overcurrent_changed hw;
     suspended := suspended hw; reset := reset hw; powered := b;
     port_speed := port_speed hw |}.

Definition set_port_enabled (hw : dwc_host_port_ctrlstatus) (b : bool)
  : dwc_host_port_ctrlstatus :=
  {| connected := connected hw; connected_changed := connected_changed hw;
     enabled := b; enabled_changed := enabled_changed hw;
     overcurrent := overcurrent hw;
     overcurrent_changed := overcurrent_changed hw;
     suspended := suspended hw; reset := reset hw; powered := powered hw;
     port_speed := port_speed hw |}.

(** The write-one-to-clear bits are written as zero. *)
Definition clear_w1c (hw : dwc_host_port_ctrlstatus) : dwc_host_port_ctrlstatus :=
  {| connected := connected hw; connected_changed := false;
     enabled := false; enabled_changed := false;
     overcurrent := overcurrent hw;
     overcurrent_changed := false;
     suspended := suspended hw; reset := reset hw; powered := powered hw;
     port_speed := port_speed hw |}.

Definition ZX_MSEC (n : Z) : Z := 1000000 * n.

(** [regs_port] is the value read from the host port register. *)
Definition dwc_reset_host_port (regs_port : dwc_host_port_ctrlstatus)
  (dwc : dwc_usb_t) : dwc_usb_t :=
  let hw_status := set_port_reset (clear_w1c regs_port) true in
  let dwc1 := emit (WritePortCtrlStatus hw_status) dwc in
  let dwc2 := emit (Nanosleep (ZX_MSEC 60)) dwc1 in
  emit (WritePortCtrlStatus (set_port_reset hw_status false)) dwc2.

Definition dwc_host_port_power_on (regs_port : dwc_host_port_ctrlstatus)
  (dwc : dwc_usb_t) : dwc_usb_t :=
  emit (WritePortCtrlStatus (set_port_powered (clear_w1c regs_port) true)) dwc.

Definition dwc_host_port_set_feature (regs_port : dwc_host_port_ctrlstatus)
  (feature : Z) (dwc : dwc_usb_t) : zx_status_t * dwc_usb_t :=
  if feature =? USB_FEATURE_PORT_POWER then
    (ZX_OK, dwc_host_port_power_on regs_port dwc)
  else if feature =? USB_FEATURE_PORT_RESET then
    (ZX_OK, dwc_reset_host_port regs_port dwc)
  else (ZX_ERR_NOT_SUPPORTED, dwc).

Definition countof {A : Type} (l : list A) : Z := Z.of_nat (List.length l).

Definition dwc_root_hub_get_descriptor (req : dwc_usb_transfer_request_t)
  (dwc : dwc_usb_t) : dwc_usb_t :=
  let r := usb_req req in
  let value := le16toh (wValue (setup r)) in
  let index := le16toh (wIndex (setup r)) in
  let length := le16toh (wLength (setup r)) in
  let desc_type := u8 (Z.shiftr value 8) in
  if (desc_type =? USB_DT_DEVICE) && (index =? 0) then
    let length :=
      if sizeof_usb_device_descriptor_t <? length
      then sizeof_usb_device_descriptor_t else length in
    let r1 := usb_request_copyto r
                (bytes_of_device_descriptor dwc_rh_descriptor) length in
    complete_request (set_usb_req req r1) ZX_OK length dwc
  else if (desc_type =? USB_DT_CONFIG) && (index =? 0) then
    let desc_length :=
      le16toh (wTotalLength (config dwc_rh_config_descriptor)) in
    let length := if desc_length <? length then desc_length else length in
    let r1 := usb_request_copyto r
                (bytes_of_rh_config_descriptor dwc_rh_config_descriptor) length in
    complete_request (set_usb_req req r1) ZX_OK length dwc
  else if Z.shiftr value 8 =? USB_DT_STRING then
    let string_index := u8 (Z.land value 255) in
    if string_index <? countof dwc_rh_string_table then
      let string := nth (Z.to_nat string_index) dwc_rh_string_table [] in
      let length := if nth 0 string 0 <? length then nth 0 string 0 else length in
      let r1 := usb_request_copyto r string length in
      complete_request (set_usb_req req r1) ZX_OK length dwc
    else
      complete_request req ZX_ERR_NOT_SUPPORTED 0 dwc
  else dwc.

Definition dwc_process_root_hub_std_req (req : dwc_usb_transfer_request_t)
  (dwc : dwc_usb_t) : dwc_usb_t :=
  let request := bRequest (setup (usb_req req)) in
  if request =? USB_REQ_SET_ADDRESS then
    complete_request req ZX_OK 0 dwc
  else if request =? USB_REQ_GET_DESCRIPTOR then
    dwc_root_hub_get_descriptor req dwc
  else if request =? USB_REQ_SET_CONFIGURATION then
    complete_request req ZX_OK 0 dwc
  else
    complete_request req ZX_ERR_NOT_SUPPORTED 0 dwc.

(** Modelled from the spec: the hub descriptor has one port and
    bPowerOn2PwrGood = 0; every other field is left zero by [memset]. The
    layout of [usb_hub_descriptor_t] (hw/usb-hub.h, 15 packed bytes) is not
    part of the sources at hand. *)
Definition sizeof_usb_hub_descriptor_t : Z := 15.
Definition hub_descriptor_bytes (bDescriptorType : Z) : list Z :=
  [sizeof_usb_hub_descriptor_t; bDescriptorType; 1; 0; 0; 0; 0;
   0; 0; 0; 0; 0; 0; 0; 0].

Definition bytes_of_port_status (s : usb_port_status_t) : list Z :=
  bytes_of_u16 (wPortStatus s) ++ bytes_of_u16 (wPortChange s).

Definition set_wPortChange (s : usb_port_status_t) (c : Z) : usb_port_status_t :=
  {| wPortStatus := wPortStatus s; wPortChange := c |}.

(** [*change_bits &= ~mask] on a 16-bit word. *)
Definition clear_change_bits (change_bits mask : Z) : Z :=
  u16 (Z.land change_bits (Z.lnot mask)).

Definition dwc_process_root_hub_class_req
  (regs_port : dwc_host_port_ctrlstatus)
  (req : dwc_usb_transfer_request_t) (dwc : dwc_usb_t) : dwc_usb_t :=
  let r := usb_req req in
  let request := bRequest (setup r) in
  let value := le16toh (wValue (setup r)) in
  let index := le16toh (wIndex (setup r)) in
  let length := le16toh (wLength (setup r)) in
  if request =? USB_REQ_GET_DESCRIPTOR then
    if (value =? Z.shiftl USB_HUB_DESC_TYPE 8) && (index =? 0) then
      let desc := hub_descriptor_bytes (u8 (Z.shiftr value 8)) in
      let length :=
        if sizeof_usb_hub_descriptor_t <? length
        then sizeof_usb_hub_descriptor_t else length in
      let r1 := usb_request_copyto r desc length in
      complete_request (set_usb_req req r1) ZX_OK length dwc
    else dwc
  else if request =? USB_REQ_SET_FEATURE then
    let '(res, dwc1) := dwc_host_port_set_feature regs_port value dwc in
    complete_request req res 0 dwc1
  else if request =? USB_REQ_CLEAR_FEATURE then
    let change_bits := wPortChange (root_port_status dwc) in
    let change_bits' :=
      if value =? USB_FEATURE_C_PORT_CONNECTION then
        clear_change_bits change_bits USB_C_PORT_CONNECTION
      else if value =? USB_FEATURE_C_PORT_ENABLE then
        clear_change_bits change_bits USB_C_PORT_ENABLE
      else if value =? USB_FEATURE_C_PORT_SUSPEND then
        clear_change_bits change_bits USB_PORT_SUSPEND
      else if value =? USB_FEATURE_C_PORT_OVER_CURRENT then
        clear_change_bits change_bits USB_C_PORT_OVER_CURRENT
      else if value =? USB_FEATURE_C_PORT_RESET then
        clear_change_bits change_bits USB_C_PORT_RESET
      else change_bits in
    let dwc1 :=
      set_root_port_status dwc
        (set_wPortChange (root_port_status dwc) change_bits') in
    complete_request req ZX_OK 0 dwc1
  else if request =? USB_REQ_GET_STATUS then
    let length := h_length (header r) in
    let length :=
      if sizeof_usb_port_status_t <? length
      then sizeof_usb_port_status_t else length in
    let r1 := usb_request_copyto r
                (bytes_of_port_status (root_port_status dwc)) length in
    complete_request (set_usb_req req r1) ZX_OK length dwc
  else
    complete_request req ZX_ERR_NOT_SUPPORTED 0 dwc.

(** [None] is the failed [assert(false)] on an unknown request type. *)
Definition dwc_process_root_hub_ctrl_req
  (regs_port : dwc_host_port_ctrlstatus)
  (req : dwc_usb_transfer_request_t) (dwc : dwc_usb_t) : option dwc_usb_t :=
  let type := Z.land (bmRequestType (setup (usb_req req))) USB_TYPE_MASK in
  if type =? USB_TYPE_STANDARD then
    Some (dwc_process_root_hub_std_req req dwc)
  else if type =? USB_TYPE_CLASS then
    Some (dwc_process_root_hub_class_req regs_port req dwc)
  else None.

Definition dwc_process_root_hub_request
  (regs_port : dwc_host_port_ctrlstatus)
  (dwc : dwc_usb_t) (req : dwc_usb_transfer_request_t) : option dwc_usb_t :=
  if is_control_request req then
    dwc_process_root_hub_ctrl_req regs_port req dwc
  else
    Some (dwc_complete_root_port_status_req (set_rh_intr_req dwc (Some req))).

(** ** Request queue facade *)

(** Queue a transaction on the DWC root hub. *)
Definition dwc_usb_request_queue_rh (dwc : dwc_usb_t)
  (req : dwc_usb_transfer_request_t) : dwc_usb_t :=
  set_rh_req_head dwc (rh_req_head dwc ++ [req]).

Definition set_pending_requests (ep : dwc_usb_endpoint_t)
  (l : list dwc_usb_transfer_request_t) : dwc_usb_endpoint_t :=
  {| ep_address := ep_address ep; desc := desc ep; pending_requests := l |}.

Definition set_endpoints (dev : dwc_usb_device_t)
  (l : list dwc_usb_endpoint_t) : dwc_usb_device_t :=
  {| speed := speed dev; hub_address := hub_address dev; port := port dev;
     device_id := device_id dev; endpoints := l |}.

(** The first endpoint of the list with the given address receives [req] at
    the tail of its pending list; [None] when no endpoint has the address. *)
Fixpoint list_add_tail_pending (eps : list dwc_usb_endpoint_t) (addr : Z)
  (req : dwc_usb_transfer_request_t) : option (list dwc_usb_endpoint_t) :=
  match eps with
  | [] => None
  | ep_iter :: rest =>
      if ep_address ep_iter =? addr then
        Some (set_pending_requests ep_iter (pending_requests ep_iter ++ [req])
              :: rest)
      else
        match list_add_tail_pending rest addr req with
        | Some rest' => Some (ep_iter :: rest')
        | None => None
        end
  end.

Fixpoint replace_nth {A : Type} (n : nat) (l : list A) (x : A) : list A :=
  match l, n with
  | [], _ => []
  | _ :: t, O => x :: t
  | h :: t, S n' => h :: replace_nth n' t x
  end.

(** Queue a transaction on external peripherals using the DWC host
    channels. [None] is a failed assertion. *)
Definition dwc_usb_request_queue_hw `{Platform} (dwc : dwc_usb_t)
  (req : dwc_usb_transfer_request_t) : option dwc_usb_t :=
  let usb := usb_req req in
  let device_id := h_device_id (header usb) in
  let ep_address := h_ep_address (header usb) in
  if negb (device_id <? MAX_DEVICE_COUNT) then None else
  match nth_error (usb_devices dwc) (Z.to_nat device_id) with
  | None => None
  | Some target_device =>
      let req1 :=
        if ep_address =? 0 then set_ctrl_phase req CTRL_PHASE_SETUP else req in
      match list_add_tail_pending (endpoints target_device) ep_address req1 with
      | None => None
      | Some eps =>
          Some (set_usb_devices dwc
                  (replace_nth (Z.to_nat device_id) (usb_devices dwc)
                     (set_endpoints target_device eps)))
      end
  end.

Definition do_dwc_usb_request_queue `{Platform} (dwc : dwc_usb_t)
  (usb : usb_request_t) (calloc_ok : bool) : option dwc_usb_t :=
  match get_free_request dwc calloc_ok with
  | None => None
  | Some (false, dwc1) =>
      Some (emit (UsbRequestComplete usb ZX_ERR_NO_MEMORY 0) dwc1)
  | Some (true, dwc1) =>
      let req := new_request usb (DBG_reqid dwc1) in
      let dwc2 := set_DBG_reqid dwc1 (u32 (DBG_reqid dwc1 + 1)) in
      if is_roothub_request req then
        Some (dwc_usb_request_queue_rh dwc2 req)
      else
        dwc_usb_request_queue_hw dwc2 req
  end.

(** Transfers limited to a single page until scatter/gather support is
    implemented. *)
Definition dwc_get_max_transfer_size `{Platform} (device_id ep_address : Z)
  : Z := PAGE_SIZE.

Definition dwc_request_queue `{Platform} (dwc : dwc_usb_t)
  (usb : usb_request_t) (calloc_ok : bool) : option dwc_usb_t :=
  if dwc_get_max_transfer_size (h_device_id (header usb))
       (h_ep_address (header usb)) <? h_length (header usb)
  then Some (emit (UsbRequestComplete usb ZX_ERR_INVALID_ARGS 0) dwc)
  else do_dwc_usb_request_queue dwc usb calloc_ok.

(** ** Root hub worker and port interrupt *)

(** One turn of the loop of [dwc_root_hub_req_worker]; the worker sleeps
    while the queue is empty. *)
Definition dwc_root_hub_req_worker_step
  (regs_port : dwc_host_port_ctrlstatus) (dwc : dwc_usb_t) : option dwc_usb_t :=
  match rh_req_head dwc with
  | [] => Some dwc
  | req :: rest =>
      dwc_process_root_hub_request regs_port (set_rh_req_head dwc rest) req
  end.

Definition or_if (b : bool) (x mask : Z) : Z := if b then Z.lor x mask else x.

(** [hw_status] is the value read from the host port register. *)
Definition dwc_handle_port_irq (hw_status : dwc_host_port_ctrlstatus)
  (dwc : dwc_usb_t) : dwc_usb_t :=
  let st := 0 in
  let st := or_if (connected hw_status) st USB_PORT_CONNECTION in
  let st := or_if (enabled hw_status) st USB_PORT_ENABLE in
  let st := or_if (suspended hw_status) st USB_PORT_SUSPEND in
  let st := or_if (overcurrent hw_status) st USB_PORT_OVER_CURRENT in
  let st := or_if (reset hw_status) st USB_PORT_RESET in
  let st :=
    if port_speed hw_status =? 2 then Z.lor st USB_PORT_LOW_SPEED
    else if port_speed hw_status =? 0 then Z.lor st USB_PORT_HIGH_SPEED
    else st in
  let ch := 0 in
  let ch := or_if (connected_changed hw_status) ch USB_C_PORT_CONNECTION in
  let ch := or_if (enabled_changed hw_status) ch USB_C_PORT_ENABLE in
  let ch := or_if (overcurrent_changed hw_status) ch USB_C_PORT_OVER_CURRENT in
  let dwc1 :=
    set_root_port_status dwc {| wPortStatus := st; wPortChange := ch |} in
  let dwc2 :=
    emit (WritePortCtrlStatus (set_port_enabled hw_status false)) dwc1 in
  dwc_complete_root_port_status_req dwc2.

(** ** The driver as a transition system

    What can happen to a driver instance: the upstream stack queues a
    request, the root hub worker takes its next request, the port raises an
    interrupt, or the scheduler of an endpoint finishes the request it took
    from the head of the pending list of that endpoint. The last one stands
    for a whole run of [endpoint_request_scheduler_thread] on that request,
    of which only its end, the call of [complete_request], touches the
    queues and the cache of the driver instance; that the scheduler completes
    no other request than the one it took is
    [schedule_request_completes_its_request] below. *)
Inductive event : Type :=
| EvRequestQueue (usb : usb_request_t) (calloc_ok : bool)
| EvRootHubWorker (regs_port : dwc_host_port_ctrlstatus)
| EvPortIrq (hw_status : dwc_host_port_ctrlstatus)
| EvEndpointDone (device ep_index : nat) (status : zx_status_t) (len : Z).

Definition endpoint_done (device ep_index : nat) (status : zx_status_t)
  (len : Z) (dwc : dwc_usb_t) : option dwc_usb_t :=
  match nth_error (usb_devices dwc) device with
  | None => Some dwc
  | Some dev =>
      match nth_error (endpoints dev) ep_index with
      | None => Some dwc
      | Some ep =>
          match pending_requests ep with
          | [] => Some dwc
          | req :: rest =>
              let dev' :=
                set_endpoints dev
                  (replace_nth ep_index (endpoints dev)
                     (set_pending_requests ep rest)) in
              Some (complete_request req status len
                      (set_usb_devices dwc
                         (replace_nth device (usb_devices dwc) dev')))
          end
      end
  end.

Definition step `{Platform} (dwc : dwc_usb_t) (e : event) : option dwc_usb_t :=
  match e with
  | EvRequestQueue usb calloc_ok => dwc_request_queue dwc usb calloc_ok
  | EvRootHubWorker regs_port => dwc_root_hub_req_worker_step regs_port dwc
  | EvPortIrq hw_status => Some (dwc_handle_port_irq hw_status dwc)
  | EvEndpointDone d e status len => endpoint_done d e status len dwc
  end.

Fixpoint run `{Platform} (dwc : dwc_usb_t) (es : list event)
  : option dwc_usb_t :=
  match es with
  | [] => Some dwc
  | e :: es' =>
      match step dwc e with
      | Some dwc' => run dwc' es'
      | None => None
      end
  end.

(** The instance after initialisation: nothing queued, nothing cached. *)
Definition dwc_init (devices : list dwc_usb_device_t) : dwc_usb_t :=
  {| usb_devices := devices; rh_req_head := []; rh_intr_req := None;
     root_port_status := {| wPortStatus := 0; wPortChange := 0 |};
     free_reqs := []; free_req_count := 0; DBG_reqid := 0; effects := [] |}.

(** ** Host channel registers *)

Definition DWC_EP_OUT : Z := 0.
Definition DWC_EP_IN : Z := 1.

Record dwc_host_channel_characteristics : Type := {
  max_packet_size : Z;
  endpoint_number : Z;
  endpoint_direction : Z;
  low_speed : bool;
  endpoint_type : Z;
  packets_per_frame : Z;
  device_address : Z;
  odd_frame : Z;
  channel_enable : bool
}.

Record dwc_host_channel_split_control : Type := {
  port_address : Z;
  sc_hub_address : Z;
  sc_complete_split : bool;
  split_enable : bool
}.

Record dwc_host_channel_transfer : Type := {
  size : Z;
  packet_count : Z;
  packet_id : dwc_usb_data_toggle_t
}.

Record dwc_host_channel_interrupts : Type := {
  transfer_completed : bool;
  channel_halted : bool;
  ahb_error : bool;
  stall_response_received : bool;
  nak_response_received : bool;
  ack_response_received : bool;
  nyet_response_received : bool;
  transaction_error : bool;
  babble_error : bool;
  frame_overrun : bool;
  data_toggle_error : bool;
  excess_transaction_error : bool;
  frame_list_rollover : bool
}.

Record dwc_host_channel : Type := {
  characteristics : dwc_host_channel_characteristics;
  split_control : dwc_host_channel_split_control;
  transfer : dwc_host_channel_transfer
}.

(** ** Envelope updates of the scheduler *)

Definition set_complete_split (req : dwc_usb_transfer_request_t) (b : bool)
  : dwc_usb_transfer_request_t :=
  {| ctrl_phase := ctrl_phase req; usb_req := usb_req req;
     bytes_transferred := bytes_transferred req;
     next_data_toggle := next_data_toggle req;
     complete_split := b;
     packets_queued := packets_queued req;
     bytes_queued := bytes_queued req;
     total_bytes_queued := total_bytes_queued req;
     short_attempt := short_attempt req;
     setup_req := setup_req req;
     cspit_retries := cspit_retries req;
     request_id := request_id req |}.

Definition set_next_data_toggle (req : dwc_usb_transfer_request_t)
  (t : dwc_usb_data_toggle_t) : dwc_usb_transfer_request_t :=
  {| ctrl_phase := ctrl_phase req; usb_req := usb_req req;
     bytes_transferred := bytes_transferred req;
     next_data_toggle := t;
     complete_split := complete_split req;
     packets_queued := packets_queued req;
     bytes_queued := bytes_queued req;
     total_bytes_queued := total_bytes_queued req;
     short_attempt := short_attempt req;
     setup_req := setup_req req;
     cspit_retries := cspit_retries req;
     request_id := request_id req |}.

Definition set_bytes_transferred (req : dwc_usb_transfer_request_t) (n : Z)
  : dwc_usb_transfer_request_t :=
  {| ctrl_phase := ctrl_phase req; usb_req := usb_req req;
     bytes_transferred := n;
     next_data_toggle := next_data_toggle req;
     complete_split := complete_split req;
     packets_queued := packets_queued req;
     bytes_queued := bytes_queued req;
     total_bytes_queued := total_bytes_queued req;
     short_attempt := short_attempt req;
     setup_req := setup_req req;
     cspit_retries := cspit_retries req;
     request_id := request_id req |}.

Definition set_cspit_retries (req : dwc_usb_transfer_request_t) (n : Z)
  : dwc_usb_transfer_request_t :=
  {| ctrl_phase := ctrl_phase req; usb_req := usb_req req;
     bytes_transferred := bytes_transferred req;
     next_data_toggle := next_data_toggle req;
     complete_split := complete_split req;
     packets_queued := packets_queued req;
     bytes_queued := bytes_queued req;
     total_bytes_queued := total_bytes_queued req;
     short_attempt := short_attempt req;
     setup_req := setup_req req;
     cspit_retries := n;
     request_id := request_id req |}.

Definition set_short_attempt (req : dwc_usb_transfer_request_t) (b : bool)
  : dwc_usb_transfer_request_t :=
  {| ctrl_phase := ctrl_phase req; usb_req := usb_req req;
     bytes_transferred := bytes_transferred req;
     next_data_toggle := next_data_toggle req;
     complete_split := complete_split req;
     packets_queued := packets_queued req;
     bytes_queued := bytes_queued req;
     total_bytes_queued := total_bytes_queued req;
     short_attempt := b;
     setup_req := setup_req req;
     cspit_retries := cspit_retries req;
     request_id := request_id req |}.

Definition set_setup_req (req : dwc_usb_transfer_request_t)
  (s : option usb_request_t) : dwc_usb_transfer_request_t :=
  {| ctrl_phase := ctrl_phase req; usb_req := usb_req req;
     bytes_transferred := bytes_transferred req;
     next_data_toggle := next_data_toggle req;
     complete_split := complete_split req;
     packets_queued := packets_queued req;
     bytes_queued := bytes_queued req;
     total_bytes_queued := total_bytes_queued req;
     short_attempt := short_attempt req;
     setup_req := s;
     cspit_retries := cspit_retries req;
     request_id := request_id req |}.

(** [bytes_queued], [total_bytes_queued] and [packets_queued] at once. *)
Definition set_queued (req : dwc_usb_transfer_request_t) (bq tbq pq : Z)
  : dwc_usb_transfer_request_t :=
  {| ctrl_phase := ctrl_phase req; usb_req := usb_req req;
     bytes_transferred := bytes_transferred req;
     next_data_toggle := next_data_toggle req;
     complete_split := complete_split req;
     packets_queued := pq;
     bytes_queued := bq;
     total_bytes_queued := tbq;
     short_attempt := short_attempt req;
     setup_req := setup_req req;
     cspit_retries := cspit_retries req;
     request_id := request_id req |}.

(** ** Host channel pool *)

(** The constants of the channel pool, defined in the header of the driver:
    the number of host channels and the word with one bit set per channel. *)
Class ChannelPool : Type := {
  DWC_NUM_CHANNELS : Z;
  ALL_CHANNELS_FREE : Z
}.

Fixpoint ctz_from (fuel : nat) (i : Z) (x : Z) : Z :=
  match fuel with
  | O => i
  | S fuel' => if Z.testbit x i then i else ctz_from fuel' (i + 1) x
  end.

(** [__builtin_ctz] on a 32-bit word other than 0: the index of its lowest
    bit set. *)
Definition builtin_ctz (x : Z) : Z := ctz_from 32 0 x.

(** One turn of the loop of [acquire_channel_blocking], with the mutex held.
    [None] is the failed assertion; the channel of the result is [None] when
    no channel is free and the caller goes to wait for a release. *)
Definition acquire_channel_attempt `{ChannelPool} (free_channels : Z)
  : option (option Z * Z) :=
  if negb (Z.land free_channels ALL_CHANNELS_FREE =? free_channels) then None
  else if free_channels =? 0 then Some (None, free_channels)
  else
    let next_channel := builtin_ctz free_channels in
    Some (Some next_channel,
          Z.land free_channels
            (Z.lxor ALL_CHANNELS_FREE (Z.shiftl 1 next_channel))).

(** [None] is the failed assertion. *)
Definition release_channel `{ChannelPool} (ch : Z) (free_channels : Z)
  : option Z :=
  if ch <? DWC_NUM_CHANNELS then Some (Z.lor free_channels (Z.shiftl 1 ch))
  else None.

(** What the threads of the driver ask of the pool. *)
Inductive pool_op : Type :=
| PoolAcquire
| PoolRelease (ch : Z).

(** The pool serving a sequence of calls, with the channels it hands out in
    order; a call of [acquire_channel_blocking] that finds no channel free
    hands out none. *)
Fixpoint pool_run `{ChannelPool} (free_channels : Z) (ops : list pool_op)
  : option (list Z * Z) :=
  match ops with
  | [] => Some ([], free_channels)
  | PoolAcquire :: rest =>
      match acquire_channel_attempt free_channels with
      | None => None
      | Some (got, free') =>
          match pool_run free' rest with
          | None => None
          | Some (out, final) =>
              Some (match got with Some c => c :: out | None => out end, final)
          end
      end
  | PoolRelease ch :: rest =>
      match release_channel ch free_channels with
      | None => None
      | Some free' => pool_run free' rest
      end
  end.

(** ** Scheduler actions

    What the scheduler of an endpoint does besides updating the envelope and
    the registers of its channel, in the order in which it does it. *)
Inductive action : Type :=
| AcquireChannel (ch : Z)
| ReleaseChannel (ch : Z)
| StartTransfer (ch : Z) (req : dwc_usb_transfer_request_t)
    (hc : dwc_host_channel)
| StartTransaction (ch : Z) (hc : dwc_host_channel)
| CompleteRequest (req : dwc_usb_transfer_request_t) (status : zx_status_t)
    (len : Z)
| ListAddHead (req : dwc_usb_transfer_request_t)
| Sleep (ns : Z)
| AwaitSof (ch : Z)
| LogFrameOverruns
| ThreadExit.

Definition usb_ep_type (d : usb_endpoint_descriptor_t) : Z :=
  Z.land (ed_bmAttributes d) USB_ENDPOINT_TYPE_MASK.

Definition ctrl_phase_rank (p : dwc_ctrl_phase_t) : Z :=
  match p with
  | CTRL_PHASE_SETUP => 1
  | CTRL_PHASE_DATA => 2
  | CTRL_PHASE_STATUS => 3
  end.

(** [p++] on the enumeration; the scheduler increments only below
    [CTRL_PHASE_STATUS]. *)
Definition ctrl_phase_incr (p : dwc_ctrl_phase_t) : dwc_ctrl_phase_t :=
  match p with
  | CTRL_PHASE_SETUP => CTRL_PHASE_DATA
  | CTRL_PHASE_DATA => CTRL_PHASE_STATUS
  | CTRL_PHASE_STATUS => CTRL_PHASE_STATUS
  end.

Definition ctrl_phase_eqb (p q : dwc_ctrl_phase_t) : bool :=
  ctrl_phase_rank p =? ctrl_phase_rank q.

Definition speed_eqb (a b : usb_speed_t) : bool :=
  match a, b with
  | USB_SPEED_FULL, USB_SPEED_FULL => true
  | USB_SPEED_LOW, USB_SPEED_LOW => true
  | USB_SPEED_HIGH, USB_SPEED_HIGH => true
  | _, _ => false
  end.

Definition set_odd_frame_enable (c : dwc_host_channel_characteristics)
  (odd : Z) : dwc_host_channel_characteristics :=
  {| max_packet_size := max_packet_size c;
     endpoint_number := endpoint_number c;
     endpoint_direction := endpoint_direction c;
     low_speed := low_speed c;
     endpoint_type := endpoint_type c;
     packets_per_frame := packets_per_frame c;
     device_address := device_address c;
     odd_frame := odd;
     channel_enable := true |}.

Definition set_sc_complete_split (s : dwc_host_channel_split_control)
  (b : bool) : dwc_host_channel_split_control :=
  {| port_address := port_address s; sc_hub_address := sc_hub_address s;
     sc_complete_split := b; split_enable := split_enable s |}.

(** [host_frame_number] is the value read from the frame number register.
    The interrupt mask of the channel is left with "channel halted" only. *)
Definition dwc_start_transaction (host_frame_number : Z) (chan : Z)
  (req : dwc_usb_transfer_request_t) (hc : dwc_host_channel)
  : dwc_usb_transfer_request_t * dwc_host_channel * list action :=
  let split_control := set_sc_complete_split (split_control hc)
                         (complete_split req) in
  let next_frame := Z.land host_frame_number 65535 + 1 in
  let req1 :=
    if negb (sc_complete_split split_control)
    then set_cspit_retries req 0 else req in
  let characteristics :=
    set_odd_frame_enable (characteristics hc) (Z.land next_frame 1) in
  let hc1 := {| characteristics := characteristics;
                split_control := split_control;
                transfer := transfer hc |} in
  (req1, hc1, [StartTransaction chan hc1]).

(** The packet count programmed for a transfer of [size] bytes. *)
Definition transfer_packet_count `{Platform} (size max_packet_size : Z)
  (send_zlp : bool) : Z :=
  let packet_count :=
    wrap packet_count_bits (DIV_ROUND_UP size max_packet_size) in
  if packet_count =? 0 then 1
  else if send_zlp && (size mod max_packet_size =? 0)
       then wrap packet_count_bits (packet_count + 1)
       else packet_count.

(** Programs the three registers of the channel for the current phase of the
    request. [None] is a failed assertion. The DMA address and its alignment
    assertion are left out: they depend on the physical mapping of the
    buffers. A [max_packet_size] of 0 makes the C division undefined. *)
Definition dwc_start_transfer `{Platform} (host_frame_number : Z) (chan : Z)
  (req : dwc_usb_transfer_request_t) (ep : dwc_usb_endpoint_t)
  (dev : dwc_usb_device_t)
  : option (dwc_usb_transfer_request_t * dwc_host_channel * list action) :=
  let usb := usb_req req in
  let req0 := set_short_attempt req false in
  let mps := wrap max_packet_size_bits (wMaxPacketSize (desc ep)) in
  let ppf :=
    if speed_eqb (speed dev) USB_SPEED_HIGH
    then wrap packets_per_frame_bits
           (1 + Z.land (Z.shiftr (wMaxPacketSize (desc ep)) 11) 3)
    else 1 in
  let phase_values : option (Z * Z * dwc_usb_data_toggle_t) :=
    if usb_ep_type (desc ep) =? USB_ENDPOINT_CONTROL then
      match ctrl_phase req with
      | CTRL_PHASE_SETUP =>
          match setup_req req with
          | None => None
          | Some s =>
              if h_length (header s) =? sizeof_usb_setup_t then
                Some (DWC_EP_OUT,
                      wrap transfer_size_bits (h_length (header s)),
                      DWC_TOGGLE_SETUP)
              else None
          end
      | CTRL_PHASE_DATA =>
          Some (Z.shiftr (bmRequestType (setup usb)) 7,
                wrap transfer_size_bits
                  (h_length (header usb) - bytes_transferred req),
                if bytes_transferred req =? 0 then DWC_TOGGLE_DATA1
                else next_data_toggle req)
      | CTRL_PHASE_STATUS =>
          Some (if wLength (setup usb) =? 0 then DWC_EP_IN
                else if Z.shiftr (bmRequestType (setup usb)) 7 =? DWC_EP_OUT
                     then DWC_EP_IN else DWC_EP_OUT,
                0, DWC_TOGGLE_DATA1)
      end
    else
      Some (Z.shiftr (Z.land (ep_address ep) USB_ENDPOINT_DIR_MASK) 7,
            wrap transfer_size_bits
              (h_length (header usb) - bytes_transferred req),
            next_data_toggle req) in
  match phase_values with
  | None => None
  | Some (direction, size0, pid) =>
      let not_high := negb (speed_eqb (speed dev) USB_SPEED_HIGH) in
      let clamp := not_high && (mps <? size0) in
      let size1 := if clamp then mps else size0 in
      let req1 := if clamp then set_short_attempt req0 true else req0 in
      let characteristics :=
        {| max_packet_size := mps;
           endpoint_number := wrap endpoint_number_bits (ep_address ep);
           endpoint_direction := direction;
           low_speed := speed_eqb (speed dev) USB_SPEED_LOW;
           endpoint_type := usb_ep_type (desc ep);
           packets_per_frame := ppf;
           device_address := wrap device_address_bits (device_id dev);
           odd_frame := 0;
           channel_enable := false |} in
      let split_control :=
        if not_high then
          {| port_address := wrap port_address_bits (port dev);
             sc_hub_address := wrap hub_address_bits (hub_address dev);
             sc_complete_split := false; split_enable := true |}
        else
          {| port_address := 0; sc_hub_address := 0;
             sc_complete_split := false; split_enable := false |} in
      let packet_count :=
        transfer_packet_count size1 mps (h_send_zlp (header usb)) in
      let req2 := set_queued req1 size1 size1 packet_count in
      let hc := {| characteristics := characteristics;
                   split_control := split_control;
                   transfer := {| size := size1; packet_count := packet_count;
                                  packet_id := pid |} |} in
      let '(req3, hc1, acts) :=
        dwc_start_transaction host_frame_number chan req2 hc in
      Some (req3, hc1, StartTransfer chan req2 hc :: acts)
  end.

(** ** Channel-halt handling *)

(** The scheduler calling [release_channel] on [ch] and going on to [x]:
    [None] is the failed assertion of [release_channel]. *)
Definition release_checked `{ChannelPool} {A : Type} (ch : Z) (x : A)
  : option A :=
  if ch <? DWC_NUM_CHANNELS then Some x else None.

Definition await_sof_if_necessary (channel : Z)
  (req : dwc_usb_transfer_request_t) (ep : dwc_usb_endpoint_t)
  (dev : dwc_usb_device_t) : list action :=
  if (usb_ep_type (desc ep) =? USB_ENDPOINT_INTERRUPT) &&
     negb (complete_split req) &&
     negb (speed_eqb (speed dev) USB_SPEED_HIGH)
  then [AwaitSof channel] else [].

(** The local [bytes_transferred] of [handle_normal_channel_halted]: the
    bytes moved by the transaction that halted, of which
    [packets_transferred] packets went through. *)
Definition halted_bytes_transferred (req : dwc_usb_transfer_request_t)
  (hc : dwc_host_channel) (packets_transferred : Z) : Z :=
  let packets_remaining := packet_count (transfer hc) in
  let max_packet_size := max_packet_size (characteristics hc) in
  let is_dir_in := endpoint_direction (characteristics hc) =? 1 in
  if is_dir_in then u32 (bytes_queued req - size (transfer hc))
  else
    let b0 :=
      if 1 <? packets_transferred
      then u32 (max_packet_size * (packets_transferred - 1)) else 0 in
    if (packets_remaining =? 0) &&
       (negb (total_bytes_queued req mod max_packet_size =? 0) ||
        (total_bytes_queued req =? 0))
    then u32 (b0 + total_bytes_queued req)
    else u32 (b0 + max_packet_size).

(** The fields of the envelope that count packets and bytes are 32-bit
    unsigned. [hc] is the view of the channel registers after the halt. A
    [max_packet_size] of 0 makes the C remainder undefined. [None] is the
    failed assertion of [release_channel]. *)
Definition handle_normal_channel_halted `{ChannelPool} (host_frame_number : Z)
  (channel : Z) (req : dwc_usb_transfer_request_t) (ep : dwc_usb_endpoint_t)
  (interrupts : dwc_host_channel_interrupts) (hc : dwc_host_channel)
  : option (bool * dwc_usb_transfer_request_t * dwc_host_channel *
            list action) :=
  let packets_remaining := packet_count (transfer hc) in
  let packets_transferred := u32 (packets_queued req - packets_remaining) in
  let usb := usb_req req in
  if negb (packets_transferred =? 0) then
    let max_packet_size := max_packet_size (characteristics hc) in
    let is_dir_in := endpoint_direction (characteristics hc) =? 1 in
    let bytes_transferred_now :=
      halted_bytes_transferred req hc packets_transferred in
    let req1 :=
      set_bytes_transferred
        (set_queued req
           (u32 (bytes_queued req - bytes_transferred_now))
           (total_bytes_queued req)
           (u32 (packets_queued req - packets_transferred)))
        (u32 (bytes_transferred req + bytes_transferred_now)) in
    if (packets_queued req1 =? 0) ||
       (is_dir_in &&
        (bytes_transferred_now <? u32 (packets_transferred * max_packet_size)))
    then
      if negb (transfer_completed interrupts) then
        release_checked channel
          (true, req1, hc,
           [ReleaseChannel channel; CompleteRequest req1 ZX_ERR_IO 0])
      else if short_attempt req1 && (bytes_queued req1 =? 0) &&
              negb (usb_ep_type (desc ep) =? USB_ENDPOINT_INTERRUPT)
      then
        let req2 :=
          set_next_data_toggle (set_complete_split req1 false)
            (packet_id (transfer hc)) in
        Some (true, req2, hc, [ListAddHead req2])
      else if (usb_ep_type (desc ep) =? USB_ENDPOINT_CONTROL) &&
              (ctrl_phase_rank (ctrl_phase req1) <?
               ctrl_phase_rank CTRL_PHASE_STATUS)
      then
        let req2 := set_complete_split req1 false in
        let req3 :=
          if ctrl_phase_eqb (ctrl_phase req2) CTRL_PHASE_SETUP then
            set_next_data_toggle (set_bytes_transferred req2 0)
              DWC_TOGGLE_DATA1
          else req2 in
        let req4 := set_ctrl_phase req3 (ctrl_phase_incr (ctrl_phase req3)) in
        let req5 :=
          if ctrl_phase_eqb (ctrl_phase req4) CTRL_PHASE_DATA &&
             (h_length (header usb) =? 0)
          then set_ctrl_phase req4 (ctrl_phase_incr (ctrl_phase req4))
          else req4 in
        Some (true, req5, hc, [ListAddHead req5])
      else
        release_checked channel
          (true, req1, hc,
           [ReleaseChannel channel;
            CompleteRequest req1 ZX_OK (bytes_transferred req1)])
    else
      let req2 :=
        if split_enable (split_control hc)
        then set_complete_split req1 (negb (complete_split req1)) else req1 in
      let '(req3, hc1, acts) :=
        dwc_start_transaction host_frame_number channel req2 hc in
      Some (false, req3, hc1, acts)
  else
    if ack_response_received interrupts &&
       split_enable (split_control hc) && negb (complete_split req)
    then
      let req1 := set_complete_split req true in
      let '(req2, hc1, acts) :=
        dwc_start_transaction host_frame_number channel req1 hc in
      Some (false, req2, hc1, acts)
    else
      release_checked channel
        (true, req, hc,
         [ReleaseChannel channel; CompleteRequest req ZX_ERR_IO 0]).

(** *** Arithmetic on [int]

    The sleep of a high-speed endpoint is computed in [int]. The count of
    the shift, [bInterval - 1], is -1 for [bInterval] 0 and exceeds 31 from
    [bInterval] 33 on, and from [bInterval] 16 on the product exceeds
    [INT_MAX]; the C standard leaves these cases undefined. The definitions
    follow the compiled driver: the shift takes its count modulo 32, and
    every result is reduced to 32 bits in two's complement. *)
Definition INT_MAX : Z := 2147483647.
Definition INT_MIN : Z := -2147483648.

Definition int_wrap (x : Z) : Z := (x - INT_MIN) mod 2 ^ 32 + INT_MIN.

Definition int_shl (a n : Z) : Z := int_wrap (a * 2 ^ (n mod 32)).

Definition int_mul (a b : Z) : Z := int_wrap (a * b).

(** How long a NAKed request waits before it is queued again: the value of
    the [int] expression assigned to [sleep_ns], before its conversion to
    [zx_duration_t], a type declared outside dwc2-host.c. *)
Definition nak_sleep_ns (s : usb_speed_t) (bInterval : Z) : Z :=
  let sleep_ns :=
    if speed_eqb s USB_SPEED_HIGH then
      int_mul (int_shl 1 (bInterval - 1)) 125000
    else ZX_MSEC bInterval in
  if sleep_ns =? 0 then ZX_MSEC 1 else sleep_ns.

(** [counter] is [debug_frame_overrun_counter]. [None] is the failed
    assertion of [release_channel]. *)
Definition handle_channel_halted_interrupt `{ChannelPool}
  (host_frame_number : Z)
  (channel : Z) (req : dwc_usb_transfer_request_t) (ep : dwc_usb_endpoint_t)
  (dev : dwc_usb_device_t) (interrupts : dwc_host_channel_interrupts)
  (hc : dwc_host_channel) (counter : Z)
  : option (bool * dwc_usb_transfer_request_t * dwc_host_channel * Z *
            list action) :=
  if stall_response_received interrupts || ahb_error interrupts ||
     transaction_error interrupts || babble_error interrupts ||
     excess_transaction_error interrupts || frame_list_rollover interrupts ||
     (nyet_response_received interrupts && negb (complete_split req)) ||
     (data_toggle_error interrupts &&
      (endpoint_direction (characteristics hc) =? 0))
  then
    release_checked channel
      (true, req, hc, counter,
       [ReleaseChannel channel; CompleteRequest req ZX_ERR_IO 0])
  else if frame_overrun interrupts then
    let counter1 := u32 (counter + 1) in
    let '(counter2, log) :=
      if counter1 =? FRAME_OVERRUN_THRESHOLD
      then (0, [LogFrameOverruns]) else (counter1, []) in
    release_checked channel
      (true, req, hc, counter2,
       log ++ [ReleaseChannel channel; ListAddHead req])
  else if nak_response_received interrupts then
    let req1 := set_next_data_toggle req (packet_id (transfer hc)) in
    let release :=
      if negb (usb_ep_type (desc ep) =? USB_ENDPOINT_CONTROL) then
        release_checked channel [ReleaseChannel channel]
      else if ctrl_phase_eqb (ctrl_phase req1) CTRL_PHASE_SETUP then
        release_checked channel [ReleaseChannel channel]
      else Some [] in
    match release with
    | None => None
    | Some release =>
        let sleep_ns := nak_sleep_ns (speed dev) (bInterval (desc ep)) in
        let sof := await_sof_if_necessary channel req1 ep dev in
        let req2 := set_complete_split req1 false in
        Some (true, req2, hc, counter,
              release ++ [Sleep sleep_ns] ++ sof ++ [ListAddHead req2])
    end
  else if nyet_response_received interrupts then
    let retries := u32 (cspit_retries req + 1) in
    let req1 := set_cspit_retries req retries in
    let req2 :=
      if 8 <=? retries then set_complete_split req1 false else req1 in
    let sleep :=
      if negb (usb_ep_type (desc ep) =? USB_ENDPOINT_INTERRUPT)
      then [Sleep 62500] else [] in
    let sof := await_sof_if_necessary channel req2 ep dev in
    let '(req3, hc1, acts) :=
      dwc_start_transaction host_frame_number channel req2 hc in
    Some (false, req3, hc1, counter, sleep ++ sof ++ acts)
  else
    match handle_normal_channel_halted host_frame_number channel req ep
            interrupts hc with
    | None => None
    | Some (done, req1, hc1, acts) => Some (done, req1, hc1, counter, acts)
    end.

(** ** Endpoint scheduler thread *)

(** The locals of [endpoint_request_scheduler_thread] that live across
    requests, and the frame overrun counter. *)
Record thread_state : Type := {
  th_next_data_toggle : dwc_usb_data_toggle_t;
  th_channel : Z;
  th_frame_overruns : Z
}.

(** What the environment supplies when the scheduler starts a request: the
    channel handed out by [acquire_channel_blocking], the request handed out
    by the request pool for the SETUP packet, and the frame number read by
    [dwc_start_transaction]. *)
Record sched_input : Type := {
  in_channel : Z;
  in_setup_req : usb_request_t;
  in_frame : Z
}.

(** One channel-halt interrupt: the interrupt word latched by the interrupt
    handler, the transfer register as the hardware left it, and what the
    environment supplies next. *)
Record hw_response : Type := {
  hw_interrupts : dwc_host_channel_interrupts;
  hw_transfer : dwc_host_channel_transfer;
  hw_next : sched_input
}.

Inductive run_end : Type :=
| Running
| Finished
| Exited
| Aborted.

Definition bytes_of_setup (s : usb_setup_t) : list Z :=
  [bmRequestType s; bRequest s] ++ bytes_of_u16 (wValue s) ++
  bytes_of_u16 (wIndex s) ++ bytes_of_u16 (wLength s).

Definition set_header_length (r : usb_request_t) (n : Z) : usb_request_t :=
  {| header := {| h_device_id := h_device_id (header r);
                  h_ep_address := h_ep_address (header r);
                  h_length := n;
                  h_send_zlp := h_send_zlp (header r) |};
     setup := setup r; cookie := cookie r; payload := payload r |}.

Definition set_transfer (hc : dwc_host_channel)
  (t : dwc_host_channel_transfer) : dwc_host_channel :=
  {| characteristics := characteristics hc;
     split_control := split_control hc;
     transfer := t |}.

Definition is_ListAddHead (a : action) : bool :=
  match a with
  | ListAddHead _ => true
  | _ => false
  end.

(** The body of the outer loop from the point where [req] has been taken
    from the head of the pending list up to the start of the transfer. The
    result is [None] on a failed assertion and carries no channel registers
    when the thread returns. *)
Definition start_request `{Platform} (th : thread_state)
  (req : dwc_usb_transfer_request_t) (ep : dwc_usb_endpoint_t)
  (dev : dwc_usb_device_t) (inp : sched_input)
  : option (thread_state * dwc_usb_transfer_request_t *
            option dwc_host_channel * list action) :=
  let type := usb_ep_type (desc ep) in
  let acquired :=
    {| th_next_data_toggle := th_next_data_toggle th;
       th_channel := in_channel inp;
       th_frame_overruns := th_frame_overruns th |} in
  if type =? USB_ENDPOINT_CONTROL then
    match ctrl_phase req with
    | CTRL_PHASE_SETUP =>
        let s := in_setup_req inp in
        let s1 := usb_request_copyto s (bytes_of_setup (setup s))
                    sizeof_usb_setup_t in
        let s2 := set_header_length s1 sizeof_usb_setup_t in
        let req1 := set_setup_req req (Some s2) in
        match dwc_start_transfer (in_frame inp) (in_channel inp) req1 ep dev with
        | None => None
        | Some (req2, hc, acts) =>
            Some (acquired, req2, Some hc,
                  AcquireChannel (in_channel inp) :: acts)
        end
    | CTRL_PHASE_DATA
    | CTRL_PHASE_STATUS =>
        match dwc_start_transfer (in_frame inp) (th_channel th) req ep dev with
        | None => None
        | Some (req1, hc, acts) => Some (th, req1, Some hc, acts)
        end
    end
  else if type =? USB_ENDPOINT_ISOCHRONOUS then
    Some (th, req, None, [ThreadExit])
  else if type =? USB_ENDPOINT_BULK then
    let req1 := set_next_data_toggle req (th_next_data_toggle th) in
    match dwc_start_transfer (in_frame inp) (in_channel inp) req1 ep dev with
    | None => None
    | Some (req2, hc, acts) =>
        Some (acquired, req2, Some hc, AcquireChannel (in_channel inp) :: acts)
    end
  else if type =? USB_ENDPOINT_INTERRUPT then
    let req1 := set_next_data_toggle req (th_next_data_toggle th) in
    let sof := await_sof_if_necessary (in_channel inp) req1 ep dev in
    match dwc_start_transfer (in_frame inp) (in_channel inp) req1 ep dev with
    | None => None
    | Some (req2, hc, acts) =>
        Some (acquired, req2, Some hc,
              AcquireChannel (in_channel inp) :: sof ++ acts)
    end
  else None.

(** The scheduler from the moment a transfer of [req] is in flight on [hc]:
    it consumes one channel-halt interrupt per turn. When the handler is done
    and has put the request back at the head of the pending list, the outer
    loop takes it from there again and starts its next transfer. The run
    ends when the request is no longer queued ([Finished]), when the
    interrupts run out ([Running]), when the thread returns ([Exited]) or on
    a failed assertion ([Aborted]). *)
Fixpoint await_channel `{Platform} `{ChannelPool} (ep : dwc_usb_endpoint_t)
  (dev : dwc_usb_device_t) (rs : list hw_response) (th : thread_state)
  (req : dwc_usb_transfer_request_t) (hc : dwc_host_channel)
  : list action * run_end :=
  match rs with
  | [] => ([], Running)
  | r :: rs' =>
      let hc1 := set_transfer hc (hw_transfer r) in
      let th1 :=
        {| th_next_data_toggle := packet_id (transfer hc1);
           th_channel := th_channel th;
           th_frame_overruns := th_frame_overruns th |} in
      match handle_channel_halted_interrupt (in_frame (hw_next r))
              (th_channel th1) req ep dev (hw_interrupts r) hc1
              (th_frame_overruns th1) with
      | None => ([], Aborted)
      | Some (done, req1, hc2, counter, acts) =>
          let th2 :=
            {| th_next_data_toggle := th_next_data_toggle th1;
               th_channel := th_channel th1;
               th_frame_overruns := counter |} in
          if done then
            if existsb is_ListAddHead acts then
              match start_request th2 req1 ep dev (hw_next r) with
              | None => (acts, Aborted)
              | Some (_, _, None, acts2) => (acts ++ acts2, Exited)
              | Some (th3, req2, Some hc3, acts2) =>
                  let '(tr, e) := await_channel ep dev rs' th3 req2 hc3 in
                  (acts ++ acts2 ++ tr, e)
              end
            else (acts, Finished)
          else
            let '(tr, e) := await_channel ep dev rs' th2 req1 hc2 in
            (acts ++ tr, e)
      end
  end.

(** The life of one request in the scheduler of its endpoint, from the
    moment it is first taken from the pending list. *)
Definition schedule_request `{Platform} `{ChannelPool} (ep : dwc_usb_endpoint_t)
  (dev : dwc_usb_device_t) (th : thread_state)
  (req : dwc_usb_transfer_request_t) (inp : sched_input)
  (rs : list hw_response) : list action * run_end :=
  match start_request th req ep dev inp with
  | None => ([], Aborted)
  | Some (_, _, None, acts) => (acts, Exited)
  | Some (th1, req1, Some hc, acts) =>
      let '(tr, e) := await_channel ep dev rs th1 req1 hc in
      (acts ++ tr, e)
  end.

(** ** Endpoints of the attached devices *)

(** The endpoint [dwc_enable_ep] and [create_default_device] create, with
    nothing pending. *)
Definition new_endpoint (d : usb_endpoint_descriptor_t) : dwc_usb_endpoint_t :=
  {| ep_address := bEndpointAddress d; desc := d; pending_requests := [] |}.

(** [calloc_ok] tells whether the allocations of the endpoint and of the
    context of its thread succeed; the code stores into both without looking
    at the pointers, which is undefined when an allocation has failed:
    [None], as for the failed assertion and for a device id outside of the
    device table. The scheduler thread started for the endpoint is the
    source of the [EvEndpointDone] events of the endpoint. *)
Definition dwc_enable_ep `{Platform} (dwc : dwc_usb_t) (device_id : Z)
  (ep_desc : usb_endpoint_descriptor_t) (enable : bool) (calloc_ok : bool)
  : option (zx_status_t * dwc_usb_t) :=
  if device_id =? ROOT_HUB_DEVICE_ID then Some (ZX_OK, dwc)
  else if negb enable then None
  else
    match nth_error (usb_devices dwc) (Z.to_nat device_id) with
    | None => None
    | Some dev =>
        if negb calloc_ok then None
        else
          let ep := new_endpoint ep_desc in
          Some (ZX_OK,
                set_usb_devices dwc
                  (replace_nth (Z.to_nat device_id) (usb_devices dwc)
                     (set_endpoints dev (endpoints dev ++ [ep]))))
    end.

(** The descriptor of the control endpoint of the default device. *)
Definition default_ep0_desc : usb_endpoint_descriptor_t :=
  {| ed_bLength := sizeof_usb_endpoint_descriptor_t;
     ed_bDescriptorType := USB_DT_ENDPOINT;
     bEndpointAddress := 0;
     ed_bmAttributes := USB_ENDPOINT_CONTROL;
     wMaxPacketSize := 8;
     bInterval := 0 |}.

(** When the allocation of the endpoint fails the code notes
    [ZX_ERR_NO_MEMORY] and goes on to store into the null pointer: [None],
    as when the allocation of the context of the thread fails. *)
Definition create_default_device (dwc : dwc_usb_t) (calloc_ok : bool)
  : option (zx_status_t * dwc_usb_t) :=
  match usb_devices dwc with
  | [] => None
  | _ :: rest =>
      if negb calloc_ok then None
      else
        let ep0 := new_endpoint default_ep0_desc in
        Some (ZX_OK,
              set_usb_devices dwc
                ({| speed := USB_SPEED_HIGH; hub_address := 0; port := 0;
                    device_id := 0; endpoints := [ep0] |} :: rest))
  end.

(** ** Start-of-frame waiters *)

(** The number of threads waiting for a start of frame and the SOF bit of the
    core interrupt mask. A waiter holds a host channel, so the count stays
    far from the limits of its type. *)
Record sof_gate : Type := {
  n_sof_waiters : Z;
  sof_intr : bool
}.

(** The first critical section of [await_sof_if_necessary], before the
    thread blocks. *)
Definition sof_wait_begin (g : sof_gate) : sof_gate :=
  {| n_sof_waiters := n_sof_waiters g + 1;
     sof_intr := if n_sof_waiters g =? 0 then true else sof_intr g |}.

(** Its second critical section, once the thread has been woken. *)
Definition sof_wait_end (g : sof_gate) : sof_gate :=
  {| n_sof_waiters := n_sof_waiters g - 1;
     sof_intr := if n_sof_waiters g - 1 =? 0 then false else sof_intr g |}.

(** The critical sections of the waiting threads, in the order in which they
    take the mutex. *)
Inductive sof_event : Type :=
| SofBegin
| SofEnd.

Fixpoint sof_run (g : sof_gate) (es : list sof_event) : sof_gate :=
  match es with
  | [] => g
  | SofBegin :: rest => sof_run (sof_wait_begin g) rest
  | SofEnd :: rest => sof_run (sof_wait_end g) rest
  end.


(** ** Vocabulary of the properties *)

(** Modelled from the spec: the root hub has device id 0, the device table
    has 128 entries and a transfer is limited to one page of 4096 bytes. The
    spec is silent on the widths of the register fields; they are those of
    the host channel registers of the DWC2 core. This instance only serves
    the sample runs: the theorems hold for every value of the constants. *)
Definition spec_platform : Platform :=
  {| ROOT_HUB_DEVICE_ID := 0;
     MAX_DEVICE_COUNT := 128;
     PAGE_SIZE := 4096;
     max_packet_size_bits := 11;
     endpoint_number_bits := 4;
     packets_per_frame_bits := 2;
     device_address_bits := 7;
     transfer_size_bits := 19;
     packet_count_bits := 10;
     port_address_bits := 7;
     hub_address_bits := 7 |}.

(** Modelled from the spec: the controller has 8 host channels;
    [ALL_CHANNELS_FREE] has one bit set for each of them. *)
Definition spec_pool : ChannelPool :=
  {| DWC_NUM_CHANNELS := 8; ALL_CHANNELS_FREE := 255 |}.

(** The completions delivered upstream, oldest first. *)
Fixpoint completions (es : list effect)
  : list (usb_request_t * zx_status_t * Z) :=
  match es with
  | [] => []
  | UsbRequestComplete r status actual :: es' =>
      (r, status, actual) :: completions es'
  | _ :: es' => completions es'
  end.

(** The envelopes handed back to the allocator, oldest first. *)
Fixpoint deallocations (es : list effect) : list dwc_usb_transfer_request_t :=
  match es with
  | [] => []
  | Free req :: es' => req :: deallocations es'
  | _ :: es' => deallocations es'
  end.

(** A control request to the root hub of the given type and request code. *)
Definition is_root_hub_ctrl (req : dwc_usb_transfer_request_t)
  (type request : Z) : Prop :=
  h_ep_address (header (usb_req req)) = 0 /\
  Z.land (bmRequestType (setup (usb_req req))) USB_TYPE_MASK = type /\
  bRequest (setup (usb_req req)) = request.

(** The hub-class feature selectors of the port change bits, each with the
    position of its bit in [wPortChange]. *)
Definition change_features : list (Z * Z) :=
  [(USB_FEATURE_C_PORT_CONNECTION, 0);
   (USB_FEATURE_C_PORT_ENABLE, 1);
   (USB_FEATURE_C_PORT_SUSPEND, 2);
   (USB_FEATURE_C_PORT_OVER_CURRENT, 3);
   (USB_FEATURE_C_PORT_RESET, 4)].

(** The free-request cache is consistent and within its bound. *)
Definition cache_bounded (dwc : dwc_usb_t) : Prop :=
  free_req_count dwc = Z.of_nat (List.length (free_reqs dwc)) /\
  free_req_count dwc <= FREE_REQ_CACHE_THRESHOLD.

(** [q] is the quotient of [n] by [d] rounded up. *)
Definition is_ceil_div (n d q : Z) : Prop := (q - 1) * d < n <= q * d.

(** The halt is handled by the NAK branch of
    [handle_channel_halted_interrupt]: no bus error, no frame overrun, and a
    NAK response. *)
Definition is_nak_halt (interrupts : dwc_host_channel_interrupts)
  (req : dwc_usb_transfer_request_t) (hc : dwc_host_channel) : bool :=
  negb (stall_response_received interrupts || ahb_error interrupts ||
        transaction_error interrupts || babble_error interrupts ||
        excess_transaction_error interrupts ||
        frame_list_rollover interrupts ||
        (nyet_response_received interrupts && negb (complete_split req)) ||
        (data_toggle_error interrupts &&
         (endpoint_direction (characteristics hc) =? 0))) &&
  negb (frame_overrun interrupts) &&
  nak_response_received interrupts.

(** A NAKed control transfer past its SETUP phase keeps its channel for the
    retry. *)
Definition nak_keeps_channel (ep : dwc_usb_endpoint_t)
  (req : dwc_usb_transfer_request_t) : bool :=
  (usb_ep_type (desc ep) =? USB_ENDPOINT_CONTROL) &&
  negb (ctrl_phase_eqb (ctrl_phase req) CTRL_PHASE_SETUP).

(** The sleeps of a run of the scheduler, in nanoseconds. *)
Fixpoint sleeps (acts : list action) : list Z :=
  match acts with
  | [] => []
  | Sleep ns :: t => ns :: sleeps t
  | _ :: t => sleeps t
  end.

(** The channels released by a run of the scheduler. *)
Fixpoint released (acts : list action) : list Z :=
  match acts with
  | [] => []
  | ReleaseChannel ch :: t => ch :: released t
  | _ :: t => released t
  end.

(** The calls of [dwc_start_transfer] of a run of the scheduler: the control
    phase of the request at the call and the packet id programmed. *)
Fixpoint started_phases (acts : list action)
  : list (dwc_ctrl_phase_t * dwc_usb_data_toggle_t) :=
  match acts with
  | [] => []
  | StartTransfer _ req hc :: t =>
      (ctrl_phase req, packet_id (transfer hc)) :: started_phases t
  | _ :: t => started_phases t
  end.

(** The requests a run of the scheduler completes with status OK. *)
Fixpoint completed_ok (acts : list action) : list dwc_usb_transfer_request_t :=
  match acts with
  | [] => []
  | CompleteRequest req ZX_OK _ :: t => req :: completed_ok t
  | _ :: t => completed_ok t
  end.

(** Consecutive repetitions of a phase merged into one. *)
Fixpoint compress (l : list dwc_ctrl_phase_t) : list dwc_ctrl_phase_t :=
  match l with
  | [] => []
  | p :: t =>
      match t with
      | [] => [p]
      | q :: _ => if ctrl_phase_eqb p q then compress t else p :: compress t
      end
  end.

(** The packet id of the first transfer started in the DATA phase. *)
Fixpoint first_data_packet_id
  (l : list (dwc_ctrl_phase_t * dwc_usb_data_toggle_t))
  : option dwc_usb_data_toggle_t :=
  match l with
  | [] => None
  | (CTRL_PHASE_DATA, pid) :: _ => Some pid
  | _ :: t => first_data_packet_id t
  end.

(** The phases of a control transfer with [len] bytes of data, in order. *)
Definition expected_phases (len : Z) : list dwc_ctrl_phase_t :=
  if len =? 0 then [CTRL_PHASE_SETUP; CTRL_PHASE_STATUS]
  else [CTRL_PHASE_SETUP; CTRL_PHASE_DATA; CTRL_PHASE_STATUS].

(** The phase that follows [p] in a transfer with [len] bytes of data. *)
Definition next_phase (len : Z) (p : dwc_ctrl_phase_t) : dwc_ctrl_phase_t :=
  match p with
  | CTRL_PHASE_SETUP => if len =? 0 then CTRL_PHASE_STATUS else CTRL_PHASE_DATA
  | CTRL_PHASE_DATA => CTRL_PHASE_STATUS
  | CTRL_PHASE_STATUS => CTRL_PHASE_STATUS
  end.

(** What remains of the expected phases once phase [p] is reached. *)
Definition phases_from (len : Z) (p : dwc_ctrl_phase_t)
  : list dwc_ctrl_phase_t :=
  match p with
  | CTRL_PHASE_SETUP => expected_phases len
  | CTRL_PHASE_DATA => [CTRL_PHASE_DATA; CTRL_PHASE_STATUS]
  | CTRL_PHASE_STATUS => [CTRL_PHASE_STATUS]
  end.

(** Starting from phase [p], every phase of [l] repeats the one before it or
    is the one that follows it. *)
Fixpoint phase_steps (len : Z) (p : dwc_ctrl_phase_t)
  (l : list dwc_ctrl_phase_t) : Prop :=
  match l with
  | [] => True
  | q :: t =>
      (q = p \/ (p <> CTRL_PHASE_STATUS /\ q = next_phase len p)) /\
      phase_steps len q t
  end.

(** The packet ids the phases are programmed with. *)
Definition packet_id_ok (s : dwc_ctrl_phase_t * dwc_usb_data_toggle_t)
  : Prop :=
  (fst s = CTRL_PHASE_SETUP -> snd s = DWC_TOGGLE_SETUP) /\
  (fst s = CTRL_PHASE_STATUS -> snd s = DWC_TOGGLE_DATA1).

(** The completions delivered for the upstream request with cookie [c]. *)
Definition delivered_to (c : Z) (es : list effect)
  : list (usb_request_t * zx_status_t * Z) :=
  filter (fun x => cookie (fst (fst x)) =? c) (completions es).

(** The envelopes the driver still works on: those of the root hub queue,
    the one in the interrupt slot and those of the pending lists of the
    endpoints. *)
Definition pending_of (devices : list dwc_usb_device_t)
  : list dwc_usb_transfer_request_t :=
  flat_map (fun d => flat_map pending_requests (endpoints d)) devices.

Definition live_requests (dwc : dwc_usb_t) : list dwc_usb_transfer_request_t :=
  rh_req_head dwc ++
  match rh_intr_req dwc with
  | Some req => [req]
  | None => []
  end ++
  pending_of (usb_devices dwc).

(** No live envelope carries the upstream request with cookie [c]. *)
Definition not_live (c : Z) (dwc : dwc_usb_t) : Prop :=
  forall req, In req (live_requests dwc) -> cookie (usb_req req) <> c.

(** The upstream stack does not submit the request with cookie [c]. *)
Definition not_submitted (c : Z) (e : event) : Prop :=
  match e with
  | EvRequestQueue usb _ => cookie usb <> c
  | _ => True
  end.

(** From [dwc] to [dwc'] the queues of the driver stay as they are and no
    completion is delivered for the request with cookie [c]. *)
Definition quiet (c : Z) (dwc dwc' : dwc_usb_t) : Prop :=
  rh_req_head dwc' = rh_req_head dwc /\
  rh_intr_req dwc' = rh_intr_req dwc /\
  usb_devices dwc' = usb_devices dwc /\
  delivered_to c (effects dwc') = delivered_to c (effects dwc).

(** The requests a run of the scheduler completes, with any status. *)
Fixpoint completed_requests (acts : list action)
  : list dwc_usb_transfer_request_t :=
  match acts with
  | [] => []
  | CompleteRequest req _ _ :: t => req :: completed_requests t
  | _ :: t => completed_requests t
  end.

(** Two envelopes carry the same upstream request under the same id. *)
Definition same_request (a b : dwc_usb_transfer_request_t) : Prop :=
  usb_req a = usb_req b /\ request_id a = request_id b.

(** *** Sample data *)

Definition sample_port_idle : dwc_host_port_ctrlstatus :=
  {| connected := false; connected_changed := false; enabled := false;
     enabled_changed := false; overcurrent := false;
     overcurrent_changed := false; suspended := false; reset := false;
     powered := true; port_speed := 0 |}.

(** Device attach: [connected = 1], [connected_changed = 1]. *)
Definition sample_port_attach : dwc_host_port_ctrlstatus :=
  {| connected := true; connected_changed := true; enabled := false;
     enabled_changed := false; overcurrent := false;
     overcurrent_changed := false; suspended := false; reset := false;
     powered := true; port_speed := 0 |}.

Definition sample_usb_request (dev ep len : Z) (s : usb_setup_t) (c : Z)
  (size : nat) : usb_request_t :=
  {| header := {| h_device_id := dev; h_ep_address := ep; h_length := len;
                  h_send_zlp := false |};
     setup := s; cookie := c; payload := repeat 0 size |}.

Definition no_setup : usb_setup_t :=
  {| bmRequestType := 0; bRequest := 0; wValue := 0; wIndex := 0;
     wLength := 0 |}.

Definition get_descriptor_setup (type len : Z) : usb_setup_t :=
  {| bmRequestType := USB_ENDPOINT_IN; bRequest := USB_REQ_GET_DESCRIPTOR;
     wValue := Z.shiftl type 8; wIndex := 0; wLength := len |}.

Definition clear_feature_setup (feature : Z) : usb_setup_t :=
  {| bmRequestType := Z.lor USB_TYPE_CLASS 3; bRequest := USB_REQ_CLEAR_FEATURE;
     wValue := feature; wIndex := 1; wLength := 0 |}.

Definition sample_get_device_descriptor : dwc_usb_transfer_request_t :=
  new_request
    (sample_usb_request 0 0 18 (get_descriptor_setup USB_DT_DEVICE 18) 7 64) 0.

Definition sample_get_config_descriptor : dwc_usb_transfer_request_t :=
  new_request
    (sample_usb_request 0 0 25 (get_descriptor_setup USB_DT_CONFIG 25) 8 64) 1.

Definition sample_intr_request : dwc_usb_transfer_request_t :=
  new_request (sample_usb_request 0 129 4 no_setup 11 4) 5.

Definition sample_dwc_intr_pending : dwc_usb_t :=
  set_rh_intr_req (dwc_init []) (Some sample_intr_request).

Definition sample_clear_c_port_suspend : dwc_usb_transfer_request_t :=
  new_request
    (sample_usb_request 0 0 0
       (clear_feature_setup USB_FEATURE_C_PORT_SUSPEND) 12 0) 3.

Definition sample_dwc_changes : dwc_usb_t :=
  set_root_port_status (dwc_init []) {| wPortStatus := 1287; wPortChange := 31 |}.

(** Standard GET_DESCRIPTOR(DEVICE_QUALIFIER), wValue = 0x0600. *)
Definition sample_get_device_qualifier : dwc_usb_transfer_request_t :=
  new_request (sample_usb_request 0 0 10 (get_descriptor_setup 6 10) 9 64) 2.

Definition sample_endpoint (addr attrs mps interval : Z) : dwc_usb_endpoint_t :=
  {| ep_address := addr;
     desc := {| ed_bLength := sizeof_usb_endpoint_descriptor_t;
                ed_bDescriptorType := USB_DT_ENDPOINT;
                bEndpointAddress := addr;
                ed_bmAttributes := attrs;
                wMaxPacketSize := mps;
                bInterval := interval |};
     pending_requests := [] |}.

Definition sample_device (id : Z) (s : usb_speed_t)
  (eps : list dwc_usb_endpoint_t) : dwc_usb_device_t :=
  {| speed := s; hub_address := 0; port := 1; device_id := id;
     endpoints := eps |}.

Definition sample_devices : list dwc_usb_device_t :=
  [sample_device 0 USB_SPEED_HIGH [sample_endpoint 0 USB_ENDPOINT_CONTROL 8 0];
   sample_device 1 USB_SPEED_HIGH
     [sample_endpoint 0 USB_ENDPOINT_CONTROL 64 0;
      sample_endpoint 129 USB_ENDPOINT_BULK 512 0]].

Definition sample_bulk_in : usb_request_t :=
  sample_usb_request 1 129 1024 no_setup 21 1024.

Definition sample_events : list event :=
  [EvRequestQueue (usb_req sample_get_device_descriptor) true;
   EvRootHubWorker sample_port_idle;
   EvRequestQueue (usb_req sample_intr_request) true;
   EvRootHubWorker sample_port_idle;
   EvPortIrq sample_port_attach].

Definition sample_final : dwc_usb_t :=
  Eval vm_compute in
    match @run spec_platform (dwc_init sample_devices) sample_events with
    | Some dwc => dwc
    | None => dwc_init []
    end.

Definition sample_thread : thread_state :=
  {| th_next_data_toggle := DWC_TOGGLE_DATA0; th_channel := 9;
     th_frame_overruns := 0 |}.


Definition sample_bulk_out_ep : dwc_usb_endpoint_t :=
  sample_endpoint 2 USB_ENDPOINT_BULK 512 0.



Definition sample_interrupts_none : dwc_host_channel_interrupts :=
  {| transfer_completed := false; channel_halted := true; ahb_error := false;
     stall_response_received := false; nak_response_received := false;
     ack_response_received := false; nyet_response_received := false;
     transaction_error := false; babble_error := false;
     frame_overrun := false; data_toggle_error := false;
     excess_transaction_error := false; frame_list_rollover := false |}.

Definition sample_interrupts_nak : dwc_host_channel_interrupts :=
  {| transfer_completed := false; channel_halted := true; ahb_error := false;
     stall_response_received := false; nak_response_received := true;
     ack_response_received := false; nyet_response_received := false;
     transaction_error := false; babble_error := false;
     frame_overrun := false; data_toggle_error := false;
     excess_transaction_error := false; frame_list_rollover := false |}.

Definition sample_interrupts_done : dwc_host_channel_interrupts :=
  {| transfer_completed := true; channel_halted := true; ahb_error := false;
     stall_response_received := false; nak_response_received := false;
     ack_response_received := true; nyet_response_received := false;
     transaction_error := false; babble_error := false;
     frame_overrun := false; data_toggle_error := false;
     excess_transaction_error := false; frame_list_rollover := false |}.

(** A high-speed interrupt IN endpoint with bInterval = 1. *)
Definition sample_intr_in_ep : dwc_usb_endpoint_t :=
  sample_endpoint 129 USB_ENDPOINT_INTERRUPT 8 1.

Definition sample_intr_in : dwc_usb_transfer_request_t :=
  new_request (sample_usb_request 1 129 8 no_setup 31 8) 6.

Definition sample_channel : dwc_host_channel :=
  {| characteristics :=
       {| max_packet_size := 8; endpoint_number := 1; endpoint_direction := 1;
          low_speed := false; endpoint_type := USB_ENDPOINT_INTERRUPT;
          packets_per_frame := 1; device_address := 1; odd_frame := 0;
          channel_enable := true |};
     split_control :=
       {| port_address := 0; sc_hub_address := 0; sc_complete_split := false;
          split_enable := false |};
     transfer := {| size := 8; packet_count := 1;
                    packet_id := DWC_TOGGLE_DATA0 |} |}.

Definition sample_ctrl_ep : dwc_usb_endpoint_t :=
  sample_endpoint 0 USB_ENDPOINT_CONTROL 64 0.

Definition sample_ctrl_dev : dwc_usb_device_t :=
  sample_device 1 USB_SPEED_HIGH [sample_ctrl_ep].

Definition sample_input : sched_input :=
  {| in_channel := 3;
     in_setup_req := sample_usb_request 0 0 0 no_setup 0 8;
     in_frame := 0 |}.

(** The channel halts with the transfer complete and nothing left to move. *)
Definition sample_halt_done : hw_response :=
  {| hw_interrupts := sample_interrupts_done;
     hw_transfer := {| size := 0; packet_count := 0;
                       packet_id := DWC_TOGGLE_DATA1 |};
     hw_next := sample_input |}.

(** GET_DESCRIPTOR(DEVICE) for 8 bytes, as the enumeration issues it. *)
Definition sample_ctrl_in : dwc_usb_transfer_request_t :=
  set_ctrl_phase
    (new_request
       (sample_usb_request 1 0 8 (get_descriptor_setup USB_DT_DEVICE 8) 40 64)
       7)
    CTRL_PHASE_SETUP.

(** A control request whose SETUP packet announces 8 bytes of data while the
    request itself carries none. *)
Definition sample_ctrl_mismatch : dwc_usb_transfer_request_t :=
  set_ctrl_phase
    (new_request
       (sample_usb_request 1 0 0 (get_descriptor_setup USB_DT_DEVICE 8) 41 64)
       8)
    CTRL_PHASE_SETUP.

Definition sample_ctrl_in_run : list action * run_end :=
  Eval vm_compute in
    @schedule_request spec_platform spec_pool sample_ctrl_ep sample_ctrl_dev
      sample_thread sample_ctrl_in sample_input
      [sample_halt_done; sample_halt_done; sample_halt_done].

Definition sample_ctrl_mismatch_run : list action * run_end :=
  Eval vm_compute in
    @schedule_request spec_platform spec_pool sample_ctrl_ep sample_ctrl_dev
      sample_thread sample_ctrl_mismatch sample_input
      [sample_halt_done; sample_halt_done].

Definition sample_intr_request_2 : dwc_usb_transfer_request_t :=
  new_request (sample_usb_request 0 129 4 no_setup 13 4) 6.

Definition sample_later_events : list event :=
  [EvPortIrq sample_port_attach;
   EvRequestQueue (usb_req sample_get_device_descriptor) true;
   EvRootHubWorker sample_port_idle;
   EvPortIrq sample_port_attach].

Definition sample_later : dwc_usb_t :=
  Eval vm_compute in
    match @run spec_platform
            (set_rh_intr_req sample_dwc_intr_pending (Some sample_intr_request_2))
            sample_later_events with
    | Some dwc => dwc
    | None => dwc_init []
    end.

(** ** Vocabulary of the further properties *)

(** The bit of [wPortChange] a CLEAR_FEATURE selector stands for. *)
Definition change_bit_of_feature (v : Z) : option Z :=
  if v =? USB_FEATURE_C_PORT_CONNECTION then Some 0
  else if v =? USB_FEATURE_C_PORT_ENABLE then Some 1
  else if v =? USB_FEATURE_C_PORT_SUSPEND then Some 2
  else if v =? USB_FEATURE_C_PORT_OVER_CURRENT then Some 3
  else if v =? USB_FEATURE_C_PORT_RESET then Some 4
  else None.

(** The root hub worker handling a batch of requests, one after the other. *)
Fixpoint process_root_hub_requests (regs_port : dwc_host_port_ctrlstatus)
  (dwc : dwc_usb_t) (reqs : list dwc_usb_transfer_request_t)
  : option dwc_usb_t :=
  match reqs with
  | [] => Some dwc
  | req :: rest =>
      match dwc_process_root_hub_request regs_port dwc req with
      | Some dwc' => process_root_hub_requests regs_port dwc' rest
      | None => None
      end
  end.

(** What the driver does to the port, in order: the writes of the port
    register and the sleeps. *)
Fixpoint port_activity (es : list effect) : list effect :=
  match es with
  | [] => []
  | WritePortCtrlStatus v :: t => WritePortCtrlStatus v :: port_activity t
  | Nanosleep ns :: t => Nanosleep ns :: port_activity t
  | _ :: t => port_activity t
  end.

(** The 16-bit value stored little-endian in the two bytes [lo], [hi]. *)
Definition u16_of_bytes (lo hi : Z) : Z := lo + 256 * hi.

Definition sample_class_setup (request value : Z) : usb_setup_t :=
  {| bmRequestType := Z.lor USB_TYPE_CLASS 3; bRequest := request;
     wValue := value; wIndex := 1; wLength := 4 |}.

Definition sample_class_request (request value cookie : Z)
  : dwc_usb_transfer_request_t :=
  new_request
    (sample_usb_request 0 0 4 (sample_class_setup request value) cookie 4) 20.

Definition sample_std_request (request value len cookie : Z)
  : dwc_usb_transfer_request_t :=
  new_request
    (sample_usb_request 0 0 len
       {| bmRequestType := USB_ENDPOINT_IN; bRequest := request;
          wValue := value; wIndex := 0; wLength := len |} cookie 64) 21.

Definition sample_port_enabled_only : dwc_host_port_ctrlstatus :=
  {| connected := true; connected_changed := false; enabled := true;
     enabled_changed := false; overcurrent := false;
     overcurrent_changed := false; suspended := false; reset := false;
     powered := true; port_speed := 0 |}.

(** The three CLEAR_FEATURE requests that acknowledge everything a port
    interrupt can report. *)
Definition sample_clear_all : list dwc_usb_transfer_request_t :=
  [sample_class_request USB_REQ_CLEAR_FEATURE USB_FEATURE_C_PORT_ENABLE 51;
   sample_class_request USB_REQ_CLEAR_FEATURE USB_FEATURE_C_PORT_CONNECTION 52;
   sample_class_request USB_REQ_CLEAR_FEATURE USB_FEATURE_C_PORT_OVER_CURRENT 53].

(** The fields of the port register that a write of the driver must leave
    alone or clear: the write-one-to-clear flags and the enable bit are
    written as zero, every other field but [reset] and [powered] is written
    back as it was read. *)
Definition port_write_ok (read written : dwc_host_port_ctrlstatus) : Prop :=
  enabled written = false /\
  connected_changed written = false /\
  enabled_changed written = false /\
  overcurrent_changed written = false /\
  connected written = connected read /\
  overcurrent written = overcurrent read /\
  suspended written = suspended read /\
  port_speed written = port_speed read.

(** From [dwc] to [dwc'] at most one completion is delivered, and it is the
    answer to [req]: the same upstream request, header and SETUP packet
    untouched, with status OK or NOT_SUPPORTED. *)
Definition answers_at_most_once (req : dwc_usb_transfer_request_t)
  (dwc dwc' : dwc_usb_t) : Prop :=
  exists l,
    completions (effects dwc') = completions (effects dwc) ++ l /\
    (List.length l <= 1)%nat /\
    forall r status actual,
      In (r, status, actual) l ->
      cookie r = cookie (usb_req req) /\
      header r = header (usb_req req) /\
      setup r = setup (usb_req req) /\
      (status = ZX_OK \/ status = ZX_ERR_NOT_SUPPORTED).

Definition sample_string_request (index len cookie : Z)
  : dwc_usb_transfer_request_t :=
  sample_std_request USB_REQ_GET_DESCRIPTOR
    (Z.lor (Z.shiftl USB_DT_STRING 8) index) len cookie.

(** The upstream stack submitting a batch of requests, one after the other,
    the allocator never failing. *)
Fixpoint queue_requests `{Platform} (dwc : dwc_usb_t)
  (usbs : list usb_request_t) : option dwc_usb_t :=
  match usbs with
  | [] => Some dwc
  | usb :: rest =>
      match dwc_request_queue dwc usb true with
      | Some dwc' => queue_requests dwc' rest
      | None => None
      end
  end.

(** The envelopes of a batch of requests, the first one numbered [id]. *)
Fixpoint envelopes (usbs : list usb_request_t) (id : Z)
  : list dwc_usb_transfer_request_t :=
  match usbs with
  | [] => []
  | usb :: rest => new_request usb id :: envelopes rest (u32 (id + 1))
  end.

(** How many envelopes of [l] carry the upstream request with cookie [c]. *)
Definition count_cookie (c : Z) (l : list dwc_usb_transfer_request_t) : nat :=
  List.length (filter (fun r => cookie (usb_req r) =? c) l).

Definition is_submission (c : Z) (e : event) : bool :=
  match e with
  | EvRequestQueue usb _ => cookie usb =? c
  | _ => false
  end.

(** How many times the upstream stack submits the request with cookie [c]. *)
Definition submissions (c : Z) (es : list event) : nat :=
  List.length (filter (is_submission c) es).

(** What the driver owes or has given for the request with cookie [c]: the
    completions delivered for it and the envelopes still carrying it. *)
Definition ledger (c : Z) (dwc : dwc_usb_t) : nat :=
  (List.length (delivered_to c (effects dwc)) +
   count_cookie c (live_requests dwc))%nat.

Definition sample_root_hub_batch : list usb_request_t :=
  [sample_usb_request 0 0 18 (get_descriptor_setup USB_DT_DEVICE 18) 61 18;
   sample_usb_request 0 1 2 no_setup 62 2;
   sample_usb_request 0 0 4 (clear_feature_setup USB_FEATURE_C_PORT_ENABLE) 63 4].

(** The channels the scheduler acquires, in order. *)
Fixpoint acquired (acts : list action) : list Z :=
  match acts with
  | [] => []
  | AcquireChannel ch :: t => ch :: acquired t
  | _ :: t => acquired t
  end.

(** What one channel-halt interrupt makes the scheduler do on [channel]:
    carry on with the transfer, put the request back at the head of the
    pending list, or release the channel and complete the request. *)
Definition turn_shape (channel : Z) (done : bool)
  (req : dwc_usb_transfer_request_t) (acts : list action) : Prop :=
  acquired acts = [] /\
  ((done = false /\ existsb is_ListAddHead acts = false /\
    completed_requests acts = [] /\ released acts = []) \/
   (done = true /\ existsb is_ListAddHead acts = true /\
    completed_requests acts = [] /\
    (released acts = [] \/ released acts = [channel])) \/
   (done = true /\
    exists status len,
      acts = [ReleaseChannel channel; CompleteRequest req status len])).

(** The endpoint is one on which every turn of the scheduler acquires a
    channel of its own: an interrupt endpoint, or a bulk endpoint of a
    high-speed device. *)
Definition channel_per_turn (ep : dwc_usb_endpoint_t) (dev : dwc_usb_device_t)
  : Prop :=
  usb_ep_type (desc ep) = USB_ENDPOINT_INTERRUPT \/
  (usb_ep_type (desc ep) = USB_ENDPOINT_BULK /\ speed dev = USB_SPEED_HIGH).

(** The channel halts on a NAK with the whole transfer still to do. *)
Definition sample_halt_nak : hw_response :=
  {| hw_interrupts := sample_interrupts_nak;
     hw_transfer := {| size := 8; packet_count := 1;
                       packet_id := DWC_TOGGLE_DATA0 |};
     hw_next := {| in_channel := 5;
                   in_setup_req := sample_usb_request 0 0 0 no_setup 0 8;
                   in_frame := 3 |} |}.

Definition sample_intr_dev : dwc_usb_device_t :=
  sample_device 1 USB_SPEED_HIGH [sample_ctrl_ep; sample_intr_in_ep].

(** [sample_ctrl_in] with a NAK in its SETUP phase and another in its DATA
    phase. *)
Definition sample_ctrl_nak_run : list action * run_end :=
  Eval vm_compute in
    @schedule_request spec_platform spec_pool sample_ctrl_ep sample_ctrl_dev
      sample_thread sample_ctrl_in sample_input
      [sample_halt_nak; sample_halt_done; sample_halt_nak; sample_halt_done;
       sample_halt_done].

Definition sample_intr_in_run : list action * run_end :=
  Eval vm_compute in
    @schedule_request spec_platform spec_pool sample_intr_in_ep sample_intr_dev
      sample_thread sample_intr_in sample_input
      [sample_halt_nak; sample_halt_done].

(** A bulk OUT endpoint of a full-speed device behind a hub. *)
Definition sample_full_speed_dev : dwc_usb_device_t :=
  {| speed := USB_SPEED_FULL; hub_address := 2; port := 1; device_id := 3;
     endpoints := [sample_endpoint 0 USB_ENDPOINT_CONTROL 8 0;
                   sample_endpoint 2 USB_ENDPOINT_BULK 64 0] |}.

Definition sample_full_speed_ep : dwc_usb_endpoint_t :=
  sample_endpoint 2 USB_ENDPOINT_BULK 64 0.

(** 100 bytes to send, of which the first transfer takes one packet of 64. *)
Definition sample_bulk_out_100 : dwc_usb_transfer_request_t :=
  new_request (sample_usb_request 3 2 100 no_setup 33 100) 9.

(** The envelope and the channel registers once the scheduler has started
    the first transfer of [sample_bulk_out_100] on channel 3. *)
Definition sample_short_attempt
  : dwc_usb_transfer_request_t * dwc_host_channel :=
  Eval vm_compute in
    match @start_request spec_platform sample_thread sample_bulk_out_100
            sample_full_speed_ep sample_full_speed_dev sample_input with
    | Some (_, req, Some hc, _) => (req, hc)
    | _ => (sample_bulk_out_100, sample_channel)
    end.

(** The halt reports a completed transfer and nothing else that
    [handle_channel_halted_interrupt] looks at before it hands over to
    [handle_normal_channel_halted]. *)
Definition is_completed_halt (interrupts : dwc_host_channel_interrupts)
  : bool :=
  negb (stall_response_received interrupts || ahb_error interrupts ||
        transaction_error interrupts || babble_error interrupts ||
        excess_transaction_error interrupts ||
        frame_list_rollover interrupts ||
        nyet_response_received interrupts ||
        data_toggle_error interrupts ||
        frame_overrun interrupts ||
        nak_response_received interrupts) &&
  transfer_completed interrupts.

Definition sample_high_speed_dev : dwc_usb_device_t :=
  sample_device 1 USB_SPEED_HIGH
    [sample_endpoint 0 USB_ENDPOINT_CONTROL 64 0;
     sample_endpoint 129 USB_ENDPOINT_BULK 512 0;
     sample_endpoint 2 USB_ENDPOINT_BULK 512 0].

(** A bulk IN request of 1024 bytes once its transfer is started. *)
Definition sample_bulk_in_started
  : dwc_usb_transfer_request_t * dwc_host_channel * list action :=
  Eval vm_compute in
    match @dwc_start_transfer spec_platform 0 3
            (new_request sample_bulk_in 10)
            (sample_endpoint 129 USB_ENDPOINT_BULK 512 0)
            sample_high_speed_dev with
    | Some x => x
    | None => (new_request sample_bulk_in 10, sample_channel, [])
    end.

(** The bulk IN endpoint of [sample_high_speed_dev], with bInterval 0, and
    the bulk IN request with a NAK before its transfer completes. *)
Definition sample_bulk_in_ep : dwc_usb_endpoint_t :=
  sample_endpoint 129 USB_ENDPOINT_BULK 512 0.

Definition sample_bulk_nak_run : list action * run_end :=
  Eval vm_compute in
    @schedule_request spec_platform spec_pool sample_bulk_in_ep
      sample_high_speed_dev sample_thread (new_request sample_bulk_in 10)
      sample_input [sample_halt_nak; sample_halt_done].

(** A bulk OUT request of 1000 bytes once its transfer is started. *)
Definition sample_bulk_out_1000 : dwc_usb_transfer_request_t :=
  new_request (sample_usb_request 1 2 1000 no_setup 34 1000) 11.

Definition sample_bulk_out_started
  : dwc_usb_transfer_request_t * dwc_host_channel * list action :=
  Eval vm_compute in
    match @dwc_start_transfer spec_platform 0 3 sample_bulk_out_1000
            sample_bulk_out_ep sample_high_speed_dev with
    | Some x => x
    | None => (sample_bulk_out_1000, sample_channel, [])
    end.

(** The constants of the pool fit each other: a channel number fits the
    32-bit word of free channels, and every bit of [ALL_CHANNELS_FREE] is the
    bit of a channel. *)
Definition pool_constants_ok `{ChannelPool} : Prop :=
  DWC_NUM_CHANNELS <= 32 /\
  forall i, Z.testbit ALL_CHANNELS_FREE i = true -> 0 <= i < DWC_NUM_CHANNELS.

(** None of the calls releases channel [c]. *)
Definition releases_only_others (c : Z) (ops : list pool_op) : Prop :=
  Forall (fun op => match op with
                    | PoolRelease ch => ch <> c
                    | PoolAcquire => True
                    end) ops.

(** The envelope [do_dwc_usb_request_queue] makes of [usb] in state [dwc],
    as [dwc_usb_request_queue_hw] appends it to a pending list. *)
Definition hw_envelope (dwc : dwc_usb_t) (usb : usb_request_t)
  : dwc_usb_transfer_request_t :=
  if h_ep_address (header usb) =? 0
  then set_ctrl_phase (new_request usb (DBG_reqid dwc)) CTRL_PHASE_SETUP
  else new_request usb (DBG_reqid dwc).

Definition sample_bulk_in_desc : usb_endpoint_descriptor_t :=
  desc (sample_endpoint 131 USB_ENDPOINT_BULK 512 0).

(** A platform whose root hub is not device 0, so that device 0 is the
    default device of the bus. *)
Definition sample_platform : Platform :=
  {| ROOT_HUB_DEVICE_ID := 127;
     MAX_DEVICE_COUNT := 128;
     PAGE_SIZE := 4096;
     transfer_size_bits := 19;
     packet_count_bits := 10;
     max_packet_size_bits := 11;
     endpoint_number_bits := 4;
     packets_per_frame_bits := 2;
     device_address_bits := 7;
     port_address_bits := 7;
     hub_address_bits := 7 |}.

Definition sample_bulk_in_131 : usb_request_t :=
  sample_usb_request 1 131 512 no_setup 35 512.

Definition sample_device_1 : dwc_usb_device_t :=
  sample_device 1 USB_SPEED_HIGH
    [sample_endpoint 0 USB_ENDPOINT_CONTROL 64 0;
     sample_endpoint 129 USB_ENDPOINT_BULK 512 0].

(** GET_DESCRIPTOR(DEVICE) for 8 bytes to the default device. *)
Definition sample_default_get_desc : usb_request_t :=
  sample_usb_request 0 0 8 (get_descriptor_setup USB_DT_DEVICE 8) 36 64.

Definition sample_default_created : dwc_usb_t :=
  set_usb_devices (dwc_init sample_devices)
    ({| speed := USB_SPEED_HIGH; hub_address := 0; port := 0; device_id := 0;
        endpoints := [new_endpoint default_ep0_desc] |} ::
     tl sample_devices).

(** Class GET_DESCRIPTOR with the given wValue and wIndex, for 64 bytes. *)
Definition sample_class_get_descriptor (value index cookie : Z)
  : dwc_usb_transfer_request_t :=
  new_request
    (sample_usb_request 0 0 64
       {| bmRequestType := Z.lor USB_ENDPOINT_IN USB_TYPE_CLASS;
          bRequest := USB_REQ_GET_DESCRIPTOR;
          wValue := value; wIndex := index; wLength := 64 |} cookie 64) 22.

(** The halt is handled by the NYET branch of
    [handle_channel_halted_interrupt]: a NYET response and nothing that the
    handler looks at before. *)
Definition is_nyet_halt (interrupts : dwc_host_channel_interrupts) : bool :=
  negb (stall_response_received interrupts || ahb_error interrupts ||
        transaction_error interrupts || babble_error interrupts ||
        excess_transaction_error interrupts ||
        frame_list_rollover interrupts ||
        data_toggle_error interrupts ||
        frame_overrun interrupts ||
        nak_response_received interrupts) &&
  nyet_response_received interrupts.

Definition sample_interrupts_nyet : dwc_host_channel_interrupts :=
  {| transfer_completed := false; channel_halted := true; ahb_error := false;
     stall_response_received := false; nak_response_received := false;
     ack_response_received := false; nyet_response_received := true;
     transaction_error := false; babble_error := false;
     frame_overrun := false; data_toggle_error := false;
     excess_transaction_error := false; frame_list_rollover := false |}.

(** A request in the complete-split half of a split transaction that has
    seen 7 NYET responses in a row. *)
Definition sample_complete_split : dwc_usb_transfer_request_t :=
  set_cspit_retries (set_complete_split (fst sample_short_attempt) true) 7.

(** The threads between the two critical sections after [es]. *)
Fixpoint sof_waiting (es : list sof_event) : Z :=
  match es with
  | [] => 0
  | SofBegin :: rest => 1 + sof_waiting rest
  | SofEnd :: rest => sof_waiting rest - 1
  end.

(** No thread leaves the wait that has not entered it. *)
Definition sof_bracketed (es : list sof_event) : Prop :=
  forall k, 0 <= sof_waiting (firstn k es).

Definition sof_idle : sof_gate := {| n_sof_waiters := 0; sof_intr := false |}.

(** The halt is handled by the frame overrun branch of
    [handle_channel_halted_interrupt]: a frame overrun and none of the
    errors the handler looks at before. *)
Definition is_overrun_halt (interrupts : dwc_host_channel_interrupts)
  : bool :=
  negb (stall_response_received interrupts || ahb_error interrupts ||
        transaction_error interrupts || babble_error interrupts ||
        excess_transaction_error interrupts ||
        frame_list_rollover interrupts ||
        nyet_response_received interrupts ||
        data_toggle_error interrupts) &&
  frame_overrun interrupts.

Definition sample_interrupts_overrun : dwc_host_channel_interrupts :=
  {| transfer_completed := false; channel_halted := true; ahb_error := false;
     stall_response_received := false; nak_response_received := false;
     ack_response_received := false; nyet_response_received := false;
     transaction_error := false; babble_error := false;
     frame_overrun := true; data_toggle_error := false;
     excess_transaction_error := false; frame_list_rollover := false |}.

(** The scheduler of [sample_ctrl_ep] in the DATA phase of [sample_ctrl_in]:
    the thread has acquired channel 3 for the SETUP phase, the SETUP
    transfer has completed and the DATA transfer is in flight. *)
Definition sample_ctrl_data_turn
  : thread_state * dwc_usb_transfer_request_t * dwc_host_channel :=
  Eval vm_compute in
    let idle := (sample_thread, sample_ctrl_in, sample_channel) in
    match @start_request spec_platform sample_thread sample_ctrl_in
            sample_ctrl_ep sample_ctrl_dev sample_input with
    | Some (th1, req1, Some hc1, _) =>
        match @handle_channel_halted_interrupt spec_pool 0 (th_channel th1)
                req1 sample_ctrl_ep sample_ctrl_dev sample_interrupts_done
                (set_transfer hc1 (hw_transfer sample_halt_done)) 0 with
        | Some (_, req2, _, _, _) =>
            match @start_request spec_platform th1 req2 sample_ctrl_ep
                    sample_ctrl_dev sample_input with
            | Some (th2, req3, Some hc3, _) => (th2, req3, hc3)
            | _ => idle
            end
        | None => idle
        end
    | _ => idle
    end.

Definition sample_ctrl_data_thread : thread_state :=
  fst (fst sample_ctrl_data_turn).

Definition sample_ctrl_data_req : dwc_usb_transfer_request_t :=
  snd (fst sample_ctrl_data_turn).

Definition sample_ctrl_data_channel : dwc_host_channel :=
  snd sample_ctrl_data_turn.

(** The thread taking [sample_ctrl_data_req] from the pending list again. *)
Definition sample_ctrl_data_restarted
  : thread_state * dwc_usb_transfer_request_t * option dwc_host_channel *
    list action :=
  Eval vm_compute in
    match @start_request spec_platform sample_ctrl_data_thread
            sample_ctrl_data_req sample_ctrl_ep sample_ctrl_dev
            sample_input with
    | Some x => x
    | None => (sample_thread, sample_ctrl_data_req, None, [])
    end.

(** * Properties *)

(** ** Basic facts *)

Lemma completions_app (a b : list effect) :
  completions (a ++ b) = completions a ++ completions b.
Proof.
  induction a as [|e a IH]; simpl; [reflexivity|].
  destruct e; simpl; rewrite IH; reflexivity.
Qed.

Lemma deallocations_app (a b : list effect) :
  deallocations (a ++ b) = deallocations a ++ deallocations b.
Proof.
  induction a as [|e a IH]; simpl; [reflexivity|].
  destruct e; simpl; rewrite IH; reflexivity.
Qed.

Lemma completions_complete_request req status len dwc :
  completions (effects (complete_request req status len dwc)) =
  completions (effects dwc) ++ [(usb_req req, status, len)].
Proof.
  unfold complete_request.
  destruct (setup_req req); simpl;
    destruct (FREE_REQ_CACHE_THRESHOLD <=? _); simpl;
    repeat rewrite completions_app; simpl;
    repeat rewrite <- app_assoc; simpl;
    try rewrite app_nil_r; reflexivity.
Qed.

Lemma root_port_status_complete_request req status len dwc :
  root_port_status (complete_request req status len dwc) = root_port_status dwc.
Proof.
  unfold complete_request.
  destruct (setup_req req); simpl;
    destruct (FREE_REQ_CACHE_THRESHOLD <=? _); reflexivity.
Qed.

Lemma copyto_payload r src len :
  len <= Z.of_nat (List.length (payload r)) ->
  payload (usb_request_copyto r src len) =
  firstn (Z.to_nat len) src ++ skipn (Z.to_nat len) (payload r).
Proof.
  intros Hlen. unfold usb_request_copyto. simpl.
  rewrite Z.min_l by exact Hlen. reflexivity.
Qed.

Lemma copyto_cookie r src len : cookie (usb_request_copyto r src len) = cookie r.
Proof. reflexivity. Qed.

(** ** Root hub descriptors *)

Lemma rh_device_descriptor_bytes :
  bytes_of_device_descriptor dwc_rh_descriptor =
  [18; 1; 0; 2; 9; 0; 1; 64; 209; 24; 2; 160; 0; 1; 1; 2; 0; 1].
Proof. reflexivity. Qed.

Lemma rh_config_descriptor_bytes :
  bytes_of_rh_config_descriptor dwc_rh_config_descriptor =
  [9; 2; 25; 0; 1; 1; 0; 224; 0;
   9; 4; 0; 0; 1; 9; 0; 0; 0;
   7; 5; 129; 3; 4; 0; 12].
Proof. reflexivity. Qed.

Lemma firstn_app_exact {A : Type} (n : nat) (a b : list A) :
  List.length a = n -> firstn n (a ++ b) = a.
Proof.
  intros <-. rewrite firstn_app, Nat.sub_diag, firstn_all. simpl.
  apply app_nil_r.
Qed.

(** C6: a standard GET_DESCRIPTOR(DEVICE) request to the root hub that asks
    for the whole descriptor is completed OK with exactly the 18 bytes of the
    USB 2.0 hub device descriptor (class HUB = 9, protocol 1,
    bMaxPacketSize0 = 64, vendor 0x18D1, product 0xA002, one configuration),
    and GET_DESCRIPTOR(CONFIG) with exactly the 25 bytes of the fused
    configuration, interface and endpoint descriptors (one HUB interface, one
    interrupt IN endpoint 1 with wMaxPacketSize 4 and bInterval 12,
    bmAttributes 0xE0, bMaxPower 0). *)
Theorem C6_root_hub_descriptors regs_port dwc req :
  is_root_hub_ctrl req USB_TYPE_STANDARD USB_REQ_GET_DESCRIPTOR ->
  wIndex (setup (usb_req req)) = 0 ->
  (Z.shiftr (wValue (setup (usb_req req))) 8 = USB_DT_DEVICE ->
   18 <= wLength (setup (usb_req req)) ->
   (18 <= List.length (payload (usb_req req)))%nat ->
   exists dwc' r',
     dwc_process_root_hub_request regs_port dwc req = Some dwc' /\
     completions (effects dwc') =
       completions (effects dwc) ++ [(r', ZX_OK, 18)] /\
     cookie r' = cookie (usb_req req) /\
     firstn 18 (payload r') =
       [18; 1; 0; 2; 9; 0; 1; 64; 209; 24; 2; 160; 0; 1; 1; 2; 0; 1]) /\
  (Z.shiftr (wValue (setup (usb_req req))) 8 = USB_DT_CONFIG ->
   25 <= wLength (setup (usb_req req)) ->
   (25 <= List.length (payload (usb_req req)))%nat ->
   exists dwc' r',
     dwc_process_root_hub_request regs_port dwc req = Some dwc' /\
     completions (effects dwc') =
       completions (effects dwc) ++ [(r', ZX_OK, 25)] /\
     cookie r' = cookie (usb_req req) /\
     firstn 25 (payload r') =
       [9; 2; 25; 0; 1; 1; 0; 224; 0;
        9; 4; 0; 0; 1; 9; 0; 0; 0;
        7; 5; 129; 3; 4; 0; 12]).
Proof.
  intros (Hep & Hty & Hrq) Hidx.
  assert (Hproc : dwc_process_root_hub_request regs_port dwc req =
                  Some (dwc_root_hub_get_descriptor req dwc)).
  { unfold dwc_process_root_hub_request, is_control_request.
    rewrite Hep. change (0 =? 0) with true. cbv iota.
    unfold dwc_process_root_hub_ctrl_req. rewrite Hty.
    change (USB_TYPE_STANDARD =? USB_TYPE_STANDARD) with true. cbv iota.
    unfold dwc_process_root_hub_std_req. rewrite Hrq. reflexivity. }
  split; intros Hv Hlen Hbuf.
  - assert (Hclamp : (sizeof_usb_device_descriptor_t <?
                      wLength (setup (usb_req req))) = true \/
                     wLength (setup (usb_req req)) = 18).
    { unfold sizeof_usb_device_descriptor_t.
      destruct (Z.ltb_spec 18 (wLength (setup (usb_req req)))); [left|right];
        [reflexivity | lia]. }
    eexists; eexists. split; [exact Hproc|].
    unfold dwc_root_hub_get_descriptor, le16toh. rewrite Hv, Hidx.
    change (u8 USB_DT_DEVICE =? USB_DT_DEVICE) with true.
    change (0 =? 0) with true. cbv [andb].
    assert (Hl : (if sizeof_usb_device_descriptor_t <?
                     wLength (setup (usb_req req))
                  then sizeof_usb_device_descriptor_t
                  else wLength (setup (usb_req req))) = 18).
    { destruct Hclamp as [-> | ->]; reflexivity. }
    rewrite Hl. rewrite completions_complete_request.
    split; [reflexivity|]. split; [reflexivity|].
    cbn [usb_req set_usb_req]. rewrite copyto_payload by lia.
    apply firstn_app_exact. reflexivity.
  - assert (Hclamp : (25 <? wLength (setup (usb_req req))) = true \/
                     wLength (setup (usb_req req)) = 25).
    { destruct (Z.ltb_spec 25 (wLength (setup (usb_req req)))); [left|right];
        [reflexivity | lia]. }
    eexists; eexists. split; [exact Hproc|].
    unfold dwc_root_hub_get_descriptor, le16toh. rewrite Hv, Hidx.
    change (u8 USB_DT_CONFIG =? USB_DT_DEVICE) with false.
    change (u8 USB_DT_CONFIG =? USB_DT_CONFIG) with true.
    change (0 =? 0) with true. cbv [andb].
    change (wTotalLength (config dwc_rh_config_descriptor)) with 25.
    assert (Hl : (if 25 <? wLength (setup (usb_req req))
                  then 25 else wLength (setup (usb_req req))) = 25).
    { destruct Hclamp as [-> | ->]; reflexivity. }
    rewrite Hl. rewrite completions_complete_request.
    split; [reflexivity|]. split; [reflexivity|].
    cbn [usb_req set_usb_req]. rewrite copyto_payload by lia.
    apply firstn_app_exact. reflexivity.
Qed.

Lemma C6_root_hub_descriptors_witness :
  (exists dwc' r',
     dwc_process_root_hub_request sample_port_idle (dwc_init [])
       sample_get_device_descriptor = Some dwc' /\
     completions (effects dwc') = [(r', ZX_OK, 18)] /\
     cookie r' = 7 /\
     firstn 18 (payload r') =
       [18; 1; 0; 2; 9; 0; 1; 64; 209; 24; 2; 160; 0; 1; 1; 2; 0; 1]) /\
  (exists dwc' r',
     dwc_process_root_hub_request sample_port_idle (dwc_init [])
       sample_get_config_descriptor = Some dwc' /\
     completions (effects dwc') = [(r', ZX_OK, 25)] /\
     cookie r' = 8 /\
     firstn 25 (payload r') =
       [9; 2; 25; 0; 1; 1; 0; 224; 0;
        9; 4; 0; 0; 1; 9; 0; 0; 0;
        7; 5; 129; 3; 4; 0; 12]).
Proof.
  split.
  - apply (proj1 (C6_root_hub_descriptors sample_port_idle (dwc_init [])
                    sample_get_device_descriptor
                    (conj eq_refl (conj eq_refl eq_refl)) eq_refl)).
    + reflexivity.
    + vm_compute. discriminate.
    + vm_compute. lia.
  - apply (proj2 (C6_root_hub_descriptors sample_port_idle (dwc_init [])
                    sample_get_config_descriptor
                    (conj eq_refl (conj eq_refl eq_refl)) eq_refl)).
    + reflexivity.
    + vm_compute. discriminate.
    + vm_compute. lia.
Defined.

(** ** Port status change notification *)

(** C2, as stated, fails: with an interrupt-in request stored in the slot, a
    port interrupt that reports a connection change completes the request
    with actual length 2, and delivers no completion of length 1. *)
Lemma C2_counterexample :
  let dwc' := dwc_handle_port_irq sample_port_attach sample_dwc_intr_pending in
  rh_intr_req sample_dwc_intr_pending = Some sample_intr_request /\
  wPortChange (root_port_status dwc') <> 0 /\
  (exists r', completions (effects dwc') = [(r', ZX_OK, 2)] /\
              payload r' = [2; 0; 0; 0]) /\
  ~ (exists r', In (r', ZX_OK, 1) (completions (effects dwc'))).
Proof.
  cbv zeta. split; [reflexivity|]. split; [vm_compute; discriminate|].
  split.
  - eexists. split; vm_compute; reflexivity.
  - intros [r' Hin]. vm_compute in Hin.
    destruct Hin as [Heq | []]. discriminate Heq.
Qed.

Lemma handle_port_irq_status hw dwc :
  root_port_status (dwc_handle_port_irq hw dwc) =
  root_port_status
    (set_root_port_status dwc
       (root_port_status (dwc_handle_port_irq hw (dwc_init [])))).
Proof.
  unfold dwc_handle_port_irq, dwc_complete_root_port_status_req.
  cbn [root_port_status set_root_port_status emit dwc_init rh_intr_req].
  destruct (negb _); [|reflexivity].
  destruct (rh_intr_req dwc); [|reflexivity].
  cbn [root_port_status set_rh_intr_req].
  rewrite root_port_status_complete_request. reflexivity.
Qed.

(** C2 (amended): whenever a port interrupt leaves wPortChange non-zero while
    a root-hub interrupt-in request is stored in rh_intr_req, that request is
    completed with status OK and actual length 2, its payload starts with the
    two bytes 0x02, 0x00 of the 16-bit value 0x0002, and the slot is
    emptied. *)
Theorem C2_port_change_completes_intr_req hw dwc req :
  rh_intr_req dwc = Some req ->
  wPortChange (root_port_status (dwc_handle_port_irq hw dwc)) <> 0 ->
  (2 <= List.length (payload (usb_req req)))%nat ->
  exists r',
    completions (effects (dwc_handle_port_irq hw dwc)) =
      completions (effects dwc) ++ [(r', ZX_OK, 2)] /\
    cookie r' = cookie (usb_req req) /\
    payload r' = 2 :: 0 :: skipn 2 (payload (usb_req req)) /\
    rh_intr_req (dwc_handle_port_irq hw dwc) = None.
Proof.
  intros Hslot Hchange Hbuf.
  rewrite handle_port_irq_status in Hchange.
  cbn [root_port_status set_root_port_status] in Hchange.
  unfold dwc_handle_port_irq in *.
  unfold dwc_complete_root_port_status_req in *.
  cbn [root_port_status set_root_port_status emit dwc_init rh_intr_req
       wPortChange] in *.
  destruct (Z.eqb_spec
    (or_if (overcurrent_changed hw)
       (or_if (enabled_changed hw)
          (or_if (connected_changed hw) 0 USB_C_PORT_CONNECTION)
          USB_C_PORT_ENABLE) USB_C_PORT_OVER_CURRENT) 0) as [E | E].
  - rewrite E in Hchange. cbn in Hchange. congruence.
  - cbn [negb]. rewrite Hslot.
    eexists. split; [|split; [|split]].
    + cbn [set_rh_intr_req effects].
      rewrite completions_complete_request.
      cbn [effects emit set_root_port_status].
      rewrite completions_app. cbn [completions].
      rewrite app_nil_r. reflexivity.
    + reflexivity.
    + cbn [usb_req set_usb_req]. rewrite copyto_payload by lia.
      reflexivity.
    + reflexivity.
Qed.

Lemma C2_port_change_completes_intr_req_witness :
  exists r',
    completions (effects (dwc_handle_port_irq sample_port_attach
                            sample_dwc_intr_pending)) =
      completions (effects sample_dwc_intr_pending) ++ [(r', ZX_OK, 2)] /\
    cookie r' = cookie (usb_req sample_intr_request) /\
    payload r' = 2 :: 0 :: skipn 2 (payload (usb_req sample_intr_request)) /\
    rh_intr_req (dwc_handle_port_irq sample_port_attach
                   sample_dwc_intr_pending) = None.
Proof.
  apply (C2_port_change_completes_intr_req sample_port_attach
           sample_dwc_intr_pending sample_intr_request).
  - reflexivity.
  - vm_compute. discriminate.
  - vm_compute. lia.
Defined.

(** ** Root hub CLEAR_FEATURE *)

Lemma testbit_above (c n i : Z) :
  0 <= c < 2 ^ n -> n <= i -> Z.testbit c i = false.
Proof.
  intros [Hc0 Hc] Hi.
  destruct (Z.eq_dec c 0) as [-> | Hnz]; [apply Z.bits_0|].
  apply Z.bits_above_log2; [lia|].
  assert (Z.log2 c < n) by (apply Z.log2_lt_pow2; lia). lia.
Qed.

Lemma clear_change_bits_spec (c k : Z) :
  0 <= c < 2 ^ 16 -> 0 <= k ->
  forall i, 0 <= i ->
    Z.testbit (clear_change_bits c (Z.shiftl 1 k)) i =
    Z.testbit c i && negb (i =? k).
Proof.
  intros Hc Hk i Hi. unfold clear_change_bits, u16, wrap.
  rewrite Z.shiftl_1_l.
  destruct (Z.lt_ge_cases i 16) as [Hlt | Hge].
  - rewrite Z.mod_pow2_bits_low by lia.
    rewrite Z.land_spec, Z.lnot_spec by lia.
    rewrite Z.pow2_bits_eqb by lia.
    rewrite (Z.eqb_sym k i). reflexivity.
  - rewrite Z.mod_pow2_bits_high by lia.
    rewrite (testbit_above c 16 i) by lia. reflexivity.
Qed.

(** C9: a class CLEAR_FEATURE(C_PORT_x) request to the root hub, x one of
    CONNECTION, ENABLE, SUSPEND, OVER_CURRENT, RESET, clears exactly the
    change bit of x in wPortChange, leaves wPortStatus as it is and is
    completed OK. *)
Theorem C9_clear_feature_clears_change_bit regs_port dwc req feature bit :
  In (feature, bit) change_features ->
  is_root_hub_ctrl req USB_TYPE_CLASS USB_REQ_CLEAR_FEATURE ->
  wValue (setup (usb_req req)) = feature ->
  0 <= wPortChange (root_port_status dwc) < 2 ^ 16 ->
  exists dwc',
    dwc_process_root_hub_request regs_port dwc req = Some dwc' /\
    (forall i, 0 <= i ->
       Z.testbit (wPortChange (root_port_status dwc')) i =
       Z.testbit (wPortChange (root_port_status dwc)) i && negb (i =? bit)) /\
    wPortStatus (root_port_status dwc') = wPortStatus (root_port_status dwc) /\
    completions (effects dwc') =
      completions (effects dwc) ++ [(usb_req req, ZX_OK, 0)].
Proof.
  intros Hin (Hep & Hty & Hrq) Hv Hrange.
  eexists. split.
  - unfold dwc_process_root_hub_request, is_control_request.
    rewrite Hep. change (0 =? 0) with true. cbv iota.
    unfold dwc_process_root_hub_ctrl_req. rewrite Hty.
    change (USB_TYPE_CLASS =? USB_TYPE_STANDARD) with false.
    change (USB_TYPE_CLASS =? USB_TYPE_CLASS) with true. cbv iota.
    unfold dwc_process_root_hub_class_req. rewrite Hrq.
    change (USB_REQ_CLEAR_FEATURE =? USB_REQ_GET_DESCRIPTOR) with false.
    change (USB_REQ_CLEAR_FEATURE =? USB_REQ_SET_FEATURE) with false.
    change (USB_REQ_CLEAR_FEATURE =? USB_REQ_CLEAR_FEATURE) with true.
    cbv iota. reflexivity.
  - rewrite completions_complete_request.
    rewrite root_port_status_complete_request.
    cbn [root_port_status set_root_port_status set_wPortChange wPortChange
         wPortStatus effects].
    split; [|split; reflexivity].
    unfold le16toh. rewrite Hv.
    unfold change_features in Hin. cbn [In] in Hin.
    intros i Hi.
    destruct Hin as [E | [E | [E | [E | [E | []]]]]];
      injection E as <- <-;
      cbv [Z.eqb USB_FEATURE_C_PORT_CONNECTION USB_FEATURE_C_PORT_ENABLE
           USB_FEATURE_C_PORT_SUSPEND USB_FEATURE_C_PORT_OVER_CURRENT
           USB_FEATURE_C_PORT_RESET Pos.eqb];
      unfold USB_C_PORT_CONNECTION, USB_C_PORT_ENABLE, USB_PORT_SUSPEND,
        USB_C_PORT_OVER_CURRENT, USB_C_PORT_RESET;
      apply clear_change_bits_spec; lia.
Qed.

Lemma C9_clear_feature_clears_change_bit_witness :
  exists dwc',
    dwc_process_root_hub_request sample_port_idle sample_dwc_changes
      sample_clear_c_port_suspend = Some dwc' /\
    (forall i, 0 <= i ->
       Z.testbit (wPortChange (root_port_status dwc')) i =
       Z.testbit 31 i && negb (i =? 2)) /\
    wPortStatus (root_port_status dwc') = 1287 /\
    completions (effects dwc') =
      [(usb_req sample_clear_c_port_suspend, ZX_OK, 0)].
Proof.
  apply (C9_clear_feature_clears_change_bit sample_port_idle
           sample_dwc_changes sample_clear_c_port_suspend
           USB_FEATURE_C_PORT_SUSPEND 2).
  - simpl. right. right. left. reflexivity.
  - split; [reflexivity | split; reflexivity].
  - reflexivity.
  - simpl. lia.
Defined.

(** ** Unserved root hub requests *)

Lemma get_descriptor_unserved req dwc :
  0 <= wValue (setup (usb_req req)) < 2 ^ 16 ->
  Z.shiftr (wValue (setup (usb_req req))) 8 <> USB_DT_DEVICE ->
  Z.shiftr (wValue (setup (usb_req req))) 8 <> USB_DT_CONFIG ->
  Z.shiftr (wValue (setup (usb_req req))) 8 <> USB_DT_STRING ->
  dwc_root_hub_get_descriptor req dwc = dwc.
Proof.
  intros Hrange Hd Hc Hs. unfold dwc_root_hub_get_descriptor, le16toh.
  assert (Hu : u8 (Z.shiftr (wValue (setup (usb_req req))) 8) =
               Z.shiftr (wValue (setup (usb_req req))) 8).
  { unfold u8, wrap. apply Z.mod_small.
    rewrite Z.shiftr_div_pow2 by lia. split.
    - apply Z.div_pos; lia.
    - apply Z.div_lt_upper_bound; lia. }
  rewrite Hu.
  destruct (Z.eqb_spec (Z.shiftr (wValue (setup (usb_req req))) 8)
              USB_DT_DEVICE); [contradiction|].
  destruct (Z.eqb_spec (Z.shiftr (wValue (setup (usb_req req))) 8)
              USB_DT_CONFIG); [contradiction|].
  destruct (Z.eqb_spec (Z.shiftr (wValue (setup (usb_req req))) 8)
              USB_DT_STRING); [contradiction|].
  reflexivity.
Qed.

(** C8 (the code at the failing input): a standard GET_DESCRIPTOR to the
    root hub for a descriptor type other than DEVICE, CONFIG and STRING
    leaves the driver as it was: no completion is delivered, with
    NOT_SUPPORTED or any other status, and the request is kept nowhere. *)
Theorem C8_unserved_descriptor_type_not_completed :
  is_root_hub_ctrl sample_get_device_qualifier USB_TYPE_STANDARD
    USB_REQ_GET_DESCRIPTOR /\
  dwc_process_root_hub_request sample_port_idle (dwc_init [])
    sample_get_device_qualifier = Some (dwc_init []) /\
  completions (effects (dwc_init [])) = [].
Proof.
  split; [|split].
  - split; [reflexivity | split; reflexivity].
  - vm_compute. reflexivity.
  - reflexivity.
Qed.

(** ** Request queue facade *)

Lemma list_add_tail_pending_first pre ep post addr req :
  Forall (fun e => ep_address e <> addr) pre ->
  ep_address ep = addr ->
  list_add_tail_pending (pre ++ ep :: post) addr req =
  Some (pre ++ set_pending_requests ep (pending_requests ep ++ [req]) :: post).
Proof.
  intros Hpre Hep. induction Hpre as [|e pre Hne _ IH]; simpl.
  - rewrite Hep, Z.eqb_refl. reflexivity.
  - destruct (Z.eqb_spec (ep_address e) addr); [contradiction|].
    rewrite IH. reflexivity.
Qed.

Lemma nth_error_replace_nth_eq {A : Type} (l : list A) n x y :
  nth_error l n = Some y -> nth_error (replace_nth n l x) n = Some x.
Proof.
  revert n. induction l as [|h t IH]; intros [|n] Hn; simpl in *;
    try discriminate; [reflexivity | apply IH; exact Hn].
Qed.

Lemma nth_error_replace_nth_ne {A : Type} (l : list A) n m x :
  n <> m -> nth_error (replace_nth n l x) m = nth_error l m.
Proof.
  revert n m. induction l as [|h t IH]; intros [|n] [|m] Hne; simpl;
    try reflexivity; [contradiction | apply IH; congruence].
Qed.

Lemma get_free_request_consistent dwc calloc_ok :
  free_req_count dwc = Z.of_nat (List.length (free_reqs dwc)) ->
  get_free_request dwc calloc_ok =
  match free_reqs dwc with
  | [] => Some (calloc_ok, dwc)
  | _ :: rest => Some (true, set_free_list dwc rest (free_req_count dwc - 1))
  end.
Proof.
  intros Hc. unfold get_free_request.
  destruct (free_reqs dwc); [|reflexivity].
  rewrite Hc. reflexivity.
Qed.

(** C4: a request submitted through request_queue whose length exceeds one
    page is completed at once with INVALID_ARGS and queued nowhere;
    otherwise, when the free cache is empty and the allocation fails, it is
    completed with NO_MEMORY; otherwise it is appended to the root hub queue
    when its device id is that of the root hub, and to the pending list of
    the first endpoint of its device with its endpoint address when not. *)
Theorem C4_request_queue_routing `{Platform} dwc usb calloc_ok :
  free_req_count dwc = Z.of_nat (List.length (free_reqs dwc)) ->
  (PAGE_SIZE < h_length (header usb) ->
   dwc_request_queue dwc usb calloc_ok =
   Some (emit (UsbRequestComplete usb ZX_ERR_INVALID_ARGS 0) dwc)) /\
  (h_length (header usb) <= PAGE_SIZE ->
   free_reqs dwc = [] -> calloc_ok = false ->
   dwc_request_queue dwc usb calloc_ok =
   Some (emit (UsbRequestComplete usb ZX_ERR_NO_MEMORY 0) dwc)) /\
  (h_length (header usb) <= PAGE_SIZE ->
   free_reqs dwc <> [] \/ calloc_ok = true ->
   h_device_id (header usb) = ROOT_HUB_DEVICE_ID ->
   exists dwc' req,
     dwc_request_queue dwc usb calloc_ok = Some dwc' /\
     usb_req req = usb /\
     rh_req_head dwc' = rh_req_head dwc ++ [req] /\
     usb_devices dwc' = usb_devices dwc /\
     rh_intr_req dwc' = rh_intr_req dwc /\
     effects dwc' = effects dwc) /\
  (h_length (header usb) <= PAGE_SIZE ->
   free_reqs dwc <> [] \/ calloc_ok = true ->
   h_device_id (header usb) <> ROOT_HUB_DEVICE_ID ->
   0 <= h_device_id (header usb) < MAX_DEVICE_COUNT ->
   forall dev pre ep post,
     nth_error (usb_devices dwc) (Z.to_nat (h_device_id (header usb))) =
       Some dev ->
     endpoints dev = pre ++ ep :: post ->
     Forall (fun e => ep_address e <> h_ep_address (header usb)) pre ->
     ep_address ep = h_ep_address (header usb) ->
     exists dwc' req dev',
       dwc_request_queue dwc usb calloc_ok = Some dwc' /\
       usb_req req = usb /\
       nth_error (usb_devices dwc') (Z.to_nat (h_device_id (header usb))) =
         Some dev' /\
       endpoints dev' =
         pre ++ set_pending_requests ep (pending_requests ep ++ [req]) :: post /\
       (forall j, j <> Z.to_nat (h_device_id (header usb)) ->
          nth_error (usb_devices dwc') j = nth_error (usb_devices dwc) j) /\
       rh_req_head dwc' = rh_req_head dwc /\
       rh_intr_req dwc' = rh_intr_req dwc /\
       effects dwc' = effects dwc).
Proof.
  intros Hc.
  assert (Hsmall : h_length (header usb) <= PAGE_SIZE ->
            dwc_request_queue dwc usb calloc_ok =
            do_dwc_usb_request_queue dwc usb calloc_ok).
  { intros Hl. unfold dwc_request_queue, dwc_get_max_transfer_size.
    destruct (Z.ltb_spec PAGE_SIZE (h_length (header usb))); [lia|].
    reflexivity. }
  assert (Hget : free_reqs dwc <> [] \/ calloc_ok = true ->
            exists dwc1,
              get_free_request dwc calloc_ok = Some (true, dwc1) /\
              usb_devices dwc1 = usb_devices dwc /\
              rh_req_head dwc1 = rh_req_head dwc /\
              rh_intr_req dwc1 = rh_intr_req dwc /\
              effects dwc1 = effects dwc).
  { intros Hav. rewrite (get_free_request_consistent _ _ Hc).
    destruct (free_reqs dwc) as [|r rest].
    - destruct Hav as [Hne | ->]; [congruence|].
      exists dwc. repeat split; reflexivity.
    - eexists. repeat split; reflexivity. }
  split; [|split; [|split]].
  - intros Hbig. unfold dwc_request_queue, dwc_get_max_transfer_size.
    destruct (Z.ltb_spec PAGE_SIZE (h_length (header usb))); [|lia].
    reflexivity.
  - intros Hl Hempty ->. rewrite (Hsmall Hl).
    unfold do_dwc_usb_request_queue.
    rewrite (get_free_request_consistent _ _ Hc), Hempty. reflexivity.
  - intros Hl Hav Hrh. rewrite (Hsmall Hl).
    destruct (Hget Hav) as (dwc1 & Hg & Hd & Hq & Hs & He).
    unfold do_dwc_usb_request_queue. rewrite Hg.
    unfold is_roothub_request. cbn [usb_req new_request].
    rewrite Hrh, Z.eqb_refl.
    eexists; eexists. split; [reflexivity|].
    cbn. rewrite Hd, Hq, Hs, He. repeat split; reflexivity.
  - intros Hl Hav Hrh Hid dev pre ep post Hdev Heps Hpre Hep.
    rewrite (Hsmall Hl).
    destruct (Hget Hav) as (dwc1 & Hg & Hd & Hq & Hs & He).
    unfold do_dwc_usb_request_queue. rewrite Hg.
    unfold is_roothub_request. cbn [usb_req new_request].
    destruct (Z.eqb_spec (h_device_id (header usb)) ROOT_HUB_DEVICE_ID);
      [contradiction|].
    unfold dwc_usb_request_queue_hw. cbn [usb_req new_request].
    destruct (Z.ltb_spec (h_device_id (header usb)) MAX_DEVICE_COUNT); [|lia].
    cbn [negb set_DBG_reqid usb_devices]. rewrite Hd, Hdev, Heps.
    rewrite (list_add_tail_pending_first pre ep post _ _ Hpre Hep).
    eexists.
    exists (if h_ep_address (header usb) =? 0
            then set_ctrl_phase (new_request usb (DBG_reqid dwc1))
                   CTRL_PHASE_SETUP
            else new_request usb (DBG_reqid dwc1)).
    eexists. split; [reflexivity|].
    cbn [usb_devices set_usb_devices rh_req_head rh_intr_req effects
         set_DBG_reqid].
    split; [|split; [|split; [|split; [|split; [|split]]]]].
    + destruct (h_ep_address (header usb) =? 0); reflexivity.
    + apply (nth_error_replace_nth_eq _ _ _ dev). exact Hdev.
    + reflexivity.
    + intros j Hj. rewrite nth_error_replace_nth_ne by congruence.
      reflexivity.
    + exact Hq.
    + exact Hs.
    + exact He.
Qed.

Lemma C4_request_queue_routing_witness :
  exists dwc' req dev',
    @dwc_request_queue spec_platform (dwc_init sample_devices) sample_bulk_in
      true = Some dwc' /\
    usb_req req = sample_bulk_in /\
    nth_error (usb_devices dwc') 1 = Some dev' /\
    endpoints dev' =
      [sample_endpoint 0 USB_ENDPOINT_CONTROL 64 0] ++
      set_pending_requests (sample_endpoint 129 USB_ENDPOINT_BULK 512 0)
        ([] ++ [req]) :: [] /\
    (forall j, j <> 1%nat ->
       nth_error (usb_devices dwc') j = nth_error sample_devices j) /\
    rh_req_head dwc' = [] /\
    rh_intr_req dwc' = None /\
    effects dwc' = [].
Proof.
  assert (Hcache : free_req_count (dwc_init sample_devices) =
                   Z.of_nat (List.length (free_reqs (dwc_init sample_devices))))
    by reflexivity.
  destruct (@C4_request_queue_routing spec_platform (dwc_init sample_devices)
              sample_bulk_in true Hcache) as (_ & _ & _ & Hhw).
  apply (Hhw ltac:(vm_compute; discriminate) (or_intror eq_refl)
             ltac:(vm_compute; discriminate)
             ltac:(vm_compute; split; [discriminate | reflexivity])
             (sample_device 1 USB_SPEED_HIGH
                [sample_endpoint 0 USB_ENDPOINT_CONTROL 64 0;
                 sample_endpoint 129 USB_ENDPOINT_BULK 512 0])
             [sample_endpoint 0 USB_ENDPOINT_CONTROL 64 0]
             (sample_endpoint 129 USB_ENDPOINT_BULK 512 0) []
             eq_refl eq_refl).
  - constructor; [vm_compute; discriminate | constructor].
  - reflexivity.
Defined.

(** ** Free-request cache *)

Lemma cache_bounded_ext dwc dwc' :
  free_reqs dwc' = free_reqs dwc ->
  free_req_count dwc' = free_req_count dwc ->
  cache_bounded dwc -> cache_bounded dwc'.
Proof. unfold cache_bounded. intros -> ->. exact (fun x => x). Qed.

Lemma complete_request_cache req status len dwc :
  if FREE_REQ_CACHE_THRESHOLD <=? free_req_count dwc
  then free_reqs (complete_request req status len dwc) = free_reqs dwc /\
       free_req_count (complete_request req status len dwc) =
         free_req_count dwc /\
       deallocations (effects (complete_request req status len dwc)) =
         deallocations (effects dwc) ++ [req]
  else free_reqs (complete_request req status len dwc) =
         free_reqs dwc ++ [req] /\
       free_req_count (complete_request req status len dwc) =
         free_req_count dwc + 1 /\
       deallocations (effects (complete_request req status len dwc)) =
         deallocations (effects dwc).
Proof.
  unfold complete_request.
  destruct (setup_req req); cbn [emit free_req_count free_reqs effects];
    destruct (FREE_REQ_CACHE_THRESHOLD <=? free_req_count dwc);
    cbn [emit set_free_list free_req_count free_reqs effects];
    repeat rewrite deallocations_app; cbn [deallocations];
    repeat rewrite app_nil_r; repeat split; reflexivity.
Qed.

Lemma complete_request_bounded req status len dwc :
  cache_bounded dwc -> cache_bounded (complete_request req status len dwc).
Proof.
  intros [Hc Hb]. pose proof (complete_request_cache req status len dwc) as Hs.
  unfold cache_bounded.
  destruct (Z.leb_spec FREE_REQ_CACHE_THRESHOLD (free_req_count dwc)).
  - destruct Hs as (-> & -> & _). split; assumption.
  - destruct Hs as (-> & -> & _). rewrite length_app. cbn [List.length].
    split; lia.
Qed.

Lemma get_free_request_bounded dwc calloc_ok b dwc' :
  cache_bounded dwc ->
  get_free_request dwc calloc_ok = Some (b, dwc') -> cache_bounded dwc'.
Proof.
  intros [Hc Hb]. unfold get_free_request.
  destruct (free_reqs dwc) as [|r rest] eqn:E.
  - destruct (free_req_count dwc =? 0); [|discriminate].
    intros [= _ <-]. unfold cache_bounded. rewrite E. split; assumption.
  - intros [= _ <-]. unfold cache_bounded. cbn. cbn in Hc. split; lia.
Qed.

Lemma get_descriptor_bounded req dwc :
  cache_bounded dwc -> cache_bounded (dwc_root_hub_get_descriptor req dwc).
Proof.
  intros Hb. unfold dwc_root_hub_get_descriptor.
  repeat match goal with
         | |- cache_bounded (if ?b then _ else _) => destruct b
         end;
    try apply complete_request_bounded; exact Hb.
Qed.

Lemma class_req_bounded regs_port req dwc :
  cache_bounded dwc ->
  cache_bounded (dwc_process_root_hub_class_req regs_port req dwc).
Proof.
  intros Hb. unfold dwc_process_root_hub_class_req, dwc_host_port_set_feature.
  repeat match goal with
         | |- cache_bounded (if ?b then _ else _) => destruct b
         | |- cache_bounded (let '(_, _) := if ?b then _ else _ in _) =>
             destruct b
         end;
    try apply complete_request_bounded; exact Hb.
Qed.

Lemma root_port_status_req_bounded dwc :
  cache_bounded dwc -> cache_bounded (dwc_complete_root_port_status_req dwc).
Proof.
  intros Hb. unfold dwc_complete_root_port_status_req.
  destruct (negb _); [|exact Hb].
  destruct (rh_intr_req dwc); [|exact Hb].
  apply (cache_bounded_ext (complete_request
           (set_usb_req d (usb_request_copyto (usb_req d) (bytes_of_u16 2) 2))
           ZX_OK 2 dwc)); try reflexivity.
  apply complete_request_bounded. exact Hb.
Qed.

Lemma process_root_hub_request_bounded regs_port dwc req dwc' :
  cache_bounded dwc ->
  dwc_process_root_hub_request regs_port dwc req = Some dwc' ->
  cache_bounded dwc'.
Proof.
  intros Hb. unfold dwc_process_root_hub_request.
  destruct (is_control_request req).
  - unfold dwc_process_root_hub_ctrl_req, dwc_process_root_hub_std_req.
    repeat match goal with
           | |- (if ?b then _ else _) = _ -> _ => destruct b
           end;
      intros [= <-];
      repeat match goal with
             | |- cache_bounded (if ?b then _ else _) => destruct b
             end;
      try apply complete_request_bounded;
      try apply get_descriptor_bounded;
      try apply class_req_bounded; exact Hb.
  - intros [= <-]. apply root_port_status_req_bounded. exact Hb.
Qed.

Lemma request_queue_bounded `{Platform} dwc usb calloc_ok dwc' :
  cache_bounded dwc ->
  dwc_request_queue dwc usb calloc_ok = Some dwc' -> cache_bounded dwc'.
Proof.
  intros Hb. unfold dwc_request_queue.
  destruct (_ <? _); [intros [= <-]; exact Hb|].
  unfold do_dwc_usb_request_queue.
  destruct (get_free_request dwc calloc_ok) as [[[|] dwc1]|] eqn:Hg;
    [| |discriminate].
  - pose proof (get_free_request_bounded _ _ _ _ Hb Hg) as Hb1.
    destruct (is_roothub_request _); [intros [= <-]; exact Hb1|].
    unfold dwc_usb_request_queue_hw.
    destruct (negb _); [discriminate|].
    destruct (nth_error _ _); [|discriminate].
    destruct (list_add_tail_pending _ _ _); [|discriminate].
    intros [= <-]. exact Hb1.
  - intros [= <-]. exact (get_free_request_bounded _ _ _ _ Hb Hg).
Qed.

Lemma step_bounded `{Platform} dwc e dwc' :
  cache_bounded dwc -> step dwc e = Some dwc' -> cache_bounded dwc'.
Proof.
  intros Hb. destruct e as [usb ok | regs_port | hw | d i status len];
    cbn [step].
  - apply request_queue_bounded. exact Hb.
  - unfold dwc_root_hub_req_worker_step.
    destruct (rh_req_head dwc) as [|req rest]; [intros [= <-]; exact Hb|].
    apply process_root_hub_request_bounded. exact Hb.
  - intros [= <-]. unfold dwc_handle_port_irq.
    apply root_port_status_req_bounded. exact Hb.
  - unfold endpoint_done.
    destruct (nth_error (usb_devices dwc) d); [|intros [= <-]; exact Hb].
    destruct (nth_error _ i) as [ep|]; [|intros [= <-]; exact Hb].
    destruct (pending_requests ep); intros [= <-]; [exact Hb|].
    apply complete_request_bounded. exact Hb.
Qed.

Lemma run_bounded `{Platform} es : forall dwc dwc',
  cache_bounded dwc -> run dwc es = Some dwc' -> cache_bounded dwc'.
Proof.
  induction es as [|e es IH]; intros dwc dwc' Hb; cbn [run].
  - intros [= <-]. exact Hb.
  - destruct (step dwc e) as [dwc1|] eqn:Hs; [|discriminate].
    apply IH. exact (step_bounded _ _ _ Hb Hs).
Qed.

(** C7: in every state the driver reaches from its initial state, the
    free-request cache holds as many envelopes as its counter says and never
    more than FREE_REQ_CACHE_THRESHOLD = 1024; a request completion in such a
    state deallocates the envelope when the cache already holds the
    threshold, and otherwise appends it to the cache and increments the
    counter. *)
Theorem C7_free_request_cache_bounded `{Platform} devices es dwc :
  run (dwc_init devices) es = Some dwc ->
  FREE_REQ_CACHE_THRESHOLD = 1024 /\
  free_req_count dwc = Z.of_nat (List.length (free_reqs dwc)) /\
  Z.of_nat (List.length (free_reqs dwc)) <= FREE_REQ_CACHE_THRESHOLD /\
  forall req status len,
    if FREE_REQ_CACHE_THRESHOLD <=? Z.of_nat (List.length (free_reqs dwc))
    then free_reqs (complete_request req status len dwc) = free_reqs dwc /\
         free_req_count (complete_request req status len dwc) =
           free_req_count dwc /\
         deallocations (effects (complete_request req status len dwc)) =
           deallocations (effects dwc) ++ [req]
    else free_reqs (complete_request req status len dwc) =
           free_reqs dwc ++ [req] /\
         free_req_count (complete_request req status len dwc) =
           free_req_count dwc + 1 /\
         deallocations (effects (complete_request req status len dwc)) =
           deallocations (effects dwc).
Proof.
  intros Hrun.
  assert (Hinit : cache_bounded (dwc_init devices)).
  { unfold cache_bounded. cbn. unfold FREE_REQ_CACHE_THRESHOLD. lia. }
  destruct (run_bounded es _ _ Hinit Hrun) as [Hc Hb].
  split; [reflexivity|]. split; [exact Hc|]. split; [lia|].
  intros req status len. rewrite <- Hc.
  apply complete_request_cache.
Qed.

Lemma C7_free_request_cache_bounded_witness :
  FREE_REQ_CACHE_THRESHOLD = 1024 /\
  free_req_count sample_final =
    Z.of_nat (List.length (free_reqs sample_final)) /\
  Z.of_nat (List.length (free_reqs sample_final)) <=
    FREE_REQ_CACHE_THRESHOLD /\
  forall req status len,
    if FREE_REQ_CACHE_THRESHOLD <=?
       Z.of_nat (List.length (free_reqs sample_final))
    then free_reqs (complete_request req status len sample_final) =
           free_reqs sample_final /\
         free_req_count (complete_request req status len sample_final) =
           free_req_count sample_final /\
         deallocations (effects (complete_request req status len sample_final)) =
           deallocations (effects sample_final) ++ [req]
    else free_reqs (complete_request req status len sample_final) =
           free_reqs sample_final ++ [req] /\
         free_req_count (complete_request req status len sample_final) =
           free_req_count sample_final + 1 /\
         deallocations (effects (complete_request req status len sample_final)) =
           deallocations (effects sample_final).
Proof.
  apply (@C7_free_request_cache_bounded spec_platform sample_devices
           sample_events sample_final).
  vm_compute. reflexivity.
Defined.

(** ** Packet count of a transfer *)

Lemma DIV_ROUND_UP_ceil (n d : Z) :
  0 < d -> is_ceil_div n d (DIV_ROUND_UP n d).
Proof.
  intros Hd. unfold is_ceil_div, DIV_ROUND_UP.
  pose proof (Z.div_mod (n + d - 1) d ltac:(lia)) as Hdm.
  pose proof (Z.mod_pos_bound (n + d - 1) d Hd) as Hr.
  nia.
Qed.

Lemma is_ceil_div_unique (n d q q' : Z) :
  0 < d -> is_ceil_div n d q -> is_ceil_div n d q' -> q = q'.
Proof. unfold is_ceil_div. intros Hd H1 H2. nia. Qed.

Lemma transfer_packet_count_fit `{Platform} (size mps : Z) (zlp : bool) :
  0 < mps -> 0 <= size ->
  (if size =? 0 then 1
   else DIV_ROUND_UP size mps +
        (if zlp && (size mod mps =? 0) then 1 else 0))
    < 2 ^ packet_count_bits ->
  transfer_packet_count size mps zlp =
  if size =? 0 then 1
  else DIV_ROUND_UP size mps +
       (if zlp && (size mod mps =? 0) then 1 else 0).
Proof.
  intros Hd Hn.
  pose proof (DIV_ROUND_UP_ceil size mps Hd) as Hq.
  unfold is_ceil_div in Hq.
  assert (Hq0 : 0 <= DIV_ROUND_UP size mps) by nia.
  unfold transfer_packet_count, wrap.
  destruct (Z.eqb_spec size 0) as [-> | Hnz].
  - intros _. assert (E : DIV_ROUND_UP 0 mps = 0) by nia. rewrite E.
    rewrite Zmod_0_l. reflexivity.
  - assert (E : DIV_ROUND_UP size mps <> 0) by nia.
    destruct (zlp && (size mod mps =? 0)); intros Hfit.
    + rewrite (Z.mod_small (DIV_ROUND_UP size mps)) by lia.
      destruct (Z.eqb_spec (DIV_ROUND_UP size mps) 0); [contradiction|].
      apply Z.mod_small. lia.
    + rewrite (Z.mod_small (DIV_ROUND_UP size mps)) by lia.
      destruct (Z.eqb_spec (DIV_ROUND_UP size mps) 0); [contradiction|].
      lia.
Qed.

Lemma transfer_packet_count_spec `{Platform} (size mps : Z) (zlp : bool) :
  0 < mps -> 0 <= size ->
  DIV_ROUND_UP size mps + 1 < 2 ^ packet_count_bits ->
  transfer_packet_count size mps zlp =
  if size =? 0 then 1
  else DIV_ROUND_UP size mps +
       (if zlp && (size mod mps =? 0) then 1 else 0).
Proof.
  intros Hd Hn Hfit. apply transfer_packet_count_fit; try assumption.
  pose proof (DIV_ROUND_UP_ceil size mps Hd) as Hq.
  unfold is_ceil_div in Hq.
  destruct (size =? 0); [nia|].
  destruct (zlp && (size mod mps =? 0)); lia.
Qed.

Lemma start_transfer_registers `{Platform} frame chan req ep dev req' hc acts :
  dwc_start_transfer frame chan req ep dev = Some (req', hc, acts) ->
  packet_count (transfer hc) =
    transfer_packet_count (size (transfer hc))
      (max_packet_size (characteristics hc))
      (h_send_zlp (header (usb_req req))) /\
  packets_queued req' = packet_count (transfer hc) /\
  bytes_queued req' = size (transfer hc) /\
  total_bytes_queued req' = size (transfer hc) /\
  ctrl_phase req' = ctrl_phase req /\
  usb_req req' = usb_req req /\
  bytes_transferred req' = bytes_transferred req /\
  started_phases acts = [(ctrl_phase req, packet_id (transfer hc))] /\
  completed_ok acts = [].
Proof.
  unfold dwc_start_transfer.
  match goal with
  | |- match ?pv with _ => _ end = _ -> _ => destruct pv as [[[d s0] pid]|]
  end; [|discriminate].
  unfold dwc_start_transaction.
  cbn [complete_split set_queued set_short_attempt sc_complete_split
       set_sc_complete_split split_control negb].
  intros [= <- <- <-].
  cbn [transfer characteristics max_packet_size size packet_count packet_id
       set_odd_frame_enable started_phases completed_ok].
  repeat match goal with
         | |- context [if ?b then _ else _] => destruct b
         end;
    cbn; repeat split; reflexivity.
Qed.




(** ** NAK handling *)

(** C3, as stated, fails: on a NAK from a high-speed endpoint with
    bInterval = 1 the scheduler sleeps 125 microseconds, which is less than
    1 millisecond. *)
Lemma C3_counterexample :
  is_nak_halt sample_interrupts_nak sample_intr_in sample_channel = true /\
  speed (sample_device 1 USB_SPEED_HIGH []) = USB_SPEED_HIGH /\
  bInterval (desc sample_intr_in_ep) = 1 /\
  (exists req' acts,
     @handle_channel_halted_interrupt spec_pool 0 3 sample_intr_in
       sample_intr_in_ep (sample_device 1 USB_SPEED_HIGH [])
       sample_interrupts_nak sample_channel 0 =
       Some (true, req', sample_channel, 0, acts) /\
     sleeps acts = [125000]) /\
  ~ (ZX_MSEC 1 <= 125000).
Proof.
  split; [reflexivity|]. split; [reflexivity|]. split; [reflexivity|].
  split.
  - eexists; eexists. split; vm_compute; reflexivity.
  - vm_compute. intros Hle. apply Hle. reflexivity.
Qed.

Lemma nak_sleep_high (b : Z) :
  1 <= b <= 15 ->
  nak_sleep_ns USB_SPEED_HIGH b = Z.shiftl 1 (b - 1) * 125000.
Proof.
  intros Hb.
  assert (Hcases : b = 1 \/ b = 2 \/ b = 3 \/ b = 4 \/ b = 5 \/ b = 6 \/
                   b = 7 \/ b = 8 \/ b = 9 \/ b = 10 \/ b = 11 \/ b = 12 \/
                   b = 13 \/ b = 14 \/ b = 15) by lia.
  repeat (destruct Hcases as [-> | Hcases]; [reflexivity|]).
  subst b. reflexivity.
Qed.

(** With [bInterval] 0 the count of the shift is -1: the shift gives
    [INT_MIN], the product is 0 in 32 bits and is replaced by
    1 millisecond. *)
Lemma nak_sleep_high_0 : nak_sleep_ns USB_SPEED_HIGH 0 = ZX_MSEC 1.
Proof. reflexivity. Qed.

Lemma nak_sleep_not_high (s : usb_speed_t) (b : Z) :
  s <> USB_SPEED_HIGH ->
  nak_sleep_ns s b = if b =? 0 then ZX_MSEC 1 else ZX_MSEC b.
Proof.
  intros Hs. unfold nak_sleep_ns.
  destruct s; try contradiction; cbn [speed_eqb]; unfold ZX_MSEC;
    destruct (Z.eqb_spec b 0) as [-> | Hb]; try reflexivity;
    destruct (Z.eqb_spec (1000000 * b) 0); try reflexivity; lia.
Qed.

Lemma sleeps_app (a b : list action) : sleeps (a ++ b) = sleeps a ++ sleeps b.
Proof.
  induction a as [|x a IH]; [reflexivity|].
  destruct x; cbn [sleeps app]; rewrite ?IH; reflexivity.
Qed.

Lemma released_app (a b : list action) :
  released (a ++ b) = released a ++ released b.
Proof.
  induction a as [|x a IH]; [reflexivity|].
  destruct x; cbn [released app]; rewrite ?IH; reflexivity.
Qed.

Lemma await_sof_quiet channel req ep dev :
  sleeps (await_sof_if_necessary channel req ep dev) = [] /\
  released (await_sof_if_necessary channel req ep dev) = [].
Proof.
  unfold await_sof_if_necessary.
  destruct (_ && _); split; reflexivity.
Qed.

Lemma release_checked_in `{ChannelPool} {A : Type} (ch : Z) (x : A) :
  ch < DWC_NUM_CHANNELS -> release_checked ch x = Some x.
Proof.
  intros Hc. unfold release_checked.
  destruct (Z.ltb_spec ch DWC_NUM_CHANNELS); [reflexivity | lia].
Qed.

Lemma release_checked_out `{ChannelPool} {A : Type} (ch : Z) (x : A) :
  DWC_NUM_CHANNELS <= ch -> release_checked ch x = None.
Proof.
  intros Hc. unfold release_checked.
  destruct (Z.ltb_spec ch DWC_NUM_CHANNELS); [lia | reflexivity].
Qed.

Lemma release_checked_some `{ChannelPool} {A : Type} (ch : Z) (x y : A) :
  release_checked ch x = Some y -> ch < DWC_NUM_CHANNELS /\ y = x.
Proof.
  unfold release_checked.
  destruct (Z.ltb_spec ch DWC_NUM_CHANNELS); [|discriminate].
  intros [= <-]. split; [assumption | reflexivity].
Qed.

Lemma release_checked_eq `{ChannelPool} {A : Type} (ch : Z) (x y : A) :
  release_checked ch x = Some y -> Some x = Some y.
Proof. intros Hr. apply release_checked_some in Hr as [_ ->]. reflexivity. Qed.

(** A result of the handler that went through [release_channel]: the
    assertion held. *)
Ltac release_ok :=
  lazymatch goal with
  | |- release_checked _ _ = Some _ -> _ =>
      let Hr := fresh "Hr" in
      intros Hr; apply release_checked_eq in Hr; revert Hr
  | |- (if ?c <? DWC_NUM_CHANNELS then Some _ else None) = Some _ -> _ =>
      destruct (c <? DWC_NUM_CHANNELS); [|discriminate]
  | |- _ => idtac
  end.

(** The NAK branch of the handler, by the cases of its release. *)
Ltac nak_release :=
  unfold release_checked;
  repeat match goal with
         | |- match (if ?b then _ else _) with _ => _ end = _ -> _ =>
             destruct b
         end;
  try discriminate.

(** The NAK branch of the handler, in one equation. *)
Lemma handle_nak `{ChannelPool} frame channel req ep dev interrupts hc
  counter :
  is_nak_halt interrupts req hc = true ->
  handle_channel_halted_interrupt frame channel req ep dev interrupts hc
    counter =
  let req1 := set_next_data_toggle req (packet_id (transfer hc)) in
  let req2 := set_complete_split req1 false in
  let rest :=
    [Sleep (nak_sleep_ns (speed dev) (bInterval (desc ep)))] ++
    await_sof_if_necessary channel req1 ep dev ++ [ListAddHead req2] in
  if nak_keeps_channel ep req
  then Some (true, req2, hc, counter, rest)
  else release_checked channel
         (true, req2, hc, counter, ReleaseChannel channel :: rest).
Proof.
  unfold is_nak_halt, handle_channel_halted_interrupt, nak_keeps_channel.
  intros Hnak.
  apply andb_prop in Hnak as [Hnak Hn]. apply andb_prop in Hnak as [He Ho].
  apply negb_true_iff in He. apply negb_true_iff in Ho.
  rewrite He, Ho, Hn. cbn [ctrl_phase set_next_data_toggle].
  unfold release_checked.
  destruct (usb_ep_type (desc ep) =? USB_ENDPOINT_CONTROL); cbn [negb andb];
    [destruct (ctrl_phase_eqb (ctrl_phase req) CTRL_PHASE_SETUP);
     cbn [negb]|];
    try destruct (channel <? DWC_NUM_CHANNELS); reflexivity.
Qed.

Lemma nak_keeps_channel_spec ep req :
  nak_keeps_channel ep req = true <->
  usb_ep_type (desc ep) = USB_ENDPOINT_CONTROL /\
  (ctrl_phase req = CTRL_PHASE_DATA \/ ctrl_phase req = CTRL_PHASE_STATUS).
Proof.
  unfold nak_keeps_channel.
  destruct (Z.eqb_spec (usb_ep_type (desc ep)) USB_ENDPOINT_CONTROL)
    as [Hc | Hc]; cbn [andb].
  - destruct (ctrl_phase req); cbn; split; try discriminate; try tauto;
      intros [_ [E | E]]; discriminate E.
  - split; [discriminate | tauto].
Qed.

(** C3 (amended): on a NAK response the scheduler sleeps once, for
    (1 << (bInterval - 1)) times 125 microseconds on a high-speed device
    with bInterval from 1 to 15, and for bInterval milliseconds on a device
    that is not high-speed; a sleep of zero is replaced by 1 millisecond, so
    that a high-speed endpoint with bInterval 0 sleeps 1 millisecond and the
    sleep of a device that is not high-speed is at least 1 millisecond. For
    every NAK on a channel of the controller, and for every NAK of a control
    transfer in its DATA or STATUS phase, the handler returns after that
    sleep, and the channel is released unless the request is
    a control transfer in its DATA or STATUS phase; a release of a channel
    that is none of the controller's fails the assertion of
    [release_channel]. *)
Theorem C3_nak_backoff `{ChannelPool} frame channel req ep dev interrupts hc
  counter :
  is_nak_halt interrupts req hc = true ->
  (channel < DWC_NUM_CHANNELS \/
   (usb_ep_type (desc ep) = USB_ENDPOINT_CONTROL /\
    (ctrl_phase req = CTRL_PHASE_DATA \/
     ctrl_phase req = CTRL_PHASE_STATUS)) ->
   exists req' acts ns,
     handle_channel_halted_interrupt frame channel req ep dev interrupts hc
       counter = Some (true, req', hc, counter, acts) /\
     sleeps acts = [ns] /\
     (speed dev = USB_SPEED_HIGH -> 1 <= bInterval (desc ep) <= 15 ->
      ns = Z.shiftl 1 (bInterval (desc ep) - 1) * 125000) /\
     (speed dev = USB_SPEED_HIGH -> bInterval (desc ep) = 0 ->
      ns = ZX_MSEC 1) /\
     (speed dev <> USB_SPEED_HIGH -> 0 <= bInterval (desc ep) ->
      ns = (if bInterval (desc ep) =? 0 then ZX_MSEC 1
            else ZX_MSEC (bInterval (desc ep))) /\
      ZX_MSEC 1 <= ns) /\
     (released acts = [channel] \/ released acts = []) /\
     (released acts = [] <->
      usb_ep_type (desc ep) = USB_ENDPOINT_CONTROL /\
      (ctrl_phase req = CTRL_PHASE_DATA \/
       ctrl_phase req = CTRL_PHASE_STATUS))) /\
  (DWC_NUM_CHANNELS <= channel ->
   ~ (usb_ep_type (desc ep) = USB_ENDPOINT_CONTROL /\
      (ctrl_phase req = CTRL_PHASE_DATA \/
       ctrl_phase req = CTRL_PHASE_STATUS)) ->
   handle_channel_halted_interrupt frame channel req ep dev interrupts hc
     counter = None).
Proof.
  intros Hnak. rewrite (handle_nak _ _ _ _ _ _ _ _ Hnak). cbv zeta.
  pose proof (nak_keeps_channel_spec ep req) as Hk.
  assert (Hns :
    (speed dev = USB_SPEED_HIGH -> 1 <= bInterval (desc ep) <= 15 ->
     nak_sleep_ns (speed dev) (bInterval (desc ep)) =
       Z.shiftl 1 (bInterval (desc ep) - 1) * 125000) /\
    (speed dev = USB_SPEED_HIGH -> bInterval (desc ep) = 0 ->
     nak_sleep_ns (speed dev) (bInterval (desc ep)) = ZX_MSEC 1) /\
    (speed dev <> USB_SPEED_HIGH -> 0 <= bInterval (desc ep) ->
     nak_sleep_ns (speed dev) (bInterval (desc ep)) =
       (if bInterval (desc ep) =? 0 then ZX_MSEC 1
        else ZX_MSEC (bInterval (desc ep))) /\
     ZX_MSEC 1 <= nak_sleep_ns (speed dev) (bInterval (desc ep)))).
  { split; [|split].
    - intros Hs Hb. rewrite Hs. apply nak_sleep_high. exact Hb.
    - intros Hs Hb. rewrite Hs, Hb. apply nak_sleep_high_0.
    - intros Hs Hb. rewrite (nak_sleep_not_high _ _ Hs).
      split; [reflexivity|].
      unfold ZX_MSEC. destruct (Z.eqb_spec (bInterval (desc ep)) 0); lia. }
  split.
  - intros Hin.
    destruct (nak_keeps_channel ep req) eqn:Hkeep.
    + eexists; eexists; eexists. split; [reflexivity|].
      split; [rewrite !sleeps_app, (proj1 (await_sof_quiet _ _ _ _));
              reflexivity|].
      split; [exact (proj1 Hns)|].
      split; [exact (proj1 (proj2 Hns))|].
      split; [exact (proj2 (proj2 Hns))|].
      rewrite !released_app, (proj2 (await_sof_quiet _ _ _ _)).
      cbn [released app].
      split; [right; reflexivity|].
      split; [intros _; apply Hk; reflexivity | reflexivity].
    + assert (Hc : channel < DWC_NUM_CHANNELS).
      { destruct Hin as [Hc | Hc]; [exact Hc|].
        apply Hk in Hc. discriminate Hc. }
      rewrite (release_checked_in _ _ Hc).
      eexists; eexists; eexists. split; [reflexivity|].
      split; [cbn [sleeps];
              rewrite !sleeps_app, (proj1 (await_sof_quiet _ _ _ _));
              reflexivity|].
      split; [exact (proj1 Hns)|].
      split; [exact (proj1 (proj2 Hns))|].
      split; [exact (proj2 (proj2 Hns))|].
      cbn [released].
      rewrite !released_app, (proj2 (await_sof_quiet _ _ _ _)).
      cbn [released app].
      split; [left; reflexivity|].
      split; [discriminate|].
      intros Hc'. apply Hk in Hc'. discriminate Hc'.
  - intros Hout Hnk.
    destruct (nak_keeps_channel ep req) eqn:Hkeep.
    + exfalso. apply Hnk. apply Hk. reflexivity.
    + apply release_checked_out. exact Hout.
Qed.

Lemma C3_nak_backoff_witness :
  exists req' acts ns,
    @handle_channel_halted_interrupt spec_pool 0 3 sample_ctrl_data_req
      sample_ctrl_ep sample_ctrl_dev sample_interrupts_nak
      sample_ctrl_data_channel 0 =
      Some (true, req', sample_ctrl_data_channel, 0, acts) /\
    sleeps acts = [ns] /\
    (USB_SPEED_HIGH = USB_SPEED_HIGH -> 1 <= 0 <= 15 ->
     ns = Z.shiftl 1 (0 - 1) * 125000) /\
    (USB_SPEED_HIGH = USB_SPEED_HIGH -> 0 = 0 -> ns = ZX_MSEC 1) /\
    (USB_SPEED_HIGH <> USB_SPEED_HIGH -> 0 <= 0 ->
     ns = (if 0 =? 0 then ZX_MSEC 1 else ZX_MSEC 0) /\ ZX_MSEC 1 <= ns) /\
    (released acts = [3] \/ released acts = []) /\
    (released acts = [] <->
     USB_ENDPOINT_CONTROL = USB_ENDPOINT_CONTROL /\
     (CTRL_PHASE_DATA = CTRL_PHASE_DATA \/
      CTRL_PHASE_DATA = CTRL_PHASE_STATUS)).
Proof.
  apply (proj1 (@C3_nak_backoff spec_pool 0 3 sample_ctrl_data_req
                  sample_ctrl_ep sample_ctrl_dev sample_interrupts_nak
                  sample_ctrl_data_channel 0 eq_refl)).
  left. reflexivity.
Defined.

(** ** Control transfer phases *)

Lemma started_phases_app (a b : list action) :
  started_phases (a ++ b) = started_phases a ++ started_phases b.
Proof.
  induction a as [|x a IH]; [reflexivity|].
  destruct x; cbn [started_phases app]; rewrite ?IH; reflexivity.
Qed.

Lemma completed_ok_app (a b : list action) :
  completed_ok (a ++ b) = completed_ok a ++ completed_ok b.
Proof.
  induction a as [|x a IH]; [reflexivity|].
  destruct x as [| | | |r st n| | | | |]; cbn [completed_ok app];
    rewrite ?IH; try reflexivity.
  destruct st; cbn; rewrite ?IH; reflexivity.
Qed.

Lemma await_sof_no_start channel req ep dev :
  started_phases (await_sof_if_necessary channel req ep dev) = [] /\
  completed_ok (await_sof_if_necessary channel req ep dev) = [].
Proof.
  unfold await_sof_if_necessary. destruct (_ && _); split; reflexivity.
Qed.

Lemma start_transaction_spec frame channel req hc :
  exists req' hc',
    dwc_start_transaction frame channel req hc =
      (req', hc', [StartTransaction channel hc']) /\
    ctrl_phase req' = ctrl_phase req /\
    usb_req req' = usb_req req /\
    bytes_transferred req' = bytes_transferred req.
Proof.
  unfold dwc_start_transaction. eexists; eexists.
  split; [reflexivity|].
  destruct (negb _); repeat split; reflexivity.
Qed.

Lemma handle_normal_ctrl `{ChannelPool} frame channel req ep interrupts hc
  done req1 hc1 acts :
  usb_ep_type (desc ep) = USB_ENDPOINT_CONTROL ->
  handle_normal_channel_halted frame channel req ep interrupts hc =
    Some (done, req1, hc1, acts) ->
  started_phases acts = [] /\
  usb_req req1 = usb_req req /\
  (completed_ok acts <> [] -> ctrl_phase req = CTRL_PHASE_STATUS) /\
  (done = false -> ctrl_phase req1 = ctrl_phase req) /\
  (ctrl_phase req1 = ctrl_phase req \/
   (ctrl_phase req <> CTRL_PHASE_STATUS /\
    ctrl_phase req1 =
      next_phase (h_length (header (usb_req req))) (ctrl_phase req) /\
    (ctrl_phase req1 = CTRL_PHASE_DATA -> bytes_transferred req1 = 0))).
Proof.
  intros Hty. unfold handle_normal_channel_halted.
  rewrite Hty.
  change (USB_ENDPOINT_CONTROL =? USB_ENDPOINT_INTERRUPT) with false.
  change (USB_ENDPOINT_CONTROL =? USB_ENDPOINT_CONTROL) with true.
  generalize (halted_bytes_transferred req hc
                (u32 (packets_queued req - packet_count (transfer hc)))).
  intros n.
  destruct (start_transaction_spec frame channel
              (set_complete_split req true) hc)
    as (ra & ha & Ea & Pa & Ua & Ba).
  cbv zeta.
  cbn [ctrl_phase set_bytes_transferred set_queued set_complete_split
       set_next_data_toggle set_ctrl_phase usb_req bytes_transferred
       packets_queued bytes_queued short_attempt complete_split
       andb negb].
  destruct (negb (u32 (packets_queued req - packet_count (transfer hc)) =? 0)).
  - destruct (_ || _).
    + destruct (negb (transfer_completed interrupts)).
      * release_ok; intros [= <- <- <- <-].
        cbn. repeat split; try tauto; congruence.
      * destruct (short_attempt req && _ && true).
        { release_ok; intros [= <- <- <- <-].
          cbn. repeat split; try tauto; congruence. }
        destruct (ctrl_phase req) eqn:Ep.
        { cbn [ctrl_phase_rank Z.ltb Z.compare Pos.compare Pos.compare_cont
               ctrl_phase_eqb Z.eqb Pos.eqb andb].
          release_ok; intros [= <- <- <- <-].
          cbn [started_phases completed_ok].
          destruct (Z.eqb_spec (h_length (header (usb_req req))) 0) as [E|E];
            cbn; rewrite ?Ep; cbn; rewrite ?E; cbn;
            (split; [reflexivity|]); (split; [reflexivity|]);
            (split; [congruence|]); (split; [discriminate|]);
            right; repeat split; try congruence;
            destruct (Z.eqb_spec (h_length (header (usb_req req))) 0);
            congruence. }
        { cbn [ctrl_phase_rank Z.ltb Z.compare Pos.compare Pos.compare_cont
               ctrl_phase_eqb Z.eqb Pos.eqb andb].
          release_ok; intros [= <- <- <- <-].
          cbn [started_phases completed_ok].
          cbn; rewrite ?Ep; cbn.
          (split; [reflexivity|]); (split; [reflexivity|]);
            (split; [congruence|]); (split; [discriminate|]).
          right. repeat split; congruence. }
        { cbn [ctrl_phase_rank Z.ltb Z.compare Pos.compare Pos.compare_cont
               andb].
          release_ok. intros Heq. injection Heq as <- <- <- <-. cbn.
          repeat split; try tauto; congruence. }
    + destruct (split_enable (split_control hc));
        match goal with
        | |- context [dwc_start_transaction ?f ?c ?r ?h] =>
            destruct (start_transaction_spec f c r h)
              as (rb & hb & Eb & Pb & Ub & Bb); rewrite Eb
        end;
        release_ok; intros [= <- <- <- <-];
        cbn; repeat split; try tauto; try congruence;
        left; exact Pb.
  - destruct (_ && _).
    + rewrite Ea. release_ok; intros [= <- <- <- <-]. cbn.
      repeat split; try tauto; congruence.
    + release_ok; intros [= <- <- <- <-].
      cbn. repeat split; try tauto; congruence.
Qed.

Lemma handle_halted_ctrl `{ChannelPool} frame channel req ep dev interrupts
  hc counter done req1 hc1 counter1 acts :
  usb_ep_type (desc ep) = USB_ENDPOINT_CONTROL ->
  handle_channel_halted_interrupt frame channel req ep dev interrupts hc
    counter = Some (done, req1, hc1, counter1, acts) ->
  started_phases acts = [] /\
  usb_req req1 = usb_req req /\
  (completed_ok acts <> [] -> ctrl_phase req = CTRL_PHASE_STATUS) /\
  (done = false -> ctrl_phase req1 = ctrl_phase req) /\
  (ctrl_phase req1 = ctrl_phase req \/
   (ctrl_phase req <> CTRL_PHASE_STATUS /\
    ctrl_phase req1 =
      next_phase (h_length (header (usb_req req))) (ctrl_phase req) /\
    (ctrl_phase req1 = CTRL_PHASE_DATA -> bytes_transferred req1 = 0))).
Proof.
  intros Hty. unfold handle_channel_halted_interrupt.
  destruct (_ || _).
  { release_ok; intros [= <- <- <- <- <-].
    cbn. repeat split; try tauto; congruence. }
  destruct (frame_overrun interrupts).
  { destruct (u32 (counter + 1) =? FRAME_OVERRUN_THRESHOLD);
      release_ok; intros [= <- <- <- <- <-];
      cbn; repeat split; try tauto; congruence. }
  destruct (nak_response_received interrupts).
  { match goal with
    | |- match ?r with _ => _ end = _ -> _ =>
        assert (Hrel : forall l, r = Some l ->
                  started_phases l = [] /\ completed_ok l = [])
          by (unfold release_checked; intros l;
              repeat match goal with
                     | |- context [if ?b then _ else _] => destruct b
                     end; intros [= <-]; split; reflexivity);
        destruct r as [rel|]; [|discriminate]
    end.
    destruct (Hrel rel eq_refl) as [Hrs Hrc].
    intros [= <- <- <- <- <-].
    rewrite !started_phases_app, !completed_ok_app.
    cbn [started_phases completed_ok app].
    rewrite !started_phases_app, !completed_ok_app.
    rewrite (proj1 (await_sof_no_start _ _ _ _)).
    rewrite (proj2 (await_sof_no_start _ _ _ _)).
    rewrite Hrs, Hrc.
    cbn [started_phases completed_ok app].
    repeat split; try tauto; cbn; congruence. }
  destruct (nyet_response_received interrupts).
  { match goal with
    | |- context [dwc_start_transaction ?f ?c ?r ?h] =>
        destruct (start_transaction_spec f c r h)
          as (rb & hb & Eb & Pb & Ub & Bb); rewrite Eb
    end.
    release_ok; intros [= <- <- <- <- <-].
    rewrite !started_phases_app, !completed_ok_app.
    rewrite (proj1 (await_sof_no_start _ _ _ _)).
    rewrite (proj2 (await_sof_no_start _ _ _ _)).
    assert (Hs : forall b : bool,
              started_phases (if b then [Sleep 62500] else []) = [] /\
              completed_ok (if b then [Sleep 62500] else []) = [])
      by (intros [|]; split; reflexivity).
    rewrite (proj1 (Hs _)), (proj2 (Hs _)).
    cbn [started_phases completed_ok app].
    destruct (8 <=? _); cbn in Pb, Ub; repeat split; try tauto; congruence. }
  destruct (handle_normal_channel_halted frame channel req ep interrupts hc)
    as [[[[d r] h] a]|] eqn:Hn; [|discriminate].
  intros [= <- <- <- <- <-].
  exact (handle_normal_ctrl _ _ _ _ _ _ _ _ _ _ Hty Hn).
Qed.

Lemma start_transfer_ctrl_packet_id `{Platform} frame chan req ep dev req' hc
  acts :
  usb_ep_type (desc ep) = USB_ENDPOINT_CONTROL ->
  dwc_start_transfer frame chan req ep dev = Some (req', hc, acts) ->
  (ctrl_phase req = CTRL_PHASE_SETUP ->
   packet_id (transfer hc) = DWC_TOGGLE_SETUP) /\
  (ctrl_phase req = CTRL_PHASE_STATUS ->
   packet_id (transfer hc) = DWC_TOGGLE_DATA1) /\
  (ctrl_phase req = CTRL_PHASE_DATA -> bytes_transferred req = 0 ->
   packet_id (transfer hc) = DWC_TOGGLE_DATA1).
Proof.
  intros Hty. unfold dwc_start_transfer, dwc_start_transaction.
  rewrite Hty.
  change (USB_ENDPOINT_CONTROL =? USB_ENDPOINT_CONTROL) with true.
  cbv iota.
  destruct (ctrl_phase req) eqn:Ep.
  - destruct (setup_req req) as [s|]; [|discriminate].
    destruct (h_length (header s) =? sizeof_usb_setup_t); [|discriminate].
    intros [= <- <- <-]. cbn.
    repeat split; intros; congruence.
  - intros [= <- <- <-]. cbn.
    repeat split; try congruence.
    intros _ ->. reflexivity.
  - intros [= <- <- <-]. cbn.
    repeat split; intros; congruence.
Qed.

Lemma start_request_ctrl `{Platform} th req ep dev inp th' req' ohc acts :
  usb_ep_type (desc ep) = USB_ENDPOINT_CONTROL ->
  start_request th req ep dev inp = Some (th', req', ohc, acts) ->
  exists hc,
    ohc = Some hc /\
    ctrl_phase req' = ctrl_phase req /\
    usb_req req' = usb_req req /\
    started_phases acts = [(ctrl_phase req, packet_id (transfer hc))] /\
    completed_ok acts = [] /\
    (ctrl_phase req = CTRL_PHASE_SETUP ->
     packet_id (transfer hc) = DWC_TOGGLE_SETUP) /\
    (ctrl_phase req = CTRL_PHASE_STATUS ->
     packet_id (transfer hc) = DWC_TOGGLE_DATA1) /\
    (ctrl_phase req = CTRL_PHASE_DATA -> bytes_transferred req = 0 ->
     packet_id (transfer hc) = DWC_TOGGLE_DATA1).
Proof.
  intros Hty. unfold start_request. rewrite Hty.
  change (USB_ENDPOINT_CONTROL =? USB_ENDPOINT_CONTROL) with true.
  cbv iota.
  destruct (ctrl_phase req) eqn:Ep.
  - destruct (dwc_start_transfer _ _ _ _ _) as [[[r h] a]|] eqn:Hst;
      [|discriminate].
    intros [= <- <- <- <-]. exists h.
    destruct (start_transfer_registers _ _ _ _ _ _ _ _ Hst)
      as (_ & _ & _ & _ & Hp & Hu & _ & Hs & Hc).
    destruct (start_transfer_ctrl_packet_id _ _ _ _ _ _ _ _ Hty Hst)
      as (H1 & H2 & H3).
    cbn [ctrl_phase set_setup_req usb_req bytes_transferred] in *.
    cbn [started_phases completed_ok]. rewrite Hs, Hc, Hp, Hu, Ep.
    repeat split; try congruence; auto.
  - destruct (dwc_start_transfer _ _ _ _ _) as [[[r h] a]|] eqn:Hst;
      [|discriminate].
    intros [= <- <- <- <-]. exists h.
    destruct (start_transfer_registers _ _ _ _ _ _ _ _ Hst)
      as (_ & _ & _ & _ & Hp & Hu & _ & Hs & Hc).
    destruct (start_transfer_ctrl_packet_id _ _ _ _ _ _ _ _ Hty Hst)
      as (H1 & H2 & H3).
    rewrite Hs, Hc, Hp, Hu, Ep.
    repeat split; try congruence; auto.
  - destruct (dwc_start_transfer _ _ _ _ _) as [[[r h] a]|] eqn:Hst;
      [|discriminate].
    intros [= <- <- <- <-]. exists h.
    destruct (start_transfer_registers _ _ _ _ _ _ _ _ Hst)
      as (_ & _ & _ & _ & Hp & Hu & _ & Hs & Hc).
    destruct (start_transfer_ctrl_packet_id _ _ _ _ _ _ _ _ Hty Hst)
      as (H1 & H2 & H3).
    rewrite Hs, Hc, Hp, Hu, Ep.
    repeat split; try congruence; auto.
Qed.

Lemma phase_steps_status len l :
  phase_steps len CTRL_PHASE_STATUS l ->
  Forall (fun q => q = CTRL_PHASE_STATUS) l.
Proof.
  induction l as [|q t IH]; cbn [phase_steps]; [constructor|].
  intros [[-> | [Hne _]] Ht]; [|congruence].
  constructor; [reflexivity | exact (IH Ht)].
Qed.

Lemma last_all_status l :
  Forall (fun q => q = CTRL_PHASE_STATUS) l ->
  last (CTRL_PHASE_STATUS :: l) CTRL_PHASE_STATUS = CTRL_PHASE_STATUS.
Proof.
  induction 1 as [|q t -> _ IH]; [reflexivity|].
  cbn [last] in *. destruct t; [reflexivity | exact IH].
Qed.

Lemma last_cons_cons {A : Type} (a b d d' : A) (t : list A) :
  last (a :: b :: t) d = last (b :: t) d'.
Proof.
  cbn [last]. revert b. induction t as [|c t IH]; intros b; [reflexivity|].
  cbn [last]. apply IH.
Qed.

Lemma first_data_all_status l :
  Forall (fun q => q = CTRL_PHASE_STATUS) (map fst l) ->
  first_data_packet_id l = None.
Proof.
  induction l as [|[q pid] t IH]; [reflexivity|].
  cbn [map fst]. intros Hall. inversion Hall as [|? ? Hq Ht]; subst.
  cbn [first_data_packet_id]. exact (IH Ht).
Qed.

Lemma compress_steps len : forall l p,
  phase_steps len p l ->
  exists rest,
    compress (p :: l) ++ rest = phases_from len p /\
    (last (p :: l) p = CTRL_PHASE_STATUS -> rest = []).
Proof.
  induction l as [|q t IH]; intros p.
  - intros _. cbn [compress last].
    destruct p; cbn [phases_from]; unfold expected_phases.
    + destruct (len =? 0); eexists; (split; [reflexivity | discriminate]).
    + eexists. split; [reflexivity | discriminate].
    + exists []. split; [reflexivity | reflexivity].
  - cbn [phase_steps]. intros [Hq Ht].
    destruct (IH q Ht) as (rest & Hc & Hl).
    exists rest. split.
    + change (compress (p :: q :: t)) with
        (if ctrl_phase_eqb p q then compress (q :: t) else p :: compress (q :: t)).
      destruct Hq as [-> | [Hne ->]].
      * assert (E : ctrl_phase_eqb p p = true)
          by (destruct p; reflexivity).
        rewrite E. exact Hc.
      * destruct p; cbn [next_phase] in *; try congruence.
        -- destruct (len =? 0) eqn:El; cbn [ctrl_phase_eqb ctrl_phase_rank Z.eqb
             Pos.eqb phases_from] in *; unfold expected_phases; rewrite El;
             cbn [app]; rewrite Hc; reflexivity.
        -- cbn [ctrl_phase_eqb ctrl_phase_rank Z.eqb Pos.eqb phases_from] in *.
           cbn [app]. rewrite Hc. reflexivity.
    + intros Hlast. apply Hl.
      rewrite <- Hlast. symmetry. apply last_cons_cons.
Qed.

Lemma app_not_nil {A : Type} (a b : list A) :
  a ++ b <> [] -> a <> [] \/ b <> [].
Proof.
  intros Hn. destruct a; [right; exact Hn | left; discriminate].
Qed.

(** What the rest of the run of the scheduler of a control endpoint
    satisfies once a transfer of the request is in flight. *)
Lemma await_channel_ctrl `{Platform} `{ChannelPool} ep dev :
  usb_ep_type (desc ep) = USB_ENDPOINT_CONTROL ->
  forall rs th req hc acts e,
    await_channel ep dev rs th req hc = (acts, e) ->
    phase_steps (h_length (header (usb_req req))) (ctrl_phase req)
      (map fst (started_phases acts)) /\
    Forall packet_id_ok (started_phases acts) /\
    (ctrl_phase req = CTRL_PHASE_SETUP ->
     forall pid, first_data_packet_id (started_phases acts) = Some pid ->
                 pid = DWC_TOGGLE_DATA1) /\
    (completed_ok acts <> [] ->
     last (ctrl_phase req :: map fst (started_phases acts)) (ctrl_phase req) =
     CTRL_PHASE_STATUS).
Proof.
  intros Hty.
  assert (Hnil : forall req acts1,
            started_phases acts1 = [] ->
            (completed_ok acts1 <> [] -> ctrl_phase req = CTRL_PHASE_STATUS) ->
            phase_steps (h_length (header (usb_req req))) (ctrl_phase req)
              (map fst (started_phases acts1)) /\
            Forall packet_id_ok (started_phases acts1) /\
            (ctrl_phase req = CTRL_PHASE_SETUP ->
             forall pid, first_data_packet_id (started_phases acts1) = Some pid ->
                         pid = DWC_TOGGLE_DATA1) /\
            (completed_ok acts1 <> [] ->
             last (ctrl_phase req :: map fst (started_phases acts1))
               (ctrl_phase req) = CTRL_PHASE_STATUS)).
  { intros req acts1 Hs Hc. rewrite Hs. cbn.
    repeat split; [constructor | discriminate | exact Hc]. }
  induction rs as [|r rs IH]; intros th req hc acts e; cbn [await_channel].
  - intros [= <- <-]. apply Hnil; [reflexivity | intros Hc; elim Hc; reflexivity].
  - destruct (handle_channel_halted_interrupt _ _ _ _ _ _ _ _)
      as [[[[[done req1] hc2] counter] acts1]|] eqn:Hh.
    2:{ intros [= <- <-].
        apply Hnil; [reflexivity | intros Hc; elim Hc; reflexivity]. }
    destruct (handle_halted_ctrl _ _ _ _ _ _ _ _ _ _ _ _ _ Hty Hh)
      as (Hs1 & Hu1 & Hc1 & Hd1 & Hp1).
    destruct done.
    + destruct (existsb is_ListAddHead acts1).
      2:{ intros [= <- <-]. apply Hnil; assumption. }
      destruct (start_request _ req1 ep dev (hw_next r))
        as [[[[th3 req2] ohc] acts2]|] eqn:Hsr.
      2:{ intros [= <- <-]. apply Hnil; assumption. }
      destruct (start_request_ctrl _ _ _ _ _ _ _ _ _ Hty Hsr)
        as (hc3 & -> & Hp2 & Hu2 & Hs2 & Hc2 & Hsetup & Hstatus & Hdata).
      destruct (await_channel ep dev rs th3 req2 hc3) as [tr e'] eqn:Haw.
      intros [= <- <-].
      destruct (IH _ _ _ _ _ Haw) as (Ia & Ib & Ic & Id).
      rewrite Hp2, Hu2, Hu1 in Ia. rewrite Hp2 in Ic, Id.
      rewrite !started_phases_app, !completed_ok_app, Hs1, Hs2, Hc2.
      cbn [app map fst].
      assert (Hq : ctrl_phase req1 = ctrl_phase req \/
                   ctrl_phase req <> CTRL_PHASE_STATUS /\
                   ctrl_phase req1 =
                     next_phase (h_length (header (usb_req req)))
                       (ctrl_phase req)) by tauto.
      split; [|split; [|split]].
      * cbn [phase_steps]. split; assumption.
      * constructor; [|exact Ib]. split; cbn [fst snd]; assumption.
      * intros Hsetup0 pid.
        destruct Hp1 as [Hsame | (Hne & Hnext & Hzero)].
        -- rewrite Hsame, Hsetup0. cbn [first_data_packet_id].
           apply Ic. congruence.
        -- rewrite Hsetup0 in Hnext. cbn [next_phase] in Hnext.
           destruct (h_length (header (usb_req req)) =? 0).
           ++ rewrite Hnext. cbn [first_data_packet_id].
              rewrite Hnext in Ia.
              rewrite (first_data_all_status _ (phase_steps_status _ _ Ia)).
              discriminate.
           ++ rewrite Hnext. cbn [first_data_packet_id].
              intros [= <-]. apply Hdata; [exact Hnext | exact (Hzero Hnext)].
      * intros Hc. apply app_not_nil in Hc as [Hc | Hc].
        -- pose proof (Hc1 Hc) as Hst.
           assert (Hst1 : ctrl_phase req1 = CTRL_PHASE_STATUS)
             by (destruct Hq as [-> | [Hne _]]; congruence).
           rewrite Hst1 in Ia |- *. rewrite Hst.
           apply (last_all_status (CTRL_PHASE_STATUS :: _)).
           constructor; [reflexivity | exact (phase_steps_status _ _ Ia)].
        -- rewrite (last_cons_cons _ _ _ (ctrl_phase req1)). exact (Id Hc).
    + destruct (await_channel ep dev rs _ req1 hc2) as [tr e'] eqn:Haw.
      intros [= <- <-].
      destruct (IH _ _ _ _ _ Haw) as (Ia & Ib & Ic & Id).
      rewrite (Hd1 eq_refl), Hu1 in *.
      rewrite !started_phases_app, !completed_ok_app, Hs1.
      cbn [app].
      split; [exact Ia | split; [exact Ib | split; [exact Ic|]]].
      intros Hc. apply app_not_nil in Hc as [Hc | Hc]; [|exact (Id Hc)].
      rewrite (Hc1 Hc) in Ia |- *.
      apply last_all_status. exact (phase_steps_status _ _ Ia).
Qed.

(** Whether there is a DATA phase is decided by the length of the request
    (header.length): a control transfer whose wLength is 8 and whose request
    length is 0 completes OK after the phases SETUP and STATUS. *)
Lemma ctrl_mismatch_skips_data :
  usb_ep_type (desc sample_ctrl_ep) = USB_ENDPOINT_CONTROL /\
  wLength (setup (usb_req sample_ctrl_mismatch)) = 8 /\
  @schedule_request spec_platform spec_pool sample_ctrl_ep sample_ctrl_dev
    sample_thread sample_ctrl_mismatch sample_input
    [sample_halt_done; sample_halt_done] = sample_ctrl_mismatch_run /\
  snd sample_ctrl_mismatch_run = Finished /\
  List.length (completed_ok (fst sample_ctrl_mismatch_run)) = 1%nat /\
  started_phases (fst sample_ctrl_mismatch_run) =
    [(CTRL_PHASE_SETUP, DWC_TOGGLE_SETUP);
     (CTRL_PHASE_STATUS, DWC_TOGGLE_DATA1)] /\
  ~ (In CTRL_PHASE_DATA (map fst (started_phases (fst sample_ctrl_mismatch_run)))
     <-> wLength (setup (usb_req sample_ctrl_mismatch)) <> 0).
Proof.
  split; [reflexivity|]. split; [reflexivity|].
  split; [vm_compute; reflexivity|].
  split; [reflexivity|]. split; [reflexivity|]. split; [reflexivity|].
  intros [_ Hback].
  assert (Hin : In CTRL_PHASE_DATA
                  (map fst (started_phases (fst sample_ctrl_mismatch_run))))
    by (apply Hback; vm_compute; discriminate).
  vm_compute in Hin.
  destruct Hin as [E | [E | []]]; discriminate E.
Qed.

(** The phases of a control transfer, by the length of the request. *)
Lemma control_phases_by_length `{Platform} `{ChannelPool} ep dev th req inp rs
  acts e :
  usb_ep_type (desc ep) = USB_ENDPOINT_CONTROL ->
  ctrl_phase req = CTRL_PHASE_SETUP ->
  schedule_request ep dev th req inp rs = (acts, e) ->
  (exists rest,
     compress (map fst (started_phases acts)) ++ rest =
     expected_phases (h_length (header (usb_req req)))) /\
  (completed_ok acts <> [] ->
   compress (map fst (started_phases acts)) =
   expected_phases (h_length (header (usb_req req)))) /\
  Forall packet_id_ok (started_phases acts) /\
  (forall pid,
     first_data_packet_id (started_phases acts) = Some pid ->
     pid = DWC_TOGGLE_DATA1).
Proof.
  intros Hty Hsetup. unfold schedule_request.
  destruct (start_request th req ep dev inp)
    as [[[[th1 req1] ohc] acts0]|] eqn:Hsr.
  2:{ intros [= <- <-]. cbn.
      split; [eexists; reflexivity|].
      split; [intros Hc; elim Hc; reflexivity|].
      split; [constructor | discriminate]. }
  destruct (start_request_ctrl _ _ _ _ _ _ _ _ _ Hty Hsr)
    as (hc & -> & Hp & Hu & Hs & Hc & Hpid & _ & _).
  destruct (await_channel ep dev rs th1 req1 hc) as [tr e'] eqn:Haw.
  intros [= <- <-].
  destruct (await_channel_ctrl ep dev Hty _ _ _ _ _ _ Haw)
    as (Ia & Ib & Ic & Id).
  rewrite Hp, Hu, Hsetup in *.
  rewrite started_phases_app, completed_ok_app, Hs, Hc.
  cbn [app map fst].
  destruct (compress_steps _ _ _ Ia) as (rest & Hcomp & Hrest).
  cbn [phases_from] in Hcomp.
  split; [exists rest; exact Hcomp|].
  split; [|split].
  - intros Hdone. rewrite (Hrest (Id Hdone)), app_nil_r in Hcomp.
    exact Hcomp.
  - constructor; [|exact Ib].
    split; cbn [fst snd]; [intros _; exact (Hpid eq_refl) | discriminate].
  - cbn [first_data_packet_id]. exact (Ic eq_refl).
Qed.

(** C1: the scheduler of a control endpoint starts the transfers of a
    request in the order SETUP, then DATA, then STATUS, repeating a phase
    when it retries it; a transfer that completes OK has gone through all of
    them, the DATA phase being skipped if and only if wLength is 0; every
    transfer of the SETUP phase is programmed with packet id SETUP, the first
    transfer of the DATA phase with DATA1, and every transfer of the STATUS
    phase with DATA1. The length of the request (header.length) is the
    wLength of its SETUP packet. *)
Theorem C1_control_phases `{Platform} `{ChannelPool} ep dev th req inp rs
  acts e :
  usb_ep_type (desc ep) = USB_ENDPOINT_CONTROL ->
  ctrl_phase req = CTRL_PHASE_SETUP ->
  h_length (header (usb_req req)) = wLength (setup (usb_req req)) ->
  schedule_request ep dev th req inp rs = (acts, e) ->
  (exists rest,
     compress (map fst (started_phases acts)) ++ rest =
     expected_phases (wLength (setup (usb_req req)))) /\
  (completed_ok acts <> [] ->
   compress (map fst (started_phases acts)) =
   expected_phases (wLength (setup (usb_req req)))) /\
  Forall packet_id_ok (started_phases acts) /\
  (forall pid,
     first_data_packet_id (started_phases acts) = Some pid ->
     pid = DWC_TOGGLE_DATA1).
Proof.
  intros Hty Hsetup Hlen Hrun. rewrite <- Hlen.
  exact (control_phases_by_length ep dev th req inp rs acts e Hty Hsetup
           Hrun).
Qed.

Lemma C1_control_phases_witness :
  (exists rest,
     compress (map fst (started_phases (fst sample_ctrl_nak_run))) ++ rest =
     expected_phases (wLength (setup (usb_req sample_ctrl_in)))) /\
  (completed_ok (fst sample_ctrl_nak_run) <> [] ->
   compress (map fst (started_phases (fst sample_ctrl_nak_run))) =
   expected_phases (wLength (setup (usb_req sample_ctrl_in)))) /\
  Forall packet_id_ok (started_phases (fst sample_ctrl_nak_run)) /\
  (forall pid,
     first_data_packet_id (started_phases (fst sample_ctrl_nak_run)) =
       Some pid ->
     pid = DWC_TOGGLE_DATA1).
Proof.
  apply (@C1_control_phases spec_platform spec_pool sample_ctrl_ep
           sample_ctrl_dev sample_thread sample_ctrl_in sample_input
           [sample_halt_nak; sample_halt_done; sample_halt_nak;
            sample_halt_done; sample_halt_done]
           (fst sample_ctrl_nak_run) (snd sample_ctrl_nak_run)).
  - reflexivity.
  - reflexivity.
  - reflexivity.
  - vm_compute. reflexivity.
Defined.

(** The control endpoint of the sample device is a high-speed endpoint with
    bInterval 0. A NAK in the SETUP phase and another in the DATA phase each
    make the scheduler sleep 1 millisecond and start the phase again; only
    the first gives up the channel. The transfer then completes OK. *)
Lemma sample_ctrl_nak_run_completes :
  snd sample_ctrl_nak_run = Finished /\
  started_phases (fst sample_ctrl_nak_run) =
    [(CTRL_PHASE_SETUP, DWC_TOGGLE_SETUP);
     (CTRL_PHASE_SETUP, DWC_TOGGLE_SETUP);
     (CTRL_PHASE_DATA, DWC_TOGGLE_DATA1);
     (CTRL_PHASE_DATA, DWC_TOGGLE_DATA1);
     (CTRL_PHASE_STATUS, DWC_TOGGLE_DATA1)] /\
  sleeps (fst sample_ctrl_nak_run) = [ZX_MSEC 1; ZX_MSEC 1] /\
  acquired (fst sample_ctrl_nak_run) = [3; 5] /\
  released (fst sample_ctrl_nak_run) = [3; 5] /\
  map bytes_transferred (completed_ok (fst sample_ctrl_nak_run)) = [8].
Proof. repeat split; reflexivity. Qed.

(** The sample control transfer goes through all three phases and
    completes OK with the 8 bytes of its DATA phase. *)
Lemma sample_ctrl_in_run_completes :
  snd sample_ctrl_in_run = Finished /\
  started_phases (fst sample_ctrl_in_run) =
    [(CTRL_PHASE_SETUP, DWC_TOGGLE_SETUP);
     (CTRL_PHASE_DATA, DWC_TOGGLE_DATA1);
     (CTRL_PHASE_STATUS, DWC_TOGGLE_DATA1)] /\
  map bytes_transferred (completed_ok (fst sample_ctrl_in_run)) = [8].
Proof. repeat split; reflexivity. Qed.

(** ** The overwritten interrupt-in request *)

Lemma delivered_to_app c (a b : list effect) :
  delivered_to c (a ++ b) = delivered_to c a ++ delivered_to c b.
Proof.
  unfold delivered_to. rewrite completions_app. apply filter_app.
Qed.

Lemma quiet_refl c dwc : quiet c dwc dwc.
Proof. repeat split; reflexivity. Qed.

Lemma quiet_trans c a b d : quiet c a b -> quiet c b d -> quiet c a d.
Proof.
  intros (H1 & H2 & H3 & H4) (K1 & K2 & K3 & K4).
  repeat split; congruence.
Qed.

Lemma quiet_not_live c dwc dwc' :
  quiet c dwc dwc' -> not_live c dwc -> not_live c dwc'.
Proof.
  intros (H1 & H2 & H3 & _) Hl. unfold not_live, live_requests in *.
  rewrite H1, H2, H3. exact Hl.
Qed.

Lemma quiet_emit c e dwc :
  match e with UsbRequestComplete r _ _ => cookie r <> c | _ => True end ->
  quiet c dwc (emit e dwc).
Proof.
  intros He. unfold quiet. cbn [emit rh_req_head rh_intr_req usb_devices effects].
  repeat split. rewrite delivered_to_app. unfold delivered_to at 2.
  destruct e; cbn [completions filter fst cookie]; rewrite ?app_nil_r;
    try reflexivity.
  destruct (Z.eqb_spec (cookie r) c); [contradiction|].
  apply app_nil_r.
Qed.

Lemma quiet_set_free_list c dwc l n : quiet c dwc (set_free_list dwc l n).
Proof. repeat split; reflexivity. Qed.

Lemma quiet_complete_request c req status len dwc :
  cookie (usb_req req) <> c -> quiet c dwc (complete_request req status len dwc).
Proof.
  intros Hc. unfold complete_request.
  assert (H1 : quiet c dwc
                 match setup_req req with
                 | Some s => emit (UsbRequestRelease s) dwc
                 | None => dwc
                 end).
  { destruct (setup_req req); [apply quiet_emit; exact I | apply quiet_refl]. }
  eapply quiet_trans; [exact H1|].
  eapply quiet_trans;
    [apply (quiet_emit c (UsbRequestComplete (usb_req req) status len));
     exact Hc|].
  destruct (FREE_REQ_CACHE_THRESHOLD <=? _).
  - apply quiet_emit. exact I.
  - apply quiet_set_free_list.
Qed.

Lemma quiet_get_descriptor c req dwc :
  cookie (usb_req req) <> c ->
  quiet c dwc (dwc_root_hub_get_descriptor req dwc).
Proof.
  intros Hc. unfold dwc_root_hub_get_descriptor.
  repeat match goal with
         | |- quiet _ _ (if ?b then _ else _) => destruct b
         end;
    try apply quiet_refl; apply quiet_complete_request; exact Hc.
Qed.

Lemma quiet_std_req c req dwc :
  cookie (usb_req req) <> c ->
  quiet c dwc (dwc_process_root_hub_std_req req dwc).
Proof.
  intros Hc. unfold dwc_process_root_hub_std_req.
  repeat match goal with
         | |- quiet _ _ (if ?b then _ else _) => destruct b
         end;
    try apply quiet_get_descriptor; try apply quiet_complete_request;
    exact Hc.
Qed.

Lemma quiet_set_feature c regs_port feature dwc :
  quiet c dwc (snd (dwc_host_port_set_feature regs_port feature dwc)).
Proof.
  unfold dwc_host_port_set_feature, dwc_host_port_power_on,
    dwc_reset_host_port.
  destruct (feature =? USB_FEATURE_PORT_POWER); cbn [snd].
  - apply quiet_emit. exact I.
  - destruct (feature =? USB_FEATURE_PORT_RESET); cbn [snd].
    + eapply quiet_trans; [|apply quiet_emit; exact I].
      eapply quiet_trans; [|apply quiet_emit; exact I].
      apply quiet_emit. exact I.
    + apply quiet_refl.
Qed.

Lemma quiet_set_root_port_status c dwc s :
  quiet c dwc (set_root_port_status dwc s).
Proof. repeat split; reflexivity. Qed.

Lemma quiet_class_req c regs_port req dwc :
  cookie (usb_req req) <> c ->
  quiet c dwc (dwc_process_root_hub_class_req regs_port req dwc).
Proof.
  intros Hc. unfold dwc_process_root_hub_class_req.
  destruct (_ =? USB_REQ_GET_DESCRIPTOR).
  { destruct (_ && _); [|apply quiet_refl].
    apply quiet_complete_request. exact Hc. }
  destruct (_ =? USB_REQ_SET_FEATURE).
  { pose proof (quiet_set_feature c regs_port
                  (le16toh (wValue (setup (usb_req req)))) dwc) as Hq.
    destruct (dwc_host_port_set_feature _ _ _) as [res dwc1]. cbn [snd] in Hq.
    eapply quiet_trans; [exact Hq|].
    apply quiet_complete_request. exact Hc. }
  destruct (_ =? USB_REQ_CLEAR_FEATURE).
  { eapply quiet_trans; [apply quiet_set_root_port_status|].
    apply quiet_complete_request. exact Hc. }
  destruct (_ =? USB_REQ_GET_STATUS); apply quiet_complete_request; exact Hc.
Qed.

Lemma not_live_delivered_same c dwc dwc' :
  quiet c dwc dwc' ->
  not_live c dwc ->
  not_live c dwc' /\
  delivered_to c (effects dwc') = delivered_to c (effects dwc).
Proof.
  intros Hq Hl. split; [exact (quiet_not_live _ _ _ Hq Hl)|].
  destruct Hq as (_ & _ & _ & Hd). exact Hd.
Qed.

Lemma port_status_req_safe c dwc :
  not_live c dwc ->
  not_live c (dwc_complete_root_port_status_req dwc) /\
  delivered_to c (effects (dwc_complete_root_port_status_req dwc)) =
  delivered_to c (effects dwc).
Proof.
  intros Hl. unfold dwc_complete_root_port_status_req.
  destruct (negb _); [|split; [exact Hl | reflexivity]].
  destruct (rh_intr_req dwc) as [req|] eqn:Hslot;
    [|split; [exact Hl | reflexivity]].
  assert (Hc : cookie (usb_req req) <> c).
  { apply Hl. unfold live_requests. rewrite Hslot.
    apply in_or_app. right. left. reflexivity. }
  pose proof (quiet_complete_request c
                (set_usb_req req
                   (usb_request_copyto (usb_req req) (bytes_of_u16 2) 2))
                ZX_OK 2 dwc Hc) as (Q1 & Q2 & Q3 & Q4).
  split.
  - intros r Hin. apply Hl. unfold live_requests in *.
    cbn [set_rh_intr_req rh_req_head rh_intr_req usb_devices] in Hin.
    rewrite Q1, Q3 in Hin. cbn [app] in Hin.
    apply in_app_or in Hin as [Hin | Hin]; apply in_or_app;
      [left; exact Hin | right; apply in_or_app; right; exact Hin].
  - cbn [set_rh_intr_req effects]. exact Q4.
Qed.

Lemma process_root_hub_request_safe c regs_port dwc req dwc' :
  cookie (usb_req req) <> c ->
  not_live c dwc ->
  dwc_process_root_hub_request regs_port dwc req = Some dwc' ->
  not_live c dwc' /\
  delivered_to c (effects dwc') = delivered_to c (effects dwc).
Proof.
  intros Hc Hl. unfold dwc_process_root_hub_request.
  destruct (is_control_request req).
  - unfold dwc_process_root_hub_ctrl_req.
    destruct (_ =? USB_TYPE_STANDARD).
    { intros [= <-]. apply not_live_delivered_same; [|exact Hl].
      apply quiet_std_req. exact Hc. }
    destruct (_ =? USB_TYPE_CLASS); [|discriminate].
    intros [= <-]. apply not_live_delivered_same; [|exact Hl].
    apply quiet_class_req. exact Hc.
  - intros [= <-].
    assert (Hl1 : not_live c (set_rh_intr_req dwc (Some req))).
    { intros r Hin. unfold live_requests in Hin.
      cbn [set_rh_intr_req rh_req_head rh_intr_req usb_devices] in Hin.
      apply in_app_or in Hin as [Hin | Hin].
      - apply Hl. unfold live_requests. apply in_or_app. left. exact Hin.
      - cbn [app] in Hin. destruct Hin as [<- | Hin]; [exact Hc|].
        apply Hl. unfold live_requests. apply in_or_app. right.
        apply in_or_app. right. exact Hin. }
    exact (port_status_req_safe c _ Hl1).
Qed.

Lemma in_flat_map_replace_nth {A B : Type} (f : A -> list B) l n d' x :
  In x (flat_map f (replace_nth n l d')) ->
  In x (flat_map f l) \/ In x (f d').
Proof.
  revert n. induction l as [|h t IH]; intros [|n]; cbn [replace_nth flat_map];
    try tauto.
  - intros Hin. apply in_app_or in Hin as [Hin | Hin];
      [right; exact Hin | left; apply in_or_app; right; exact Hin].
  - intros Hin. apply in_app_or in Hin as [Hin | Hin].
    + left. apply in_or_app. left. exact Hin.
    + destruct (IH _ Hin) as [Ht | Hd]; [left | right; exact Hd].
      apply in_or_app. right. exact Ht.
Qed.

Lemma in_flat_map_nth_error {A B : Type} (f : A -> list B) l n d x :
  nth_error l n = Some d -> In x (f d) -> In x (flat_map f l).
Proof.
  intros Hn Hx. apply in_flat_map. exists d.
  split; [exact (nth_error_In _ _ Hn) | exact Hx].
Qed.

Lemma in_list_add_tail_pending eps addr req eps' x :
  list_add_tail_pending eps addr req = Some eps' ->
  In x (flat_map pending_requests eps') ->
  In x (flat_map pending_requests eps) \/ x = req.
Proof.
  revert eps'. induction eps as [|ep rest IH]; intros eps';
    cbn [list_add_tail_pending]; [discriminate|].
  destruct (ep_address ep =? addr).
  - intros [= <-]. cbn [flat_map pending_requests set_pending_requests].
    intros Hin. apply in_app_or in Hin as [Hin | Hin].
    + apply in_app_or in Hin as [Hin | [<- | []]];
        [left; apply in_or_app; left; exact Hin | right; reflexivity].
    + left. apply in_or_app. right. exact Hin.
  - destruct (list_add_tail_pending rest addr req) as [rest'|];
      [|discriminate].
    intros [= <-]. cbn [flat_map]. intros Hin.
    apply in_app_or in Hin as [Hin | Hin].
    + left. apply in_or_app. left. exact Hin.
    + destruct (IH _ eq_refl Hin) as [Ht | Hr]; [left | right; exact Hr].
      apply in_or_app. right. exact Ht.
Qed.

Lemma not_live_parts c dwc :
  not_live c dwc <->
  (forall r, In r (rh_req_head dwc) -> cookie (usb_req r) <> c) /\
  (forall r, rh_intr_req dwc = Some r -> cookie (usb_req r) <> c) /\
  (forall r, In r (pending_of (usb_devices dwc)) -> cookie (usb_req r) <> c).
Proof.
  unfold not_live, live_requests. split.
  - intros Hl. repeat split; intros r Hr; apply Hl.
    + apply in_or_app. left. exact Hr.
    + rewrite Hr. apply in_or_app. right. left. reflexivity.
    + apply in_or_app. right. apply in_or_app. right. exact Hr.
  - intros (H1 & H2 & H3) r Hin.
    apply in_app_or in Hin as [Hin | Hin]; [exact (H1 _ Hin)|].
    apply in_app_or in Hin as [Hin | Hin]; [|exact (H3 _ Hin)].
    destruct (rh_intr_req dwc) as [s|]; [|destruct Hin].
    destruct Hin as [<- | []]. apply H2. reflexivity.
Qed.

Lemma request_queue_safe `{Platform} c dwc usb calloc_ok dwc' :
  cookie usb <> c ->
  not_live c dwc ->
  dwc_request_queue dwc usb calloc_ok = Some dwc' ->
  not_live c dwc' /\
  delivered_to c (effects dwc') = delivered_to c (effects dwc).
Proof.
  intros Hc Hl. unfold dwc_request_queue.
  destruct (_ <? _).
  { intros [= <-]. apply not_live_delivered_same; [|exact Hl].
    apply (quiet_emit c (UsbRequestComplete usb ZX_ERR_INVALID_ARGS 0)).
    exact Hc. }
  unfold do_dwc_usb_request_queue.
  destruct (get_free_request dwc calloc_ok) as [[b dwc1]|] eqn:Hg;
    [|discriminate].
  assert (Hq1 : quiet c dwc dwc1).
  { unfold get_free_request in Hg. destruct (free_reqs dwc).
    - destruct (free_req_count dwc =? 0); [|discriminate].
      injection Hg as _ <-. apply quiet_refl.
    - injection Hg as _ <-. apply quiet_set_free_list. }
  destruct (not_live_delivered_same _ _ _ Hq1 Hl) as [Hl1 Hd1].
  destruct b.
  2:{ intros [= <-]. rewrite <- Hd1.
      apply not_live_delivered_same; [|exact Hl1].
      apply (quiet_emit c (UsbRequestComplete usb ZX_ERR_NO_MEMORY 0)).
      exact Hc. }
  apply not_live_parts in Hl1 as (L1 & L2 & L3).
  destruct (is_roothub_request _).
  - intros [= <-]. split; [|exact Hd1].
    apply not_live_parts.
    cbn [dwc_usb_request_queue_rh set_rh_req_head set_DBG_reqid rh_req_head
         rh_intr_req usb_devices].
    repeat split; [|exact L2 | exact L3].
    intros r Hin. apply in_app_or in Hin as [Hin | [<- | []]];
      [exact (L1 _ Hin) | exact Hc].
  - unfold dwc_usb_request_queue_hw.
    destruct (negb _); [discriminate|].
    cbn [set_DBG_reqid usb_devices usb_req new_request].
    destruct (nth_error (usb_devices dwc1) _) as [dev|] eqn:Hdev;
      [|discriminate].
    destruct (list_add_tail_pending _ _ _) as [eps|] eqn:Hadd;
      [|discriminate].
    intros [= <-]. split; [|exact Hd1].
    apply not_live_parts.
    cbn [set_usb_devices set_DBG_reqid rh_req_head rh_intr_req usb_devices].
    repeat split; [exact L1 | exact L2 |].
    intros r Hin. unfold pending_of in Hin.
    apply in_flat_map_replace_nth in Hin as [Hin | Hin]; [exact (L3 _ Hin)|].
    cbn [set_endpoints endpoints] in Hin.
    destruct (in_list_add_tail_pending _ _ _ _ _ Hadd Hin) as [Hold | ->].
    + apply L3. unfold pending_of.
      exact (in_flat_map_nth_error _ _ _ _ _ Hdev Hold).
    + destruct (_ =? 0); exact Hc.
Qed.

Lemma endpoint_done_safe c d i status len dwc dwc' :
  not_live c dwc ->
  endpoint_done d i status len dwc = Some dwc' ->
  not_live c dwc' /\
  delivered_to c (effects dwc') = delivered_to c (effects dwc).
Proof.
  intros Hl. unfold endpoint_done.
  destruct (nth_error (usb_devices dwc) d) as [dev|] eqn:Hdev;
    [|intros [= <-]; split; [exact Hl | reflexivity]].
  destruct (nth_error (endpoints dev) i) as [ep|] eqn:Hep;
    [|intros [= <-]; split; [exact Hl | reflexivity]].
  destruct (pending_requests ep) as [|req rest] eqn:Hpend;
    intros [= <-]; [split; [exact Hl | reflexivity]|].
  pose proof (proj1 (not_live_parts c dwc) Hl) as (L1 & L2 & L3).
  assert (Hsub : forall r, In r (pending_requests ep) ->
                           In r (pending_of (usb_devices dwc))).
  { intros r Hr. unfold pending_of.
    apply (in_flat_map_nth_error _ _ _ _ _ Hdev).
    exact (in_flat_map_nth_error _ _ _ _ _ Hep Hr). }
  assert (Hc : cookie (usb_req req) <> c).
  { apply L3, Hsub. rewrite Hpend. left. reflexivity. }
  match goal with
  | |- not_live c (complete_request _ _ _ ?s) /\ _ =>
      assert (Hl1 : not_live c s)
  end.
  { apply not_live_parts.
    cbn [set_usb_devices rh_req_head rh_intr_req usb_devices].
    repeat split; [exact L1 | exact L2 |].
    intros r Hin. unfold pending_of in Hin.
    apply in_flat_map_replace_nth in Hin as [Hin | Hin]; [exact (L3 _ Hin)|].
    cbn [set_endpoints endpoints] in Hin.
    apply in_flat_map_replace_nth in Hin as [Hin | Hin].
    - apply L3. unfold pending_of.
      exact (in_flat_map_nth_error _ _ _ _ _ Hdev Hin).
    - cbn [set_pending_requests pending_requests] in Hin.
      apply L3, Hsub. rewrite Hpend. right. exact Hin. }
  match goal with
  | |- not_live c (complete_request _ _ _ ?s) /\ _ =>
      destruct (not_live_delivered_same c _ _
                  (quiet_complete_request c req status len s Hc) Hl1)
        as [Hl2 Hd2]
  end.
  split; [exact Hl2|]. rewrite Hd2. reflexivity.
Qed.

Lemma step_safe `{Platform} c dwc e dwc' :
  not_submitted c e ->
  not_live c dwc ->
  step dwc e = Some dwc' ->
  not_live c dwc' /\
  delivered_to c (effects dwc') = delivered_to c (effects dwc).
Proof.
  intros He Hl. destruct e as [usb ok | regs_port | hw | d i status len];
    cbn [step not_submitted] in *.
  - apply request_queue_safe; assumption.
  - unfold dwc_root_hub_req_worker_step.
    destruct (rh_req_head dwc) as [|req rest] eqn:Hq;
      [intros [= <-]; split; [exact Hl | reflexivity]|].
    pose proof (proj1 (not_live_parts c dwc) Hl) as (L1 & L2 & L3).
    intros Hp.
    apply (process_root_hub_request_safe c _ _ _ _
             (L1 req ltac:(rewrite Hq; left; reflexivity))) in Hp;
      [exact Hp|].
    apply not_live_parts.
    cbn [set_rh_req_head rh_req_head rh_intr_req usb_devices].
    repeat split; [|exact L2 | exact L3].
    intros r Hr. apply L1. rewrite Hq. right. exact Hr.
  - intros [= <-]. unfold dwc_handle_port_irq.
    match goal with
    | |- not_live c (dwc_complete_root_port_status_req ?s) /\ _ =>
        assert (Hq : quiet c dwc s)
    end.
    { eapply quiet_trans; [apply quiet_set_root_port_status|].
      apply quiet_emit. exact I. }
    destruct (not_live_delivered_same _ _ _ Hq Hl) as [Hl1 Hd1].
    destruct (port_status_req_safe c _ Hl1) as [Hl2 Hd2].
    split; [exact Hl2|]. rewrite Hd2. exact Hd1.
  - apply endpoint_done_safe. exact Hl.
Qed.

Lemma run_safe `{Platform} c es : forall dwc dwc',
  Forall (not_submitted c) es ->
  not_live c dwc ->
  run dwc es = Some dwc' ->
  not_live c dwc' /\
  delivered_to c (effects dwc') = delivered_to c (effects dwc).
Proof.
  induction es as [|e es IH]; intros dwc dwc' Hes Hl; cbn [run].
  - intros [= <-]. split; [exact Hl | reflexivity].
  - inversion Hes as [|? ? He Hes']; subst.
    destruct (step dwc e) as [dwc1|] eqn:Hs; [|discriminate].
    destruct (step_safe c _ _ _ He Hl Hs) as [Hl1 Hd1].
    intros Hr. destruct (IH _ _ Hes' Hl1 Hr) as [Hl2 Hd2].
    split; [exact Hl2|]. rewrite Hd2. exact Hd1.
Qed.

(** C10: when a non-control request is processed by the root hub while an
    earlier interrupt-in request is still stored in rh_intr_req (wPortChange
    being zero), the new request takes the slot, and whatever happens to the
    driver afterwards, no completion, with any status, is ever delivered for
    the earlier request. *)
Theorem C10_overwritten_intr_req_never_completed `{Platform} regs_port dwc
  old new :
  rh_intr_req dwc = Some old ->
  wPortChange (root_port_status dwc) = 0 ->
  is_control_request new = false ->
  cookie (usb_req new) <> cookie (usb_req old) ->
  (forall req,
     In req (rh_req_head dwc ++ pending_of (usb_devices dwc)) ->
     cookie (usb_req req) <> cookie (usb_req old)) ->
  delivered_to (cookie (usb_req old)) (effects dwc) = [] ->
  exists dwc1,
    dwc_process_root_hub_request regs_port dwc new = Some dwc1 /\
    rh_intr_req dwc1 = Some new /\
    effects dwc1 = effects dwc /\
    forall es dwc2,
      Forall (not_submitted (cookie (usb_req old))) es ->
      run dwc1 es = Some dwc2 ->
      delivered_to (cookie (usb_req old)) (effects dwc2) = [].
Proof.
  intros Hslot Hchange Hnc Hnew Hothers Hnone.
  exists (set_rh_intr_req dwc (Some new)).
  assert (Hproc : dwc_process_root_hub_request regs_port dwc new =
                  Some (set_rh_intr_req dwc (Some new))).
  { unfold dwc_process_root_hub_request. rewrite Hnc.
    unfold dwc_complete_root_port_status_req.
    cbn [set_rh_intr_req root_port_status]. rewrite Hchange. reflexivity. }
  split; [exact Hproc|]. split; [reflexivity|]. split; [reflexivity|].
  intros es dwc2 Hes Hrun.
  assert (Hl : not_live (cookie (usb_req old)) (set_rh_intr_req dwc (Some new))).
  { apply not_live_parts.
    cbn [set_rh_intr_req rh_req_head rh_intr_req usb_devices].
    repeat split.
    - intros r Hr. apply Hothers, in_or_app. left. exact Hr.
    - intros r [= <-]. exact Hnew.
    - intros r Hr. apply Hothers, in_or_app. right. exact Hr. }
  destruct (run_safe _ _ _ _ Hes Hl Hrun) as [_ Hd].
  rewrite Hd. exact Hnone.
Qed.

Lemma C10_overwritten_intr_req_never_completed_witness :
  exists dwc1,
    dwc_process_root_hub_request sample_port_idle sample_dwc_intr_pending
      sample_intr_request_2 = Some dwc1 /\
    rh_intr_req dwc1 = Some sample_intr_request_2 /\
    effects dwc1 = effects sample_dwc_intr_pending /\
    forall es dwc2,
      Forall (not_submitted (cookie (usb_req sample_intr_request))) es ->
      @run spec_platform dwc1 es = Some dwc2 ->
      delivered_to (cookie (usb_req sample_intr_request)) (effects dwc2) = [].
Proof.
  apply (@C10_overwritten_intr_req_never_completed spec_platform
           sample_port_idle sample_dwc_intr_pending sample_intr_request
           sample_intr_request_2).
  - reflexivity.
  - reflexivity.
  - reflexivity.
  - vm_compute. discriminate.
  - intros req Hin. destruct Hin.
  - reflexivity.
Defined.

(** In the sample run that follows the overwrite, the later request (cookie
    13) and a control request (cookie 7) are completed; the earlier request
    (cookie 11) is not. *)
Lemma sample_later_completions :
  map (fun x => cookie (fst (fst x))) (completions (effects sample_later)) =
    [13; 7] /\
  delivered_to 11 (effects sample_later) = [].
Proof. split; reflexivity. Qed.

(** ** The scheduler completes the request it took *)

Lemma completed_requests_app (a b : list action) :
  completed_requests (a ++ b) = completed_requests a ++ completed_requests b.
Proof.
  induction a as [|x a IH]; [reflexivity|].
  destruct x; cbn [completed_requests app]; rewrite ?IH; reflexivity.
Qed.

Lemma same_request_refl a : same_request a a.
Proof. split; reflexivity. Qed.

Lemma same_request_trans a b c :
  same_request a b -> same_request b c -> same_request a c.
Proof. intros [H1 H2] [K1 K2]. split; congruence. Qed.

Lemma start_transaction_same frame channel req hc :
  same_request (fst (fst (dwc_start_transaction frame channel req hc))) req /\
  completed_requests (snd (dwc_start_transaction frame channel req hc)) = [].
Proof.
  unfold dwc_start_transaction. cbn [fst snd completed_requests].
  destruct (negb _); repeat split; reflexivity.
Qed.

Lemma start_transfer_same `{Platform} frame chan req ep dev req' hc acts :
  dwc_start_transfer frame chan req ep dev = Some (req', hc, acts) ->
  same_request req' req /\ completed_requests acts = [].
Proof.
  unfold dwc_start_transfer.
  match goal with
  | |- match ?pv with _ => _ end = _ -> _ => destruct pv as [[[d s0] pid]|]
  end; [|discriminate].
  match goal with
  | |- context [dwc_start_transaction ?f ?c ?r ?h] =>
      pose proof (start_transaction_same f c r h) as [Hs Hc];
      destruct (dwc_start_transaction f c r h) as [[r3 h3] a3]
  end.
  cbn [fst snd] in Hs, Hc. intros [= <- <- <-].
  cbn [completed_requests]. split; [|exact Hc].
  eapply same_request_trans; [exact Hs|].
  destruct (_ && _); split; reflexivity.
Qed.

Lemma await_sof_completes_nothing channel req ep dev :
  completed_requests (await_sof_if_necessary channel req ep dev) = [].
Proof. unfold await_sof_if_necessary. destruct (_ && _); reflexivity. Qed.

Lemma handle_normal_same `{ChannelPool} frame channel req ep interrupts hc
  done req1 hc1 acts :
  handle_normal_channel_halted frame channel req ep interrupts hc =
    Some (done, req1, hc1, acts) ->
  same_request req1 req /\
  Forall (fun r => same_request r req) (completed_requests acts).
Proof.
  unfold handle_normal_channel_halted.
  generalize (halted_bytes_transferred req hc
                (u32 (packets_queued req - packet_count (transfer hc)))).
  intros n. cbv zeta.
  repeat match goal with
         | |- context [dwc_start_transaction ?f ?c ?r ?h] =>
             let Hs := fresh "Hs" in
             let Hc := fresh "Hc" in
             pose proof (start_transaction_same f c r h) as [Hs Hc];
             destruct (dwc_start_transaction f c r h) as [[? ?] ?];
             cbn [fst snd] in Hs, Hc
         end.
  repeat match goal with
         | |- (if ?b then _ else _) = _ -> _ => destruct b
         end;
    release_ok; intros [= <- <- <- <-]; cbn [completed_requests];
    rewrite ?Hc, ?Hc0, ?Hc1;
    (split;
     [first [ split; reflexivity
            | eapply same_request_trans; [eassumption|];
              repeat match goal with
                     | |- context [if ?b then _ else _] => destruct b
                     end; split; reflexivity
            | repeat match goal with
                     | |- context [if ?b then _ else _] => destruct b
                     end; split; reflexivity ]
     | repeat constructor; split; reflexivity ]).
Qed.

Lemma handle_halted_same `{ChannelPool} frame channel req ep dev interrupts hc
  counter done req1 hc1 counter1 acts :
  handle_channel_halted_interrupt frame channel req ep dev interrupts hc
    counter = Some (done, req1, hc1, counter1, acts) ->
  same_request req1 req /\
  Forall (fun r => same_request r req) (completed_requests acts).
Proof.
  unfold handle_channel_halted_interrupt.
  destruct (_ || _).
  { release_ok. intros [= <- <- <- <- <-]. cbn [completed_requests].
    split; [|repeat constructor]; split; reflexivity. }
  destruct (frame_overrun interrupts).
  { destruct (u32 (counter + 1) =? FRAME_OVERRUN_THRESHOLD);
      release_ok; intros [= <- <- <- <- <-]; cbn [completed_requests app];
      (split; [split; reflexivity | constructor]). }
  destruct (nak_response_received interrupts).
  { nak_release; intros [= <- <- <- <- <-];
      cbn [completed_requests app];
      rewrite completed_requests_app, await_sof_completes_nothing;
      cbn [completed_requests app];
      (split; [split; reflexivity | constructor]). }
  destruct (nyet_response_received interrupts).
  { match goal with
    | |- context [dwc_start_transaction ?f ?c ?r ?h] =>
        pose proof (start_transaction_same f c r h) as [Hs Hc];
        destruct (dwc_start_transaction f c r h) as [[r3 h3] a3]
    end.
    cbn [fst snd] in Hs, Hc. intros [= <- <- <- <- <-].
    rewrite !completed_requests_app, await_sof_completes_nothing, Hc.
    split.
    - eapply same_request_trans; [exact Hs|].
      destruct (8 <=? _); split; reflexivity.
    - destruct (negb _); constructor. }
  destruct (handle_normal_channel_halted frame channel req ep interrupts hc)
    as [[[[d r] h] a]|] eqn:Hn; [|discriminate].
  intros [= <- <- <- <- <-].
  exact (handle_normal_same _ _ _ _ _ _ _ _ _ _ Hn).
Qed.

Lemma start_request_same `{Platform} th req ep dev inp th' req' ohc acts :
  start_request th req ep dev inp = Some (th', req', ohc, acts) ->
  same_request req' req /\ completed_requests acts = [].
Proof.
  unfold start_request.
  repeat match goal with
         | |- (if ?b then _ else _) = _ -> _ => destruct b
         | |- match ctrl_phase ?r with _ => _ end = _ -> _ =>
             destruct (ctrl_phase r)
         end;
    try discriminate;
    try (intros [= <- <- <- <-]; split; [split; reflexivity | reflexivity]);
    match goal with
    | |- match dwc_start_transfer ?f ?c ?r ?e ?d with _ => _ end = _ -> _ =>
        destruct (dwc_start_transfer f c r e d) as [[[r2 h2] a2]|] eqn:Hst;
        [|discriminate];
        destruct (start_transfer_same _ _ _ _ _ _ _ _ Hst) as [Hs Hc]
    end;
    intros [= <- <- <- <-];
    cbn [completed_requests];
    rewrite ?completed_requests_app, ?await_sof_completes_nothing, ?Hc;
    (split; [|reflexivity]);
    (eapply same_request_trans; [exact Hs|]); split; reflexivity.
Qed.

Lemma await_channel_same `{Platform} `{ChannelPool} ep dev :
  forall rs th req hc acts e,
  await_channel ep dev rs th req hc = (acts, e) ->
  Forall (fun r => same_request r req) (completed_requests acts).
Proof.
  induction rs as [|r rs IH]; intros th req hc acts e; cbn [await_channel].
  - intros [= <- <-]. constructor.
  - destruct (handle_channel_halted_interrupt _ _ _ _ _ _ _ _)
      as [[[[[done req1] hc2] counter] acts1]|] eqn:Hh.
    2:{ intros [= <- <-]. constructor. }
    destruct (handle_halted_same _ _ _ _ _ _ _ _ _ _ _ _ _ Hh) as [Hs1 Hc1].
    assert (Hmono : forall l,
              Forall (fun r => same_request r req1) l ->
              Forall (fun r => same_request r req) l).
    { intros l Hl. eapply Forall_impl; [|exact Hl].
      intros a Ha. exact (same_request_trans _ _ _ Ha Hs1). }
    destruct done.
    + destruct (existsb is_ListAddHead acts1).
      2:{ intros [= <- <-]. exact Hc1. }
      destruct (start_request _ req1 ep dev (hw_next r))
        as [[[[th3 req2] ohc] acts2]|] eqn:Hsr.
      2:{ intros [= <- <-]. exact Hc1. }
      destruct (start_request_same _ _ _ _ _ _ _ _ _ Hsr) as [Hs2 Hc2].
      destruct ohc as [hc3|].
      2:{ intros [= <- <-]. rewrite completed_requests_app, Hc2, app_nil_r.
          exact Hc1. }
      destruct (await_channel ep dev rs th3 req2 hc3) as [tr e'] eqn:Haw.
      intros [= <- <-].
      rewrite !completed_requests_app, Hc2. cbn [app].
      apply Forall_app. split; [exact Hc1|].
      apply Hmono. eapply Forall_impl; [|exact (IH _ _ _ _ _ Haw)].
      intros a Ha. exact (same_request_trans _ _ _ Ha Hs2).
    + destruct (await_channel ep dev rs _ req1 hc2) as [tr e'] eqn:Haw.
      intros [= <- <-]. rewrite completed_requests_app.
      apply Forall_app. split; [exact Hc1|].
      apply Hmono. exact (IH _ _ _ _ _ Haw).
Qed.

(** Whatever the hardware answers, the scheduler of an endpoint completes no
    other request than the one it took from the pending list. *)
Lemma schedule_request_completes_its_request `{Platform} `{ChannelPool} ep
  dev th req inp rs acts e :
  schedule_request ep dev th req inp rs = (acts, e) ->
  Forall (fun r => same_request r req) (completed_requests acts).
Proof.
  unfold schedule_request.
  destruct (start_request th req ep dev inp)
    as [[[[th1 req1] ohc] acts0]|] eqn:Hsr.
  2:{ intros [= <- <-]. constructor. }
  destruct (start_request_same _ _ _ _ _ _ _ _ _ Hsr) as [Hs Hc].
  destruct ohc as [hc|].
  2:{ intros [= <- <-]. rewrite Hc. constructor. }
  destruct (await_channel ep dev rs th1 req1 hc) as [tr e'] eqn:Haw.
  intros [= <- <-]. rewrite completed_requests_app, Hc. cbn [app].
  eapply Forall_impl; [|exact (await_channel_same _ _ _ _ _ _ _ _ Haw)].
  intros a Ha. exact (same_request_trans _ _ _ Ha Hs).
Qed.

(** * Further properties *)

(** ** Port interrupt *)

Lemma or_if_bits (b : bool) (x k i : Z) :
  0 <= k -> 0 <= i ->
  Z.testbit (or_if b x (Z.shiftl 1 k)) i = Z.testbit x i || (b && (i =? k)).
Proof.
  intros Hk Hi. unfold or_if. destruct b.
  - rewrite Z.lor_spec, Z.shiftl_1_l, Z.pow2_bits_eqb by lia.
    rewrite (Z.eqb_sym k i). reflexivity.
  - cbn [andb]. rewrite orb_false_r. reflexivity.
Qed.

Lemma lor_pow2_bits (x k i : Z) :
  0 <= k -> 0 <= i ->
  Z.testbit (Z.lor x (Z.shiftl 1 k)) i = Z.testbit x i || (i =? k).
Proof.
  intros Hk Hi.
  rewrite Z.lor_spec, Z.shiftl_1_l, Z.pow2_bits_eqb by lia.
  rewrite (Z.eqb_sym k i). reflexivity.
Qed.

Lemma bits_bounded (x n : Z) :
  0 <= n -> 0 <= x ->
  (forall i, n <= i -> Z.testbit x i = false) -> x < 2 ^ n.
Proof.
  intros Hn Hx Hbits.
  destruct (Z.eq_dec x 0) as [-> | Hnz]; [apply Z.pow_pos_nonneg; lia|].
  apply Z.log2_lt_pow2; [lia|].
  destruct (Z.lt_ge_cases (Z.log2 x) n) as [Hlt | Hge]; [exact Hlt|].
  pose proof (Z.bit_log2 x ltac:(lia)) as Hb.
  rewrite (Hbits _ Hge) in Hb. discriminate.
Qed.

Lemma or_if_nonneg b x k : 0 <= x -> 0 <= k -> 0 <= or_if b x (Z.shiftl 1 k).
Proof.
  intros Hx Hk. unfold or_if. destruct b; [|exact Hx].
  apply Z.lor_nonneg. split; [exact Hx|]. apply Z.shiftl_nonneg. lia.
Qed.

Lemma port_irq_words hw dwc :
  (forall i, 0 <= i ->
     Z.testbit (wPortStatus (root_port_status (dwc_handle_port_irq hw dwc))) i =
     (connected hw && (i =? 0)) || (enabled hw && (i =? 1)) ||
     (suspended hw && (i =? 2)) || (overcurrent hw && (i =? 3)) ||
     (reset hw && (i =? 4)) ||
     ((port_speed hw =? 2) && (i =? 9)) ||
     ((port_speed hw =? 0) && (i =? 10))) /\
  (forall i, 0 <= i ->
     Z.testbit (wPortChange (root_port_status (dwc_handle_port_irq hw dwc))) i =
     (connected_changed hw && (i =? 0)) || (enabled_changed hw && (i =? 1)) ||
     (overcurrent_changed hw && (i =? 3))) /\
  0 <= wPortStatus (root_port_status (dwc_handle_port_irq hw dwc)) < 2 ^ 11 /\
  0 <= wPortChange (root_port_status (dwc_handle_port_irq hw dwc)) < 2 ^ 4.
Proof.
  rewrite handle_port_irq_status.
  cbn [root_port_status set_root_port_status].
  unfold dwc_handle_port_irq, dwc_complete_root_port_status_req.
  cbn [root_port_status set_root_port_status emit dwc_init rh_intr_req
       wPortChange wPortStatus].
  match goal with
  | |- context [if negb ?c then _ else _] => destruct (negb c)
  end;
    cbn [root_port_status set_root_port_status emit dwc_init rh_intr_req
         wPortChange wPortStatus].
  all: unfold USB_PORT_CONNECTION, USB_PORT_ENABLE, USB_PORT_SUSPEND,
         USB_PORT_OVER_CURRENT, USB_PORT_RESET, USB_PORT_LOW_SPEED,
         USB_PORT_HIGH_SPEED, USB_C_PORT_CONNECTION, USB_C_PORT_ENABLE,
         USB_C_PORT_OVER_CURRENT.
  all: match goal with
       | |- (forall i, 0 <= i -> Z.testbit ?S i = _) /\
            (forall j, 0 <= j -> Z.testbit ?C j = _) /\ _ =>
           set (st := S); set (ch := C)
       end.
  all: assert (Hst : forall i, 0 <= i ->
         Z.testbit st i =
         (connected hw && (i =? 0)) || (enabled hw && (i =? 1)) ||
         (suspended hw && (i =? 2)) || (overcurrent hw && (i =? 3)) ||
         (reset hw && (i =? 4)) ||
         ((port_speed hw =? 2) && (i =? 9)) ||
         ((port_speed hw =? 0) && (i =? 10)))
    by (intros i Hi; subst st;
        destruct (Z.eqb_spec (port_speed hw) 2) as [E2 | E2];
        [ rewrite E2; change (2 =? 0) with false
        | destruct (port_speed hw =? 0) ];
        rewrite ?lor_pow2_bits by lia;
        rewrite !or_if_bits by lia; rewrite Z.bits_0;
        cbn [andb orb]; rewrite ?orb_false_r; reflexivity).
  all: assert (Hch : forall i, 0 <= i ->
         Z.testbit ch i =
         (connected_changed hw && (i =? 0)) ||
         (enabled_changed hw && (i =? 1)) ||
         (overcurrent_changed hw && (i =? 3)))
    by (intros i Hi; subst ch; rewrite !or_if_bits by lia; rewrite Z.bits_0;
        reflexivity).
  all: assert (Hst0 : 0 <= st)
    by (subst st;
        destruct (port_speed hw =? 2); [|destruct (port_speed hw =? 0)];
        try (apply Z.lor_nonneg; split; [|vm_compute; discriminate]);
        repeat (apply or_if_nonneg; [|lia]); lia).
  all: assert (Hch0 : 0 <= ch)
    by (subst ch; repeat (apply or_if_nonneg; [|lia]); lia).
  all: split; [exact Hst|]; split; [exact Hch|].
  all: split; (split; [assumption|]).
  all: apply bits_bounded; try lia; try assumption.
  all: intros i Hi; rewrite ?Hst, ?Hch by lia.
  all: repeat match goal with
              | |- context [?x =? ?k] =>
                  destruct (Z.eqb_spec x k); [lia|]
              end.
  all: rewrite ?andb_false_r; reflexivity.
Qed.

(** X1: a port interrupt rebuilds both words of the root port status from
    the port register alone: bits 0 to 4 of wPortStatus are connected,
    enabled, suspended, overcurrent and reset, bit 9 is set for speed 2 (low)
    and bit 10 for speed 0 (high), and bits 0, 1 and 3 of wPortChange are the
    connected, enabled and overcurrent change flags. Every other bit is
    zero, so the interrupt never reports a suspend or a reset change. *)
Theorem X1_port_irq_status_words hw dwc :
  let s := root_port_status (dwc_handle_port_irq hw dwc) in
  (forall i, 0 <= i ->
     Z.testbit (wPortStatus s) i =
     (connected hw && (i =? 0)) || (enabled hw && (i =? 1)) ||
     (suspended hw && (i =? 2)) || (overcurrent hw && (i =? 3)) ||
     (reset hw && (i =? 4)) ||
     ((port_speed hw =? 2) && (i =? 9)) ||
     ((port_speed hw =? 0) && (i =? 10))) /\
  (forall i, 0 <= i ->
     Z.testbit (wPortChange s) i =
     (connected_changed hw && (i =? 0)) || (enabled_changed hw && (i =? 1)) ||
     (overcurrent_changed hw && (i =? 3))) /\
  0 <= wPortStatus s < 2 ^ 11 /\
  0 <= wPortChange s < 2 ^ 4.
Proof. exact (port_irq_words hw dwc). Qed.

Lemma process_root_hub_class regs_port dwc req request :
  is_root_hub_ctrl req USB_TYPE_CLASS request ->
  dwc_process_root_hub_request regs_port dwc req =
  Some (dwc_process_root_hub_class_req regs_port req dwc).
Proof.
  intros (Hep & Hty & _).
  unfold dwc_process_root_hub_request, is_control_request.
  rewrite Hep. change (0 =? 0) with true. cbv iota.
  unfold dwc_process_root_hub_ctrl_req. rewrite Hty. reflexivity.
Qed.

Lemma process_root_hub_std regs_port dwc req request :
  is_root_hub_ctrl req USB_TYPE_STANDARD request ->
  dwc_process_root_hub_request regs_port dwc req =
  Some (dwc_process_root_hub_std_req req dwc).
Proof.
  intros (Hep & Hty & _).
  unfold dwc_process_root_hub_request, is_control_request.
  rewrite Hep. change (0 =? 0) with true. cbv iota.
  unfold dwc_process_root_hub_ctrl_req. rewrite Hty. reflexivity.
Qed.

(** X2: a port interrupt that reports no change, or that finds the
    interrupt slot empty, delivers no completion and leaves the slot as it
    is: a stored interrupt-in request keeps waiting. *)
Theorem X2_port_irq_without_change_or_request hw dwc :
  (connected_changed hw = false /\ enabled_changed hw = false /\
   overcurrent_changed hw = false) \/ rh_intr_req dwc = None ->
  completions (effects (dwc_handle_port_irq hw dwc)) =
    completions (effects dwc) /\
  rh_intr_req (dwc_handle_port_irq hw dwc) = rh_intr_req dwc.
Proof.
  intros Hcase.
  unfold dwc_handle_port_irq, dwc_complete_root_port_status_req.
  cbn [root_port_status set_root_port_status emit rh_intr_req wPortChange].
  assert (Hquiet :
    completions (effects dwc ++ [WritePortCtrlStatus (set_port_enabled hw false)])
    = completions (effects dwc)).
  { rewrite completions_app. cbn [completions]. apply app_nil_r. }
  destruct Hcase as [(-> & -> & ->) | Hnone].
  - cbn [or_if Z.eqb negb effects]. split; [exact Hquiet | reflexivity].
  - rewrite Hnone. destruct (negb _); cbn [effects rh_intr_req];
      (split; [exact Hquiet | exact Hnone || reflexivity]).
Qed.

Lemma X2_port_irq_without_change_or_request_witness :
  completions (effects (dwc_handle_port_irq sample_port_enabled_only
                          sample_dwc_intr_pending)) =
    completions (effects sample_dwc_intr_pending) /\
  rh_intr_req (dwc_handle_port_irq sample_port_enabled_only
                 sample_dwc_intr_pending) =
    rh_intr_req sample_dwc_intr_pending.
Proof.
  apply (X2_port_irq_without_change_or_request sample_port_enabled_only
           sample_dwc_intr_pending).
  left. split; [reflexivity | split; reflexivity].
Defined.

(** ** Root hub GET_STATUS *)

Lemma bytes_of_u16_decode (x : Z) :
  0 <= x < 2 ^ 16 ->
  exists lo hi,
    bytes_of_u16 x = [lo; hi] /\ 0 <= lo < 256 /\ 0 <= hi < 256 /\
    u16_of_bytes lo hi = x.
Proof.
  intros Hx. exists (Z.land x 255), (Z.shiftr x 8).
  split; [reflexivity|].
  change 255 with (Z.ones 8). rewrite Z.land_ones by lia.
  rewrite Z.shiftr_div_pow2 by lia. change (2 ^ 8) with 256.
  unfold u16_of_bytes.
  pose proof (Z.mod_pos_bound x 256 ltac:(lia)).
  pose proof (Z.div_mod x 256 ltac:(lia)).
  assert (0 <= x / 256 < 256)
    by (split; [apply Z.div_pos; lia | apply Z.div_lt_upper_bound; lia]).
  repeat split; lia.
Qed.

(** X3: a class GET_STATUS request to the root hub with room for four bytes
    is completed OK with length 4; the four bytes are wPortStatus and
    wPortChange, each little-endian, so that decoding them gives back the two
    words; the root port status itself is not modified. The length used is
    that of the request (header.length), not wLength. *)
Theorem X3_get_status_round_trip regs_port dwc req :
  is_root_hub_ctrl req USB_TYPE_CLASS USB_REQ_GET_STATUS ->
  4 <= h_length (header (usb_req req)) ->
  (4 <= List.length (payload (usb_req req)))%nat ->
  0 <= wPortStatus (root_port_status dwc) < 2 ^ 16 ->
  0 <= wPortChange (root_port_status dwc) < 2 ^ 16 ->
  exists dwc' r' b0 b1 b2 b3,
    dwc_process_root_hub_request regs_port dwc req = Some dwc' /\
    completions (effects dwc') =
      completions (effects dwc) ++ [(r', ZX_OK, 4)] /\
    cookie r' = cookie (usb_req req) /\
    firstn 4 (payload r') = [b0; b1; b2; b3] /\
    u16_of_bytes b0 b1 = wPortStatus (root_port_status dwc) /\
    u16_of_bytes b2 b3 = wPortChange (root_port_status dwc) /\
    root_port_status dwc' = root_port_status dwc.
Proof.
  intros Hctrl Hlen Hbuf Hst Hch.
  destruct (bytes_of_u16_decode _ Hst) as (b0 & b1 & E1 & _ & _ & D1).
  destruct (bytes_of_u16_decode _ Hch) as (b2 & b3 & E2 & _ & _ & D2).
  rewrite (process_root_hub_class _ _ _ _ Hctrl).
  destruct Hctrl as (_ & _ & Hrq).
  unfold dwc_process_root_hub_class_req. rewrite Hrq.
  change (USB_REQ_GET_STATUS =? USB_REQ_GET_DESCRIPTOR) with false.
  change (USB_REQ_GET_STATUS =? USB_REQ_SET_FEATURE) with false.
  change (USB_REQ_GET_STATUS =? USB_REQ_CLEAR_FEATURE) with false.
  change (USB_REQ_GET_STATUS =? USB_REQ_GET_STATUS) with true.
  cbv iota.
  assert (Hl : (if sizeof_usb_port_status_t <? h_length (header (usb_req req))
                then sizeof_usb_port_status_t
                else h_length (header (usb_req req))) = 4).
  { unfold sizeof_usb_port_status_t.
    destruct (Z.ltb_spec 4 (h_length (header (usb_req req)))); lia. }
  rewrite Hl.
  eexists; eexists; exists b0, b1, b2, b3.
  split; [reflexivity|].
  rewrite completions_complete_request, root_port_status_complete_request.
  split; [reflexivity|]. split; [reflexivity|].
  split; [|split; [exact D1 | split; [exact D2 | reflexivity]]].
  cbn [usb_req set_usb_req]. rewrite copyto_payload by lia.
  unfold bytes_of_port_status. rewrite E1, E2.
  apply firstn_app_exact. reflexivity.
Qed.

Lemma X3_get_status_round_trip_witness :
  exists dwc' r' b0 b1 b2 b3,
    dwc_process_root_hub_request sample_port_idle sample_dwc_changes
      (sample_class_request USB_REQ_GET_STATUS 0 50) = Some dwc' /\
    completions (effects dwc') =
      completions (effects sample_dwc_changes) ++ [(r', ZX_OK, 4)] /\
    cookie r' = 50 /\
    firstn 4 (payload r') = [b0; b1; b2; b3] /\
    u16_of_bytes b0 b1 = 1287 /\
    u16_of_bytes b2 b3 = 31 /\
    root_port_status dwc' = root_port_status sample_dwc_changes.
Proof.
  apply (X3_get_status_round_trip sample_port_idle sample_dwc_changes
           (sample_class_request USB_REQ_GET_STATUS 0 50)).
  - split; [reflexivity | split; reflexivity].
  - vm_compute. discriminate.
  - vm_compute. lia.
  - vm_compute. split; [discriminate | reflexivity].
  - vm_compute. split; [discriminate | reflexivity].
Defined.

(** ** Root hub CLEAR_FEATURE, any selector *)

Lemma clear_feature_any regs_port dwc req :
  is_root_hub_ctrl req USB_TYPE_CLASS USB_REQ_CLEAR_FEATURE ->
  0 <= wPortChange (root_port_status dwc) < 2 ^ 16 ->
  exists dwc',
    dwc_process_root_hub_request regs_port dwc req = Some dwc' /\
    (forall i, 0 <= i ->
       Z.testbit (wPortChange (root_port_status dwc')) i =
       Z.testbit (wPortChange (root_port_status dwc)) i &&
       negb match change_bit_of_feature (wValue (setup (usb_req req))) with
            | Some k => i =? k
            | None => false
            end) /\
    0 <= wPortChange (root_port_status dwc') < 2 ^ 16 /\
    wPortStatus (root_port_status dwc') = wPortStatus (root_port_status dwc) /\
    completions (effects dwc') =
      completions (effects dwc) ++ [(usb_req req, ZX_OK, 0)].
Proof.
  intros Hctrl Hrange.
  rewrite (process_root_hub_class _ _ _ _ Hctrl).
  destruct Hctrl as (_ & _ & Hrq).
  eexists. split; [reflexivity|].
  unfold dwc_process_root_hub_class_req. rewrite Hrq.
  change (USB_REQ_CLEAR_FEATURE =? USB_REQ_GET_DESCRIPTOR) with false.
  change (USB_REQ_CLEAR_FEATURE =? USB_REQ_SET_FEATURE) with false.
  change (USB_REQ_CLEAR_FEATURE =? USB_REQ_CLEAR_FEATURE) with true.
  cbv iota.
  rewrite completions_complete_request, root_port_status_complete_request.
  cbn [root_port_status set_root_port_status set_wPortChange wPortChange
       wPortStatus effects].
  unfold le16toh, change_bit_of_feature.
  assert (Hu : forall k, 0 <= k ->
            0 <= clear_change_bits (wPortChange (root_port_status dwc))
                   (Z.shiftl 1 k) < 2 ^ 16).
  { intros k Hk. unfold clear_change_bits, u16, wrap.
    apply Z.mod_pos_bound. lia. }
  unfold USB_C_PORT_CONNECTION, USB_C_PORT_ENABLE, USB_PORT_SUSPEND,
    USB_C_PORT_OVER_CURRENT, USB_C_PORT_RESET.
  repeat match goal with
         | |- context [if ?b then _ else _] => destruct b
         end;
    (split; [|split; [|split; reflexivity]]);
    try (apply Hu; lia); try exact Hrange;
    intros i Hi;
    try (apply clear_change_bits_spec; [exact Hrange | lia | exact Hi]).
  cbn [negb]. rewrite andb_true_r. reflexivity.
Qed.

(** X4: a CLEAR_FEATURE request whose selector is none of the five port
    change selectors is still completed OK, and leaves both words of the root
    port status as they are. *)
Theorem X4_clear_feature_unknown_selector regs_port dwc req :
  is_root_hub_ctrl req USB_TYPE_CLASS USB_REQ_CLEAR_FEATURE ->
  change_bit_of_feature (wValue (setup (usb_req req))) = None ->
  exists dwc',
    dwc_process_root_hub_request regs_port dwc req = Some dwc' /\
    root_port_status dwc' = root_port_status dwc /\
    completions (effects dwc') =
      completions (effects dwc) ++ [(usb_req req, ZX_OK, 0)].
Proof.
  intros Hctrl Hnone.
  rewrite (process_root_hub_class _ _ _ _ Hctrl).
  destruct Hctrl as (_ & _ & Hrq).
  eexists. split; [reflexivity|].
  unfold dwc_process_root_hub_class_req. rewrite Hrq.
  change (USB_REQ_CLEAR_FEATURE =? USB_REQ_GET_DESCRIPTOR) with false.
  change (USB_REQ_CLEAR_FEATURE =? USB_REQ_SET_FEATURE) with false.
  change (USB_REQ_CLEAR_FEATURE =? USB_REQ_CLEAR_FEATURE) with true.
  cbv iota.
  rewrite completions_complete_request, root_port_status_complete_request.
  split; [|reflexivity].
  unfold change_bit_of_feature in Hnone. unfold le16toh.
  repeat match type of Hnone with
         | (if ?b then _ else _) = None =>
             destruct b; [discriminate Hnone|]
         end.
  cbn [root_port_status set_root_port_status set_wPortChange].
  destruct (root_port_status dwc). reflexivity.
Qed.

Lemma X4_clear_feature_unknown_selector_witness :
  exists dwc',
    dwc_process_root_hub_request sample_port_idle sample_dwc_changes
      (sample_class_request USB_REQ_CLEAR_FEATURE USB_FEATURE_PORT_POWER 54) =
      Some dwc' /\
    root_port_status dwc' = root_port_status sample_dwc_changes /\
    completions (effects dwc') =
      completions (effects sample_dwc_changes) ++
      [(usb_req (sample_class_request USB_REQ_CLEAR_FEATURE
                   USB_FEATURE_PORT_POWER 54), ZX_OK, 0)].
Proof.
  apply (X4_clear_feature_unknown_selector sample_port_idle sample_dwc_changes
           (sample_class_request USB_REQ_CLEAR_FEATURE USB_FEATURE_PORT_POWER
              54)).
  - split; [reflexivity | split; reflexivity].
  - reflexivity.
Defined.

Lemma process_clear_features regs_port reqs : forall dwc,
  Forall (fun req =>
            is_root_hub_ctrl req USB_TYPE_CLASS USB_REQ_CLEAR_FEATURE) reqs ->
  0 <= wPortChange (root_port_status dwc) < 2 ^ 16 ->
  exists dwc',
    process_root_hub_requests regs_port dwc reqs = Some dwc' /\
    (forall i, 0 <= i ->
       Z.testbit (wPortChange (root_port_status dwc')) i =
       Z.testbit (wPortChange (root_port_status dwc)) i &&
       negb (existsb
               (fun req =>
                  match change_bit_of_feature (wValue (setup (usb_req req)))
                  with
                  | Some k => i =? k
                  | None => false
                  end) reqs)) /\
    0 <= wPortChange (root_port_status dwc') < 2 ^ 16 /\
    wPortStatus (root_port_status dwc') = wPortStatus (root_port_status dwc) /\
    completions (effects dwc') =
      completions (effects dwc) ++ map (fun req => (usb_req req, ZX_OK, 0)) reqs.
Proof.
  induction reqs as [|req rest IH]; intros dwc Hall Hrange.
  - exists dwc. cbn. split; [reflexivity|].
    split; [intros i Hi; rewrite andb_true_r; reflexivity|].
    split; [exact Hrange|]. split; [reflexivity|].
    symmetry. apply app_nil_r.
  - inversion Hall as [|? ? Hreq Hrest]; subst.
    destruct (clear_feature_any regs_port dwc req Hreq Hrange)
      as (dwc1 & Hp & Hb1 & Hr1 & Hs1 & Hc1).
    destruct (IH dwc1 Hrest Hr1) as (dwc2 & Hp2 & Hb2 & Hr2 & Hs2 & Hc2).
    exists dwc2. cbn [process_root_hub_requests]. rewrite Hp.
    split; [exact Hp2|].
    split; [|split; [exact Hr2 | split; [congruence|]]].
    + intros i Hi. rewrite (Hb2 i Hi), (Hb1 i Hi). cbn [existsb].
      rewrite negb_orb. rewrite andb_assoc. reflexivity.
    + rewrite Hc2, Hc1. cbn [map]. rewrite <- app_assoc. reflexivity.
Qed.

(** X5: after a port interrupt, clearing the connection, enable and
    over-current change features, in any order and among any other
    CLEAR_FEATURE requests, brings wPortChange back to zero; wPortStatus
    keeps the value the interrupt gave it and every request is completed
    OK. *)
Theorem X5_clear_features_after_port_irq regs_port hw dwc reqs :
  Forall (fun req =>
            is_root_hub_ctrl req USB_TYPE_CLASS USB_REQ_CLEAR_FEATURE) reqs ->
  (forall f, In f [USB_FEATURE_C_PORT_CONNECTION; USB_FEATURE_C_PORT_ENABLE;
                   USB_FEATURE_C_PORT_OVER_CURRENT] ->
             exists req, In req reqs /\ wValue (setup (usb_req req)) = f) ->
  exists dwc',
    process_root_hub_requests regs_port (dwc_handle_port_irq hw dwc) reqs =
      Some dwc' /\
    wPortChange (root_port_status dwc') = 0 /\
    wPortStatus (root_port_status dwc') =
      wPortStatus (root_port_status (dwc_handle_port_irq hw dwc)) /\
    completions (effects dwc') =
      completions (effects (dwc_handle_port_irq hw dwc)) ++
      map (fun req => (usb_req req, ZX_OK, 0)) reqs.
Proof.
  intros Hall Hcover.
  destruct (port_irq_words hw dwc) as (_ & Hch & _ & Hr).
  destruct (process_clear_features regs_port reqs
              (dwc_handle_port_irq hw dwc) Hall ltac:(lia))
    as (dwc' & Hp & Hb & Hr' & Hs & Hc).
  exists dwc'. split; [exact Hp|]. split; [|split; [exact Hs | exact Hc]].
  apply Z.bits_inj_0. intros i.
  destruct (Z.neg_nonneg_cases i) as [Hneg | Hi];
    [apply Z.testbit_neg_r; exact Hneg|].
  rewrite (Hb i Hi), (Hch i Hi).
  assert (Hex : forall f k,
            In f [USB_FEATURE_C_PORT_CONNECTION; USB_FEATURE_C_PORT_ENABLE;
                  USB_FEATURE_C_PORT_OVER_CURRENT] ->
            change_bit_of_feature f = Some k -> i = k ->
            existsb
              (fun req =>
                 match change_bit_of_feature (wValue (setup (usb_req req)))
                 with
                 | Some k => i =? k
                 | None => false
                 end) reqs = true).
  { intros f k Hf Hk ->. destruct (Hcover f Hf) as (req & Hin & Hv).
    apply existsb_exists. exists req. split; [exact Hin|].
    rewrite Hv, Hk. apply Z.eqb_refl. }
  destruct (Z.eqb_spec i 0) as [E0 | E0].
  { rewrite (Hex USB_FEATURE_C_PORT_CONNECTION 0); cbn [In]; auto.
    apply andb_false_r. }
  destruct (Z.eqb_spec i 1) as [E1 | E1].
  { rewrite (Hex USB_FEATURE_C_PORT_ENABLE 1); cbn [In]; auto.
    apply andb_false_r. }
  destruct (Z.eqb_spec i 3) as [E3 | E3].
  { rewrite (Hex USB_FEATURE_C_PORT_OVER_CURRENT 3); cbn [In]; auto.
    apply andb_false_r. }
  rewrite !andb_false_r. reflexivity.
Qed.

Lemma X5_clear_features_after_port_irq_witness :
  exists dwc',
    process_root_hub_requests sample_port_idle
      (dwc_handle_port_irq sample_port_attach (dwc_init [])) sample_clear_all =
      Some dwc' /\
    wPortChange (root_port_status dwc') = 0 /\
    wPortStatus (root_port_status dwc') =
      wPortStatus (root_port_status
                     (dwc_handle_port_irq sample_port_attach (dwc_init []))) /\
    completions (effects dwc') =
      completions (effects (dwc_handle_port_irq sample_port_attach
                              (dwc_init []))) ++
      map (fun req => (usb_req req, ZX_OK, 0)) sample_clear_all.
Proof.
  apply (X5_clear_features_after_port_irq sample_port_idle sample_port_attach
           (dwc_init []) sample_clear_all).
  - repeat constructor.
  - intros f Hf. cbn [In] in Hf.
    destruct Hf as [<- | [<- | [<- | []]]].
    + exists (sample_class_request USB_REQ_CLEAR_FEATURE
                USB_FEATURE_C_PORT_CONNECTION 52).
      split; [cbn; tauto | reflexivity].
    + exists (sample_class_request USB_REQ_CLEAR_FEATURE
                USB_FEATURE_C_PORT_ENABLE 51).
      split; [cbn; tauto | reflexivity].
    + exists (sample_class_request USB_REQ_CLEAR_FEATURE
                USB_FEATURE_C_PORT_OVER_CURRENT 53).
      split; [cbn; tauto | reflexivity].
Defined.

(** ** Root hub SET_FEATURE *)

Lemma port_activity_app (a b : list effect) :
  port_activity (a ++ b) = port_activity a ++ port_activity b.
Proof.
  induction a as [|e a IH]; [reflexivity|].
  destruct e; cbn [port_activity app]; rewrite ?IH; reflexivity.
Qed.

Lemma complete_request_effects req status len dwc :
  exists tail,
    effects (complete_request req status len dwc) = effects dwc ++ tail /\
    port_activity tail = [] /\
    completions tail = [(usb_req req, status, len)].
Proof.
  unfold complete_request.
  destruct (setup_req req) as [s|];
    cbn [emit free_req_count effects];
    destruct (FREE_REQ_CACHE_THRESHOLD <=? free_req_count dwc);
    cbn [emit set_free_list effects]; rewrite <- ?app_assoc; cbn [app];
    eexists; (split; [reflexivity | split; reflexivity]) ||
    (exists [UsbRequestComplete (usb_req req) status len];
     rewrite ?app_nil_r; split; [reflexivity | split; reflexivity]).
Qed.

Lemma process_set_feature regs_port dwc req :
  is_root_hub_ctrl req USB_TYPE_CLASS USB_REQ_SET_FEATURE ->
  dwc_process_root_hub_request regs_port dwc req =
  Some (complete_request req
          (fst (dwc_host_port_set_feature regs_port
                  (wValue (setup (usb_req req))) dwc))
          0
          (snd (dwc_host_port_set_feature regs_port
                  (wValue (setup (usb_req req))) dwc))).
Proof.
  intros Hctrl. rewrite (process_root_hub_class _ _ _ _ Hctrl).
  destruct Hctrl as (_ & _ & Hrq).
  unfold dwc_process_root_hub_class_req. rewrite Hrq.
  change (USB_REQ_SET_FEATURE =? USB_REQ_GET_DESCRIPTOR) with false.
  change (USB_REQ_SET_FEATURE =? USB_REQ_SET_FEATURE) with true.
  cbv iota. unfold le16toh.
  destruct (dwc_host_port_set_feature _ _ _). reflexivity.
Qed.

(** X6: a class SET_FEATURE request to the root hub. PORT_RESET writes the
    port register with reset = 1, sleeps 60 ms and writes it with reset = 0,
    and only then completes the request OK; PORT_POWER writes the register
    once, with powered = 1, and completes OK; every write has the enable bit
    and the three change flags at zero. Any other feature touches neither the
    register nor the clock and is completed with NOT_SUPPORTED. The root port
    status words are never modified. *)
Theorem X6_set_feature regs_port dwc req :
  is_root_hub_ctrl req USB_TYPE_CLASS USB_REQ_SET_FEATURE ->
  exists dwc',
    dwc_process_root_hub_request regs_port dwc req = Some dwc' /\
    root_port_status dwc' = root_port_status dwc /\
    (wValue (setup (usb_req req)) = USB_FEATURE_PORT_RESET ->
     exists v1 v0 tail,
       effects dwc' =
         effects dwc ++
         [WritePortCtrlStatus v1; Nanosleep (ZX_MSEC 60);
          WritePortCtrlStatus v0] ++ tail /\
       port_activity tail = [] /\
       completions tail = [(usb_req req, ZX_OK, 0)] /\
       reset v1 = true /\ reset v0 = false /\
       powered v1 = powered regs_port /\ powered v0 = powered regs_port /\
       port_write_ok regs_port v1 /\ port_write_ok regs_port v0) /\
    (wValue (setup (usb_req req)) = USB_FEATURE_PORT_POWER ->
     exists v tail,
       effects dwc' = effects dwc ++ [WritePortCtrlStatus v] ++ tail /\
       port_activity tail = [] /\
       completions tail = [(usb_req req, ZX_OK, 0)] /\
       powered v = true /\ reset v = reset regs_port /\
       port_write_ok regs_port v) /\
    (wValue (setup (usb_req req)) <> USB_FEATURE_PORT_RESET ->
     wValue (setup (usb_req req)) <> USB_FEATURE_PORT_POWER ->
     port_activity (effects dwc') = port_activity (effects dwc) /\
     completions (effects dwc') =
       completions (effects dwc) ++ [(usb_req req, ZX_ERR_NOT_SUPPORTED, 0)]).
Proof.
  intros Hctrl. rewrite (process_set_feature _ _ _ Hctrl).
  eexists. split; [reflexivity|].
  unfold dwc_host_port_set_feature, dwc_host_port_power_on,
    dwc_reset_host_port.
  split; [|split; [|split]].
  - rewrite root_port_status_complete_request.
    destruct (_ =? USB_FEATURE_PORT_POWER); [reflexivity|].
    destruct (_ =? USB_FEATURE_PORT_RESET); reflexivity.
  - intros ->.
    change (USB_FEATURE_PORT_RESET =? USB_FEATURE_PORT_POWER) with false.
    change (USB_FEATURE_PORT_RESET =? USB_FEATURE_PORT_RESET) with true.
    cbn [fst snd].
    match goal with
    | |- context [complete_request ?r ?s ?n ?d] =>
        destruct (complete_request_effects r s n d) as (tail & He & Hp & Hc)
    end.
    eexists; eexists; exists tail. rewrite He. cbn [emit effects].
    rewrite <- !app_assoc. cbn [app].
    split; [reflexivity|]. split; [exact Hp|]. split; [exact Hc|].
    repeat split; reflexivity.
  - intros ->.
    change (USB_FEATURE_PORT_POWER =? USB_FEATURE_PORT_POWER) with true.
    cbn [fst snd].
    match goal with
    | |- context [complete_request ?r ?s ?n ?d] =>
        destruct (complete_request_effects r s n d) as (tail & He & Hp & Hc)
    end.
    eexists; exists tail. rewrite He. cbn [emit effects].
    rewrite <- !app_assoc. cbn [app].
    split; [reflexivity|]. split; [exact Hp|]. split; [exact Hc|].
    repeat split; reflexivity.
  - intros Hr Hp.
    destruct (Z.eqb_spec (wValue (setup (usb_req req))) USB_FEATURE_PORT_POWER);
      [contradiction|].
    destruct (Z.eqb_spec (wValue (setup (usb_req req))) USB_FEATURE_PORT_RESET);
      [contradiction|].
    cbn [fst snd]. rewrite completions_complete_request.
    split; [|reflexivity].
    destruct (complete_request_effects req ZX_ERR_NOT_SUPPORTED 0 dwc)
      as (tail & He & Hpa & _).
    rewrite He, port_activity_app, Hpa. apply app_nil_r.
Qed.

Lemma X6_set_feature_witness :
  exists dwc',
    dwc_process_root_hub_request sample_port_attach (dwc_init [])
      (sample_class_request USB_REQ_SET_FEATURE USB_FEATURE_PORT_RESET 55) =
      Some dwc' /\
    port_activity (effects dwc') =
      [WritePortCtrlStatus
         (set_port_reset (clear_w1c sample_port_attach) true);
       Nanosleep 60000000;
       WritePortCtrlStatus
         (set_port_reset (clear_w1c sample_port_attach) false)] /\
    List.length (completions (effects dwc')) = 1%nat.
Proof.
  destruct (X6_set_feature sample_port_attach (dwc_init [])
              (sample_class_request USB_REQ_SET_FEATURE USB_FEATURE_PORT_RESET
                 55)
              (conj eq_refl (conj eq_refl eq_refl)))
    as (dwc' & Hp & _).
  exists dwc'. split; [exact Hp|].
  vm_compute in Hp. injection Hp as <-. split; reflexivity.
Defined.

(** ** Standard requests to the root hub *)

(** X7: a standard request to the root hub other than GET_DESCRIPTOR is
    answered at once and without any effect on the port or on the root port
    status: SET_ADDRESS and SET_CONFIGURATION are completed OK with length 0,
    every other request code with NOT_SUPPORTED. *)
Theorem X7_standard_requests regs_port dwc req request :
  is_root_hub_ctrl req USB_TYPE_STANDARD request ->
  request <> USB_REQ_GET_DESCRIPTOR ->
  exists dwc',
    dwc_process_root_hub_request regs_port dwc req = Some dwc' /\
    completions (effects dwc') =
      completions (effects dwc) ++
      [(usb_req req,
        if (request =? USB_REQ_SET_ADDRESS) ||
           (request =? USB_REQ_SET_CONFIGURATION)
        then ZX_OK else ZX_ERR_NOT_SUPPORTED, 0)] /\
    port_activity (effects dwc') = port_activity (effects dwc) /\
    root_port_status dwc' = root_port_status dwc /\
    rh_intr_req dwc' = rh_intr_req dwc.
Proof.
  intros Hctrl Hne. rewrite (process_root_hub_std _ _ _ _ Hctrl).
  destruct Hctrl as (_ & _ & Hrq).
  eexists. split; [reflexivity|].
  unfold dwc_process_root_hub_std_req. rewrite Hrq.
  destruct (Z.eqb_spec request USB_REQ_GET_DESCRIPTOR); [contradiction|].
  assert (Hgen : forall st,
            completions (effects (complete_request req st 0 dwc)) =
              completions (effects dwc) ++ [(usb_req req, st, 0)] /\
            port_activity (effects (complete_request req st 0 dwc)) =
              port_activity (effects dwc) /\
            root_port_status (complete_request req st 0 dwc) =
              root_port_status dwc /\
            rh_intr_req (complete_request req st 0 dwc) = rh_intr_req dwc).
  { intros st. rewrite completions_complete_request,
      root_port_status_complete_request.
    destruct (complete_request_effects req st 0 dwc) as (tail & He & Hp & _).
    rewrite He, port_activity_app, Hp, app_nil_r.
    repeat split. unfold complete_request.
    destruct (setup_req req); cbn [emit free_req_count];
      destruct (FREE_REQ_CACHE_THRESHOLD <=? free_req_count dwc); reflexivity. }
  destruct (request =? USB_REQ_SET_ADDRESS); [apply Hgen|].
  destruct (request =? USB_REQ_SET_CONFIGURATION); apply Hgen.
Qed.

Lemma X7_standard_requests_witness :
  exists dwc',
    dwc_process_root_hub_request sample_port_idle (dwc_init [])
      (sample_std_request USB_REQ_SET_ADDRESS 5 0 56) = Some dwc' /\
    completions (effects dwc') =
      completions (effects (dwc_init [])) ++
      [(usb_req (sample_std_request USB_REQ_SET_ADDRESS 5 0 56),
        if (USB_REQ_SET_ADDRESS =? USB_REQ_SET_ADDRESS) ||
           (USB_REQ_SET_ADDRESS =? USB_REQ_SET_CONFIGURATION)
        then ZX_OK else ZX_ERR_NOT_SUPPORTED, 0)] /\
    port_activity (effects dwc') = port_activity (effects (dwc_init [])) /\
    root_port_status dwc' = root_port_status (dwc_init []) /\
    rh_intr_req dwc' = rh_intr_req (dwc_init []).
Proof.
  apply (X7_standard_requests sample_port_idle (dwc_init [])
           (sample_std_request USB_REQ_SET_ADDRESS 5 0 56) USB_REQ_SET_ADDRESS).
  - split; [reflexivity | split; reflexivity].
  - discriminate.
Defined.

(** ** Root hub GET_DESCRIPTOR, any length *)

Lemma process_get_descriptor regs_port dwc req :
  is_root_hub_ctrl req USB_TYPE_STANDARD USB_REQ_GET_DESCRIPTOR ->
  dwc_process_root_hub_request regs_port dwc req =
  Some (dwc_root_hub_get_descriptor req dwc).
Proof.
  intros Hctrl. rewrite (process_root_hub_std _ _ _ _ Hctrl).
  destruct Hctrl as (_ & _ & Hrq).
  unfold dwc_process_root_hub_std_req. rewrite Hrq. reflexivity.
Qed.

Lemma copyto_prefix r src len :
  0 <= len <= Z.of_nat (List.length (payload r)) ->
  len <= Z.of_nat (List.length src) ->
  firstn (Z.to_nat len) (payload (usb_request_copyto r src len)) =
    firstn (Z.to_nat len) src /\
  skipn (Z.to_nat len) (payload (usb_request_copyto r src len)) =
    skipn (Z.to_nat len) (payload r) /\
  List.length (payload (usb_request_copyto r src len)) =
    List.length (payload r).
Proof.
  intros Hlen Hsrc. rewrite copyto_payload by lia.
  assert (Hn : List.length (firstn (Z.to_nat len) src) = Z.to_nat len)
    by (rewrite length_firstn; lia).
  split; [|split].
  - apply firstn_app_exact. exact Hn.
  - rewrite skipn_app, Hn, Nat.sub_diag.
    rewrite (skipn_all2 (firstn _ _)) by lia. reflexivity.
  - rewrite length_app, Hn, length_skipn. lia.
Qed.

(** X8: a standard GET_DESCRIPTOR(DEVICE) or GET_DESCRIPTOR(CONFIG) request
    with wIndex = 0 returns the first min(wLength, size) bytes of the
    descriptor, size being 18 and 25, and completes OK with that length; the
    payload beyond these bytes is left as it was. With wLength = 8, as in
    the enumeration, the last byte returned for DEVICE is bMaxPacketSize0. *)
Theorem X8_get_descriptor_truncates regs_port dwc req type :
  is_root_hub_ctrl req USB_TYPE_STANDARD USB_REQ_GET_DESCRIPTOR ->
  wIndex (setup (usb_req req)) = 0 ->
  Z.shiftr (wValue (setup (usb_req req))) 8 = type ->
  type = USB_DT_DEVICE \/ type = USB_DT_CONFIG ->
  0 <= wLength (setup (usb_req req)) ->
  let descriptor :=
    if type =? USB_DT_DEVICE
    then bytes_of_device_descriptor dwc_rh_descriptor
    else bytes_of_rh_config_descriptor dwc_rh_config_descriptor in
  let n := Z.min (wLength (setup (usb_req req)))
             (Z.of_nat (List.length descriptor)) in
  n <= Z.of_nat (List.length (payload (usb_req req))) ->
  exists dwc' r',
    dwc_process_root_hub_request regs_port dwc req = Some dwc' /\
    completions (effects dwc') = completions (effects dwc) ++ [(r', ZX_OK, n)] /\
    cookie r' = cookie (usb_req req) /\
    firstn (Z.to_nat n) (payload r') = firstn (Z.to_nat n) descriptor /\
    skipn (Z.to_nat n) (payload r') =
      skipn (Z.to_nat n) (payload (usb_req req)) /\
    List.length descriptor = (if type =? USB_DT_DEVICE then 18%nat else 25%nat) /\
    nth 7 (bytes_of_device_descriptor dwc_rh_descriptor) 0 =
      bMaxPacketSize0 dwc_rh_descriptor.
Proof.
  intros Hctrl Hidx Hty Hcase Hlen. cbv zeta. intros Hbuf.
  rewrite (process_get_descriptor _ _ _ Hctrl).
  unfold dwc_root_hub_get_descriptor, le16toh. rewrite Hty, Hidx.
  change (0 =? 0) with true.
  destruct Hcase as [-> | ->].
  - change (u8 USB_DT_DEVICE =? USB_DT_DEVICE) with true. cbv [andb].
    change (USB_DT_DEVICE =? USB_DT_DEVICE) with true in *.
    cbv iota in *.
    change (Z.of_nat (List.length
                        (bytes_of_device_descriptor dwc_rh_descriptor)))
      with 18 in *.
    unfold sizeof_usb_device_descriptor_t.
    assert (Hn : (if 18 <? wLength (setup (usb_req req)) then 18
                  else wLength (setup (usb_req req))) =
                 Z.min (wLength (setup (usb_req req))) 18).
    { destruct (Z.ltb_spec 18 (wLength (setup (usb_req req)))); lia. }
    rewrite Hn. eexists; eexists. split; [reflexivity|].
    rewrite completions_complete_request.
    split; [reflexivity|]. split; [reflexivity|].
    cbn [usb_req set_usb_req].
    destruct (copyto_prefix (usb_req req)
                (bytes_of_device_descriptor dwc_rh_descriptor)
                (Z.min (wLength (setup (usb_req req))) 18))
      as (H1 & H2 & _);
      [lia | change (Z.of_nat (List.length
                       (bytes_of_device_descriptor dwc_rh_descriptor)))
               with 18; lia |].
    repeat split; assumption || reflexivity.
  - change (u8 USB_DT_CONFIG =? USB_DT_DEVICE) with false.
    change (u8 USB_DT_CONFIG =? USB_DT_CONFIG) with true. cbv [andb].
    change (USB_DT_CONFIG =? USB_DT_DEVICE) with false in *.
    cbv iota in *.
    change (Z.of_nat (List.length
                        (bytes_of_rh_config_descriptor
                           dwc_rh_config_descriptor)))
      with 25 in *.
    change (wTotalLength (config dwc_rh_config_descriptor)) with 25.
    assert (Hn : (if 25 <? wLength (setup (usb_req req)) then 25
                  else wLength (setup (usb_req req))) =
                 Z.min (wLength (setup (usb_req req))) 25).
    { destruct (Z.ltb_spec 25 (wLength (setup (usb_req req)))); lia. }
    rewrite Hn. eexists; eexists. split; [reflexivity|].
    rewrite completions_complete_request.
    split; [reflexivity|]. split; [reflexivity|].
    cbn [usb_req set_usb_req].
    destruct (copyto_prefix (usb_req req)
                (bytes_of_rh_config_descriptor dwc_rh_config_descriptor)
                (Z.min (wLength (setup (usb_req req))) 25))
      as (H1 & H2 & _);
      [lia | change (Z.of_nat (List.length
                       (bytes_of_rh_config_descriptor
                          dwc_rh_config_descriptor)))
               with 25; lia |].
    repeat split; assumption || reflexivity.
Qed.

Lemma X8_get_descriptor_truncates_witness :
  exists dwc' r',
    dwc_process_root_hub_request sample_port_idle (dwc_init [])
      (sample_std_request USB_REQ_GET_DESCRIPTOR 256 8 57) = Some dwc' /\
    completions (effects dwc') = [(r', ZX_OK, 8)] /\
    cookie r' = 57 /\
    firstn 8 (payload r') = [18; 1; 0; 2; 9; 0; 1; 64] /\
    skipn 8 (payload r') = repeat 0 56 /\
    18%nat = 18%nat /\
    64 = 64.
Proof.
  apply (X8_get_descriptor_truncates sample_port_idle (dwc_init [])
           (sample_std_request USB_REQ_GET_DESCRIPTOR 256 8 57) USB_DT_DEVICE).
  - split; [reflexivity | split; reflexivity].
  - reflexivity.
  - reflexivity.
  - left. reflexivity.
  - discriminate.
  - vm_compute. discriminate.
Defined.

(** ** Root hub string descriptors *)

Lemma land_255_range (x : Z) : 0 <= Z.land x 255 < 256.
Proof.
  change 255 with (Z.ones 8). rewrite Z.land_ones by lia.
  apply Z.mod_pos_bound. reflexivity.
Qed.

(** X9: a standard GET_DESCRIPTOR(STRING) request to the root hub, whatever
    its language id: an index below 3 returns the first min(wLength, bLength)
    bytes of that entry of the string table and completes OK with that
    length, each entry being a string descriptor whose first byte is its own
    length; any other index is completed with NOT_SUPPORTED and length 0. *)
Theorem X9_string_descriptors regs_port dwc req :
  is_root_hub_ctrl req USB_TYPE_STANDARD USB_REQ_GET_DESCRIPTOR ->
  Z.shiftr (wValue (setup (usb_req req))) 8 = USB_DT_STRING ->
  0 <= wLength (setup (usb_req req)) ->
  let index := Z.land (wValue (setup (usb_req req))) 255 in
  let string := nth (Z.to_nat index) dwc_rh_string_table [] in
  let n := Z.min (wLength (setup (usb_req req)))
             (Z.of_nat (List.length string)) in
  (index < 3 ->
   n <= Z.of_nat (List.length (payload (usb_req req))) ->
   exists dwc' r',
     dwc_process_root_hub_request regs_port dwc req = Some dwc' /\
     completions (effects dwc') =
       completions (effects dwc) ++ [(r', ZX_OK, n)] /\
     cookie r' = cookie (usb_req req) /\
     firstn (Z.to_nat n) (payload r') = firstn (Z.to_nat n) string /\
     nth 0 string 0 = Z.of_nat (List.length string) /\
     nth 1 string 0 = USB_DT_STRING) /\
  (3 <= index ->
   exists dwc',
     dwc_process_root_hub_request regs_port dwc req = Some dwc' /\
     completions (effects dwc') =
       completions (effects dwc) ++ [(usb_req req, ZX_ERR_NOT_SUPPORTED, 0)]).
Proof.
  intros Hctrl Hty Hlen. cbv zeta.
  rewrite (process_get_descriptor _ _ _ Hctrl).
  pose proof (land_255_range (wValue (setup (usb_req req)))) as Hidx.
  unfold dwc_root_hub_get_descriptor, le16toh. rewrite Hty.
  change (u8 USB_DT_STRING =? USB_DT_DEVICE) with false.
  change (u8 USB_DT_STRING =? USB_DT_CONFIG) with false.
  change (USB_DT_STRING =? USB_DT_STRING) with true.
  cbv [andb]. cbv iota.
  assert (Hu : u8 (Z.land (wValue (setup (usb_req req))) 255) =
               Z.land (wValue (setup (usb_req req))) 255)
    by (unfold u8, wrap; apply Z.mod_small; lia).
  rewrite Hu. change (countof dwc_rh_string_table) with 3.
  set (index := Z.land (wValue (setup (usb_req req))) 255) in *.
  split.
  - intros Hlt Hbuf.
    destruct (Z.ltb_spec index 3); [|lia].
    assert (Hcases : index = 0 \/ index = 1 \/ index = 2) by lia.
    assert (Hstr : forall s,
              nth 0 s 0 = Z.of_nat (List.length s) ->
              Z.min (wLength (setup (usb_req req))) (Z.of_nat (List.length s))
                <= Z.of_nat (List.length (payload (usb_req req))) ->
              exists dwc' r',
                Some
                  (complete_request
                     (set_usb_req req
                        (usb_request_copyto (usb_req req) s
                           (if nth 0 s 0 <? wLength (setup (usb_req req))
                            then nth 0 s 0
                            else wLength (setup (usb_req req)))))
                     ZX_OK
                     (if nth 0 s 0 <? wLength (setup (usb_req req))
                      then nth 0 s 0 else wLength (setup (usb_req req)))
                     dwc) = Some dwc' /\
                completions (effects dwc') =
                  completions (effects dwc) ++
                  [(r', ZX_OK,
                    Z.min (wLength (setup (usb_req req)))
                      (Z.of_nat (List.length s)))] /\
                cookie r' = cookie (usb_req req) /\
                firstn (Z.to_nat (Z.min (wLength (setup (usb_req req)))
                                    (Z.of_nat (List.length s))))
                  (payload r') =
                firstn (Z.to_nat (Z.min (wLength (setup (usb_req req)))
                                    (Z.of_nat (List.length s)))) s).
    { intros s Hs0 Hb. rewrite Hs0.
      assert (Hn : (if Z.of_nat (List.length s) <?
                       wLength (setup (usb_req req))
                    then Z.of_nat (List.length s)
                    else wLength (setup (usb_req req))) =
                   Z.min (wLength (setup (usb_req req)))
                     (Z.of_nat (List.length s))).
      { destruct (Z.ltb_spec (Z.of_nat (List.length s))
                    (wLength (setup (usb_req req)))); lia. }
      rewrite Hn. eexists; eexists. split; [reflexivity|].
      rewrite completions_complete_request.
      split; [reflexivity|]. split; [reflexivity|].
      cbn [usb_req set_usb_req].
      apply (copyto_prefix (usb_req req) s); lia. }
    destruct Hcases as [E | [E | E]]; rewrite E in *;
      cbn [Z.to_nat Pos.to_nat Pos.iter_op Nat.add nth dwc_rh_string_table]
        in *;
      match goal with
      | |- context [usb_request_copyto _ ?s _] =>
          destruct (Hstr s eq_refl Hbuf) as (d & r & H1 & H2 & H3 & H4)
      end;
      exists d, r; repeat split; assumption || reflexivity.
  - intros Hge. destruct (Z.ltb_spec index 3); [lia|].
    eexists. split; [reflexivity|].
    apply completions_complete_request.
Qed.

Lemma X9_string_descriptors_witness :
  exists dwc' r',
    dwc_process_root_hub_request sample_port_idle (dwc_init [])
      (sample_string_request 1 255 58) = Some dwc' /\
    completions (effects dwc') = [(r', ZX_OK, 16)] /\
    cookie r' = 58 /\
    firstn 16 (payload r') = dwc_manufacturer_string /\
    16 = 16 /\
    USB_DT_STRING = USB_DT_STRING.
Proof.
  apply (proj1 (X9_string_descriptors sample_port_idle (dwc_init [])
                  (sample_string_request 1 255 58)
                  (conj eq_refl (conj eq_refl eq_refl)) eq_refl
                  ltac:(discriminate))).
  - reflexivity.
  - vm_compute. discriminate.
Defined.

(** ** One answer per root hub request *)

Lemma answers_none req dwc dwc' :
  completions (effects dwc') = completions (effects dwc) ->
  answers_at_most_once req dwc dwc'.
Proof.
  intros Hc. exists []. rewrite Hc, app_nil_r.
  split; [reflexivity|]. split; [cbn; lia|]. intros r st n [].
Qed.

Lemma answers_complete req req' status len dwc0 dwc :
  completions (effects dwc) = completions (effects dwc0) ->
  cookie (usb_req req') = cookie (usb_req req) ->
  header (usb_req req') = header (usb_req req) ->
  setup (usb_req req') = setup (usb_req req) ->
  status = ZX_OK \/ status = ZX_ERR_NOT_SUPPORTED ->
  answers_at_most_once req dwc0 (complete_request req' status len dwc).
Proof.
  intros Hc Hk Hh Hs Hst. exists [(usb_req req', status, len)].
  rewrite completions_complete_request, Hc.
  split; [reflexivity|]. split; [cbn; lia|].
  intros r st n [[= <- <- <-] | []]. repeat split; assumption.
Qed.

Lemma get_descriptor_answers req dwc :
  answers_at_most_once req dwc (dwc_root_hub_get_descriptor req dwc).
Proof.
  unfold dwc_root_hub_get_descriptor.
  repeat match goal with
         | |- answers_at_most_once _ _ (if ?b then _ else _) => destruct b
         end;
    try (apply answers_none; reflexivity);
    apply answers_complete; try reflexivity; (left + right); reflexivity.
Qed.

Lemma set_feature_silent regs_port feature dwc :
  completions (effects (snd (dwc_host_port_set_feature regs_port feature dwc)))
  = completions (effects dwc) /\
  (fst (dwc_host_port_set_feature regs_port feature dwc) = ZX_OK \/
   fst (dwc_host_port_set_feature regs_port feature dwc) =
     ZX_ERR_NOT_SUPPORTED).
Proof.
  unfold dwc_host_port_set_feature, dwc_host_port_power_on,
    dwc_reset_host_port.
  destruct (feature =? USB_FEATURE_PORT_POWER);
    [|destruct (feature =? USB_FEATURE_PORT_RESET)];
    cbn [fst snd emit effects]; rewrite ?completions_app;
    cbn [completions]; rewrite ?app_nil_r; split; auto.
Qed.

Lemma class_req_answers regs_port req dwc :
  answers_at_most_once req dwc
    (dwc_process_root_hub_class_req regs_port req dwc).
Proof.
  unfold dwc_process_root_hub_class_req.
  destruct (_ =? USB_REQ_GET_DESCRIPTOR).
  { destruct (_ && _); [|apply answers_none; reflexivity].
    apply answers_complete; try reflexivity. left. reflexivity. }
  destruct (_ =? USB_REQ_SET_FEATURE).
  { pose proof (set_feature_silent regs_port
                  (le16toh (wValue (setup (usb_req req)))) dwc) as [Hs Hst].
    destruct (dwc_host_port_set_feature _ _ _) as [res dwc1].
    cbn [fst snd] in Hs, Hst.
    apply answers_complete; try reflexivity; assumption. }
  destruct (_ =? USB_REQ_CLEAR_FEATURE).
  { apply answers_complete; try reflexivity. left. reflexivity. }
  destruct (_ =? USB_REQ_GET_STATUS);
    apply answers_complete; try reflexivity; (left + right); reflexivity.
Qed.

Lemma root_hub_request_answers regs_port dwc req :
  (forall dwc',
     dwc_process_root_hub_request regs_port dwc req = Some dwc' ->
     answers_at_most_once req dwc dwc') /\
  (dwc_process_root_hub_request regs_port dwc req = None <->
   h_ep_address (header (usb_req req)) = 0 /\
   Z.land (bmRequestType (setup (usb_req req))) USB_TYPE_MASK <>
     USB_TYPE_STANDARD /\
   Z.land (bmRequestType (setup (usb_req req))) USB_TYPE_MASK <>
     USB_TYPE_CLASS).
Proof.
  unfold dwc_process_root_hub_request, is_control_request,
    dwc_process_root_hub_ctrl_req.
  destruct (Z.eqb_spec (h_ep_address (header (usb_req req))) 0) as [Hep | Hep].
  - destruct (Z.eqb_spec
                (Z.land (bmRequestType (setup (usb_req req))) USB_TYPE_MASK)
                USB_TYPE_STANDARD) as [Hs | Hs].
    { split; [|split; [discriminate | tauto]].
      intros dwc' [= <-]. unfold dwc_process_root_hub_std_req.
      repeat match goal with
             | |- answers_at_most_once _ _ (if ?b then _ else _) => destruct b
             end;
        try apply get_descriptor_answers;
        apply answers_complete; try reflexivity; (left + right); reflexivity. }
    destruct (Z.eqb_spec
                (Z.land (bmRequestType (setup (usb_req req))) USB_TYPE_MASK)
                USB_TYPE_CLASS) as [Hc | Hc].
    { split; [|split; [discriminate | tauto]].
      intros dwc' [= <-]. apply class_req_answers. }
    split; [discriminate|]. split; [tauto | reflexivity].
  - split; [|split; [discriminate | tauto]].
    intros dwc' [= <-]. unfold dwc_complete_root_port_status_req.
    cbn [set_rh_intr_req root_port_status rh_intr_req].
    destruct (negb _); [|apply answers_none; reflexivity].
    destruct (complete_request_effects
                (set_usb_req req
                   (usb_request_copyto (usb_req req) (bytes_of_u16 2) 2))
                ZX_OK 2 (set_rh_intr_req dwc (Some req)))
      as (tail & He & _ & Hc).
    exists [(usb_request_copyto (usb_req req) (bytes_of_u16 2) 2, ZX_OK, 2)].
    cbn [set_rh_intr_req effects]. rewrite He, completions_app, Hc.
    split; [reflexivity|]. split; [cbn; lia|].
    intros r st n [[= <- <- <-] | []]. repeat split. left. reflexivity.
Qed.

(** X10: whenever the root hub returns from a request, it has delivered at
    most one completion, and that completion answers this very request: same
    upstream request, header and SETUP packet untouched, status OK or
    NOT_SUPPORTED and never another error. The only requests it does not
    return from are control requests whose type is neither standard nor
    class. *)
Theorem X10_one_answer_per_request regs_port dwc req :
  (forall dwc',
     dwc_process_root_hub_request regs_port dwc req = Some dwc' ->
     answers_at_most_once req dwc dwc') /\
  (dwc_process_root_hub_request regs_port dwc req = None <->
   h_ep_address (header (usb_req req)) = 0 /\
   Z.land (bmRequestType (setup (usb_req req))) USB_TYPE_MASK <>
     USB_TYPE_STANDARD /\
   Z.land (bmRequestType (setup (usb_req req))) USB_TYPE_MASK <>
     USB_TYPE_CLASS).
Proof. exact (root_hub_request_answers regs_port dwc req). Qed.

(** ** The request queue and the envelope cache *)

Lemma queue_root_hub_one `{Platform} dwc usb :
  free_req_count dwc = Z.of_nat (List.length (free_reqs dwc)) ->
  h_device_id (header usb) = ROOT_HUB_DEVICE_ID ->
  h_length (header usb) <= PAGE_SIZE ->
  exists dwc',
    dwc_request_queue dwc usb true = Some dwc' /\
    rh_req_head dwc' = rh_req_head dwc ++ [new_request usb (DBG_reqid dwc)] /\
    DBG_reqid dwc' = u32 (DBG_reqid dwc + 1) /\
    free_reqs dwc' = tl (free_reqs dwc) /\
    free_req_count dwc' = Z.of_nat (List.length (free_reqs dwc')) /\
    effects dwc' = effects dwc /\
    usb_devices dwc' = usb_devices dwc /\
    rh_intr_req dwc' = rh_intr_req dwc.
Proof.
  intros Hc Hd Hl. unfold dwc_request_queue, dwc_get_max_transfer_size.
  destruct (Z.ltb_spec PAGE_SIZE (h_length (header usb))); [lia|].
  unfold do_dwc_usb_request_queue.
  rewrite (get_free_request_consistent _ _ Hc).
  destruct (free_reqs dwc) as [|r rest] eqn:Hf;
    unfold is_roothub_request; cbn [usb_req new_request header];
    rewrite Hd, Z.eqb_refl; eexists; (split; [reflexivity|]);
    cbn; rewrite ?Hf; repeat split; try reflexivity;
    cbn [List.length] in *; lia.
Qed.

Lemma queue_root_hub_batch `{Platform} usbs : forall dwc,
  free_req_count dwc = Z.of_nat (List.length (free_reqs dwc)) ->
  Forall (fun usb => h_device_id (header usb) = ROOT_HUB_DEVICE_ID /\
                     h_length (header usb) <= PAGE_SIZE) usbs ->
  exists dwc',
    queue_requests dwc usbs = Some dwc' /\
    rh_req_head dwc' = rh_req_head dwc ++ envelopes usbs (DBG_reqid dwc) /\
    free_reqs dwc' = skipn (List.length usbs) (free_reqs dwc) /\
    effects dwc' = effects dwc.
Proof.
  induction usbs as [|usb rest IH]; intros dwc Hc Hall.
  - exists dwc. cbn. rewrite app_nil_r. repeat split; reflexivity.
  - inversion Hall as [|? ? [Hd Hl] Hrest]; subst.
    destruct (queue_root_hub_one dwc usb Hc Hd Hl)
      as (dwc1 & Hq & Hh & Hid & Hf & Hc1 & He & _).
    destruct (IH dwc1 Hc1 Hrest) as (dwc' & Hq' & Hh' & Hf' & He').
    exists dwc'. cbn [queue_requests envelopes]. rewrite Hq.
    split; [exact Hq'|]. rewrite Hh', Hh, Hid, <- app_assoc.
    split; [reflexivity|]. rewrite Hf', Hf, He', He.
    split; [|reflexivity].
    destruct (free_reqs dwc); cbn [tl List.length skipn];
      [apply skipn_nil | reflexivity].
Qed.

Lemma envelopes_usb_req usbs : forall id, map usb_req (envelopes usbs id) = usbs.
Proof.
  induction usbs as [|usb rest IH]; intros id; cbn; [reflexivity|].
  rewrite IH. reflexivity.
Qed.

Lemma envelopes_request_id usbs : forall id i r,
  0 <= id < 2 ^ 32 ->
  nth_error (envelopes usbs id) i = Some r ->
  request_id r = (id + Z.of_nat i) mod 2 ^ 32.
Proof.
  induction usbs as [|usb rest IH]; intros id i r Hid Hn.
  - destruct i; discriminate.
  - destruct i as [|i]; cbn [envelopes nth_error] in Hn.
    + injection Hn as <-. cbn [request_id new_request].
      rewrite Z.add_0_r, Z.mod_small; [reflexivity | exact Hid].
    + rewrite (IH _ _ _ (Z.mod_pos_bound (id + 1) (2 ^ 32) eq_refl) Hn).
      unfold u32, wrap. rewrite Zplus_mod_idemp_l. f_equal. lia.
Qed.

(** X11: root hub requests submitted one after the other (each within one
    page, the allocator not failing) all end up on the root hub queue, behind
    what was there and in the order of submission, numbered consecutively
    modulo 2^32 from the current debug id; they use up the cached envelopes
    from the front before any is allocated, and nothing is completed. *)
Theorem X11_root_hub_queue_order `{Platform} dwc usbs :
  free_req_count dwc = Z.of_nat (List.length (free_reqs dwc)) ->
  0 <= DBG_reqid dwc < 2 ^ 32 ->
  Forall (fun usb => h_device_id (header usb) = ROOT_HUB_DEVICE_ID /\
                     h_length (header usb) <= PAGE_SIZE) usbs ->
  exists dwc' reqs,
    queue_requests dwc usbs = Some dwc' /\
    rh_req_head dwc' = rh_req_head dwc ++ reqs /\
    map usb_req reqs = usbs /\
    (forall i r, nth_error reqs i = Some r ->
       request_id r = (DBG_reqid dwc + Z.of_nat i) mod 2 ^ 32) /\
    free_reqs dwc' = skipn (List.length usbs) (free_reqs dwc) /\
    effects dwc' = effects dwc.
Proof.
  intros Hc Hid Hall.
  destruct (queue_root_hub_batch usbs dwc Hc Hall) as (dwc' & Hq & Hh & Hf & He).
  exists dwc', (envelopes usbs (DBG_reqid dwc)).
  split; [exact Hq|]. split; [exact Hh|].
  split; [apply envelopes_usb_req|].
  split; [|split; assumption].
  intros i r Hn. exact (envelopes_request_id _ _ _ _ Hid Hn).
Qed.

Lemma X11_root_hub_queue_order_witness :
  exists dwc' reqs,
    @queue_requests spec_platform (dwc_init []) sample_root_hub_batch =
      Some dwc' /\
    rh_req_head dwc' = [] ++ reqs /\
    map usb_req reqs = sample_root_hub_batch /\
    (forall i r, nth_error reqs i = Some r ->
       request_id r = (0 + Z.of_nat i) mod 2 ^ 32) /\
    free_reqs dwc' = [] /\
    effects dwc' = [].
Proof.
  apply (@X11_root_hub_queue_order spec_platform (dwc_init [])
           sample_root_hub_batch).
  - reflexivity.
  - cbn. lia.
  - repeat constructor; cbn; lia.
Defined.

(** X12: in a state whose cache is consistent and within its bound, right
    after any completion the driver accepts the next request without
    allocating: whether or not the allocator would fail, no NO_MEMORY
    completion is delivered, the envelope is taken from the front of the
    cache, and the cache stays consistent and within its bound. *)
Theorem X12_envelope_recycled `{Platform} dwc req status len usb calloc_ok dwc' :
  cache_bounded dwc ->
  h_length (header usb) <= PAGE_SIZE ->
  dwc_request_queue (complete_request req status len dwc) usb calloc_ok =
    Some dwc' ->
  effects dwc' = effects (complete_request req status len dwc) /\
  free_reqs (complete_request req status len dwc) <> [] /\
  free_reqs dwc' = tl (free_reqs (complete_request req status len dwc)) /\
  cache_bounded dwc'.
Proof.
  intros Hb Hl.
  pose proof (complete_request_bounded req status len dwc Hb) as Hb1.
  assert (Hne : free_reqs (complete_request req status len dwc) <> []).
  { destruct Hb as [Hc Hle]. unfold complete_request.
    destruct (setup_req req); cbn [emit free_req_count free_reqs];
      destruct (Z.leb_spec FREE_REQ_CACHE_THRESHOLD (free_req_count dwc));
      cbn [emit set_free_list free_reqs];
      try (intros E; apply app_eq_nil in E; destruct E; discriminate);
      intros E; rewrite E in Hc; cbn in Hc;
      unfold FREE_REQ_CACHE_THRESHOLD in *; lia. }
  set (dwc1 := complete_request req status len dwc) in *.
  unfold dwc_request_queue, dwc_get_max_transfer_size.
  destruct (Z.ltb_spec PAGE_SIZE (h_length (header usb))); [lia|].
  unfold do_dwc_usb_request_queue.
  rewrite (get_free_request_consistent _ _ (proj1 Hb1)).
  destruct (free_reqs dwc1) as [|r rest] eqn:Hf; [congruence|].
  assert (Hb2 : cache_bounded (set_free_list dwc1 rest (free_req_count dwc1 - 1))).
  { destruct Hb1 as [Hc1 Hle1]. rewrite Hf in Hc1. cbn [List.length] in Hc1.
    split; cbn [set_free_list free_req_count free_reqs]; lia. }
  destruct (is_roothub_request _).
  - intros [= <-]. cbn. repeat split; try congruence; apply Hb2.
  - unfold dwc_usb_request_queue_hw.
    destruct (negb _); [discriminate|].
    destruct (nth_error _ _); [|discriminate].
    destruct (list_add_tail_pending _ _ _); [|discriminate].
    intros [= <-]. cbn. repeat split; try congruence; apply Hb2.
Qed.

Lemma X12_envelope_recycled_witness :
  let dwc1 :=
    complete_request sample_get_device_descriptor ZX_OK 18 (dwc_init []) in
  let dwc2 :=
    dwc_usb_request_queue_rh
      (set_DBG_reqid (set_free_list dwc1 [] 0) 1)
      (new_request (sample_usb_request 0 1 2 no_setup 62 2) 0) in
  effects dwc2 = effects dwc1 /\
  free_reqs dwc1 <> [] /\
  free_reqs dwc2 = tl (free_reqs dwc1) /\
  cache_bounded dwc2.
Proof.
  apply (@X12_envelope_recycled spec_platform (dwc_init [])
           sample_get_device_descriptor ZX_OK 18
           (sample_usb_request 0 1 2 no_setup 62 2) false).
  - split; cbn; unfold FREE_REQ_CACHE_THRESHOLD; lia.
  - cbn. lia.
  - reflexivity.
Defined.

Lemma list_add_tail_pending_none eps addr req :
  list_add_tail_pending eps addr req = None <->
  Forall (fun e => ep_address e <> addr) eps.
Proof.
  induction eps as [|e rest IH]; cbn [list_add_tail_pending].
  - split; [constructor | reflexivity].
  - destruct (Z.eqb_spec (ep_address e) addr) as [E | E].
    + split; [discriminate|]. intros Hall. inversion Hall. contradiction.
    + destruct (list_add_tail_pending rest addr req).
      * split; [discriminate|]. intros Hall. inversion Hall as [|? ? _ Hr].
        apply IH in Hr. discriminate.
      * split; [|reflexivity]. intros _. constructor; [exact E|].
        apply IH. reflexivity.
Qed.

Lemma queue_assertions `{Platform} dwc usb calloc_ok :
  free_req_count dwc = Z.of_nat (List.length (free_reqs dwc)) ->
  (dwc_request_queue dwc usb calloc_ok = None <->
   h_length (header usb) <= PAGE_SIZE /\
   (free_reqs dwc <> [] \/ calloc_ok = true) /\
   h_device_id (header usb) <> ROOT_HUB_DEVICE_ID /\
   (MAX_DEVICE_COUNT <= h_device_id (header usb) \/
    match nth_error (usb_devices dwc) (Z.to_nat (h_device_id (header usb))) with
    | Some dev =>
        Forall (fun e => ep_address e <> h_ep_address (header usb))
          (endpoints dev)
    | None => True
    end)).
Proof.
  intros Hc. unfold dwc_request_queue, dwc_get_max_transfer_size.
  destruct (Z.ltb_spec PAGE_SIZE (h_length (header usb))) as [Hl | Hl].
  { split; [discriminate | lia]. }
  unfold do_dwc_usb_request_queue.
  rewrite (get_free_request_consistent _ _ Hc).
  assert (Hhw : forall dwc1,
            usb_devices dwc1 = usb_devices dwc ->
            ((if is_roothub_request (new_request usb (DBG_reqid dwc1))
              then Some (dwc_usb_request_queue_rh
                           (set_DBG_reqid dwc1 (u32 (DBG_reqid dwc1 + 1)))
                           (new_request usb (DBG_reqid dwc1)))
              else dwc_usb_request_queue_hw
                     (set_DBG_reqid dwc1 (u32 (DBG_reqid dwc1 + 1)))
                     (new_request usb (DBG_reqid dwc1))) = None <->
             h_device_id (header usb) <> ROOT_HUB_DEVICE_ID /\
             (MAX_DEVICE_COUNT <= h_device_id (header usb) \/
              match nth_error (usb_devices dwc)
                      (Z.to_nat (h_device_id (header usb))) with
              | Some dev =>
                  Forall (fun e => ep_address e <> h_ep_address (header usb))
                    (endpoints dev)
              | None => True
              end))).
  { intros dwc1 Hd. unfold is_roothub_request.
    cbn [usb_req new_request header].
    destruct (Z.eqb_spec (h_device_id (header usb)) ROOT_HUB_DEVICE_ID)
      as [E | E]; [split; [discriminate | tauto]|].
    unfold dwc_usb_request_queue_hw.
    cbn [usb_req new_request set_DBG_reqid usb_devices]. rewrite Hd.
    destruct (Z.ltb_spec (h_device_id (header usb)) MAX_DEVICE_COUNT)
      as [Hm | Hm]; cbn [negb]; [|split; [intros _; split; [exact E | left; exact Hm] | reflexivity]].
    destruct (nth_error (usb_devices dwc) _) as [dev|];
      [|split; [intros _; split; [exact E | right; exact I] | reflexivity]].
    match goal with
    | |- context [list_add_tail_pending ?e ?a ?r] =>
        pose proof (list_add_tail_pending_none e a r) as Hnone;
        destruct (list_add_tail_pending e a r)
    end.
    - split; [discriminate|]. intros [_ [Hge | Hall]]; [lia|].
      apply Hnone in Hall. discriminate.
    - split; [|reflexivity]. intros _. split; [exact E|]. right.
      apply Hnone. reflexivity. }
  destruct (free_reqs dwc) as [|r rest] eqn:Hf.
  - destruct calloc_ok.
    + rewrite (Hhw dwc eq_refl). split.
      * intros [H1 H2]. repeat split; auto.
      * intros (_ & _ & H1 & H2). split; assumption.
    + split; [discriminate|]. intros (_ & [Hne | Hne] & _); congruence.
  - rewrite (Hhw (set_free_list dwc rest (free_req_count dwc - 1)) eq_refl).
    split.
    + intros [H1 H2]. repeat split; auto. left. discriminate.
    + intros (_ & _ & H1 & H2). split; assumption.
Qed.

(** X13: with a consistent cache, request_queue runs into a failed assertion
    exactly when the request fits one page, an envelope is available, the
    request is not for the root hub, and its device id is not below
    MAX_DEVICE_COUNT or its device has no endpoint with the address of the
    request; an oversized request or a failed allocation is answered with a
    completion before the device is looked at. *)
Theorem X13_request_queue_assertions `{Platform} dwc usb calloc_ok :
  free_req_count dwc = Z.of_nat (List.length (free_reqs dwc)) ->
  (dwc_request_queue dwc usb calloc_ok = None <->
   h_length (header usb) <= PAGE_SIZE /\
   (free_reqs dwc <> [] \/ calloc_ok = true) /\
   h_device_id (header usb) <> ROOT_HUB_DEVICE_ID /\
   (MAX_DEVICE_COUNT <= h_device_id (header usb) \/
    match nth_error (usb_devices dwc) (Z.to_nat (h_device_id (header usb))) with
    | Some dev =>
        Forall (fun e => ep_address e <> h_ep_address (header usb))
          (endpoints dev)
    | None => True
    end)).
Proof. exact (queue_assertions dwc usb calloc_ok). Qed.

Lemma X13_request_queue_assertions_witness :
  @dwc_request_queue spec_platform (dwc_init sample_devices)
    (sample_usb_request 1 2 64 no_setup 64 64) true = None <->
  64 <= 4096 /\
  (@nil dwc_usb_transfer_request_t <> [] \/ true = true) /\
  1 <> 0 /\
  (128 <= 1 \/
   Forall (fun e => ep_address e <> 2)
     [sample_endpoint 0 USB_ENDPOINT_CONTROL 64 0;
      sample_endpoint 129 USB_ENDPOINT_BULK 512 0]).
Proof.
  apply (@X13_request_queue_assertions spec_platform (dwc_init sample_devices)
           (sample_usb_request 1 2 64 no_setup 64 64) true).
  reflexivity.
Defined.

(** ** Completions never outnumber submissions *)

Lemma count_cookie_app c a b :
  count_cookie c (a ++ b) = (count_cookie c a + count_cookie c b)%nat.
Proof. unfold count_cookie. rewrite filter_app. apply length_app. Qed.

Lemma complete_request_frame req status len dwc :
  rh_req_head (complete_request req status len dwc) = rh_req_head dwc /\
  rh_intr_req (complete_request req status len dwc) = rh_intr_req dwc /\
  usb_devices (complete_request req status len dwc) = usb_devices dwc.
Proof.
  unfold complete_request.
  destruct (setup_req req); cbn [emit free_req_count];
    destruct (FREE_REQ_CACHE_THRESHOLD <=? _); repeat split; reflexivity.
Qed.

Lemma complete_request_live req status len dwc :
  live_requests (complete_request req status len dwc) = live_requests dwc.
Proof.
  destruct (complete_request_frame req status len dwc) as (H1 & H2 & H3).
  unfold live_requests. rewrite H1, H2, H3. reflexivity.
Qed.

Lemma complete_request_delivered c req status len dwc :
  List.length (delivered_to c (effects (complete_request req status len dwc))) =
  (List.length (delivered_to c (effects dwc)) + count_cookie c [req])%nat.
Proof.
  unfold delivered_to, count_cookie.
  rewrite completions_complete_request, filter_app, length_app.
  cbn [filter fst]. destruct (cookie (usb_req req) =? c); reflexivity.
Qed.

Lemma emit_ledger c e dwc :
  ledger c (emit e dwc) =
  (ledger c dwc +
   match e with
   | UsbRequestComplete r _ _ => if (cookie r =? c)%Z then 1 else 0
   | _ => 0
   end)%nat.
Proof.
  unfold ledger, live_requests.
  cbn [emit effects rh_req_head rh_intr_req usb_devices].
  rewrite delivered_to_app, length_app. unfold delivered_to at 2.
  destruct e; cbn [completions filter fst List.length]; try lia.
  destruct (cookie r =? c); cbn [List.length]; lia.
Qed.

Lemma answers_delivered c req dwc dwc' :
  answers_at_most_once req dwc dwc' ->
  (List.length (delivered_to c (effects dwc')) <=
   List.length (delivered_to c (effects dwc)) + count_cookie c [req])%nat.
Proof.
  intros (l & Hl & Hlen & Hin). unfold delivered_to, count_cookie.
  rewrite Hl, filter_app, length_app. apply Nat.add_le_mono_l.
  destruct l as [|[[r st] n] [|x l]]; cbn [List.length] in Hlen; try lia;
    cbn [filter fst]; [destruct (_ =? _); cbn; lia|].
  destruct (Hin r st n (or_introl eq_refl)) as (Hk & _). rewrite Hk.
  destruct (cookie (usb_req req) =? c); cbn; lia.
Qed.

Lemma ctrl_req_live regs_port req dwc dwc' :
  dwc_process_root_hub_ctrl_req regs_port req dwc = Some dwc' ->
  live_requests dwc' = live_requests dwc.
Proof.
  assert (Hne : cookie (usb_req req) <> cookie (usb_req req) + 1) by lia.
  unfold dwc_process_root_hub_ctrl_req.
  destruct (_ =? USB_TYPE_STANDARD).
  { intros [= <-].
    destruct (quiet_std_req _ req dwc Hne) as (H1 & H2 & H3 & _).
    unfold live_requests. rewrite H1, H2, H3. reflexivity. }
  destruct (_ =? USB_TYPE_CLASS); [|discriminate].
  intros [= <-].
  destruct (quiet_class_req _ regs_port req dwc Hne) as (H1 & H2 & H3 & _).
  unfold live_requests. rewrite H1, H2, H3. reflexivity.
Qed.

Lemma port_status_req_ledger c dwc :
  ledger c (dwc_complete_root_port_status_req dwc) = ledger c dwc.
Proof.
  unfold dwc_complete_root_port_status_req.
  destruct (negb _); [|reflexivity].
  destruct (rh_intr_req dwc) as [req|] eqn:Hslot; [|reflexivity].
  unfold ledger, live_requests.
  cbn [set_rh_intr_req rh_req_head rh_intr_req usb_devices effects].
  destruct (complete_request_frame
              (set_usb_req req
                 (usb_request_copyto (usb_req req) (bytes_of_u16 2) 2))
              ZX_OK 2 dwc) as (H1 & _ & H3).
  rewrite H1, H3, complete_request_delivered, Hslot.
  rewrite !count_cookie_app. unfold count_cookie.
  cbn [filter usb_req set_usb_req usb_request_copyto set_payload cookie app].
  destruct (cookie (usb_req req) =? c); cbn [List.length]; lia.
Qed.

Lemma process_root_hub_request_ledger c regs_port dwc req dwc' :
  dwc_process_root_hub_request regs_port dwc req = Some dwc' ->
  (ledger c dwc' <= ledger c dwc + count_cookie c [req])%nat.
Proof.
  intros Hp.
  destruct (is_control_request req) eqn:Hctl.
  - pose proof (proj1 (root_hub_request_answers regs_port dwc req) _ Hp) as Ha.
    unfold dwc_process_root_hub_request in Hp. rewrite Hctl in Hp.
    unfold ledger. rewrite (ctrl_req_live _ _ _ _ Hp).
    pose proof (answers_delivered c _ _ _ Ha). lia.
  - unfold dwc_process_root_hub_request in Hp. rewrite Hctl in Hp.
    injection Hp as <-. rewrite port_status_req_ledger.
    unfold ledger, live_requests.
    cbn [set_rh_intr_req rh_req_head rh_intr_req usb_devices effects].
    rewrite !count_cookie_app.
    destruct (rh_intr_req dwc); rewrite ?count_cookie_app; cbn [app]; lia.
Qed.

Lemma count_flat_map_replace_nth {A : Type}
  (f : A -> list dwc_usb_transfer_request_t) c l : forall n x y,
  nth_error l n = Some x ->
  (count_cookie c (flat_map f (replace_nth n l y)) + count_cookie c (f x) =
   count_cookie c (flat_map f l) + count_cookie c (f y))%nat.
Proof.
  induction l as [|h t IH]; intros [|n] x y Hn; try discriminate;
    cbn [nth_error replace_nth flat_map] in *; rewrite !count_cookie_app.
  - injection Hn as <-. lia.
  - pose proof (IH _ _ y Hn). lia.
Qed.

Lemma count_list_add_tail_pending c addr req eps : forall eps',
  list_add_tail_pending eps addr req = Some eps' ->
  count_cookie c (flat_map pending_requests eps') =
  (count_cookie c (flat_map pending_requests eps) + count_cookie c [req])%nat.
Proof.
  induction eps as [|e rest IH]; intros eps'; cbn [list_add_tail_pending];
    [discriminate|].
  destruct (ep_address e =? addr).
  - intros [= <-]. cbn [flat_map pending_requests set_pending_requests].
    rewrite !count_cookie_app. lia.
  - destruct (list_add_tail_pending rest addr req) as [rest'|]; [|discriminate].
    intros [= <-]. cbn [flat_map]. rewrite !count_cookie_app, (IH _ eq_refl).
    lia.
Qed.

Lemma ledger_ext c dwc dwc' :
  rh_req_head dwc' = rh_req_head dwc ->
  rh_intr_req dwc' = rh_intr_req dwc ->
  usb_devices dwc' = usb_devices dwc ->
  effects dwc' = effects dwc ->
  ledger c dwc' = ledger c dwc.
Proof.
  intros H1 H2 H3 H4. unfold ledger, live_requests.
  rewrite H1, H2, H3, H4. reflexivity.
Qed.

Lemma queue_envelope_ledger `{Platform} c dwc1 usb dwc' :
  (if is_roothub_request (new_request usb (DBG_reqid dwc1))
   then Some (dwc_usb_request_queue_rh
                (set_DBG_reqid dwc1 (u32 (DBG_reqid dwc1 + 1)))
                (new_request usb (DBG_reqid dwc1)))
   else dwc_usb_request_queue_hw
          (set_DBG_reqid dwc1 (u32 (DBG_reqid dwc1 + 1)))
          (new_request usb (DBG_reqid dwc1))) = Some dwc' ->
  ledger c dwc' =
  (ledger c dwc1 + if (cookie usb =? c)%Z then 1 else 0)%nat.
Proof.
  destruct (is_roothub_request _).
  - intros [= <-]. unfold ledger, live_requests.
    cbn [dwc_usb_request_queue_rh set_rh_req_head set_DBG_reqid rh_req_head
         rh_intr_req usb_devices effects].
    rewrite !count_cookie_app. unfold count_cookie at 2.
    cbn [filter usb_req new_request]. destruct (cookie usb =? c);
      cbn [List.length]; lia.
  - unfold dwc_usb_request_queue_hw.
    destruct (negb _); [discriminate|].
    cbn [set_DBG_reqid usb_devices].
    destruct (nth_error (usb_devices dwc1) _) as [dev|] eqn:Hdev;
      [|discriminate].
    match goal with
    | |- context [list_add_tail_pending ?e ?a ?r] =>
        destruct (list_add_tail_pending e a r) as [eps|] eqn:Hadd;
        [|discriminate]
    end.
    intros [= <-]. unfold ledger, live_requests, pending_of.
    cbn [set_usb_devices set_DBG_reqid rh_req_head rh_intr_req usb_devices
         effects].
    rewrite !count_cookie_app.
    pose proof (count_flat_map_replace_nth
                  (fun d => flat_map pending_requests (endpoints d)) c
                  _ _ _ (set_endpoints dev eps) Hdev) as Hr.
    cbn [set_endpoints endpoints] in Hr.
    rewrite (count_list_add_tail_pending c _ _ _ _ Hadd) in Hr.
    assert (Hk : count_cookie c
                   [if h_ep_address (header (usb_req
                                       (new_request usb (DBG_reqid dwc1)))) =? 0
                    then set_ctrl_phase (new_request usb (DBG_reqid dwc1))
                           CTRL_PHASE_SETUP
                    else new_request usb (DBG_reqid dwc1)] =
                 if (cookie usb =? c)%Z then 1%nat else 0%nat).
    { unfold count_cookie. destruct (_ =? 0);
        cbn [filter usb_req set_ctrl_phase new_request];
        destruct (cookie usb =? c); reflexivity. }
    rewrite Hk in Hr. cbn [usb_req new_request] in Hr. lia.
Qed.

Lemma request_queue_ledger `{Platform} c dwc usb calloc_ok dwc' :
  dwc_request_queue dwc usb calloc_ok = Some dwc' ->
  ledger c dwc' =
  (ledger c dwc + if (cookie usb =? c)%Z then 1 else 0)%nat.
Proof.
  unfold dwc_request_queue.
  destruct (_ <? _).
  { intros [= <-]. apply emit_ledger. }
  unfold do_dwc_usb_request_queue, get_free_request.
  destruct (free_reqs dwc) as [|r rest].
  - destruct (free_req_count dwc =? 0); [|discriminate].
    destruct calloc_ok.
    + apply queue_envelope_ledger.
    + intros [= <-]. apply emit_ledger.
  - intros Hq. rewrite (queue_envelope_ledger c _ _ _ Hq).
    f_equal.
Qed.

Lemma endpoint_done_ledger c d i status len dwc dwc' :
  endpoint_done d i status len dwc = Some dwc' ->
  ledger c dwc' = ledger c dwc.
Proof.
  unfold endpoint_done.
  destruct (nth_error (usb_devices dwc) d) as [dev|] eqn:Hdev;
    [|intros [= <-]; reflexivity].
  destruct (nth_error (endpoints dev) i) as [ep|] eqn:Hep;
    [|intros [= <-]; reflexivity].
  destruct (pending_requests ep) as [|req rest] eqn:Hpend;
    intros [= <-]; [reflexivity|].
  unfold ledger. rewrite complete_request_live, complete_request_delivered.
  unfold live_requests, pending_of.
  cbn [set_usb_devices rh_req_head rh_intr_req usb_devices effects].
  rewrite !count_cookie_app.
  pose proof (count_flat_map_replace_nth
                (fun d => flat_map pending_requests (endpoints d)) c
                _ _ _
                (set_endpoints dev
                   (replace_nth i (endpoints dev)
                      (set_pending_requests ep rest))) Hdev) as Hr.
  cbn [set_endpoints endpoints] in Hr.
  pose proof (count_flat_map_replace_nth pending_requests c
                _ _ _ (set_pending_requests ep rest) Hep) as Hr'.
  cbn [set_pending_requests pending_requests] in Hr'. rewrite Hpend in Hr'.
  change (req :: rest) with ([req] ++ rest) in Hr'.
  rewrite count_cookie_app in Hr'. lia.
Qed.

Lemma worker_step_ledger c regs_port dwc dwc' :
  dwc_root_hub_req_worker_step regs_port dwc = Some dwc' ->
  (ledger c dwc' <= ledger c dwc)%nat.
Proof.
  unfold dwc_root_hub_req_worker_step.
  destruct (rh_req_head dwc) as [|req rest] eqn:Hq; [intros [= <-]; lia|].
  intros Hp. pose proof (process_root_hub_request_ledger c _ _ _ _ Hp) as Hle.
  assert (Hl : (ledger c (set_rh_req_head dwc rest) + count_cookie c [req] =
                ledger c dwc)%nat).
  { unfold ledger, live_requests.
    cbn [set_rh_req_head rh_req_head rh_intr_req usb_devices effects].
    rewrite Hq. change (req :: rest) with ([req] ++ rest).
    rewrite !count_cookie_app. lia. }
  lia.
Qed.

Lemma port_irq_ledger c hw dwc :
  ledger c (dwc_handle_port_irq hw dwc) = ledger c dwc.
Proof.
  unfold dwc_handle_port_irq. cbv zeta.
  rewrite port_status_req_ledger, emit_ledger, Nat.add_0_r.
  apply ledger_ext; reflexivity.
Qed.

Lemma step_ledger `{Platform} c dwc e dwc' :
  step dwc e = Some dwc' ->
  (ledger c dwc' <= ledger c dwc + submissions c [e])%nat.
Proof.
  unfold submissions.
  destruct e as [usb ok | regs_port | hw | d i status len];
    cbn [step is_submission filter].
  - intros Hq. rewrite (request_queue_ledger c _ _ _ _ Hq).
    destruct (cookie usb =? c); cbn [List.length]; lia.
  - intros Hw. pose proof (worker_step_ledger c _ _ _ Hw). cbn. lia.
  - intros [= <-]. rewrite port_irq_ledger. cbn. lia.
  - intros Hd. rewrite (endpoint_done_ledger c _ _ _ _ _ _ Hd). cbn. lia.
Qed.

Lemma run_ledger `{Platform} c es : forall dwc dwc',
  run dwc es = Some dwc' ->
  (ledger c dwc' <= ledger c dwc + submissions c es)%nat.
Proof.
  induction es as [|e es IH]; intros dwc dwc'; cbn [run].
  - intros [= <-]. cbn. lia.
  - destruct (step dwc e) as [dwc1|] eqn:Hs; [|discriminate].
    intros Hr. pose proof (step_ledger c _ _ _ Hs) as H1.
    pose proof (IH _ _ Hr) as H2.
    change (e :: es) with ([e] ++ es).
    unfold submissions in *. rewrite filter_app, length_app. lia.
Qed.

(** X14: in every state the driver reaches from an initial state with
    nothing pending, the completions delivered for an upstream request and
    the envelopes that still carry it are together no more than the times the
    request was submitted: a request submitted once is completed at most
    once, and once completed it is queued nowhere in the driver. *)
Theorem X14_completions_within_submissions `{Platform} devices es dwc c :
  pending_of devices = [] ->
  run (dwc_init devices) es = Some dwc ->
  (List.length (delivered_to c (effects dwc)) +
   count_cookie c (live_requests dwc) <= submissions c es)%nat.
Proof.
  intros Hp Hr. pose proof (run_ledger c _ _ _ Hr) as Hle.
  assert (H0 : ledger c (dwc_init devices) = 0%nat).
  { unfold ledger, live_requests.
    cbn [dwc_init rh_req_head rh_intr_req usb_devices effects].
    rewrite Hp. reflexivity. }
  rewrite H0 in Hle. exact Hle.
Qed.

Lemma X14_completions_within_submissions_witness :
  (List.length (delivered_to 11 (effects sample_final)) +
   count_cookie 11 (live_requests sample_final) <=
   submissions 11 sample_events)%nat.
Proof.
  apply (@X14_completions_within_submissions spec_platform sample_devices
           sample_events sample_final 11).
  - reflexivity.
  - vm_compute. reflexivity.
Defined.

(** ** The scheduler completes a request once, as its last action *)

Lemma acquired_app (a b : list action) :
  acquired (a ++ b) = acquired a ++ acquired b.
Proof.
  induction a as [|x a IH]; [reflexivity|].
  destruct x; cbn [acquired app]; rewrite ?IH; reflexivity.
Qed.

Lemma handle_normal_shape `{ChannelPool} frame channel req ep interrupts hc
  done req1 hc1 acts :
  handle_normal_channel_halted frame channel req ep interrupts hc =
    Some (done, req1, hc1, acts) ->
  turn_shape channel done req1 acts.
Proof.
  unfold handle_normal_channel_halted, dwc_start_transaction.
  generalize (halted_bytes_transferred req hc
                (u32 (packets_queued req - packet_count (transfer hc)))).
  intros n. cbv zeta.
  repeat match goal with
         | |- (if ?b then _ else _) = _ -> _ => destruct b
         end;
    release_ok; intros [= <- <- <- <-]; unfold turn_shape;
    cbn [acquired released completed_requests existsb is_ListAddHead orb];
    (split; [reflexivity|]);
    first [ left; repeat split; reflexivity
          | right; left; repeat split; try reflexivity; left; reflexivity
          | right; right; split; [reflexivity|]; eexists; eexists; reflexivity ].
Qed.

Lemma handle_halted_shape `{ChannelPool} frame channel req ep dev interrupts
  hc counter done req1 hc1 counter1 acts :
  handle_channel_halted_interrupt frame channel req ep dev interrupts hc
    counter = Some (done, req1, hc1, counter1, acts) ->
  turn_shape channel done req1 acts.
Proof.
  unfold handle_channel_halted_interrupt.
  destruct (_ || _).
  { release_ok. intros [= <- <- <- <- <-]. split; [reflexivity|]. right; right.
    split; [reflexivity|]. eexists; eexists; reflexivity. }
  destruct (frame_overrun interrupts).
  { destruct (u32 (counter + 1) =? FRAME_OVERRUN_THRESHOLD);
      release_ok; intros [= <- <- <- <- <-]; (split; [reflexivity|]);
      right; left; repeat split; try reflexivity; right; reflexivity. }
  destruct (nak_response_received interrupts).
  { nak_release; intros [= <- <- <- <- <-]; unfold await_sof_if_necessary;
      destruct (_ && _);
      (split; [reflexivity|]); right; left;
      repeat split; try reflexivity;
      first [left; reflexivity | right; reflexivity]. }
  destruct (nyet_response_received interrupts).
  { unfold dwc_start_transaction, await_sof_if_necessary. cbv zeta.
    intros [= <- <- <- <- <-].
    destruct (negb (usb_ep_type (desc ep) =? USB_ENDPOINT_INTERRUPT));
      destruct (_ && _);
      (split; [reflexivity|]); left; repeat split; reflexivity. }
  destruct (handle_normal_channel_halted frame channel req ep interrupts hc)
    as [[[[d r] h] a]|] eqn:Hn; [|discriminate].
  intros [= <- <- <- <- <-].
  exact (handle_normal_shape _ _ _ _ _ _ _ _ _ _ Hn).
Qed.

Lemma turn_shape_finished channel req acts :
  turn_shape channel true req acts ->
  existsb is_ListAddHead acts = false ->
  exists status len,
    acts = [ReleaseChannel channel; CompleteRequest req status len].
Proof.
  intros [_ [(Hd & _) | [(_ & Hl & _) | (_ & Hc)]]] He;
    [discriminate | congruence | exact Hc].
Qed.

Lemma turn_shape_requeued channel req acts :
  turn_shape channel true req acts ->
  existsb is_ListAddHead acts = true ->
  completed_requests acts = [] /\
  (released acts = [] \/ released acts = [channel]).
Proof.
  intros [_ [(Hd & _) | [(_ & _ & Hc & Hr) | (_ & st & n & Hc)]]] He;
    [discriminate | split; assumption | subst acts; discriminate].
Qed.

Lemma turn_shape_going channel req acts :
  turn_shape channel false req acts ->
  completed_requests acts = [] /\ released acts = [].
Proof.
  intros [_ [(_ & _ & Hc & Hr) | [(Hd & _) | (Hd & _)]]];
    [split; assumption | discriminate | discriminate].
Qed.

Lemma await_channel_completes_last `{Platform} `{ChannelPool} ep dev :
  forall rs th req hc acts e,
  await_channel ep dev rs th req hc = (acts, e) ->
  (e = Finished ->
   exists pre c r status len,
     acts = pre ++ [ReleaseChannel c; CompleteRequest r status len] /\
     completed_requests pre = []) /\
  (e <> Finished -> completed_requests acts = []).
Proof.
  induction rs as [|r rs IH]; intros th req hc acts e; cbn [await_channel].
  - intros [= <- <-]. split; [discriminate | reflexivity].
  - destruct (handle_channel_halted_interrupt _ _ _ _ _ _ _ _)
      as [[[[[done req1] hc2] counter] acts1]|] eqn:Hh.
    2:{ intros [= <- <-]. split; [discriminate | reflexivity]. }
    pose proof (handle_halted_shape _ _ _ _ _ _ _ _ _ _ _ _ _ Hh) as Hshape.
    destruct done.
    + destruct (existsb is_ListAddHead acts1) eqn:Hl.
      2:{ intros [= <- <-].
          destruct (turn_shape_finished _ _ _ Hshape Hl) as (st & n & ->).
          split; [|congruence]. intros _.
          exists [], (th_channel th), req1, st, n. split; reflexivity. }
      destruct (turn_shape_requeued _ _ _ Hshape Hl) as [Hc1 _].
      destruct (start_request _ req1 ep dev (hw_next r))
        as [[[[th3 req2] ohc] acts2]|] eqn:Hsr.
      2:{ intros [= <- <-]. split; [discriminate | intros _; exact Hc1]. }
      destruct (start_request_same _ _ _ _ _ _ _ _ _ Hsr) as [_ Hc2].
      destruct ohc as [hc3|].
      2:{ intros [= <- <-]. split; [discriminate|]. intros _.
          rewrite completed_requests_app, Hc1, Hc2. reflexivity. }
      destruct (await_channel ep dev rs th3 req2 hc3) as [tr e'] eqn:Haw.
      intros [= <- <-]. destruct (IH _ _ _ _ _ Haw) as [Hfin Hnot].
      split.
      * intros He. destruct (Hfin He) as (pre & c & r' & st & n & -> & Hpre).
        exists (acts1 ++ acts2 ++ pre), c, r', st, n.
        rewrite <- !app_assoc. split; [reflexivity|].
        rewrite !completed_requests_app, Hc1, Hc2, Hpre. reflexivity.
      * intros He. rewrite !completed_requests_app, Hc1, Hc2, (Hnot He).
        reflexivity.
    + destruct (turn_shape_going _ _ _ Hshape) as [Hc1 _].
      destruct (await_channel ep dev rs _ req1 hc2) as [tr e'] eqn:Haw.
      intros [= <- <-]. destruct (IH _ _ _ _ _ Haw) as [Hfin Hnot].
      split.
      * intros He. destruct (Hfin He) as (pre & c & r' & st & n & -> & Hpre).
        exists (acts1 ++ pre), c, r', st, n.
        rewrite <- !app_assoc. split; [reflexivity|].
        rewrite !completed_requests_app, Hc1, Hpre. reflexivity.
      * intros He. rewrite !completed_requests_app, Hc1, (Hnot He).
        reflexivity.
Qed.

(** X15: whatever the hardware answers, the scheduler of an endpoint
    completes the request it works on at most once: a run that finishes ends
    with the release of a channel immediately followed by the one completion
    of the run, and a run that is still waiting, has exited or has aborted
    has completed nothing. *)
Theorem X15_scheduler_completes_last `{Platform} `{ChannelPool} ep dev th req
  inp rs acts e :
  schedule_request ep dev th req inp rs = (acts, e) ->
  (e = Finished ->
   exists pre c r status len,
     acts = pre ++ [ReleaseChannel c; CompleteRequest r status len] /\
     completed_requests pre = []) /\
  (e <> Finished -> completed_requests acts = []).
Proof.
  unfold schedule_request.
  destruct (start_request th req ep dev inp)
    as [[[[th1 req1] ohc] acts0]|] eqn:Hsr.
  2:{ intros [= <- <-]. split; [discriminate | reflexivity]. }
  destruct (start_request_same _ _ _ _ _ _ _ _ _ Hsr) as [_ Hc].
  destruct ohc as [hc|].
  2:{ intros [= <- <-]. split; [discriminate | intros _; exact Hc]. }
  destruct (await_channel ep dev rs th1 req1 hc) as [tr e'] eqn:Haw.
  intros [= <- <-].
  destruct (await_channel_completes_last _ _ _ _ _ _ _ _ Haw) as [Hfin Hnot].
  split.
  - intros He. destruct (Hfin He) as (pre & c & r' & st & n & -> & Hpre).
    exists (acts0 ++ pre), c, r', st, n. rewrite <- app_assoc.
    split; [reflexivity|].
    rewrite completed_requests_app, Hc, Hpre. reflexivity.
  - intros He. rewrite completed_requests_app, Hc, (Hnot He). reflexivity.
Qed.

Lemma X15_scheduler_completes_last_witness :
  (snd sample_ctrl_nak_run = Finished ->
   exists pre c r status len,
     fst sample_ctrl_nak_run =
       pre ++ [ReleaseChannel c; CompleteRequest r status len] /\
     completed_requests pre = []) /\
  (snd sample_ctrl_nak_run <> Finished ->
   completed_requests (fst sample_ctrl_nak_run) = []).
Proof.
  apply (@X15_scheduler_completes_last spec_platform spec_pool sample_ctrl_ep
           sample_ctrl_dev sample_thread sample_ctrl_in sample_input
           [sample_halt_nak; sample_halt_done; sample_halt_nak;
            sample_halt_done; sample_halt_done]).
  vm_compute. reflexivity.
Defined.

(** ** Channels held by the scheduler of an interrupt or bulk endpoint *)

Lemma handle_normal_release `{ChannelPool} frame channel req ep interrupts hc
  done req1 hc1 acts :
  (usb_ep_type (desc ep) =? USB_ENDPOINT_CONTROL) = false ->
  short_attempt req &&
    negb (usb_ep_type (desc ep) =? USB_ENDPOINT_INTERRUPT) = false ->
  handle_normal_channel_halted frame channel req ep interrupts hc =
    Some (done, req1, hc1, acts) ->
  existsb is_ListAddHead acts = false /\ short_attempt req1 = short_attempt req.
Proof.
  intros Hctl Hsa.
  unfold handle_normal_channel_halted, dwc_start_transaction.
  generalize (halted_bytes_transferred req hc
                (u32 (packets_queued req - packet_count (transfer hc)))).
  intros n. cbv zeta.
  cbn [short_attempt set_bytes_transferred set_queued]. rewrite Hctl.
  cbn [andb].
  destruct (short_attempt req) eqn:Hs; cbn [andb] in Hsa |- *;
    rewrite ?Hsa, ?Bool.andb_false_r;
    repeat match goal with
           | |- (if ?b then _ else _) = _ -> _ => destruct b
           end;
    release_ok; intros [= <- <- <- <-]; (split; [reflexivity|]);
    repeat match goal with
           | |- context [if ?b then _ else _] => destruct b
           end;
    exact Hs.
Qed.

Lemma handle_halted_release `{ChannelPool} frame channel req ep dev
  interrupts hc counter done req1 hc1 counter1 acts :
  (usb_ep_type (desc ep) =? USB_ENDPOINT_CONTROL) = false ->
  short_attempt req &&
    negb (usb_ep_type (desc ep) =? USB_ENDPOINT_INTERRUPT) = false ->
  handle_channel_halted_interrupt frame channel req ep dev interrupts hc
    counter = Some (done, req1, hc1, counter1, acts) ->
  short_attempt req1 = short_attempt req /\
  (existsb is_ListAddHead acts = true -> released acts = [channel]).
Proof.
  intros Hctl Hsa. unfold handle_channel_halted_interrupt.
  destruct (_ || _).
  { release_ok. intros [= <- <- <- <- <-].
    split; [reflexivity | discriminate]. }
  destruct (frame_overrun interrupts).
  { destruct (u32 (counter + 1) =? FRAME_OVERRUN_THRESHOLD);
      release_ok; intros [= <- <- <- <- <-]; split; reflexivity. }
  destruct (nak_response_received interrupts).
  { rewrite Hctl. cbn [negb]. unfold release_checked.
    destruct (channel <? DWC_NUM_CHANNELS); [|discriminate].
    intros [= <- <- <- <- <-].
    split; [reflexivity|]. intros _. unfold await_sof_if_necessary.
    match goal with
    | |- context [if ?b then _ else _] => destruct b
    end; reflexivity. }
  destruct (nyet_response_received interrupts).
  { unfold dwc_start_transaction, await_sof_if_necessary. cbv zeta.
    intros [= <- <- <- <- <-]. split.
    - destruct (8 <=? _); destruct (negb (complete_split _)); reflexivity.
    - repeat match goal with
             | |- context [if ?b then _ else _] => destruct b
             end; discriminate. }
  destruct (handle_normal_channel_halted frame channel req ep interrupts hc)
    as [[[[d r] h] a]|] eqn:Hn; [|discriminate].
  intros [= <- <- <- <- <-].
  destruct (handle_normal_release _ _ _ _ _ _ _ _ _ _ Hctl Hsa Hn) as [Hl Hs].
  split; [exact Hs|]. rewrite Hl. discriminate.
Qed.

Lemma start_transfer_shape `{Platform} frame chan req ep dev req' hc acts :
  dwc_start_transfer frame chan req ep dev = Some (req', hc, acts) ->
  acquired acts = [] /\ released acts = [] /\
  (speed_eqb (speed dev) USB_SPEED_HIGH = true -> short_attempt req' = false).
Proof.
  unfold dwc_start_transfer, dwc_start_transaction.
  match goal with
  | |- match ?pv with _ => _ end = _ -> _ => destruct pv as [[[d s0] pid]|]
  end; [|discriminate].
  cbv zeta. intros [= <- <- <-]. repeat split.
  intros Hs. rewrite Hs. cbn [negb andb].
  match goal with
  | |- context [if ?b then _ else _] => destruct b
  end; reflexivity.
Qed.

Lemma channel_per_turn_flags ep dev req :
  channel_per_turn ep dev ->
  (speed_eqb (speed dev) USB_SPEED_HIGH = true -> short_attempt req = false) ->
  (usb_ep_type (desc ep) =? USB_ENDPOINT_CONTROL) = false /\
  short_attempt req &&
    negb (usb_ep_type (desc ep) =? USB_ENDPOINT_INTERRUPT) = false.
Proof.
  intros [Ht | [Ht Hs]] Hsa; rewrite Ht.
  - split; [reflexivity|]. apply Bool.andb_false_r.
  - split; [reflexivity|]. rewrite Hsa; [reflexivity|].
    rewrite Hs. reflexivity.
Qed.

Lemma start_request_acquires `{Platform} th req ep dev inp th' req' ohc acts :
  channel_per_turn ep dev ->
  start_request th req ep dev inp = Some (th', req', ohc, acts) ->
  ohc <> None /\
  acquired acts = [in_channel inp] /\ released acts = [] /\
  th_channel th' = in_channel inp /\
  (speed_eqb (speed dev) USB_SPEED_HIGH = true -> short_attempt req' = false).
Proof.
  intros Hcond. unfold start_request.
  destruct Hcond as [Ht | [Ht Hs]]; rewrite Ht;
    cbn [Z.eqb USB_ENDPOINT_INTERRUPT USB_ENDPOINT_BULK USB_ENDPOINT_CONTROL
         USB_ENDPOINT_ISOCHRONOUS Pos.eqb];
    match goal with
    | |- match dwc_start_transfer ?f ?c ?r ?e ?d with _ => _ end = _ -> _ =>
        destruct (dwc_start_transfer f c r e d) as [[[r2 h2] a2]|] eqn:Hst;
        [|discriminate];
        destruct (start_transfer_shape _ _ _ _ _ _ _ _ Hst) as (Ha & Hr & Hsa)
    end;
    intros [= <- <- <- <-];
    cbn [acquired released th_channel];
    unfold await_sof_if_necessary;
    repeat match goal with
           | |- context [if ?b then _ else _] => destruct b
           end;
    cbn [app acquired released]; rewrite ?Ha, ?Hr;
    repeat split; try discriminate; assumption.
Qed.

Lemma await_channel_balance `{Platform} `{ChannelPool} ep dev :
  channel_per_turn ep dev ->
  forall rs th req hc acts e,
  (speed_eqb (speed dev) USB_SPEED_HIGH = true -> short_attempt req = false) ->
  await_channel ep dev rs th req hc = (acts, e) ->
  (e = Finished -> th_channel th :: acquired acts = released acts) /\
  (e = Running ->
   exists held, th_channel th :: acquired acts = released acts ++ [held]) /\
  e <> Exited.
Proof.
  intros Hcond.
  induction rs as [|r rs IH]; intros th req hc acts e Hsa;
    cbn [await_channel].
  - intros [= <- <-]. repeat split; try discriminate.
    intros _. exists (th_channel th). reflexivity.
  - destruct (handle_channel_halted_interrupt _ _ _ _ _ _ _ _)
      as [[[[[done req1] hc2] counter] acts1]|] eqn:Hh.
    2:{ intros [= <- <-]. repeat split; discriminate. }
    cbn [th_channel] in Hh.
    pose proof (handle_halted_shape _ _ _ _ _ _ _ _ _ _ _ _ _ Hh) as Hshape.
    destruct (channel_per_turn_flags ep dev req Hcond Hsa) as [Hctl Hflag].
    destruct (handle_halted_release _ _ _ _ _ _ _ _ _ _ _ _ _ Hctl Hflag Hh)
      as [Hsa1 Hrel].
    assert (Hsa' : speed_eqb (speed dev) USB_SPEED_HIGH = true ->
                   short_attempt req1 = false).
    { intros Hs. rewrite Hsa1. exact (Hsa Hs). }
    pose proof (proj1 Hshape) as Hacq.
    destruct done.
    + destruct (existsb is_ListAddHead acts1) eqn:Hl.
      2:{ intros [= <- <-].
          destruct (turn_shape_finished _ _ _ Hshape Hl) as (st & n & ->).
          repeat split; try discriminate. }
      specialize (Hrel eq_refl).
      destruct (start_request _ req1 ep dev (hw_next r))
        as [[[[th3 req2] ohc] acts2]|] eqn:Hsr.
      2:{ intros [= <- <-]. repeat split; discriminate. }
      destruct (start_request_acquires _ _ _ _ _ _ _ _ _ Hcond Hsr)
        as (Hsome & Ha2 & Hr2 & Hch & Hsa2).
      destruct ohc as [hc3|]; [|congruence].
      destruct (await_channel ep dev rs th3 req2 hc3) as [tr e'] eqn:Haw.
      intros [= <- <-].
      destruct (IH _ _ _ _ _ Hsa2 Haw) as (Hfin & Hrun & Hex).
      rewrite !acquired_app, !released_app, Hacq, Hrel, Ha2, Hr2.
      cbn [app]. rewrite <- Hch. repeat split.
      * intros He. rewrite (Hfin He). reflexivity.
      * intros He. destruct (Hrun He) as [held Hheld]. exists held.
        rewrite Hheld. reflexivity.
      * exact Hex.
    + destruct (turn_shape_going _ _ _ Hshape) as [_ Hr1].
      destruct (await_channel ep dev rs _ req1 hc2) as [tr e'] eqn:Haw.
      intros [= <- <-].
      destruct (IH _ _ _ _ _ Hsa' Haw) as (Hfin & Hrun & Hex).
      cbn [th_channel] in Hfin, Hrun.
      rewrite !acquired_app, !released_app, Hacq, Hr1. cbn [app].
      repeat split; assumption.
Qed.

(** X16: on an interrupt endpoint, and on a bulk endpoint of a high-speed
    device, the scheduler releases every channel it acquires before it
    acquires the next: when the request is finished the channels released
    are the channels acquired, in the same order, and while the scheduler
    waits for an interrupt it holds exactly one channel, the last one
    acquired. The thread never exits on such an endpoint. *)
Theorem X16_channel_balance `{Platform} `{ChannelPool} ep dev th req inp rs
  acts e :
  channel_per_turn ep dev ->
  schedule_request ep dev th req inp rs = (acts, e) ->
  (e = Finished -> acquired acts = released acts) /\
  (e = Running -> exists held, acquired acts = released acts ++ [held]) /\
  e <> Exited.
Proof.
  intros Hcond. unfold schedule_request.
  destruct (start_request th req ep dev inp)
    as [[[[th1 req1] ohc] acts0]|] eqn:Hsr.
  2:{ intros [= <- <-]. repeat split; discriminate. }
  destruct (start_request_acquires _ _ _ _ _ _ _ _ _ Hcond Hsr)
    as (Hsome & Ha & Hr & Hch & Hsa).
  destruct ohc as [hc|]; [|congruence].
  destruct (await_channel ep dev rs th1 req1 hc) as [tr e'] eqn:Haw.
  intros [= <- <-].
  destruct (await_channel_balance ep dev Hcond _ _ _ _ _ _ Hsa Haw)
    as (Hfin & Hrun & Hex).
  rewrite acquired_app, released_app, Ha, Hr. cbn [app]. rewrite <- Hch.
  repeat split; assumption.
Qed.

Lemma X16_channel_balance_witness :
  (snd sample_bulk_nak_run = Finished ->
   acquired (fst sample_bulk_nak_run) = released (fst sample_bulk_nak_run)) /\
  (snd sample_bulk_nak_run = Running ->
   exists held,
     acquired (fst sample_bulk_nak_run) =
     released (fst sample_bulk_nak_run) ++ [held]) /\
  snd sample_bulk_nak_run <> Exited.
Proof.
  apply (@X16_channel_balance spec_platform spec_pool sample_bulk_in_ep
           sample_high_speed_dev sample_thread (new_request sample_bulk_in 10)
           sample_input [sample_halt_nak; sample_halt_done]).
  - right. split; reflexivity.
  - vm_compute. reflexivity.
Defined.

(** A NAK from a bulk endpoint of a high-speed device with bInterval 0: the
    scheduler releases the channel, sleeps 1 millisecond, takes another
    channel for the retry and releases it when the request completes. *)
Lemma sample_bulk_nak_run_balanced :
  snd sample_bulk_nak_run = Finished /\
  sleeps (fst sample_bulk_nak_run) = [ZX_MSEC 1] /\
  acquired (fst sample_bulk_nak_run) = [3; 5] /\
  released (fst sample_bulk_nak_run) = [3; 5].
Proof. repeat split; reflexivity. Qed.

(** ** A short attempt on a bulk endpoint keeps its channel and takes another *)

Lemma handle_normal_unreleased `{ChannelPool} frame channel req ep interrupts
  hc req1 hc1 acts :
  (usb_ep_type (desc ep) =? USB_ENDPOINT_CONTROL) = false ->
  handle_normal_channel_halted frame channel req ep interrupts hc =
    Some (true, req1, hc1, acts) ->
  released acts = [] ->
  short_attempt req = true /\ acts = [ListAddHead req1].
Proof.
  intros Hctl.
  unfold handle_normal_channel_halted, dwc_start_transaction.
  generalize (halted_bytes_transferred req hc
                (u32 (packets_queued req - packet_count (transfer hc)))).
  intros n. cbv zeta.
  cbn [short_attempt set_bytes_transferred set_queued]. rewrite Hctl.
  cbn [andb].
  destruct (short_attempt req) eqn:Hs; cbn [andb];
    repeat match goal with
           | |- (if ?b then _ else _) = _ -> _ => destruct b
           end;
    release_ok; intros [= <- <- <-]; cbn [released]; try discriminate;
    intros _; split; reflexivity.
Qed.

Lemma start_request_bulk `{Platform} th req ep dev inp th' req' ohc acts :
  usb_ep_type (desc ep) = USB_ENDPOINT_BULK ->
  start_request th req ep dev inp = Some (th', req', ohc, acts) ->
  acquired acts = [in_channel inp] /\ released acts = [] /\
  th_channel th' = in_channel inp.
Proof.
  intros Ht. unfold start_request. rewrite Ht.
  cbn [Z.eqb USB_ENDPOINT_BULK USB_ENDPOINT_CONTROL USB_ENDPOINT_ISOCHRONOUS
       Pos.eqb].
  match goal with
  | |- match dwc_start_transfer ?f ?c ?r ?e ?d with _ => _ end = _ -> _ =>
      destruct (dwc_start_transfer f c r e d) as [[[r2 h2] a2]|] eqn:Hst;
      [|discriminate];
      destruct (start_transfer_shape _ _ _ _ _ _ _ _ Hst) as (Ha & Hr & _)
  end.
  intros [= <- <- <- <-]. cbn [acquired released th_channel].
  rewrite Ha, Hr. repeat split.
Qed.

(** X17: on a bulk endpoint the only turn of the scheduler that is done
    without releasing the channel is the requeue of a short attempt (a
    transfer that dwc_start_transfer cut down to one packet): the request
    goes back to the head of the pending list with nothing else done, and
    when the thread takes it again it acquires another channel and forgets
    the one it holds, which is not released. *)
Theorem X17_short_attempt_keeps_channel `{Platform} `{ChannelPool} frame
  channel req ep dev interrupts hc counter req1 hc1 counter1 acts :
  usb_ep_type (desc ep) = USB_ENDPOINT_BULK ->
  handle_channel_halted_interrupt frame channel req ep dev interrupts hc
    counter = Some (true, req1, hc1, counter1, acts) ->
  released acts = [] ->
  short_attempt req = true /\
  acts = [ListAddHead req1] /\
  forall th inp th' req' ohc acts',
    start_request th req1 ep dev inp = Some (th', req', ohc, acts') ->
    acquired (acts ++ acts') = [in_channel inp] /\
    released (acts ++ acts') = [] /\
    th_channel th' = in_channel inp.
Proof.
  intros Ht Hh Hrel.
  assert (Hctl : (usb_ep_type (desc ep) =? USB_ENDPOINT_CONTROL) = false)
    by (rewrite Ht; reflexivity).
  assert (Hshort : short_attempt req = true /\ acts = [ListAddHead req1]).
  { revert Hh Hrel. unfold handle_channel_halted_interrupt.
    destruct (_ || _).
    { release_ok. intros [= <- <- <- <-]. discriminate. }
    destruct (frame_overrun interrupts).
    { destruct (u32 (counter + 1) =? FRAME_OVERRUN_THRESHOLD);
        release_ok; intros [= <- <- <- <-]; discriminate. }
    destruct (nak_response_received interrupts).
    { rewrite Hctl. cbn [negb]. unfold release_checked.
      destruct (channel <? DWC_NUM_CHANNELS); [|discriminate].
      intros [= <- <- <- <-]. discriminate. }
    destruct (nyet_response_received interrupts).
    { unfold dwc_start_transaction. cbv zeta. discriminate. }
    destruct (handle_normal_channel_halted frame channel req ep interrupts hc)
      as [[[[d r] h] a]|] eqn:Hn; [|discriminate].
    intros [= -> <- <- <- <-].
    exact (handle_normal_unreleased _ _ _ _ _ _ _ _ _ Hctl Hn). }
  destruct Hshort as [Hs ->]. split; [exact Hs|]. split; [reflexivity|].
  intros th inp th' req' ohc acts' Hsr.
  destruct (start_request_bulk _ _ _ _ _ _ _ _ _ Ht Hsr) as (Ha & Hr & Hc).
  cbn [app acquired released]. repeat split; assumption.
Qed.

Lemma X17_short_attempt_keeps_channel_witness :
  short_attempt (fst sample_short_attempt) = true /\
  [ListAddHead
     (set_next_data_toggle
        (set_bytes_transferred
           (set_queued (fst sample_short_attempt) 0 64 0) 64)
        DWC_TOGGLE_DATA1)] =
  [ListAddHead
     (set_next_data_toggle
        (set_bytes_transferred
           (set_queued (fst sample_short_attempt) 0 64 0) 64)
        DWC_TOGGLE_DATA1)] /\
  forall th inp th' req' ohc acts',
    @start_request spec_platform th
      (set_next_data_toggle
         (set_bytes_transferred
            (set_queued (fst sample_short_attempt) 0 64 0) 64)
         DWC_TOGGLE_DATA1)
      sample_full_speed_ep sample_full_speed_dev inp =
      Some (th', req', ohc, acts') ->
    acquired
      ([ListAddHead
          (set_next_data_toggle
             (set_bytes_transferred
                (set_queued (fst sample_short_attempt) 0 64 0) 64)
             DWC_TOGGLE_DATA1)] ++ acts') = [in_channel inp] /\
    released
      ([ListAddHead
          (set_next_data_toggle
             (set_bytes_transferred
                (set_queued (fst sample_short_attempt) 0 64 0) 64)
             DWC_TOGGLE_DATA1)] ++ acts') = [] /\
    th_channel th' = in_channel inp.
Proof.
  apply (@X17_short_attempt_keeps_channel spec_platform spec_pool 0 3
           (fst sample_short_attempt) sample_full_speed_ep
           sample_full_speed_dev sample_interrupts_done
           (set_transfer (snd sample_short_attempt)
              (hw_transfer sample_halt_done)) 0 _
           (set_transfer (snd sample_short_attempt)
              (hw_transfer sample_halt_done)) 0).
  - reflexivity.
  - vm_compute. reflexivity.
  - reflexivity.
Defined.

(** ** Byte accounting of a completed transfer *)

Lemma handle_completed `{ChannelPool} frame channel req ep dev interrupts hc
  counter :
  is_completed_halt interrupts = true ->
  handle_channel_halted_interrupt frame channel req ep dev interrupts hc
    counter =
  match handle_normal_channel_halted frame channel req ep interrupts hc with
  | None => None
  | Some (done, req1, hc1, acts) => Some (done, req1, hc1, counter, acts)
  end.
Proof.
  unfold is_completed_halt, handle_channel_halted_interrupt. intros Hc.
  apply andb_prop in Hc as [He _]. apply negb_true_iff in He.
  repeat (apply orb_false_elim in He; destruct He as [He ?]).
  repeat match goal with
         | E : _ = false |- _ => rewrite E; clear E
         end.
  reflexivity.
Qed.

Lemma u32_small (x : Z) : 0 <= x < 2 ^ 32 -> u32 x = x.
Proof. intros Hx. unfold u32, wrap. apply Z.mod_small. exact Hx. Qed.

Lemma start_transfer_not_short `{Platform} frame chan req ep dev req' hc acts :
  dwc_start_transfer frame chan req ep dev = Some (req', hc, acts) ->
  speed dev = USB_SPEED_HIGH ->
  short_attempt req' = false.
Proof.
  intros Hst Hs.
  destruct (start_transfer_shape _ _ _ _ _ _ _ _ Hst) as (_ & _ & Hsa).
  apply Hsa. rewrite Hs. reflexivity.
Qed.

(** X18: an IN transfer on a bulk or interrupt endpoint of a high-speed
    device, started by dwc_start_transfer and halted with the transfer
    complete after at least one packet, ends when no packet is left or the
    last packet was short: the channel is released, under the assertion of
    release_channel, and the request completed OK, and the length reported
    is what the request had received before plus the size programmed minus
    the size the channel still shows. *)
Theorem X18_in_transfer_accounting `{Platform} `{ChannelPool} frame chan req
  ep dev req1 hc acts0 frame' interrupts t counter :
  dwc_start_transfer frame chan req ep dev = Some (req1, hc, acts0) ->
  usb_ep_type (desc ep) <> USB_ENDPOINT_CONTROL ->
  speed dev = USB_SPEED_HIGH ->
  endpoint_direction (characteristics hc) = DWC_EP_IN ->
  is_completed_halt interrupts = true ->
  0 <= packet_count t < packet_count (transfer hc) ->
  0 <= size t <= size (transfer hc) ->
  0 <= bytes_transferred req ->
  bytes_transferred req + size (transfer hc) < 2 ^ 32 ->
  0 < max_packet_size (characteristics hc) ->
  packet_count (transfer hc) * max_packet_size (characteristics hc) < 2 ^ 32 ->
  packet_count t = 0 \/
  size (transfer hc) - size t <
    (packet_count (transfer hc) - packet_count t) *
    max_packet_size (characteristics hc) ->
  exists req2,
    handle_channel_halted_interrupt frame' chan req1 ep dev interrupts
      (set_transfer hc t) counter =
    release_checked chan
      (true, req2, set_transfer hc t, counter,
       [ReleaseChannel chan;
        CompleteRequest req2 ZX_OK
          (bytes_transferred req + (size (transfer hc) - size t))]) /\
    usb_req req2 = usb_req req.
Proof.
  intros Hst Hctl Hs Hdir Hint Hpk Hsz Hb0 Hb1 Hmps Hfit Hend.
  destruct (start_transfer_registers _ _ _ _ _ _ _ _ Hst)
    as (_ & Hpq & Hbq & _ & _ & Husb & Hbt & _).
  pose proof (start_transfer_not_short _ _ _ _ _ _ _ _ Hst Hs) as Hsa.
  apply Z.eqb_neq in Hctl.
  rewrite (handle_completed _ _ _ _ _ _ _ _ Hint).
  unfold handle_normal_channel_halted, halted_bytes_transferred.
  cbn [transfer set_transfer characteristics packet_count size
       short_attempt bytes_queued packets_queued bytes_transferred
       set_bytes_transferred set_queued].
  rewrite Hpq, Hbq, Hbt, Hdir, Hsa, Hctl.
  change (DWC_EP_IN =? 1) with true. cbn [andb negb].
  set (pc := packet_count (transfer hc)) in *.
  set (mps := max_packet_size (characteristics hc)) in *.
  set (S := size (transfer hc)) in *.
  assert (Hpc : pc < 2 ^ 32) by nia.
  rewrite (u32_small (pc - packet_count t)) by lia.
  rewrite (u32_small (S - size t)) by lia.
  rewrite (u32_small (pc - (pc - packet_count t))) by lia.
  rewrite (u32_small ((pc - packet_count t) * mps)) by nia.
  rewrite (u32_small (bytes_transferred req + (S - size t))) by lia.
  destruct (Z.eqb_spec (pc - packet_count t) 0) as [E | _]; [lia|].
  cbn [negb].
  replace ((pc - (pc - packet_count t) =? 0) ||
           (S - size t <? (pc - packet_count t) * mps)) with true.
  2:{ symmetry. apply orb_true_iff. destruct Hend as [E | E].
      - left. apply Z.eqb_eq. lia.
      - right. apply Z.ltb_lt. exact E. }
  unfold is_completed_halt in Hint. apply andb_prop in Hint as [_ Htc].
  rewrite Htc. cbn [negb].
  match goal with
  | |- exists r,
         match release_checked _ (_, ?q, _, _) with _ => _ end = _ /\ _ =>
      exists q
  end.
  split; [|exact Husb].
  unfold release_checked. destruct (chan <? DWC_NUM_CHANNELS); reflexivity.
Qed.

Lemma X18_in_transfer_accounting_witness :
  exists req2,
    @handle_channel_halted_interrupt spec_pool 7 3
      (fst (fst sample_bulk_in_started))
      (sample_endpoint 129 USB_ENDPOINT_BULK 512 0) sample_high_speed_dev
      sample_interrupts_done
      (set_transfer (snd (fst sample_bulk_in_started))
         {| size := 324; packet_count := 0; packet_id := DWC_TOGGLE_DATA0 |})
      0 =
    Some (true, req2,
          set_transfer (snd (fst sample_bulk_in_started))
            {| size := 324; packet_count := 0; packet_id := DWC_TOGGLE_DATA0 |},
          0,
          [ReleaseChannel 3; CompleteRequest req2 ZX_OK (0 + (1024 - 324))]) /\
    usb_req req2 = sample_bulk_in.
Proof.
  apply (@X18_in_transfer_accounting spec_platform spec_pool 0 3
           (new_request sample_bulk_in 10)
           (sample_endpoint 129 USB_ENDPOINT_BULK 512 0) sample_high_speed_dev
           (fst (fst sample_bulk_in_started))
           (snd (fst sample_bulk_in_started))
           (snd sample_bulk_in_started) 7 sample_interrupts_done
           {| size := 324; packet_count := 0; packet_id := DWC_TOGGLE_DATA0 |}
           0).
  - vm_compute. reflexivity.
  - vm_compute. discriminate.
  - reflexivity.
  - reflexivity.
  - reflexivity.
  - vm_compute. split; [discriminate | reflexivity].
  - vm_compute. split; discriminate.
  - vm_compute. discriminate.
  - vm_compute. reflexivity.
  - vm_compute. reflexivity.
  - vm_compute. reflexivity.
  - left. reflexivity.
Defined.

Lemma DIV_ROUND_UP_exact (n d : Z) :
  0 < d -> 0 <= n ->
  DIV_ROUND_UP n d = n / d + (if n mod d =? 0 then 0 else 1).
Proof.
  intros Hd Hn.
  pose proof (DIV_ROUND_UP_ceil n d Hd) as Hq. unfold is_ceil_div in Hq.
  pose proof (Z.div_mod n d ltac:(lia)) as Hdm.
  pose proof (Z.mod_pos_bound n d Hd) as Hr.
  destruct (Z.eqb_spec (n mod d) 0); nia.
Qed.

(** X19: an OUT transfer on a bulk or interrupt endpoint of a high-speed
    device, started by dwc_start_transfer without send_zlp and with a number
    of packets (the size programmed divided by the maximum packet size and
    rounded up, or 1 for size 0) that fits the packet count field of the
    transfer register, and halted with the transfer complete and no packet
    left, releases the channel, under the assertion of release_channel, and
    completes the request OK; the length reported counts the size programmed
    once when it is a multiple of the maximum packet size, and otherwise
    counts the full packets in it a second time, so that it is the size
    programmed only when that is less than one packet or a whole number of
    packets. *)
Theorem X19_out_transfer_accounting `{Platform} `{ChannelPool} frame chan req
  ep dev req1 hc acts0 frame' interrupts t counter :
  dwc_start_transfer frame chan req ep dev = Some (req1, hc, acts0) ->
  usb_ep_type (desc ep) <> USB_ENDPOINT_CONTROL ->
  speed dev = USB_SPEED_HIGH ->
  endpoint_direction (characteristics hc) = DWC_EP_OUT ->
  h_send_zlp (header (usb_req req)) = false ->
  is_completed_halt interrupts = true ->
  packet_count t = 0 ->
  0 < max_packet_size (characteristics hc) ->
  0 <= size (transfer hc) ->
  (if size (transfer hc) =? 0 then 1
   else DIV_ROUND_UP (size (transfer hc))
          (max_packet_size (characteristics hc)))
    < 2 ^ packet_count_bits ->
  0 <= bytes_transferred req ->
  bytes_transferred req + 2 * size (transfer hc) < 2 ^ 32 ->
  exists req2,
    handle_channel_halted_interrupt frame' chan req1 ep dev interrupts
      (set_transfer hc t) counter =
    release_checked chan
      (true, req2, set_transfer hc t, counter,
       [ReleaseChannel chan;
        CompleteRequest req2 ZX_OK
          (bytes_transferred req + size (transfer hc) +
           (if size (transfer hc) mod max_packet_size (characteristics hc)
               =? 0
            then 0
            else max_packet_size (characteristics hc) *
                 (size (transfer hc) /
                  max_packet_size (characteristics hc))))]) /\
    usb_req req2 = usb_req req.
Proof.
  intros Hst Hctl Hs Hdir Hzlp Hint Hpk Hmps HS Hfit Hb0 Hb1.
  destruct (start_transfer_registers _ _ _ _ _ _ _ _ Hst)
    as (Hpc & Hpq & Hbq & Htq & _ & Husb & Hbt & _).
  pose proof (start_transfer_not_short _ _ _ _ _ _ _ _ Hst Hs) as Hsa.
  apply Z.eqb_neq in Hctl.
  rewrite Hzlp in Hpc.
  rewrite (transfer_packet_count_fit _ _ false Hmps HS) in Hpc
    by (cbn [andb]; rewrite Z.add_0_r; exact Hfit).
  cbn [andb] in Hpc. rewrite Z.add_0_r in Hpc.
  rewrite (DIV_ROUND_UP_exact _ _ Hmps HS) in Hpc.
  rewrite (handle_completed _ _ _ _ _ _ _ _ Hint).
  unfold handle_normal_channel_halted, halted_bytes_transferred.
  cbn [transfer set_transfer characteristics packet_count size
       short_attempt bytes_queued packets_queued bytes_transferred
       total_bytes_queued set_bytes_transferred set_queued].
  rewrite Hpq, Hbq, Htq, Hbt, Hdir, Hsa, Hctl, Hpk.
  change (DWC_EP_OUT =? 1) with false. cbn [andb negb orb].
  set (pc := packet_count (transfer hc)) in *.
  set (mps := max_packet_size (characteristics hc)) in *.
  set (S := size (transfer hc)) in *.
  pose proof (Z.div_mod S mps ltac:(lia)) as Hdm.
  pose proof (Z.mod_pos_bound S mps Hmps) as Hr.
  assert (Hq : 0 <= S / mps) by (apply Z.div_pos; lia).
  assert (Hqs : mps * (S / mps) <= S) by lia.
  assert (Hpc1 : 1 <= pc <= S + 1).
  { rewrite Hpc. destruct (Z.eqb_spec S 0); destruct (Z.eqb_spec (S mod mps) 0);
      nia. }
  rewrite !Z.sub_0_r, !(u32_small pc), !Z.sub_diag by lia.
  rewrite !(u32_small 0) by lia.
  destruct (Z.eqb_spec pc 0) as [E | _]; [lia|].
  change (0 =? 0) with true. cbn [negb andb orb].
  unfold is_completed_halt in Hint. apply andb_prop in Hint as [_ Htc].
  rewrite Htc. cbn [negb].
  assert (Hb : (if 1 <? pc then u32 (mps * (pc - 1)) else 0) =
               if S mod mps =? 0 then S - (if S =? 0 then 0 else mps)
               else mps * (S / mps)).
  { assert (Hpm : pc - 1 =
                  if S mod mps =? 0 then (if S =? 0 then 0 else S / mps - 1)
                  else S / mps).
    { rewrite Hpc.
      destruct (Z.eqb_spec S 0) as [E0 | E0];
        destruct (Z.eqb_spec (S mod mps) 0) as [E | E]; lia. }
    assert (Hpos : S mod mps = 0 -> S <> 0 -> 1 <= S / mps) by nia.
    destruct (Z.ltb_spec 1 pc) as [H1 | H1].
    - rewrite Hpm.
      destruct (Z.eqb_spec (S mod mps) 0) as [E | E];
        [destruct (Z.eqb_spec S 0) as [E0 | E0]|];
        rewrite u32_small by nia; nia.
    - destruct (Z.eqb_spec (S mod mps) 0) as [E | E];
        [destruct (Z.eqb_spec S 0) as [E0 | E0]|]; nia. }
  rewrite Hb.
  match goal with
  | |- exists r,
         match release_checked _ (_, _, _, [_; CompleteRequest _ _ ?n])
         with _ => _ end = _ /\ _ =>
      assert (Hn : n = bytes_transferred req + S +
                       (if S mod mps =? 0 then 0 else mps * (S / mps)))
  end.
  { destruct (Z.eqb_spec (S mod mps) 0) as [E | E]; cbn [negb orb].
    - destruct (Z.eqb_spec S 0) as [E0 | E0].
      + rewrite (u32_small (S - 0 + S)) by lia. rewrite u32_small by lia. lia.
      + rewrite (u32_small (S - mps + mps)) by lia.
        rewrite u32_small by lia. lia.
    - rewrite (u32_small (mps * (S / mps) + S)) by lia.
      rewrite u32_small by lia. lia. }
  rewrite Hn.
  match goal with
  | |- exists r,
         match release_checked _ (_, ?q, _, _) with _ => _ end = _ /\ _ =>
      exists q
  end.
  split; [|exact Husb].
  unfold release_checked. destruct (chan <? DWC_NUM_CHANNELS); reflexivity.
Qed.

Lemma X19_out_transfer_accounting_witness :
  exists req2,
    @handle_channel_halted_interrupt spec_pool 7 3
      (fst (fst sample_bulk_out_started)) sample_bulk_out_ep sample_high_speed_dev sample_interrupts_done
      (set_transfer (snd (fst sample_bulk_out_started))
         (hw_transfer sample_halt_done)) 0 =
    Some (true, req2,
          set_transfer (snd (fst sample_bulk_out_started))
            (hw_transfer sample_halt_done),
          0,
          [ReleaseChannel 3;
           CompleteRequest req2 ZX_OK
             (0 + 1000 + (if 1000 mod 512 =? 0 then 0 else 512 * (1000 / 512)))])
    /\ usb_req req2 = usb_req sample_bulk_out_1000.
Proof.
  apply (@X19_out_transfer_accounting spec_platform spec_pool 0 3
           sample_bulk_out_1000
           sample_bulk_out_ep sample_high_speed_dev
           (fst (fst sample_bulk_out_started))
           (snd (fst sample_bulk_out_started))
           (snd sample_bulk_out_started) 7 sample_interrupts_done
           (hw_transfer sample_halt_done) 0).
  - vm_compute. reflexivity.
  - vm_compute. discriminate.
  - reflexivity.
  - reflexivity.
  - reflexivity.
  - reflexivity.
  - reflexivity.
  - vm_compute. reflexivity.
  - vm_compute. discriminate.
  - vm_compute. reflexivity.
  - vm_compute. discriminate.
  - vm_compute. reflexivity.
Defined.

(** ** Host channel pool *)

Lemma ctz_from_spec x : forall fuel i,
  0 <= i ->
  (exists k, i <= k < i + Z.of_nat fuel /\ Z.testbit x k = true) ->
  i <= ctz_from fuel i x < i + Z.of_nat fuel /\
  Z.testbit x (ctz_from fuel i x) = true /\
  forall j, i <= j < ctz_from fuel i x -> Z.testbit x j = false.
Proof.
  induction fuel as [|fuel IH]; intros i Hi [k [Hk Hb]]; [lia|].
  cbn [ctz_from]. destruct (Z.testbit x i) eqn:Hx.
  - split; [lia|]. split; [exact Hx|]. intros j Hj. lia.
  - assert (Hne : k <> i) by congruence.
    destruct (IH (i + 1) ltac:(lia)) as (Hr & Ht & Hl).
    { exists k. split; [lia | exact Hb]. }
    split; [lia|]. split; [exact Ht|].
    intros j Hj. destruct (Z.eq_dec j i) as [-> | Hji]; [exact Hx|].
    apply Hl. lia.
Qed.

Lemma bit_search x : forall n : nat,
  (forall k, 0 <= k < Z.of_nat n -> Z.testbit x k = false) \/
  (exists k, 0 <= k < Z.of_nat n /\ Z.testbit x k = true).
Proof.
  induction n as [|n [IH | [k [Hk Hb]]]].
  - left. intros k Hk. lia.
  - destruct (Z.testbit x (Z.of_nat n)) eqn:Hx.
    + right. exists (Z.of_nat n). split; [lia | exact Hx].
    + left. intros k Hk.
      destruct (Z.eq_dec k (Z.of_nat n)) as [-> | Hne]; [exact Hx|].
      apply IH. lia.
  - right. exists k. split; [lia | exact Hb].
Qed.

Lemma free_channel_bits `{ChannelPool} free i :
  pool_constants_ok ->
  Z.land free ALL_CHANNELS_FREE = free ->
  Z.testbit free i = true ->
  Z.testbit ALL_CHANNELS_FREE i = true /\ 0 <= i < DWC_NUM_CHANNELS.
Proof.
  intros [_ Hall] Hinv Hb. rewrite <- Hinv, Z.land_spec in Hb.
  apply andb_prop in Hb as [_ Ha]. split; [exact Ha | exact (Hall _ Ha)].
Qed.

Lemma free_channel_exists `{ChannelPool} free :
  pool_constants_ok ->
  Z.land free ALL_CHANNELS_FREE = free ->
  free <> 0 ->
  exists k, 0 <= k < 0 + Z.of_nat 32 /\ Z.testbit free k = true.
Proof.
  intros Hk Hinv Hne.
  destruct (bit_search free 32) as [Hnone | Hsome]; [|exact Hsome].
  exfalso. apply Hne. apply Z.bits_inj_0. intros n.
  destruct (Z.testbit free n) eqn:Hb; [|reflexivity].
  destruct (free_channel_bits free n Hk Hinv Hb) as [_ Hr].
  rewrite Hnone in Hb; [discriminate|]. destruct Hk as [Hn _]. lia.
Qed.

Lemma shiftl_1_bits (c i : Z) :
  0 <= c -> Z.testbit (Z.shiftl 1 c) i = (i =? c).
Proof.
  intros Hc. destruct (Z.ltb_spec i 0) as [Hi | Hi].
  - rewrite Z.testbit_neg_r by lia. symmetry. apply Z.eqb_neq. lia.
  - rewrite Z.shiftl_1_l, Z.pow2_bits_eqb by lia. apply Z.eqb_sym.
Qed.

Lemma acquire_some `{ChannelPool} free :
  pool_constants_ok ->
  Z.land free ALL_CHANNELS_FREE = free ->
  free <> 0 ->
  let c := builtin_ctz free in
  let free' :=
    Z.land free (Z.lxor ALL_CHANNELS_FREE (Z.shiftl 1 c)) in
  acquire_channel_attempt free = Some (Some c, free') /\
  Z.testbit free c = true /\
  (forall i, 0 <= i < c -> Z.testbit free i = false) /\
  0 <= c < DWC_NUM_CHANNELS /\
  (forall i, Z.testbit free' i = Z.testbit free i && negb (i =? c)).
Proof.
  intros Hk Hinv Hne c free'.
  destruct (ctz_from_spec free 32 0 ltac:(lia)
              (free_channel_exists free Hk Hinv Hne)) as (Hr & Hb & Hlow).
  fold (builtin_ctz free) in Hr, Hb, Hlow. fold c in Hr, Hb, Hlow.
  destruct (free_channel_bits free c Hk Hinv Hb) as [Ha Hc].
  split.
  { unfold acquire_channel_attempt. rewrite Hinv, Z.eqb_refl. cbn [negb].
    destruct (Z.eqb_spec free 0); [contradiction | reflexivity]. }
  split; [exact Hb|]. split; [exact Hlow|]. split; [exact Hc|].
  intros i. unfold free'.
  rewrite Z.land_spec, Z.lxor_spec, shiftl_1_bits by lia.
  destruct (Z.testbit free i) eqn:Hi; [|reflexivity].
  destruct (free_channel_bits free i Hk Hinv Hi) as [Hai _].
  rewrite Hai. destruct (i =? c); reflexivity.
Qed.

Lemma spec_pool_constants_ok : @pool_constants_ok spec_pool.
Proof.
  split; [cbn; lia|]. intros i Hi. cbn [DWC_NUM_CHANNELS spec_pool].
  destruct (Z.ltb_spec i 0) as [Hn | Hn];
    [rewrite Z.testbit_neg_r in Hi by lia; discriminate|].
  destruct (Z.ltb_spec i 8) as [Hl | Hl]; [lia|].
  change (ALL_CHANNELS_FREE) with (Z.ones 8) in Hi.
  rewrite Z.ones_spec_high in Hi by lia. discriminate.
Qed.

(** X20: when its sanity check holds, acquire_channel_blocking finds no
    channel exactly when the word of free channels is 0; otherwise it hands
    out the free channel with the lowest number, a channel of the pool, and
    clears its bit and no other; the sanity check holds again afterwards,
    and releasing the channel gives back the word of free channels as it
    was. *)
Theorem X20_acquire_lowest_free `{ChannelPool} free :
  pool_constants_ok ->
  Z.land free ALL_CHANNELS_FREE = free ->
  (free = 0 -> acquire_channel_attempt free = Some (None, free)) /\
  (free <> 0 ->
   exists c free',
     acquire_channel_attempt free = Some (Some c, free') /\
     Z.testbit free c = true /\
     (forall i, 0 <= i < c -> Z.testbit free i = false) /\
     0 <= c < DWC_NUM_CHANNELS /\
     (forall i, Z.testbit free' i = Z.testbit free i && negb (i =? c)) /\
     Z.land free' ALL_CHANNELS_FREE = free' /\
     release_channel c free' = Some free).
Proof.
  intros Hk Hinv. split.
  - intros ->. unfold acquire_channel_attempt.
    rewrite Hinv. reflexivity.
  - intros Hne.
    destruct (acquire_some free Hk Hinv Hne) as (Ha & Hb & Hlow & Hc & Hbits).
    eexists; eexists. split; [exact Ha|].
    split; [exact Hb|]. split; [exact Hlow|]. split; [exact Hc|].
    split; [exact Hbits|]. split.
    + apply Z.bits_inj'. intros i _. rewrite Z.land_spec, Hbits.
      destruct (Z.testbit free i) eqn:Hi; [|reflexivity].
      destruct (free_channel_bits free i Hk Hinv Hi) as [Hai _].
      rewrite Hai. destruct (negb _); reflexivity.
    + unfold release_channel.
      destruct (Z.ltb_spec (builtin_ctz free) DWC_NUM_CHANNELS); [|lia].
      f_equal. apply Z.bits_inj'. intros i _.
      rewrite Z.lor_spec, Hbits, shiftl_1_bits by lia.
      destruct (Z.eqb_spec i (builtin_ctz free)) as [-> | _].
      * rewrite Hb. reflexivity.
      * cbn [negb]. rewrite andb_true_r, orb_false_r. reflexivity.
Qed.

Lemma X20_acquire_lowest_free_witness :
  (172 = 0 -> @acquire_channel_attempt spec_pool 172 = Some (None, 172)) /\
  (172 <> 0 ->
   exists c free',
     @acquire_channel_attempt spec_pool 172 = Some (Some c, free') /\
     Z.testbit 172 c = true /\
     (forall i, 0 <= i < c -> Z.testbit 172 i = false) /\
     0 <= c < 8 /\
     (forall i, Z.testbit free' i = Z.testbit 172 i && negb (i =? c)) /\
     Z.land free' 255 = free' /\
     @release_channel spec_pool c free' = Some 172).
Proof.
  apply (@X20_acquire_lowest_free spec_pool 172).
  - exact spec_pool_constants_ok.
  - reflexivity.
Defined.

Lemma pool_run_excludes `{ChannelPool} c :
  pool_constants_ok ->
  forall ops free out final,
  Z.testbit free c = false ->
  releases_only_others c ops ->
  pool_run free ops = Some (out, final) ->
  ~ In c out /\ Z.testbit final c = false.
Proof.
  intros Hk. induction ops as [|op ops IH]; intros free out final Hc Hops;
    cbn [pool_run].
  - intros [= <- <-]. split; [intros [] | exact Hc].
  - inversion Hops as [|? ? Hop Hrest]; subst. destruct op as [|ch].
    + unfold acquire_channel_attempt.
      destruct (Z.eqb_spec (Z.land free ALL_CHANNELS_FREE) free) as [Hinv | _];
        [|discriminate].
      cbn [negb]. destruct (Z.eqb_spec free 0) as [-> | Hne].
      * destruct (pool_run 0 ops) as [[out' final']|] eqn:Hr; [|discriminate].
        intros [= <- <-]. exact (IH _ _ _ Hc Hrest Hr).
      * destruct (acquire_some free Hk Hinv Hne) as (_ & Hb & _ & _ & Hbits).
        destruct (pool_run _ ops) as [[out' final']|] eqn:Hr; [|discriminate].
        intros [= <- <-].
        assert (Hc' : Z.testbit
                        (Z.land free
                           (Z.lxor ALL_CHANNELS_FREE
                              (Z.shiftl 1 (builtin_ctz free)))) c = false).
        { rewrite Hbits, Hc. reflexivity. }
        destruct (IH _ _ _ Hc' Hrest Hr) as [Hout Hfin].
        split; [|exact Hfin]. intros [E | Hin]; [|exact (Hout Hin)].
        rewrite E in Hb. congruence.
    + unfold release_channel. destruct (ch <? DWC_NUM_CHANNELS); [|discriminate].
      apply IH; [|exact Hrest].
      rewrite Z.lor_spec, Hc. cbn [orb].
      destruct (Z.ltb_spec ch 0) as [Hn | Hn].
      * rewrite Z.shiftl_1_l, Z.pow_neg_r by lia. apply Z.testbit_0_l.
      * rewrite shiftl_1_bits by lia. apply Z.eqb_neq. congruence.
Qed.

(** X21: a channel whose bit is clear in the word of free channels is held:
    whatever calls the pool serves afterwards, as long as none of them
    releases that channel, it is never handed out to another caller and its
    bit stays clear. *)
Theorem X21_held_channel_not_handed_out `{ChannelPool} c ops free out final :
  pool_constants_ok ->
  Z.testbit free c = false ->
  releases_only_others c ops ->
  pool_run free ops = Some (out, final) ->
  ~ In c out /\ Z.testbit final c = false.
Proof.
  intros Hk Hc Hops Hr. exact (pool_run_excludes c Hk ops free out final Hc Hops Hr).
Qed.

Lemma X21_held_channel_not_handed_out_witness :
  ~ In 0 [1; 2; 1] /\ Z.testbit 248 0 = false.
Proof.
  apply (@X21_held_channel_not_handed_out spec_pool 0
           [PoolAcquire; PoolAcquire; PoolRelease 1; PoolAcquire] 254
           [1; 2; 1] 248).
  - exact spec_pool_constants_ok.
  - reflexivity.
  - repeat constructor; discriminate.
  - vm_compute. reflexivity.
Defined.

(** ** Enabling an endpoint *)

Lemma request_queue_hw `{Platform} dwc usb calloc_ok dev eps :
  free_req_count dwc = Z.of_nat (List.length (free_reqs dwc)) ->
  h_length (header usb) <= PAGE_SIZE ->
  free_reqs dwc <> [] \/ calloc_ok = true ->
  h_device_id (header usb) <> ROOT_HUB_DEVICE_ID ->
  h_device_id (header usb) < MAX_DEVICE_COUNT ->
  nth_error (usb_devices dwc) (Z.to_nat (h_device_id (header usb))) =
    Some dev ->
  list_add_tail_pending (endpoints dev) (h_ep_address (header usb))
    (hw_envelope dwc usb) = Some eps ->
  exists dwc',
    dwc_request_queue dwc usb calloc_ok = Some dwc' /\
    usb_devices dwc' =
      replace_nth (Z.to_nat (h_device_id (header usb))) (usb_devices dwc)
        (set_endpoints dev eps) /\
    effects dwc' = effects dwc /\
    rh_req_head dwc' = rh_req_head dwc.
Proof.
  intros Hc Hl Havail Hroot Hmax Hdev Hadd.
  unfold dwc_request_queue, dwc_get_max_transfer_size.
  destruct (Z.ltb_spec PAGE_SIZE (h_length (header usb))); [lia|].
  unfold do_dwc_usb_request_queue.
  rewrite (get_free_request_consistent _ _ Hc).
  assert (Hq : forall dwc1,
            usb_devices dwc1 = usb_devices dwc ->
            DBG_reqid dwc1 = DBG_reqid dwc ->
            effects dwc1 = effects dwc ->
            rh_req_head dwc1 = rh_req_head dwc ->
            exists dwc',
              (if is_roothub_request (new_request usb (DBG_reqid dwc1))
               then Some (dwc_usb_request_queue_rh
                            (set_DBG_reqid dwc1 (u32 (DBG_reqid dwc1 + 1)))
                            (new_request usb (DBG_reqid dwc1)))
               else dwc_usb_request_queue_hw
                      (set_DBG_reqid dwc1 (u32 (DBG_reqid dwc1 + 1)))
                      (new_request usb (DBG_reqid dwc1))) = Some dwc' /\
              usb_devices dwc' =
                replace_nth (Z.to_nat (h_device_id (header usb)))
                  (usb_devices dwc) (set_endpoints dev eps) /\
              effects dwc' = effects dwc /\
              rh_req_head dwc' = rh_req_head dwc).
  { intros dwc1 Hd Hid He Hh. unfold is_roothub_request.
    cbn [usb_req new_request header].
    destruct (Z.eqb_spec (h_device_id (header usb)) ROOT_HUB_DEVICE_ID);
      [contradiction|].
    unfold dwc_usb_request_queue_hw.
    cbn [usb_req new_request header set_DBG_reqid usb_devices].
    destruct (Z.ltb_spec (h_device_id (header usb)) MAX_DEVICE_COUNT); [|lia].
    cbn [negb]. rewrite Hd, Hdev, Hid.
    unfold hw_envelope in Hadd. rewrite Hadd.
    eexists. split; [reflexivity|]. cbn. repeat split; assumption. }
  destruct (free_reqs dwc) as [|r rest] eqn:Hf.
  - destruct Havail as [Hne | ->]; [congruence|].
    apply Hq; reflexivity.
  - apply Hq; reflexivity.
Qed.

(** X22: enabling an endpoint on a device other than the root hub appends it
    to the endpoints of the device and completes nothing. When the device
    had no endpoint with that address, a request for the address, which
    request_queue could not route before (failed assertion), is now queued
    as the only pending request of the new endpoint. When the device already
    had one, the first such endpoint still receives the request and the new
    endpoint stays empty behind it. *)
Theorem X22_enable_ep_then_queue `{Platform} dwc device_id ep_desc dev usb
  calloc_ok :
  free_req_count dwc = Z.of_nat (List.length (free_reqs dwc)) ->
  device_id <> ROOT_HUB_DEVICE_ID ->
  0 <= device_id < MAX_DEVICE_COUNT ->
  nth_error (usb_devices dwc) (Z.to_nat device_id) = Some dev ->
  h_device_id (header usb) = device_id ->
  h_ep_address (header usb) = bEndpointAddress ep_desc ->
  h_length (header usb) <= PAGE_SIZE ->
  free_reqs dwc <> [] \/ calloc_ok = true ->
  exists dwc1,
    dwc_enable_ep dwc device_id ep_desc true true = Some (ZX_OK, dwc1) /\
    effects dwc1 = effects dwc /\
    (Forall (fun e => ep_address e <> bEndpointAddress ep_desc)
       (endpoints dev) ->
     dwc_request_queue dwc usb calloc_ok = None /\
     exists dwc2 dev2,
       dwc_request_queue dwc1 usb calloc_ok = Some dwc2 /\
       nth_error (usb_devices dwc2) (Z.to_nat device_id) = Some dev2 /\
       endpoints dev2 =
         endpoints dev ++
         [set_pending_requests (new_endpoint ep_desc) [hw_envelope dwc usb]]) /\
    (forall pre ep post,
       endpoints dev = pre ++ ep :: post ->
       Forall (fun e => ep_address e <> bEndpointAddress ep_desc) pre ->
       ep_address ep = bEndpointAddress ep_desc ->
       exists dwc2 dev2,
         dwc_request_queue dwc1 usb calloc_ok = Some dwc2 /\
         nth_error (usb_devices dwc2) (Z.to_nat device_id) = Some dev2 /\
         endpoints dev2 =
           pre ++
           set_pending_requests ep
             (pending_requests ep ++ [hw_envelope dwc usb]) ::
           post ++ [new_endpoint ep_desc]).
Proof.
  intros Hc Hroot Hrange Hdev Hid Haddr Hl Havail.
  set (dev1 := set_endpoints dev (endpoints dev ++ [new_endpoint ep_desc])).
  set (dwc1 := set_usb_devices dwc
                 (replace_nth (Z.to_nat device_id) (usb_devices dwc) dev1)).
  exists dwc1. split.
  { unfold dwc_enable_ep.
    destruct (Z.eqb_spec device_id ROOT_HUB_DEVICE_ID); [contradiction|].
    cbn [negb]. rewrite Hdev. reflexivity. }
  split; [reflexivity|].
  assert (Hdev1 : nth_error (usb_devices dwc1)
                    (Z.to_nat (h_device_id (header usb))) = Some dev1).
  { rewrite Hid. apply (nth_error_replace_nth_eq _ _ _ _ Hdev). }
  assert (Hq : forall eps,
            list_add_tail_pending (endpoints dev1)
              (h_ep_address (header usb)) (hw_envelope dwc usb) = Some eps ->
            exists dwc2 dev2,
              dwc_request_queue dwc1 usb calloc_ok = Some dwc2 /\
              nth_error (usb_devices dwc2) (Z.to_nat device_id) = Some dev2 /\
              endpoints dev2 = eps).
  { intros eps Hadd.
    destruct (request_queue_hw dwc1 usb calloc_ok dev1 eps Hc Hl Havail
                ltac:(congruence) ltac:(lia) Hdev1 Hadd)
      as (dwc2 & Hq2 & Hd2 & _).
    exists dwc2, (set_endpoints dev1 eps). split; [exact Hq2|].
    split; [|reflexivity].
    rewrite Hd2, Hid. rewrite Hid in Hdev1.
    apply (nth_error_replace_nth_eq _ _ _ _ Hdev1). }
  split.
  - intros Hnone. split.
    + apply (proj2 (queue_assertions dwc usb calloc_ok Hc)).
      split; [exact Hl|]. split; [exact Havail|].
      split; [congruence|]. right. rewrite Hid, Hdev, Haddr. exact Hnone.
    + apply Hq. cbn [dev1 set_endpoints endpoints].
      rewrite <- (app_nil_r (endpoints dev ++ [new_endpoint ep_desc])).
      rewrite <- app_assoc. cbn [app].
      rewrite (list_add_tail_pending_first (endpoints dev)
                 (new_endpoint ep_desc) [] _ _);
        [reflexivity | rewrite Haddr; exact Hnone | symmetry; exact Haddr].
  - intros pre ep post Heps Hpre Hep. apply Hq.
    cbn [dev1 set_endpoints endpoints]. rewrite Heps, <- app_assoc.
    cbn [app].
    rewrite (list_add_tail_pending_first pre ep
               (post ++ [new_endpoint ep_desc]) _ _);
      [reflexivity | rewrite Haddr; exact Hpre | congruence].
Qed.

Lemma X22_enable_ep_then_queue_witness :
  exists dwc1,
    @dwc_enable_ep spec_platform (dwc_init sample_devices) 1
      sample_bulk_in_desc true true = Some (ZX_OK, dwc1) /\
    effects dwc1 = effects (dwc_init sample_devices) /\
    (Forall (fun e => ep_address e <> bEndpointAddress sample_bulk_in_desc)
       (endpoints sample_device_1) ->
     @dwc_request_queue spec_platform (dwc_init sample_devices)
       sample_bulk_in_131 true = None /\
     exists dwc2 dev2,
       @dwc_request_queue spec_platform dwc1 sample_bulk_in_131 true =
         Some dwc2 /\
       nth_error (usb_devices dwc2) (Z.to_nat 1) = Some dev2 /\
       endpoints dev2 =
         endpoints sample_device_1 ++
         [set_pending_requests (new_endpoint sample_bulk_in_desc)
            [hw_envelope (dwc_init sample_devices) sample_bulk_in_131]]) /\
    (forall pre ep post,
       endpoints sample_device_1 = pre ++ ep :: post ->
       Forall (fun e => ep_address e <> bEndpointAddress sample_bulk_in_desc)
         pre ->
       ep_address ep = bEndpointAddress sample_bulk_in_desc ->
       exists dwc2 dev2,
         @dwc_request_queue spec_platform dwc1 sample_bulk_in_131 true =
           Some dwc2 /\
         nth_error (usb_devices dwc2) (Z.to_nat 1) = Some dev2 /\
         endpoints dev2 =
           pre ++
           set_pending_requests ep
             (pending_requests ep ++
              [hw_envelope (dwc_init sample_devices) sample_bulk_in_131]) ::
           post ++ [new_endpoint sample_bulk_in_desc]).
Proof.
  apply (@X22_enable_ep_then_queue spec_platform (dwc_init sample_devices) 1
           sample_bulk_in_desc sample_device_1 sample_bulk_in_131 true).
  - reflexivity.
  - discriminate.
  - cbn. lia.
  - reflexivity.
  - reflexivity.
  - reflexivity.
  - cbn. lia.
  - right. reflexivity.
Defined.

(** ** The default device *)

(** X23: create_default_device never reports an error: whenever it returns,
    it returns OK and the allocation has succeeded. It completes nothing and
    leaves device 0 as a high-speed device with a single control endpoint 0.
    On a platform whose root hub is not device 0, a request for endpoint 0
    of device 0 is then queued as the only pending request of that endpoint,
    in the SETUP phase, and its first transfer acquires a channel and
    programs an OUT transfer of 8 bytes with packet id SETUP and maximum
    packet size 8, without split transactions. The buffer of that transfer
    is the request handed out by the request pool, with length 8; the bytes
    the scheduler has copied into it are those of the setup field of that
    pooled request itself, whatever the SETUP packet of the request being
    transferred. *)
Theorem X23_default_device `{Platform} dwc calloc_ok status dwc1 usb calloc_ok'
  th inp :
  create_default_device dwc calloc_ok = Some (status, dwc1) ->
  free_req_count dwc = Z.of_nat (List.length (free_reqs dwc)) ->
  ROOT_HUB_DEVICE_ID <> 0 ->
  0 < MAX_DEVICE_COUNT ->
  h_device_id (header usb) = 0 ->
  h_ep_address (header usb) = 0 ->
  h_length (header usb) <= PAGE_SIZE ->
  free_reqs dwc <> [] \/ calloc_ok' = true ->
  status = ZX_OK /\ calloc_ok = true /\ effects dwc1 = effects dwc /\
  exists dwc2 d0,
    dwc_request_queue dwc1 usb calloc_ok' = Some dwc2 /\
    nth_error (usb_devices dwc2) 0 = Some d0 /\
    speed d0 = USB_SPEED_HIGH /\
    endpoints d0 =
      [set_pending_requests (new_endpoint default_ep0_desc)
         [hw_envelope dwc usb]] /\
    ctrl_phase (hw_envelope dwc usb) = CTRL_PHASE_SETUP /\
    exists th' req' hc acts,
      start_request th (hw_envelope dwc usb) (new_endpoint default_ep0_desc)
        d0 inp =
        Some (th', req', Some hc, AcquireChannel (in_channel inp) :: acts) /\
      packet_id (transfer hc) = DWC_TOGGLE_SETUP /\
      size (transfer hc) = wrap transfer_size_bits 8 /\
      max_packet_size (characteristics hc) = wrap max_packet_size_bits 8 /\
      endpoint_direction (characteristics hc) = DWC_EP_OUT /\
      split_enable (split_control hc) = false /\
      setup_req req' =
        Some (set_header_length
                (usb_request_copyto (in_setup_req inp)
                   (bytes_of_setup (setup (in_setup_req inp))) 8) 8) /\
      usb_req req' = usb.
Proof.
  unfold create_default_device.
  destruct (usb_devices dwc) as [|old rest] eqn:Hdevs; [discriminate|].
  destruct calloc_ok; [|discriminate]. cbn [negb].
  intros [= <- <-] Hc Hroot Hmax Hid Haddr Hl Havail.
  split; [reflexivity|]. split; [reflexivity|]. split; [reflexivity|].
  set (d := {| speed := USB_SPEED_HIGH; hub_address := 0; port := 0;
               device_id := 0;
               endpoints := [new_endpoint default_ep0_desc] |}).
  set (dwc1 := set_usb_devices dwc (d :: rest)).
  assert (Hadd : list_add_tail_pending (endpoints d)
                   (h_ep_address (header usb)) (hw_envelope dwc1 usb) =
                 Some [set_pending_requests (new_endpoint default_ep0_desc)
                         [hw_envelope dwc usb]]).
  { rewrite Haddr. reflexivity. }
  destruct (request_queue_hw dwc1 usb calloc_ok' d _ Hc Hl Havail
              ltac:(congruence) ltac:(lia)
              ltac:(rewrite Hid; reflexivity) Hadd)
    as (dwc2 & Hq & Hd2 & _).
  exists dwc2.
  exists (set_endpoints d
            [set_pending_requests (new_endpoint default_ep0_desc)
               [hw_envelope dwc usb]]).
  split; [exact Hq|]. split; [rewrite Hd2, Hid; reflexivity|].
  split; [reflexivity|]. split; [reflexivity|].
  assert (Hphase : ctrl_phase (hw_envelope dwc usb) = CTRL_PHASE_SETUP).
  { unfold hw_envelope. rewrite Haddr. reflexivity. }
  split; [exact Hphase|].
  unfold start_request. rewrite Hphase.
  change (usb_ep_type (desc (new_endpoint default_ep0_desc)) =?
          USB_ENDPOINT_CONTROL) with true. cbv iota.
  unfold dwc_start_transfer, dwc_start_transaction.
  change (usb_ep_type (desc (new_endpoint default_ep0_desc)) =?
          USB_ENDPOINT_CONTROL) with true. cbv iota.
  cbn [ctrl_phase set_short_attempt set_setup_req setup_req header h_length
       set_header_length].
  rewrite Hphase.
  change (sizeof_usb_setup_t =? sizeof_usb_setup_t) with true. cbv iota.
  cbn [speed set_endpoints d speed_eqb negb andb].
  cbv zeta. eexists; eexists; eexists; eexists.
  split; [reflexivity|]. repeat split;
    cbn [sc_complete_split set_sc_complete_split split_control negb];
    unfold hw_envelope; rewrite Haddr; reflexivity.
Qed.

Lemma X23_default_device_witness :
  ZX_OK = ZX_OK /\ true = true /\
  effects sample_default_created = effects (dwc_init sample_devices) /\
  exists dwc2 d0,
    @dwc_request_queue sample_platform sample_default_created
      sample_default_get_desc true = Some dwc2 /\
    nth_error (usb_devices dwc2) 0 = Some d0 /\
    speed d0 = USB_SPEED_HIGH /\
    endpoints d0 =
      [set_pending_requests (new_endpoint default_ep0_desc)
         [hw_envelope (dwc_init sample_devices) sample_default_get_desc]] /\
    ctrl_phase (hw_envelope (dwc_init sample_devices) sample_default_get_desc)
      = CTRL_PHASE_SETUP /\
    exists th' req' hc acts,
      @start_request sample_platform sample_thread
        (hw_envelope (dwc_init sample_devices) sample_default_get_desc)
        (new_endpoint default_ep0_desc) d0 sample_input =
        Some (th', req', Some hc,
              AcquireChannel (in_channel sample_input) :: acts) /\
      packet_id (transfer hc) = DWC_TOGGLE_SETUP /\
      size (transfer hc) = wrap (@transfer_size_bits sample_platform) 8 /\
      max_packet_size (characteristics hc) =
        wrap (@max_packet_size_bits sample_platform) 8 /\
      endpoint_direction (characteristics hc) = DWC_EP_OUT /\
      split_enable (split_control hc) = false /\
      setup_req req' =
        Some (set_header_length
                (usb_request_copyto (in_setup_req sample_input)
                   (bytes_of_setup (setup (in_setup_req sample_input))) 8) 8)
      /\
      usb_req req' = sample_default_get_desc.
Proof.
  apply (@X23_default_device sample_platform (dwc_init sample_devices) true
           ZX_OK sample_default_created sample_default_get_desc true
           sample_thread sample_input).
  - reflexivity.
  - reflexivity.
  - discriminate.
  - reflexivity.
  - reflexivity.
  - reflexivity.
  - cbn. lia.
  - right. reflexivity.
Defined.

(** ** Hub descriptor of the root hub *)

(** X24: a class GET_DESCRIPTOR request to the root hub is answered only for
    the hub descriptor (wValue 0x2900) with wIndex 0: it then returns the
    first min(wLength, 15) bytes of a hub descriptor with one port and
    completes OK with that length. For any other wValue or wIndex the
    request is not completed at all and the driver state is left exactly as
    it was. *)
Theorem X24_class_get_descriptor regs_port dwc req :
  is_root_hub_ctrl req USB_TYPE_CLASS USB_REQ_GET_DESCRIPTOR ->
  0 <= wLength (setup (usb_req req)) ->
  (wValue (setup (usb_req req)) = Z.shiftl USB_HUB_DESC_TYPE 8 ->
   wIndex (setup (usb_req req)) = 0 ->
   Z.min (wLength (setup (usb_req req))) sizeof_usb_hub_descriptor_t <=
     Z.of_nat (List.length (payload (usb_req req))) ->
   exists dwc' r',
     dwc_process_root_hub_request regs_port dwc req = Some dwc' /\
     completions (effects dwc') =
       completions (effects dwc) ++
       [(r', ZX_OK,
         Z.min (wLength (setup (usb_req req))) sizeof_usb_hub_descriptor_t)] /\
     cookie r' = cookie (usb_req req) /\
     firstn (Z.to_nat (Z.min (wLength (setup (usb_req req)))
                         sizeof_usb_hub_descriptor_t)) (payload r') =
     firstn (Z.to_nat (Z.min (wLength (setup (usb_req req)))
                         sizeof_usb_hub_descriptor_t))
       [15; USB_HUB_DESC_TYPE; 1; 0; 0; 0; 0; 0; 0; 0; 0; 0; 0; 0; 0]) /\
  (wValue (setup (usb_req req)) <> Z.shiftl USB_HUB_DESC_TYPE 8 \/
   wIndex (setup (usb_req req)) <> 0 ->
   dwc_process_root_hub_request regs_port dwc req = Some dwc).
Proof.
  intros Hctrl Hlen. rewrite (process_root_hub_class _ _ _ _ Hctrl).
  destruct Hctrl as (_ & _ & Hreq).
  unfold dwc_process_root_hub_class_req, le16toh. rewrite Hreq.
  change (USB_REQ_GET_DESCRIPTOR =? USB_REQ_GET_DESCRIPTOR) with true.
  cbv iota. split.
  - intros Hv Hi Hbuf. rewrite Hv, Hi.
    change ((Z.shiftl USB_HUB_DESC_TYPE 8 =? Z.shiftl USB_HUB_DESC_TYPE 8) &&
            (0 =? 0)) with true. cbv iota.
    change (hub_descriptor_bytes (u8 (Z.shiftr (Z.shiftl USB_HUB_DESC_TYPE 8) 8)))
      with [15; USB_HUB_DESC_TYPE; 1; 0; 0; 0; 0; 0; 0; 0; 0; 0; 0; 0; 0].
    assert (Hn : (if sizeof_usb_hub_descriptor_t <?
                       wLength (setup (usb_req req))
                  then sizeof_usb_hub_descriptor_t
                  else wLength (setup (usb_req req))) =
                 Z.min (wLength (setup (usb_req req)))
                   sizeof_usb_hub_descriptor_t).
    { destruct (Z.ltb_spec sizeof_usb_hub_descriptor_t
                  (wLength (setup (usb_req req)))); lia. }
    rewrite Hn. eexists; eexists. split; [reflexivity|].
    rewrite completions_complete_request.
    split; [reflexivity|]. split; [reflexivity|].
    cbn [usb_req set_usb_req].
    apply (copyto_prefix (usb_req req)
             [15; USB_HUB_DESC_TYPE; 1; 0; 0; 0; 0; 0; 0; 0; 0; 0; 0; 0; 0]).
    + unfold sizeof_usb_hub_descriptor_t in *. lia.
    + unfold sizeof_usb_hub_descriptor_t. cbn [List.length]. lia.
  - intros Hne.
    destruct (Z.eqb_spec (wValue (setup (usb_req req)))
                (Z.shiftl USB_HUB_DESC_TYPE 8)) as [Ev | Ev];
      [|reflexivity].
    destruct (Z.eqb_spec (wIndex (setup (usb_req req))) 0) as [Ei | Ei];
      [|reflexivity].
    destruct Hne; contradiction.
Qed.

Lemma X24_class_get_descriptor_witness :
  dwc_process_root_hub_request sample_port_idle (dwc_init [])
    (sample_class_get_descriptor 10496 1 59) = Some (dwc_init []).
Proof.
  apply (proj2 (X24_class_get_descriptor sample_port_idle (dwc_init [])
                  (sample_class_get_descriptor 10496 1 59)
                  (conj eq_refl (conj eq_refl eq_refl))
                  ltac:(discriminate))).
  right. discriminate.
Defined.

(** ** NYET during a complete split *)

(** X25: a NYET response to a complete split never ends the turn of the
    scheduler: the transaction is started again on the same channel with
    nothing released, completed or requeued, after a sleep of 62.5
    microseconds unless the endpoint is an interrupt endpoint. Up to the
    seventh NYET in a row the complete split is retried and the retries are
    counted; the eighth goes back to the start split and the count starts
    over at 0. *)
Theorem X25_nyet_retry `{ChannelPool} frame channel req ep dev interrupts hc
  counter :
  is_nyet_halt interrupts = true ->
  complete_split req = true ->
  0 <= cspit_retries req < 2 ^ 32 - 1 ->
  exists req' hc' acts,
    handle_channel_halted_interrupt frame channel req ep dev interrupts hc
      counter = Some (false, req', hc', counter, acts) /\
    released acts = [] /\ completed_requests acts = [] /\
    existsb is_ListAddHead acts = false /\
    sleeps acts =
      (if usb_ep_type (desc ep) =? USB_ENDPOINT_INTERRUPT then []
       else [62500]) /\
    (cspit_retries req + 1 < 8 ->
     complete_split req' = true /\
     cspit_retries req' = cspit_retries req + 1 /\
     sc_complete_split (split_control hc') = true) /\
    (8 <= cspit_retries req + 1 ->
     complete_split req' = false /\
     cspit_retries req' = 0 /\
     sc_complete_split (split_control hc') = false) /\
    same_request req' req.
Proof.
  intros Hint Hcs Hr.
  unfold is_nyet_halt in Hint. apply andb_prop in Hint as [He Hny].
  apply negb_true_iff in He.
  repeat (apply orb_false_elim in He; destruct He as [He ?]).
  unfold handle_channel_halted_interrupt.
  repeat match goal with
         | E : _ = false |- _ => rewrite E; clear E
         end.
  rewrite Hny, Hcs. cbn [negb andb orb].
  unfold dwc_start_transaction, await_sof_if_necessary. cbv zeta.
  rewrite (u32_small (cspit_retries req + 1)) by lia.
  eexists; eexists; eexists. split; [reflexivity|].
  destruct (Z.leb_spec 8 (cspit_retries req + 1)) as [H8 | H8];
    cbn [complete_split set_complete_split set_cspit_retries
         sc_complete_split set_sc_complete_split negb andb];
    rewrite ?Hcs; cbn [negb andb];
    destruct (usb_ep_type (desc ep) =? USB_ENDPOINT_INTERRUPT);
    cbn [negb andb app released completed_requests existsb is_ListAddHead
         orb sleeps];
    repeat match goal with
           | |- context [if ?b then _ else _] => destruct b
           end;
    cbn [app released completed_requests existsb is_ListAddHead orb sleeps
         complete_split cspit_retries set_cspit_retries set_complete_split
         split_control sc_complete_split set_sc_complete_split];
    repeat split; try reflexivity; try lia; intros; try lia;
    repeat split; try reflexivity; try assumption.
Qed.

Lemma X25_nyet_retry_witness :
  exists req' hc' acts,
    @handle_channel_halted_interrupt spec_pool 0 3 sample_complete_split
      sample_full_speed_ep sample_full_speed_dev sample_interrupts_nyet
      (snd sample_short_attempt) 0 = Some (false, req', hc', 0, acts) /\
    released acts = [] /\ completed_requests acts = [] /\
    existsb is_ListAddHead acts = false /\
    sleeps acts =
      (if usb_ep_type (desc sample_full_speed_ep) =? USB_ENDPOINT_INTERRUPT
       then [] else [62500]) /\
    (cspit_retries sample_complete_split + 1 < 8 ->
     complete_split req' = true /\
     cspit_retries req' = cspit_retries sample_complete_split + 1 /\
     sc_complete_split (split_control hc') = true) /\
    (8 <= cspit_retries sample_complete_split + 1 ->
     complete_split req' = false /\
     cspit_retries req' = 0 /\
     sc_complete_split (split_control hc') = false) /\
    same_request req' sample_complete_split.
Proof.
  apply (@X25_nyet_retry spec_pool 0 3 sample_complete_split
           sample_full_speed_ep
           sample_full_speed_dev sample_interrupts_nyet
           (snd sample_short_attempt) 0).
  - reflexivity.
  - reflexivity.
  - vm_compute. split; [discriminate | reflexivity].
Defined.

(** ** Start-of-frame interrupt *)

Lemma sof_run_invariant es : forall g,
  0 <= n_sof_waiters g ->
  sof_intr g = negb (n_sof_waiters g =? 0) ->
  (forall k, 0 <= n_sof_waiters g + sof_waiting (firstn k es)) ->
  n_sof_waiters (sof_run g es) = n_sof_waiters g + sof_waiting es /\
  sof_intr (sof_run g es) = negb (n_sof_waiters (sof_run g es) =? 0).
Proof.
  induction es as [|e es IH]; intros g Hn Hi Hb; cbn [sof_run sof_waiting].
  - split; [lia | exact Hi].
  - assert (Hstep : forall g',
              n_sof_waiters g' =
                n_sof_waiters g + sof_waiting [e] ->
              forall k, 0 <= n_sof_waiters g' + sof_waiting (firstn k es)).
    { intros g' Hg k. specialize (Hb (S k)). cbn [firstn] in Hb.
      rewrite Hg. destruct e; cbn [sof_waiting] in *; lia. }
    pose proof (Hb 1%nat) as H1. cbn [firstn sof_waiting] in H1.
    destruct e; cbn [sof_waiting] in H1.
    + destruct (IH (sof_wait_begin g)) as [Hr Hv].
      * cbn. lia.
      * cbn [sof_wait_begin sof_intr n_sof_waiters].
        rewrite Hi.
        destruct (Z.eqb_spec (n_sof_waiters g) 0);
          destruct (Z.eqb_spec (n_sof_waiters g + 1) 0);
          try lia; reflexivity.
      * apply Hstep. cbn. lia.
      * split; [|exact Hv]. rewrite Hr.
        cbn [sof_wait_begin sof_wait_end n_sof_waiters]. lia.
    + destruct (IH (sof_wait_end g)) as [Hr Hv].
      * cbn. lia.
      * cbn [sof_wait_end sof_intr n_sof_waiters].
        rewrite Hi.
        destruct (Z.eqb_spec (n_sof_waiters g - 1) 0);
          destruct (Z.eqb_spec (n_sof_waiters g) 0);
          try lia; reflexivity.
      * apply Hstep. cbn. lia.
      * split; [|exact Hv]. rewrite Hr.
        cbn [sof_wait_begin sof_wait_end n_sof_waiters]. lia.
Qed.

(** X26: however the waits of the threads interleave, as long as no thread
    leaves a wait it has not entered, the count of waiters is the number of
    threads between the two critical sections of await_sof_if_necessary, and
    the SOF interrupt is enabled in the core interrupt mask exactly while
    that count is not zero. *)
Theorem X26_sof_interrupt_while_waiting es :
  sof_bracketed es ->
  n_sof_waiters (sof_run sof_idle es) = sof_waiting es /\
  sof_intr (sof_run sof_idle es) = negb (sof_waiting es =? 0).
Proof.
  intros Hb.
  destruct (sof_run_invariant es sof_idle) as [Hn Hi].
  - cbn. lia.
  - reflexivity.
  - intros k. cbn [sof_idle n_sof_waiters]. rewrite Z.add_0_l. apply Hb.
  - cbn [sof_idle n_sof_waiters] in Hn. rewrite Z.add_0_l in Hn.
    split; [exact Hn|]. rewrite Hi, Hn. reflexivity.
Qed.

Lemma X26_sof_interrupt_while_waiting_witness :
  n_sof_waiters (sof_run sof_idle [SofBegin; SofBegin; SofEnd]) = 1 /\
  sof_intr (sof_run sof_idle [SofBegin; SofBegin; SofEnd]) = true.
Proof.
  apply (X26_sof_interrupt_while_waiting [SofBegin; SofBegin; SofEnd]).
  intros [|[|[|[|k]]]]; cbn; lia.
Defined.

(** ** Frame overrun after the SETUP phase *)

(** X27: on a control endpoint, a frame overrun in the DATA or STATUS phase
    on the channel the thread holds, one of the channels of the controller,
    releases the channel and puts the request back at the head of the
    pending list; when the thread takes the request again it acquires
    nothing and starts the transfer on the channel it has just released. *)
Theorem X27_overrun_after_setup `{Platform} `{ChannelPool} frame channel req
  ep dev interrupts hc counter th inp th' req' ohc acts' :
  usb_ep_type (desc ep) = USB_ENDPOINT_CONTROL ->
  ctrl_phase req <> CTRL_PHASE_SETUP ->
  is_overrun_halt interrupts = true ->
  th_channel th = channel ->
  channel < DWC_NUM_CHANNELS ->
  start_request th req ep dev inp = Some (th', req', ohc, acts') ->
  (exists counter' log,
     handle_channel_halted_interrupt frame channel req ep dev interrupts hc
       counter =
     Some (true, req, hc, counter',
           log ++ [ReleaseChannel channel; ListAddHead req]) /\
     released log = []) /\
  acquired acts' = [] /\
  th_channel th' = channel /\
  exists r h rest, acts' = StartTransfer channel r h :: rest.
Proof.
  intros Ht Hphase Hint Hch Hin Hsr. split.
  - unfold is_overrun_halt in Hint. apply andb_prop in Hint as [He Hov].
    apply negb_true_iff in He.
    repeat (apply orb_false_elim in He; destruct He as [He ?]).
    unfold handle_channel_halted_interrupt.
    repeat match goal with
           | E : _ = false |- _ => rewrite E; clear E
           end.
    rewrite Hov. cbn [negb andb orb].
    destruct (u32 (counter + 1) =? FRAME_OVERRUN_THRESHOLD);
      rewrite (release_checked_in _ _ Hin);
      eexists; eexists; split; reflexivity.
  - revert Hsr. unfold start_request. rewrite Ht.
    change (USB_ENDPOINT_CONTROL =? USB_ENDPOINT_CONTROL) with true.
    cbv iota.
    destruct (ctrl_phase req) eqn:Hp; [contradiction | |];
      (destruct (dwc_start_transfer (in_frame inp) (th_channel th) req ep dev)
         as [[[r2 h2] a2]|] eqn:Hst; [|discriminate];
       intros [= <- <- <- <-];
       destruct (start_transfer_shape _ _ _ _ _ _ _ _ Hst) as (Ha & _);
       split; [exact Ha|]; split; [exact Hch|];
       revert Hst; unfold dwc_start_transfer;
       match goal with
       | |- match ?pv with _ => _ end = _ -> _ =>
           destruct pv as [[[d s0] pid]|]
       end; [|discriminate];
       unfold dwc_start_transaction; cbv zeta;
       intros [= <- <- <-]; rewrite Hch;
       eexists; eexists; eexists; reflexivity).
Qed.

Lemma X27_overrun_after_setup_witness :
  (exists counter' log,
     @handle_channel_halted_interrupt spec_pool 0 3 sample_ctrl_data_req
       sample_ctrl_ep sample_ctrl_dev sample_interrupts_overrun
       sample_ctrl_data_channel 0 =
     Some (true, sample_ctrl_data_req, sample_ctrl_data_channel, counter',
           log ++ [ReleaseChannel 3; ListAddHead sample_ctrl_data_req]) /\
     released log = []) /\
  acquired (snd sample_ctrl_data_restarted) = [] /\
  th_channel (fst (fst (fst sample_ctrl_data_restarted))) = 3 /\
  exists r h rest,
    snd sample_ctrl_data_restarted = StartTransfer 3 r h :: rest.
Proof.
  apply (@X27_overrun_after_setup spec_platform spec_pool 0 3
           sample_ctrl_data_req sample_ctrl_ep sample_ctrl_dev
           sample_interrupts_overrun sample_ctrl_data_channel 0
           sample_ctrl_data_thread sample_input
           (fst (fst (fst sample_ctrl_data_restarted)))
           (snd (fst (fst sample_ctrl_data_restarted)))
           (snd (fst sample_ctrl_data_restarted))
           (snd sample_ctrl_data_restarted)).
  - reflexivity.
  - discriminate.
  - reflexivity.
  - reflexivity.
  - reflexivity.
  - vm_compute. reflexivity.
Defined.

(** The state of the sample: the thread holds channel 3, acquired for the
    SETUP phase, and the request is in its DATA phase. *)
Lemma sample_ctrl_data_turn_state :
  th_channel sample_ctrl_data_thread = 3 /\
  ctrl_phase sample_ctrl_data_req = CTRL_PHASE_DATA /\
  usb_req sample_ctrl_data_req = usb_req sample_ctrl_in /\
  packet_id (transfer sample_ctrl_data_channel) = DWC_TOGGLE_DATA1.
Proof. repeat split; reflexivity. Qed.

(** ** Transfers of bulk and interrupt endpoints *)

(** X28: what dwc_start_transfer programs for an endpoint that is not a
    control endpoint. The direction is bit 7 of the endpoint address and the
    packet id the data toggle of the request. For a device that is not
    high-speed the transfer is cut down to one packet: its size is the
    smaller of the bytes that remain and the maximum packet size, the
    request is marked as a short attempt exactly when bytes remain beyond
    it, and split transactions are enabled towards the hub and port of the
    device, each address reduced to the width of its register field. For a
    high-speed device the size is all the bytes that remain,
    the request is no short attempt and split transactions are off. *)
Theorem X28_start_transfer_non_control `{Platform} frame chan req ep dev req'
  hc acts :
  dwc_start_transfer frame chan req ep dev = Some (req', hc, acts) ->
  usb_ep_type (desc ep) <> USB_ENDPOINT_CONTROL ->
  let remaining :=
    wrap transfer_size_bits
      (h_length (header (usb_req req)) - bytes_transferred req) in
  let mps := wrap max_packet_size_bits (wMaxPacketSize (desc ep)) in
  endpoint_direction (characteristics hc) =
    Z.shiftr (Z.land (ep_address ep) USB_ENDPOINT_DIR_MASK) 7 /\
  packet_id (transfer hc) = next_data_toggle req /\
  max_packet_size (characteristics hc) = mps /\
  bytes_queued req' = size (transfer hc) /\
  (speed dev <> USB_SPEED_HIGH ->
   size (transfer hc) = Z.min remaining mps /\
   short_attempt req' = (mps <? remaining) /\
   split_enable (split_control hc) = true /\
   port_address (split_control hc) = wrap port_address_bits (port dev) /\
   sc_hub_address (split_control hc) =
     wrap hub_address_bits (hub_address dev)) /\
  (speed dev = USB_SPEED_HIGH ->
   size (transfer hc) = remaining /\
   short_attempt req' = false /\
   split_enable (split_control hc) = false).
Proof.
  intros Hst Hctl. apply Z.eqb_neq in Hctl. revert Hst.
  unfold dwc_start_transfer, dwc_start_transaction. rewrite Hctl.
  cbv zeta. intros [= <- <- <-].
  cbn [characteristics transfer split_control endpoint_direction packet_id
       max_packet_size size bytes_queued set_odd_frame_enable
       set_sc_complete_split set_queued set_cspit_retries set_short_attempt
       short_attempt split_enable port_address sc_hub_address].
  split; [reflexivity|]. split; [reflexivity|]. split; [reflexivity|].
  split.
  { repeat match goal with
           | |- context [if ?b then _ else _] => destruct b
           end; reflexivity. }
  split.
  - intros Hs.
    assert (Hn : speed_eqb (speed dev) USB_SPEED_HIGH = false)
      by (destruct (speed dev); [reflexivity | reflexivity | contradiction]).
    rewrite Hn. cbn [negb andb].
    destruct (Z.ltb_spec
                (wrap max_packet_size_bits (wMaxPacketSize (desc ep)))
                (wrap transfer_size_bits
                   (h_length (header (usb_req req)) - bytes_transferred req)));
      (split; [lia|]);
      repeat match goal with
             | |- context [if ?b then _ else _] => destruct b
             end; repeat split; reflexivity.
  - intros Hs. rewrite Hs. cbn [speed_eqb negb andb].
    split; [reflexivity|].
    repeat match goal with
           | |- context [if ?b then _ else _] => destruct b
           end; repeat split; reflexivity.
Qed.

Lemma X28_start_transfer_non_control_witness :
  endpoint_direction (characteristics (snd sample_short_attempt)) =
    Z.shiftr (Z.land 2 USB_ENDPOINT_DIR_MASK) 7 /\
  packet_id (transfer (snd sample_short_attempt)) = DWC_TOGGLE_DATA0 /\
  max_packet_size (characteristics (snd sample_short_attempt)) = 64 /\
  bytes_queued (fst sample_short_attempt) =
    size (transfer (snd sample_short_attempt)) /\
  (USB_SPEED_FULL <> USB_SPEED_HIGH ->
   size (transfer (snd sample_short_attempt)) = Z.min 100 64 /\
   short_attempt (fst sample_short_attempt) = (64 <? 100) /\
   split_enable (split_control (snd sample_short_attempt)) = true /\
   port_address (split_control (snd sample_short_attempt)) = 1 /\
   sc_hub_address (split_control (snd sample_short_attempt)) = 2) /\
  (USB_SPEED_FULL = USB_SPEED_HIGH ->
   size (transfer (snd sample_short_attempt)) = 100 /\
   short_attempt (fst sample_short_attempt) = false /\
   split_enable (split_control (snd sample_short_attempt)) = false).
Proof.
  apply (@X28_start_transfer_non_control spec_platform 0 3
           (set_next_data_toggle sample_bulk_out_100 DWC_TOGGLE_DATA0)
           sample_full_speed_ep sample_full_speed_dev
           (fst sample_short_attempt) (snd sample_short_attempt)
           [StartTransfer 3
              (set_queued (set_short_attempt sample_bulk_out_100 true) 64 64 1)
              {| characteristics :=
                   {| max_packet_size := 64; endpoint_number := 2;
                      endpoint_direction := 0; low_speed := false;
                      endpoint_type := USB_ENDPOINT_BULK;
                      packets_per_frame := 1; device_address := 3;
                      odd_frame := 0; channel_enable := false |};
                 split_control :=
                   {| port_address := 1; sc_hub_address := 2;
                      sc_complete_split := false; split_enable := true |};
                 transfer := {| size := 64; packet_count := 1;
                                packet_id := DWC_TOGGLE_DATA0 |} |};
            StartTransaction 3 (snd sample_short_attempt)]).
  - vm_compute. reflexivity.
  - vm_compute. discriminate.
Defined.

(** The split control register keeps 7 bits of the port and of the hub
    address: port 130 behind hub 300 is programmed as port 2 behind
    hub 44. *)
Lemma sample_split_addresses_reduced :
  exists req' hc acts,
    @dwc_start_transfer spec_platform 0 3
      (set_next_data_toggle sample_bulk_out_100 DWC_TOGGLE_DATA0)
      sample_full_speed_ep
      {| speed := USB_SPEED_FULL; hub_address := 300; port := 130;
         device_id := 3; endpoints := [sample_full_speed_ep] |} =
      Some (req', hc, acts) /\
    port_address (split_control hc) = 2 /\
    sc_hub_address (split_control hc) = 44.
Proof.
  eexists; eexists; eexists. split; [vm_compute; reflexivity|].
  split; reflexivity.
Qed.
